(** * Smart-window firmware (ESP32-H2, ZigBee): state machine and motion control

    Shallow embedding of the window state machine
    ([esp32-h2-zigbee-window/main/state_management.c] with the servo module
    of [esp32-h2-zigbee-window/main/servo_control.c], the ZigBee module of
    [esp32-h2-zigbee-window/main/zigbee_device.c] over the library of
    [esp32-h2-zigbee-window/components/esp_zigbee_lib], and the command
    handler and boot sequence of [esp32-h2-zigbee-window/main/main.c]) and
    of the motion controller ([main/servo_control.c] with the command
    callback of [main/zigbee_handler.c]).

    C statics become fields of a [world] record that every function threads
    explicitly; a function [esp_err_t f(args)] becomes
    [f args : world -> esp_err_t * world].  Hardware and SDK calls (PWM
    comparator, ADC, NVS, the message queue of the ZigBee library) are the
    environment: their observable calls are appended to the [trace] of the
    world, their results come from environment fields. *)

From Stdlib Require Import ZArith Bool List Lia.
From stdpp Require Import base gmap strings list.

Open Scope Z_scope.

(** ** Shared SDK vocabulary *)

(** [esp_err_t]: the code only ever compares error codes with named
    constants, so the constants that occur are an enumeration. *)
Inductive esp_err_t : Set :=
| ESP_OK
| ESP_FAIL
| ESP_ERR_NO_MEM
| ESP_ERR_INVALID_ARG
| ESP_ERR_INVALID_STATE
| ESP_ERR_NOT_FOUND
| ESP_ERR_TIMEOUT
| ESP_ERR_NVS_NOT_FOUND.

#[global] Instance esp_err_eq_dec : EqDecision esp_err_t.
Proof. solve_decision. Defined.

(** Log levels that are kept in the trace: [ESP_LOGE] and [ESP_LOGW].
    Informational and debug messages are not modelled. *)
Inductive log_level : Set := LOG_ERROR | LOG_WARN.

#[global] Instance log_level_eq_dec : EqDecision log_level.
Proof. solve_decision. Defined.

(** Conversions to the unsigned C types of the sources. *)
Definition u8 (x : Z) : Z := x mod 256.
Definition u16 (x : Z) : Z := x mod 65536.
Definition u32 (x : Z) : Z := x mod 4294967296.
Definition u64 (x : Z) : Z := x mod 18446744073709551616.

(** ** The state machine of [esp32-h2-zigbee-window/main] *)

Module Device.

(** [window_mode_t] (state_management.h) and [handle_position_t]
    (servo_control.h) are C enums; values arrive by casts from bytes, so
    they are integers with named constants. *)
Definition WINDOW_MODE_CLOSED : Z := 0.
Definition WINDOW_MODE_OPEN : Z := 1.
Definition WINDOW_MODE_VENTILATE : Z := 2.
Definition WINDOW_MODE_CUSTOM : Z := 3.

Definition HANDLE_POSITION_CLOSED : Z := 0.
Definition HANDLE_POSITION_OPEN : Z := 90.
Definition HANDLE_POSITION_VENTILATE : Z := 180.

(** [zigbee_device_alert_type_t] (zigbee_device.h). *)
Inductive zigbee_device_alert_type_t : Set :=
| ZIGBEE_ALERT_LOW_BATTERY
| ZIGBEE_ALERT_STUCK
| ZIGBEE_ALERT_MODE_CHANGED
| ZIGBEE_ALERT_PROTECTION.

#[global] Instance alert_eq_dec : EqDecision zigbee_device_alert_type_t.
Proof. solve_decision. Defined.

(** [zigbee_device_state_t] (zigbee_device.h) and [esp_zigbee_state_t]
    (esp_zigbee_lib.h). *)
Inductive zigbee_device_state_t : Set :=
| ZIGBEE_STATE_DISCONNECTED
| ZIGBEE_STATE_CONNECTING
| ZIGBEE_STATE_CONNECTED.

Inductive esp_zigbee_state_t : Set :=
| ESP_ZIGBEE_STATE_DISCONNECTED
| ESP_ZIGBEE_STATE_CONNECTING
| ESP_ZIGBEE_STATE_CONNECTED
| ESP_ZIGBEE_STATE_PAIRED
| ESP_ZIGBEE_STATE_ERROR.

#[global] Instance zigbee_device_state_eq_dec : EqDecision zigbee_device_state_t.
Proof. solve_decision. Defined.

#[global] Instance esp_zigbee_state_eq_dec : EqDecision esp_zigbee_state_t.
Proof. solve_decision. Defined.

(** [esp_zigbee_window_mode_t] (esp_zigbee_lib.h). *)
Definition ESP_ZIGBEE_WINDOW_MODE_CLOSED : Z := 0.
Definition ESP_ZIGBEE_WINDOW_MODE_OPEN : Z := 1.
Definition ESP_ZIGBEE_WINDOW_MODE_VENTILATE : Z := 2.

(** Observable calls, oldest first in the trace.  [ZbReportState] and
    [ZbSendAlert] are the two messages the ZigBee library puts into its
    queue ([xQueueSend] in [esp_zigbee_report_window_state] and
    [esp_zigbee_send_alert]): a call that the radio refuses leaves log
    lines only.  The alert types of the library
    ([esp_zigbee_alert_type_t]) are the four of zigbee_device.h in the
    same order, and [zigbee_device_send_alert] maps each to its
    namesake; the message is recorded with the latter. *)
Inductive event : Type :=
| Log (lvl : log_level) (tag : string)
| ServoHandleCmd (position : Z)        (* the point where the handle PWM is set *)
| ServoGapCmd (percentage : Z)         (* the point where the gap PWM is set *)
| ZbReportState (mode percentage : Z)  (* ZB_MSG_WINDOW_STATE, param1, param2 *)
| ZbSendAlert (alert : zigbee_device_alert_type_t) (value : Z). (* ZB_MSG_ALERT *)

#[global] Instance event_eq_dec : EqDecision event.
Proof. solve_decision. Defined.

(** [servo_ctx] of servo_control.c. *)
Record servo_ctx_t : Type := {
  servo_initialized : bool;
  servo_handle_pos : Z;
  servo_gap_percentage : Z;
  handle_calibrated : bool;
  gap_calibrated : bool
}.

(** [window_state_t], [state_config_t] (state_management.h) and
    [state_ctx] (state_management.c). *)
Record window_state_t : Type := {
  mode : Z;
  handle_pos : Z;
  gap_percentage : Z;
  calibrated : bool;
  in_motion : bool;
  last_action_time : Z
}.

Record state_config_t : Type := {
  save_to_nvs : bool;
  save_interval_ms : Z;
  restore_on_boot : bool
}.

Record state_ctx_t : Type := {
  initialized : bool;
  config : state_config_t;
  state : window_state_t;
  last_save_time : Z;
  nvs_opened : bool
}.

(** [zigbee_ctx] of zigbee_device.c and [zb_ctx] of esp_zigbee_lib.c,
    without their FreeRTOS handles, callbacks and the copied
    configuration. *)
Record zigbee_ctx_t : Type := {
  zigbee_initialized : bool;
  zigbee_state : zigbee_device_state_t;
  current_mode : Z;
  current_percentage : Z
}.

Record zb_ctx_t : Type := {
  zb_initialized : bool;
  zb_state : esp_zigbee_state_t;
  last_report_time : Z;
  connection_retry_count : Z
}.

(** The world: the statics of the state module, the servo module, the
    ZigBee module and the ZigBee library, the NVS namespace
    ["window_state"], and the environment ([nvs_open_err], [nvs_io_err]:
    what the flash driver answers; [zb_queue_full]: the message queue of
    the library has no room, so that [xQueueSend] times out; [clock_us]:
    what [esp_timer_get_time] returns). *)
Record world : Type := {
  state_ctx : state_ctx_t;
  servo_ctx : servo_ctx_t;
  zigbee_ctx : zigbee_ctx_t;
  zb_ctx : zb_ctx_t;
  nvs : gmap string Z;
  nvs_open_err : esp_err_t;
  nvs_io_err : esp_err_t;
  zb_queue_full : bool;
  clock_us : Z;
  trace : list event
}.

(** *** State passing *)

Definition M (A : Type) : Type := world -> A * world.

Definition ret {A} (a : A) : M A := fun w => (a, w).

Definition bind {A B} (m : M A) (k : A -> M B) : M B :=
  fun w => let (a, w') := m w in k a w'.

Declare Scope fw_scope.
Delimit Scope fw_scope with fw.
Notation "x <- m ;; k" := (bind m (fun x => k))
  (at level 100, m at next level, right associativity) : fw_scope.
Notation "m ;; k" := (bind m (fun _ => k))
  (at level 100, right associativity) : fw_scope.
Open Scope fw_scope.

Definition gets {A} (f : world -> A) : M A := fun w => (f w, w).
Definition modify (f : world -> world) : M unit := fun w => (tt, f w).

Definition emit (e : event) : M unit :=
  modify (fun w =>
    {| state_ctx := state_ctx w; servo_ctx := servo_ctx w;
       zigbee_ctx := zigbee_ctx w; zb_ctx := zb_ctx w; nvs := nvs w;
       nvs_open_err := nvs_open_err w; nvs_io_err := nvs_io_err w;
       zb_queue_full := zb_queue_full w; clock_us := clock_us w;
       trace := trace w ++ [e] |}).

Definition ESP_LOGE (tag : string) : M unit := emit (Log LOG_ERROR tag).
Definition ESP_LOGW (tag : string) : M unit := emit (Log LOG_WARN tag).

Definition set_servo_ctx (s : servo_ctx_t) : M unit :=
  modify (fun w =>
    {| state_ctx := state_ctx w; servo_ctx := s;
       zigbee_ctx := zigbee_ctx w; zb_ctx := zb_ctx w; nvs := nvs w;
       nvs_open_err := nvs_open_err w; nvs_io_err := nvs_io_err w;
       zb_queue_full := zb_queue_full w; clock_us := clock_us w;
       trace := trace w |}).

Definition set_state_ctx (c : state_ctx_t) : M unit :=
  modify (fun w =>
    {| state_ctx := c; servo_ctx := servo_ctx w;
       zigbee_ctx := zigbee_ctx w; zb_ctx := zb_ctx w; nvs := nvs w;
       nvs_open_err := nvs_open_err w; nvs_io_err := nvs_io_err w;
       zb_queue_full := zb_queue_full w; clock_us := clock_us w;
       trace := trace w |}).

Definition set_nvs (m : gmap string Z) : M unit :=
  modify (fun w =>
    {| state_ctx := state_ctx w; servo_ctx := servo_ctx w;
       zigbee_ctx := zigbee_ctx w; zb_ctx := zb_ctx w; nvs := m;
       nvs_open_err := nvs_open_err w; nvs_io_err := nvs_io_err w;
       zb_queue_full := zb_queue_full w; clock_us := clock_us w;
       trace := trace w |}).

Definition set_zigbee_ctx (c : zigbee_ctx_t) : M unit :=
  modify (fun w =>
    {| state_ctx := state_ctx w; servo_ctx := servo_ctx w;
       zigbee_ctx := c; zb_ctx := zb_ctx w; nvs := nvs w;
       nvs_open_err := nvs_open_err w; nvs_io_err := nvs_io_err w;
       zb_queue_full := zb_queue_full w; clock_us := clock_us w;
       trace := trace w |}).

Definition set_zb_ctx (z : zb_ctx_t) : M unit :=
  modify (fun w =>
    {| state_ctx := state_ctx w; servo_ctx := servo_ctx w;
       zigbee_ctx := zigbee_ctx w; zb_ctx := z; nvs := nvs w;
       nvs_open_err := nvs_open_err w; nvs_io_err := nvs_io_err w;
       zb_queue_full := zb_queue_full w; clock_us := clock_us w;
       trace := trace w |}).

(** Updates of [state_ctx.state] and of the other [state_ctx] fields. *)
Definition with_state (c : state_ctx_t) (s : window_state_t) : state_ctx_t :=
  {| initialized := initialized c; config := config c; state := s;
     last_save_time := last_save_time c; nvs_opened := nvs_opened c |}.

Definition set_state (s : window_state_t) : M unit :=
  c <- gets state_ctx ;; set_state_ctx (with_state c s).

Definition get_state : M window_state_t := gets (fun w => state (state_ctx w)).

(** *** servo_control.c (the servo module of this variant) *)

Definition SERVO_TAG : string := "SERVO".

Definition servo_ctx_init : servo_ctx_t :=
  {| servo_initialized := false; servo_handle_pos := HANDLE_POSITION_CLOSED;
     servo_gap_percentage := 0; handle_calibrated := false;
     gap_calibrated := false |}.

(** [servo_init(handle_config, gap_config)]; the two configurations are
    only copied, [None] stands for a NULL pointer. *)
Definition servo_init {C : Type} (handle_config gap_config : option C)
  : M esp_err_t :=
  s <- gets servo_ctx ;;
  if servo_initialized s then
    ESP_LOGW SERVO_TAG ;; ret ESP_OK
  else
    match handle_config, gap_config with
    | Some _, Some _ =>
        set_servo_ctx
          {| servo_initialized := true;
             servo_handle_pos := servo_handle_pos s;
             servo_gap_percentage := servo_gap_percentage s;
             handle_calibrated := handle_calibrated s;
             gap_calibrated := gap_calibrated s |} ;;
        ret ESP_OK
    | _, _ => ESP_LOGE SERVO_TAG ;; ret ESP_ERR_INVALID_ARG
    end.

Definition servo_set_handle_position (position : Z) : M esp_err_t :=
  s <- gets servo_ctx ;;
  if negb (servo_initialized s) then
    ESP_LOGE SERVO_TAG ;; ret ESP_ERR_INVALID_STATE
  else if bool_decide (position ≠ HANDLE_POSITION_CLOSED
                       ∧ position ≠ HANDLE_POSITION_OPEN
                       ∧ position ≠ HANDLE_POSITION_VENTILATE) then
    ESP_LOGE SERVO_TAG ;; ret ESP_ERR_INVALID_ARG
  else
    emit (ServoHandleCmd position) ;;
    set_servo_ctx
      {| servo_initialized := servo_initialized s;
         servo_handle_pos := position;
         servo_gap_percentage := servo_gap_percentage s;
         handle_calibrated := handle_calibrated s;
         gap_calibrated := gap_calibrated s |} ;;
    ret ESP_OK.

(** The parameter is a [uint8_t]: the argument is converted on entry. *)
Definition servo_set_gap_percentage (percentage : Z) : M esp_err_t :=
  let percentage := u8 percentage in
  s <- gets servo_ctx ;;
  if negb (servo_initialized s) then
    ESP_LOGE SERVO_TAG ;; ret ESP_ERR_INVALID_STATE
  else if bool_decide (percentage > 100) then
    ESP_LOGE SERVO_TAG ;; ret ESP_ERR_INVALID_ARG
  else
    emit (ServoGapCmd percentage) ;;
    set_servo_ctx
      {| servo_initialized := servo_initialized s;
         servo_handle_pos := servo_handle_pos s;
         servo_gap_percentage := percentage;
         handle_calibrated := handle_calibrated s;
         gap_calibrated := gap_calibrated s |} ;;
    ret ESP_OK.

Definition servo_get_handle_position : M Z :=
  gets (fun w => servo_handle_pos (servo_ctx w)).

Definition servo_get_gap_percentage : M Z :=
  gets (fun w => servo_gap_percentage (servo_ctx w)).

(** The resistance check of this variant always answers [false]. *)
Definition servo_check_resistance : M bool := ret false.

(** *** NVS (ESP-IDF key-value flash storage), namespace ["window_state"]

    The SDK is not part of the repository.  The namespace is a finite map
    from keys to bytes; [nvs_open] answers [nvs_open_err]; every other
    operation answers [nvs_io_err] and has its effect only when that is
    [ESP_OK].  [nvs_get_u8] reports [ESP_ERR_NVS_NOT_FOUND] for an absent
    key and writes its out-parameter only on success. *)

Definition nvs_open : M esp_err_t := gets nvs_open_err.

Definition nvs_set_u8 (key : string) (value : Z) : M esp_err_t :=
  e <- gets nvs_io_err ;;
  if decide (e = ESP_OK) then
    m <- gets nvs ;; set_nvs (<[key := u8 value]> m) ;; ret ESP_OK
  else ret e.

Definition nvs_get_u8 (key : string) : M (esp_err_t * Z) :=
  e <- gets nvs_io_err ;;
  if decide (e = ESP_OK) then
    m <- gets nvs ;;
    match m !! key with
    | Some v => ret (ESP_OK, u8 v)
    | None => ret (ESP_ERR_NVS_NOT_FOUND, 0)
    end
  else ret (e, 0).

Definition nvs_erase_all : M esp_err_t :=
  e <- gets nvs_io_err ;;
  if decide (e = ESP_OK) then set_nvs ∅ ;; ret ESP_OK else ret e.

Definition nvs_commit : M esp_err_t := gets nvs_io_err.

(** [esp_timer_get_time() / 1000], in the 64-bit type of the timer. *)
Definition now_ms : M Z := gets (fun w => Z.quot (clock_us w) 1000).

(** *** esp_zigbee_lib.c (components/esp_zigbee_lib)

    The creation of the queue, the timer and the task in
    [esp_zigbee_init] and the start of the timer in [esp_zigbee_start]
    are taken to succeed. *)

Definition ZB_TAG : string := "ESP_ZIGBEE".

Definition zb_ctx_init : zb_ctx_t :=
  {| zb_initialized := false; zb_state := ESP_ZIGBEE_STATE_DISCONNECTED;
     last_report_time := 0; connection_retry_count := 0 |}.

Definition with_zb_initialized (b : bool) (z : zb_ctx_t) : zb_ctx_t :=
  {| zb_initialized := b; zb_state := zb_state z;
     last_report_time := last_report_time z;
     connection_retry_count := connection_retry_count z |}.

Definition with_zb_state (st : esp_zigbee_state_t) (z : zb_ctx_t) : zb_ctx_t :=
  {| zb_initialized := zb_initialized z; zb_state := st;
     last_report_time := last_report_time z;
     connection_retry_count := connection_retry_count z |}.

Definition with_last_report_time (t : Z) (z : zb_ctx_t) : zb_ctx_t :=
  {| zb_initialized := zb_initialized z; zb_state := zb_state z;
     last_report_time := t;
     connection_retry_count := connection_retry_count z |}.

Definition with_connection_retry_count (n : Z) (z : zb_ctx_t) : zb_ctx_t :=
  {| zb_initialized := zb_initialized z; zb_state := zb_state z;
     last_report_time := last_report_time z;
     connection_retry_count := n |}.

Definition update_zb_ctx (f : zb_ctx_t -> zb_ctx_t) : M unit :=
  z <- gets zb_ctx ;; set_zb_ctx (f z).

(** [esp_err_t esp_zigbee_init(esp_zigbee_config_t *config)], called
    with the address of a local configuration. *)
Definition esp_zigbee_init : M esp_err_t :=
  z <- gets zb_ctx ;;
  if zb_initialized z then
    ESP_LOGW ZB_TAG ;; ret ESP_OK
  else
    update_zb_ctx (with_zb_initialized true) ;;
    update_zb_ctx (with_zb_state ESP_ZIGBEE_STATE_DISCONNECTED) ;;
    ret ESP_OK.

(** [esp_err_t esp_zigbee_start(void)]. *)
Definition esp_zigbee_start : M esp_err_t :=
  z <- gets zb_ctx ;;
  if negb (zb_initialized z) then
    ESP_LOGE ZB_TAG ;; ret ESP_ERR_INVALID_STATE
  else if decide (zb_state z ≠ ESP_ZIGBEE_STATE_DISCONNECTED) then
    ESP_LOGW ZB_TAG ;; ret ESP_OK
  else
    update_zb_ctx (with_connection_retry_count 0) ;;
    update_zb_ctx (with_zb_state ESP_ZIGBEE_STATE_CONNECTING) ;;
    ret ESP_OK.

(** [static void zigbee_connection_timer_callback(void *arg)], the
    callback of the periodic timer that [esp_zigbee_start] arms; the
    counter is a [uint32_t].  The [on_connected] callback it ends with
    only sets an event bit for the command task of zigbee_device.c. *)
Definition zigbee_connection_timer_callback : M unit :=
  z <- gets zb_ctx ;;
  if decide (zb_state z = ESP_ZIGBEE_STATE_CONNECTING) then
    let retries := u32 (connection_retry_count z + 1) in
    update_zb_ctx (with_connection_retry_count retries) ;;
    if bool_decide (retries >= 3) then
      update_zb_ctx (with_zb_state ESP_ZIGBEE_STATE_CONNECTED) ;;
      update_zb_ctx (with_zb_state ESP_ZIGBEE_STATE_PAIRED)
    else ESP_LOGW ZB_TAG
  else ret tt.

(** [esp_err_t esp_zigbee_report_window_state(esp_zigbee_window_mode_t
    mode, uint8_t percentage)]. *)
Definition esp_zigbee_report_window_state (mode percentage : Z)
  : M esp_err_t :=
  let percentage := u8 percentage in
  z <- gets zb_ctx ;;
  if negb (zb_initialized z) then
    ESP_LOGE ZB_TAG ;; ret ESP_ERR_INVALID_STATE
  else if bool_decide (mode > ESP_ZIGBEE_WINDOW_MODE_VENTILATE) then
    ESP_LOGE ZB_TAG ;; ret ESP_ERR_INVALID_ARG
  else if bool_decide (percentage > 100) then
    ESP_LOGE ZB_TAG ;; ret ESP_ERR_INVALID_ARG
  else if bool_decide (zb_state z ≠ ESP_ZIGBEE_STATE_CONNECTED
                       ∧ zb_state z ≠ ESP_ZIGBEE_STATE_PAIRED) then
    ESP_LOGW ZB_TAG ;; ret ESP_ERR_INVALID_STATE
  else
    full <- gets zb_queue_full ;;
    if full then
      ESP_LOGE ZB_TAG ;; ret ESP_FAIL
    else
      emit (ZbReportState (u8 mode) percentage) ;;
      t <- now_ms ;;
      update_zb_ctx (with_last_report_time (u32 t)) ;;
      ret ESP_OK.

(** [esp_err_t esp_zigbee_send_alert(esp_zigbee_alert_type_t alert_type,
    uint8_t value)]; no alert type reaches [ESP_ZIGBEE_ALERT_MAX]. *)
Definition esp_zigbee_send_alert
    (alert_type : zigbee_device_alert_type_t) (value : Z) : M esp_err_t :=
  let value := u8 value in
  z <- gets zb_ctx ;;
  if negb (zb_initialized z) then
    ESP_LOGE ZB_TAG ;; ret ESP_ERR_INVALID_STATE
  else if bool_decide (zb_state z ≠ ESP_ZIGBEE_STATE_CONNECTED
                       ∧ zb_state z ≠ ESP_ZIGBEE_STATE_PAIRED) then
    ESP_LOGW ZB_TAG ;; ret ESP_ERR_INVALID_STATE
  else
    full <- gets zb_queue_full ;;
    if full then
      ESP_LOGE ZB_TAG ;; ret ESP_FAIL
    else
      emit (ZbSendAlert alert_type value) ;;
      ret ESP_OK.

(** *** zigbee_device.c

    The creation of the event group and of the command task in
    [zigbee_device_init] is taken to succeed. *)

Definition ZIGBEE_TAG : string := "ZIGBEE_DEVICE".

Definition zigbee_ctx_init : zigbee_ctx_t :=
  {| zigbee_initialized := false; zigbee_state := ZIGBEE_STATE_DISCONNECTED;
     current_mode := WINDOW_MODE_CLOSED; current_percentage := 0 |}.

Definition with_zigbee_initialized (b : bool) (c : zigbee_ctx_t)
  : zigbee_ctx_t :=
  {| zigbee_initialized := b; zigbee_state := zigbee_state c;
     current_mode := current_mode c;
     current_percentage := current_percentage c |}.

Definition with_zigbee_state (st : zigbee_device_state_t) (c : zigbee_ctx_t)
  : zigbee_ctx_t :=
  {| zigbee_initialized := zigbee_initialized c; zigbee_state := st;
     current_mode := current_mode c;
     current_percentage := current_percentage c |}.

Definition with_current (m p : Z) (c : zigbee_ctx_t) : zigbee_ctx_t :=
  {| zigbee_initialized := zigbee_initialized c;
     zigbee_state := zigbee_state c;
     current_mode := m; current_percentage := p |}.

Definition update_zigbee_ctx (f : zigbee_ctx_t -> zigbee_ctx_t) : M unit :=
  c <- gets zigbee_ctx ;; set_zigbee_ctx (f c).

(** [esp_err_t zigbee_device_init(zigbee_command_callback_t callback)]. *)
Definition zigbee_device_init : M esp_err_t :=
  c <- gets zigbee_ctx ;;
  if zigbee_initialized c then
    ESP_LOGW ZIGBEE_TAG ;; ret ESP_OK
  else
    (* memset(&zigbee_ctx, 0, sizeof(zigbee_ctx)) *)
    set_zigbee_ctx
      {| zigbee_initialized := false;
         zigbee_state := ZIGBEE_STATE_DISCONNECTED;
         current_mode := 0; current_percentage := 0 |} ;;
    err <- esp_zigbee_init ;;
    if decide (err ≠ ESP_OK) then
      ESP_LOGE ZIGBEE_TAG ;; ret err
    else
      update_zigbee_ctx (with_zigbee_initialized true) ;;
      ret ESP_OK.

(** [esp_err_t zigbee_device_start(void)]. *)
Definition zigbee_device_start : M esp_err_t :=
  c <- gets zigbee_ctx ;;
  if negb (zigbee_initialized c) then
    ESP_LOGE ZIGBEE_TAG ;; ret ESP_ERR_INVALID_STATE
  else if decide (zigbee_state c ≠ ZIGBEE_STATE_DISCONNECTED) then
    ESP_LOGW ZIGBEE_TAG ;; ret ESP_OK
  else
    err <- esp_zigbee_start ;;
    if decide (err ≠ ESP_OK) then
      ESP_LOGE ZIGBEE_TAG ;; ret err
    else
      update_zigbee_ctx (with_zigbee_state ZIGBEE_STATE_CONNECTING) ;;
      ret ESP_OK.

(** [esp_err_t zigbee_device_report_state(window_mode_t mode, uint8_t
    percentage)]: the switch translates the three preset modes and
    refuses every other value, the custom mode included. *)
Definition zigbee_device_report_state (mode percentage : Z) : M esp_err_t :=
  let percentage := u8 percentage in
  c <- gets zigbee_ctx ;;
  if negb (zigbee_initialized c) then
    ESP_LOGE ZIGBEE_TAG ;; ret ESP_ERR_INVALID_STATE
  else
    update_zigbee_ctx (with_current mode percentage) ;;
    match (if decide (mode = WINDOW_MODE_CLOSED) then
             Some ESP_ZIGBEE_WINDOW_MODE_CLOSED
           else if decide (mode = WINDOW_MODE_OPEN) then
             Some ESP_ZIGBEE_WINDOW_MODE_OPEN
           else if decide (mode = WINDOW_MODE_VENTILATE) then
             Some ESP_ZIGBEE_WINDOW_MODE_VENTILATE
           else None) with
    | None => ESP_LOGE ZIGBEE_TAG ;; ret ESP_ERR_INVALID_ARG
    | Some zigbee_mode =>
        err <- esp_zigbee_report_window_state zigbee_mode percentage ;;
        if decide (err ≠ ESP_OK) then
          ESP_LOGE ZIGBEE_TAG ;; ret err
        else ret ESP_OK
    end.

(** [esp_err_t zigbee_device_send_alert(zigbee_device_alert_type_t
    alert_type, uint8_t value)]: the switch has a case for each of the
    four alert types; its default case, which refuses any other value,
    is not reached with them. *)
Definition zigbee_device_send_alert
    (alert_type : zigbee_device_alert_type_t) (value : Z) : M esp_err_t :=
  let value := u8 value in
  c <- gets zigbee_ctx ;;
  if negb (zigbee_initialized c) then
    ESP_LOGE ZIGBEE_TAG ;; ret ESP_ERR_INVALID_STATE
  else
    err <- esp_zigbee_send_alert alert_type value ;;
    if decide (err ≠ ESP_OK) then
      ESP_LOGE ZIGBEE_TAG ;; ret err
    else ret ESP_OK.

(** *** state_management.c *)

Definition TAG : string := "STATE".

Definition NVS_KEY_MODE : string := "mode".
Definition NVS_KEY_HANDLE_POS : string := "handle_pos".
Definition NVS_KEY_GAP_PERCENTAGE : string := "gap_pct".
Definition NVS_KEY_CALIBRATED : string := "calibrated".

Definition with_mode (m : Z) (s : window_state_t) : window_state_t :=
  {| mode := m; handle_pos := handle_pos s;
     gap_percentage := gap_percentage s; calibrated := calibrated s;
     in_motion := in_motion s; last_action_time := last_action_time s |}.

Definition with_handle_pos (p : Z) (s : window_state_t) : window_state_t :=
  {| mode := mode s; handle_pos := p;
     gap_percentage := gap_percentage s; calibrated := calibrated s;
     in_motion := in_motion s; last_action_time := last_action_time s |}.

Definition with_gap_percentage (g : Z) (s : window_state_t) : window_state_t :=
  {| mode := mode s; handle_pos := handle_pos s;
     gap_percentage := g; calibrated := calibrated s;
     in_motion := in_motion s; last_action_time := last_action_time s |}.

Definition with_calibrated (b : bool) (s : window_state_t) : window_state_t :=
  {| mode := mode s; handle_pos := handle_pos s;
     gap_percentage := gap_percentage s; calibrated := b;
     in_motion := in_motion s; last_action_time := last_action_time s |}.

Definition with_in_motion (b : bool) (s : window_state_t) : window_state_t :=
  {| mode := mode s; handle_pos := handle_pos s;
     gap_percentage := gap_percentage s; calibrated := calibrated s;
     in_motion := b; last_action_time := last_action_time s |}.

Definition with_last_action_time (t : Z) (s : window_state_t) : window_state_t :=
  {| mode := mode s; handle_pos := handle_pos s;
     gap_percentage := gap_percentage s; calibrated := calibrated s;
     in_motion := in_motion s; last_action_time := t |}.

Definition with_nvs_opened (b : bool) (c : state_ctx_t) : state_ctx_t :=
  {| initialized := initialized c; config := config c; state := state c;
     last_save_time := last_save_time c; nvs_opened := b |}.

Definition with_last_save_time (t : Z) (c : state_ctx_t) : state_ctx_t :=
  {| initialized := initialized c; config := config c; state := state c;
     last_save_time := t; nvs_opened := nvs_opened c |}.

Definition update_state (f : window_state_t -> window_state_t) : M unit :=
  s <- get_state ;; set_state (f s).

(** The initial value of the static [state_ctx]; the fields the C
    initialiser leaves out are zero. *)
Definition window_state_zero : window_state_t :=
  {| mode := 0; handle_pos := 0; gap_percentage := 0; calibrated := false;
     in_motion := false; last_action_time := 0 |}.

Definition state_ctx_init : state_ctx_t :=
  {| initialized := false;
     config := {| save_to_nvs := false; save_interval_ms := 0;
                  restore_on_boot := false |};
     state := window_state_zero; last_save_time := 0; nvs_opened := false |}.

(** [static void state_update_last_action_time(void)]: the field is a
    [uint32_t]. *)
Definition state_update_last_action_time : M unit :=
  t <- now_ms ;; update_state (with_last_action_time (u32 t)).

(** [static esp_err_t state_open_nvs(void)]. *)
Definition state_open_nvs : M esp_err_t :=
  c <- gets state_ctx ;;
  (if nvs_opened c then set_state_ctx (with_nvs_opened false c) else ret tt) ;;
  err <- nvs_open ;;
  if decide (err ≠ ESP_OK) then
    ESP_LOGE TAG ;; ret err
  else
    c <- gets state_ctx ;;
    set_state_ctx (with_nvs_opened true c) ;;
    ret ESP_OK.

(** One step of the save sequence: on an error of the call, log and
    return it, else continue. *)
Definition or_fail (call : M esp_err_t) (k : M esp_err_t) : M esp_err_t :=
  err <- call ;;
  if decide (err ≠ ESP_OK) then ESP_LOGE TAG ;; ret err else k.

(** [static esp_err_t state_save_to_nvs(void)]. *)
Definition state_save_to_nvs : M esp_err_t :=
  c <- gets state_ctx ;;
  if negb (nvs_opened c) then
    ESP_LOGE TAG ;; ret ESP_ERR_INVALID_STATE
  else
    or_fail (nvs_set_u8 NVS_KEY_MODE (u8 (mode (state c))))
   (or_fail (nvs_set_u8 NVS_KEY_HANDLE_POS (u8 (handle_pos (state c))))
   (or_fail (nvs_set_u8 NVS_KEY_GAP_PERCENTAGE (gap_percentage (state c)))
   (or_fail (nvs_set_u8 NVS_KEY_CALIBRATED
               (if calibrated (state c) then 1 else 0))
   (or_fail nvs_commit
   (ret ESP_OK))))).

(** One step of the restore sequence: read a key; on success store the
    value in the state, on not-found keep the field, on any other error
    log and return it. *)
Definition restore_key (key : string)
    (store : Z -> window_state_t -> window_state_t)
    (k : M esp_err_t) : M esp_err_t :=
  r <- nvs_get_u8 key ;;
  if decide (r.1 = ESP_OK) then
    update_state (store r.2) ;; k
  else if decide (r.1 ≠ ESP_ERR_NVS_NOT_FOUND) then
    ESP_LOGE TAG ;; ret r.1
  else k.

(** [static esp_err_t state_restore_from_nvs(void)]. *)
Definition state_restore_from_nvs : M esp_err_t :=
  c <- gets state_ctx ;;
  if negb (nvs_opened c) then
    ESP_LOGE TAG ;; ret ESP_ERR_INVALID_STATE
  else
    restore_key NVS_KEY_MODE with_mode
   (restore_key NVS_KEY_HANDLE_POS with_handle_pos
   (restore_key NVS_KEY_GAP_PERCENTAGE with_gap_percentage
   (restore_key NVS_KEY_CALIBRATED
      (fun v => with_calibrated (bool_decide (v = 1)))
   (ret ESP_OK)))).

(** [esp_err_t state_init(state_config_t *config)]; [None] is NULL. *)
Definition state_init (cfg : option state_config_t) : M esp_err_t :=
  c <- gets state_ctx ;;
  if initialized c then
    ESP_LOGW TAG ;; ret ESP_OK
  else
    match cfg with
    | None => ESP_LOGE TAG ;; ret ESP_ERR_INVALID_ARG
    | Some cfg =>
        set_state_ctx
          {| initialized := initialized c; config := cfg;
             state := {| mode := WINDOW_MODE_CLOSED;
                         handle_pos := HANDLE_POSITION_CLOSED;
                         gap_percentage := 0; calibrated := false;
                         in_motion := false; last_action_time := 0 |};
             last_save_time := last_save_time c;
             nvs_opened := nvs_opened c |} ;;
        (if save_to_nvs cfg then
           err <- state_open_nvs ;;
           if decide (err ≠ ESP_OK) then
             ESP_LOGE TAG ;;
             c <- gets state_ctx ;;
             set_state_ctx
               {| initialized := initialized c;
                  config := {| save_to_nvs := false;
                               save_interval_ms := save_interval_ms (config c);
                               restore_on_boot := restore_on_boot (config c) |};
                  state := state c; last_save_time := last_save_time c;
                  nvs_opened := nvs_opened c |}
           else ret tt
         else ret tt) ;;
        c <- gets state_ctx ;;
        (if restore_on_boot (config c) && save_to_nvs (config c)
            && nvs_opened c then
           err <- state_restore_from_nvs ;;
           if decide (err ≠ ESP_OK) then ESP_LOGW TAG else ret tt
         else ret tt) ;;
        c <- gets state_ctx ;;
        t <- now_ms ;;
        set_state_ctx
          {| initialized := true; config := config c; state := state c;
             last_save_time := u64 t; nvs_opened := nvs_opened c |} ;;
        ret ESP_OK
    end.

(** The setters ignore what [zigbee_device_report_state] and
    [zigbee_device_send_alert] return. *)


(** The tail shared by the three setters: save when configured. *)
Definition save_if_configured : M unit :=
  c <- gets state_ctx ;;
  if save_to_nvs (config c) && nvs_opened c then
    _ <- state_save_to_nvs ;; ret tt
  else ret tt.

(** [esp_err_t state_set_window_mode(window_mode_t mode)]. *)
Definition state_set_window_mode (mode_arg : Z) : M esp_err_t :=
  c <- gets state_ctx ;;
  if negb (initialized c) then
    ESP_LOGE TAG ;; ret ESP_ERR_INVALID_STATE
  else if bool_decide (mode_arg ≠ WINDOW_MODE_CLOSED
                       ∧ mode_arg ≠ WINDOW_MODE_OPEN
                       ∧ mode_arg ≠ WINDOW_MODE_VENTILATE
                       ∧ mode_arg ≠ WINDOW_MODE_CUSTOM) then
    ESP_LOGE TAG ;; ret ESP_ERR_INVALID_ARG
  else if decide (mode_arg = mode (state c)) then
    ESP_LOGW TAG ;; ret ESP_OK
  else
    let '(new_handle_pos, new_gap_percentage) :=
      if decide (mode_arg = WINDOW_MODE_CLOSED) then
        (HANDLE_POSITION_CLOSED, 0)
      else if decide (mode_arg = WINDOW_MODE_OPEN) then
        (HANDLE_POSITION_OPEN, 100)
      else if decide (mode_arg = WINDOW_MODE_VENTILATE) then
        (HANDLE_POSITION_VENTILATE, 20)
      else (* WINDOW_MODE_CUSTOM *)
        (handle_pos (state c), gap_percentage (state c)) in
    err <- servo_set_handle_position new_handle_pos ;;
    if decide (err ≠ ESP_OK) then
      ESP_LOGE TAG ;; ret err
    else
      err <- (if decide (mode_arg ≠ WINDOW_MODE_CUSTOM) then
                servo_set_gap_percentage new_gap_percentage
              else ret ESP_OK) ;;
      if decide (err ≠ ESP_OK) then
        ESP_LOGE TAG ;; ret err
      else
        update_state (with_mode mode_arg) ;;
        update_state (with_handle_pos new_handle_pos) ;;
        (if decide (mode_arg ≠ WINDOW_MODE_CUSTOM) then
           update_state (with_gap_percentage new_gap_percentage)
         else ret tt) ;;
        update_state (with_in_motion true) ;;
        state_update_last_action_time ;;
        s <- get_state ;;
        zigbee_device_report_state mode_arg (gap_percentage s) ;;
        zigbee_device_send_alert ZIGBEE_ALERT_MODE_CHANGED mode_arg ;;
        save_if_configured ;;
        ret ESP_OK.

(** [esp_err_t state_set_handle_position(handle_position_t position)]. *)
Definition state_set_handle_position (position : Z) : M esp_err_t :=
  c <- gets state_ctx ;;
  if negb (initialized c) then
    ESP_LOGE TAG ;; ret ESP_ERR_INVALID_STATE
  else if bool_decide (position ≠ HANDLE_POSITION_CLOSED
                       ∧ position ≠ HANDLE_POSITION_OPEN
                       ∧ position ≠ HANDLE_POSITION_VENTILATE) then
    ESP_LOGE TAG ;; ret ESP_ERR_INVALID_ARG
  else if decide (position = handle_pos (state c)) then
    ESP_LOGW TAG ;; ret ESP_OK
  else
    err <- servo_set_handle_position position ;;
    if decide (err ≠ ESP_OK) then
      ESP_LOGE TAG ;; ret err
    else
      let new_mode :=
        if decide (position = HANDLE_POSITION_CLOSED) then WINDOW_MODE_CLOSED
        else if decide (position = HANDLE_POSITION_OPEN) then WINDOW_MODE_OPEN
        else if decide (position = HANDLE_POSITION_VENTILATE) then
          WINDOW_MODE_VENTILATE
        else WINDOW_MODE_CUSTOM in
      update_state (with_handle_pos position) ;;
      update_state (with_mode new_mode) ;;
      update_state (with_in_motion true) ;;
      state_update_last_action_time ;;
      s <- get_state ;;
      zigbee_device_report_state new_mode (gap_percentage s) ;;
      save_if_configured ;;
      ret ESP_OK.

(** [esp_err_t state_set_gap_percentage(uint8_t percentage)]. *)
Definition state_set_gap_percentage (percentage : Z) : M esp_err_t :=
  let percentage := u8 percentage in
  c <- gets state_ctx ;;
  if negb (initialized c) then
    ESP_LOGE TAG ;; ret ESP_ERR_INVALID_STATE
  else if bool_decide (percentage > 100) then
    ESP_LOGE TAG ;; ret ESP_ERR_INVALID_ARG
  else if decide (percentage = gap_percentage (state c)) then
    ESP_LOGW TAG ;; ret ESP_OK
  else
    err <- servo_set_gap_percentage percentage ;;
    if decide (err ≠ ESP_OK) then
      ESP_LOGE TAG ;; ret err
    else
      (if bool_decide
            ((handle_pos (state c) = HANDLE_POSITION_OPEN ∧ percentage ≠ 100)
             ∨ (handle_pos (state c) = HANDLE_POSITION_VENTILATE
                ∧ percentage ≠ 20)
             ∨ (handle_pos (state c) = HANDLE_POSITION_CLOSED
                ∧ percentage ≠ 0)) then
         update_state (with_mode WINDOW_MODE_CUSTOM)
       else ret tt) ;;
      update_state (with_gap_percentage percentage) ;;
      update_state (with_in_motion true) ;;
      state_update_last_action_time ;;
      s <- get_state ;;
      zigbee_device_report_state (mode s) percentage ;;
      save_if_configured ;;
      ret ESP_OK.

(** [window_state_t state_get_window_state(void)]: refreshes the two
    positions from the servo module before returning the state. *)
Definition state_get_window_state : M window_state_t :=
  p <- servo_get_handle_position ;;
  update_state (with_handle_pos p) ;;
  g <- servo_get_gap_percentage ;;
  update_state (with_gap_percentage g) ;;
  get_state.

Definition state_get_window_mode : M Z :=
  gets (fun w => mode (state (state_ctx w))).

(** [esp_err_t state_save(void)]. *)
Definition state_save : M esp_err_t :=
  c <- gets state_ctx ;;
  if negb (initialized c) then
    ESP_LOGE TAG ;; ret ESP_ERR_INVALID_STATE
  else if negb (save_to_nvs (config c)) then
    ESP_LOGW TAG ;; ret ESP_OK
  else
    err <- (if negb (nvs_opened c) then state_open_nvs else ret ESP_OK) ;;
    if decide (err ≠ ESP_OK) then
      ESP_LOGE TAG ;; ret err
    else state_save_to_nvs.

(** [esp_err_t state_restore(void)]. *)
Definition state_restore : M esp_err_t :=
  c <- gets state_ctx ;;
  if negb (initialized c) then
    ESP_LOGE TAG ;; ret ESP_ERR_INVALID_STATE
  else if negb (save_to_nvs (config c)) then
    ESP_LOGW TAG ;; ret ESP_ERR_INVALID_STATE
  else
    err <- (if negb (nvs_opened c) then state_open_nvs else ret ESP_OK) ;;
    if decide (err ≠ ESP_OK) then
      ESP_LOGE TAG ;; ret err
    else
      err <- state_restore_from_nvs ;;
      if decide (err ≠ ESP_OK) then
        ESP_LOGE TAG ;; ret err
      else
        s <- get_state ;;
        err <- servo_set_handle_position (handle_pos s) ;;
        if decide (err ≠ ESP_OK) then
          ESP_LOGE TAG ;; ret err
        else
          s <- get_state ;;
          err <- servo_set_gap_percentage (gap_percentage s) ;;
          if decide (err ≠ ESP_OK) then
            ESP_LOGE TAG ;; ret err
          else
            s <- get_state ;;
            zigbee_device_report_state (mode s) (gap_percentage s) ;;
            ret ESP_OK.

(** [esp_err_t state_factory_reset(void)]. *)
Definition state_factory_reset : M esp_err_t :=
  c <- gets state_ctx ;;
  if negb (initialized c) then
    ESP_LOGE TAG ;; ret ESP_ERR_INVALID_STATE
  else
    update_state (with_mode WINDOW_MODE_CLOSED) ;;
    update_state (with_handle_pos HANDLE_POSITION_CLOSED) ;;
    update_state (with_gap_percentage 0) ;;
    update_state (with_calibrated false) ;;
    update_state (with_in_motion false) ;;
    state_update_last_action_time ;;
    err <- servo_set_handle_position HANDLE_POSITION_CLOSED ;;
    if decide (err ≠ ESP_OK) then
      ESP_LOGE TAG ;; ret err
    else
      err <- servo_set_gap_percentage 0 ;;
      if decide (err ≠ ESP_OK) then
        ESP_LOGE TAG ;; ret err
      else
        c <- gets state_ctx ;;
        err <- (if nvs_opened c then
                  or_fail nvs_erase_all (or_fail nvs_commit (ret ESP_OK))
                else ret ESP_OK) ;;
        if decide (err ≠ ESP_OK) then ret err
        else
          zigbee_device_report_state WINDOW_MODE_CLOSED 0 ;;
          ret ESP_OK.

(** [esp_err_t state_task_handler(void)]; the times are [uint64_t], the
    stored time of the last action is widened from [uint32_t]. *)
Definition state_task_handler : M esp_err_t :=
  c <- gets state_ctx ;;
  if negb (initialized c) then
    ESP_LOGE TAG ;; ret ESP_ERR_INVALID_STATE
  else
    (if save_to_nvs (config c) && nvs_opened c then
       t <- now_ms ;;
       let current_time := u64 t in
       if bool_decide (u64 (current_time - last_save_time c)
                       >= save_interval_ms (config c)) then
         _ <- state_save_to_nvs ;;
         c <- gets state_ctx ;;
         set_state_ctx (with_last_save_time current_time c)
       else ret tt
     else ret tt) ;;
    s <- get_state ;;
    (if in_motion s then
       t <- now_ms ;;
       let current_time := u64 t in
       if bool_decide (u64 (current_time - last_action_time s) >= 5000) then
         update_state (with_in_motion false)
       else ret tt
     else ret tt) ;;
    ret ESP_OK.

(** *** main.c *)

Definition MAIN_TAG : string := "MAIN".

(** The part of [zigbee_command_handler] that follows the decoding of
    the payload into [mode] and [percentage]. *)
Definition apply_command (mode_arg percentage : Z) : M unit :=
  err <- state_set_window_mode mode_arg ;;
  if decide (err ≠ ESP_OK) then
    ESP_LOGE MAIN_TAG
  else
    err <- (if bool_decide (mode_arg = WINDOW_MODE_OPEN
                            ∨ mode_arg = WINDOW_MODE_CUSTOM) then
              state_set_gap_percentage percentage
            else ret ESP_OK) ;;
    if decide (err ≠ ESP_OK) then
      ESP_LOGE MAIN_TAG
    else
      _ <- zigbee_device_report_state mode_arg percentage ;;
      ret tt.

(** [static void zigbee_command_handler(uint8_t cmd, const uint8_t *data,
    uint16_t len)].  The payload is the list of bytes behind [data];
    reading past its end is [None]. *)
Definition zigbee_command_handler (cmd : Z) (data : list Z) (len : Z)
  : world -> option world :=
  fun w =>
  if bool_decide (len < 2) then
    Some (ESP_LOGW MAIN_TAG w).2
  else
    match data !! 0%nat, data !! 1%nat with
    | Some d0, Some d1 =>
        let mode_arg := u8 d0 in
        let percentage := u8 d1 in
        Some (apply_command mode_arg percentage w).2
    | _, _ => None
    end.

(** A restart: the statics of all modules are re-initialised, the NVS
    namespace and the environment persist. *)
Definition restart (w : world) : world :=
  {| state_ctx := state_ctx_init; servo_ctx := servo_ctx_init;
     zigbee_ctx := zigbee_ctx_init; zb_ctx := zb_ctx_init; nvs := nvs w;
     nvs_open_err := nvs_open_err w; nvs_io_err := nvs_io_err w;
     zb_queue_full := zb_queue_full w; clock_us := clock_us w;
     trace := trace w |}.

(** [ESP_ERROR_CHECK(call)]: when the call fails the firmware aborts,
    and what follows is not run. *)
Definition ESP_ERROR_CHECK (call : M esp_err_t) (k : M unit) : M unit :=
  err <- call ;;
  if decide (err ≠ ESP_OK) then ret tt else k.

(** [app_main] without the flash, power and OTA modules, whose
    initialisation is taken to succeed, and without the creation of the
    tasks: [servo_init], [state_init(&state_config)],
    [zigbee_device_init], [zigbee_device_start], and, when
    [restore_on_boot] is configured, [state_restore] with the fall-back
    to the closed window when it fails. *)
Definition app_main (state_config : state_config_t) : M unit :=
  ESP_ERROR_CHECK (servo_init (Some tt) (Some tt))
 (ESP_ERROR_CHECK (state_init (Some state_config))
 (ESP_ERROR_CHECK zigbee_device_init
 (ESP_ERROR_CHECK zigbee_device_start
   (if restore_on_boot state_config then
      restore_err <- state_restore ;;
      if decide (restore_err ≠ ESP_OK) then
        ESP_LOGW MAIN_TAG ;;
        _ <- state_set_window_mode WINDOW_MODE_CLOSED ;;
        _ <- state_set_gap_percentage 0 ;;
        ret tt
      else ret tt
    else ret tt)))).

(** The configuration [state_config] of main.c. *)
Definition state_config : state_config_t :=
  {| save_to_nvs := true; save_interval_ms := 300000;
     restore_on_boot := true |}.

(** Power-on with an empty NVS namespace, a working flash driver and
    room in the queue of the ZigBee library. *)
Definition power_on : world :=
  {| state_ctx := state_ctx_init; servo_ctx := servo_ctx_init;
     zigbee_ctx := zigbee_ctx_init; zb_ctx := zb_ctx_init; nvs := ∅;
     nvs_open_err := ESP_OK; nvs_io_err := ESP_OK; zb_queue_full := false;
     clock_us := 0; trace := [] |}.

(** The device after [app_main] has brought the modules up. *)
Definition booted : world := (app_main state_config power_on).2.

(** The device once the connection timer has fired three times. *)
Definition joined (w : world) : world :=
  ((zigbee_connection_timer_callback ;;
    zigbee_connection_timer_callback ;;
    zigbee_connection_timer_callback) w).2.

(** The canonical part of a window state: mode, handle position, gap
    percentage and the calibration flag. *)
Definition canonical (s : window_state_t) : Z * Z * Z * bool :=
  (mode s, handle_pos s, gap_percentage s, calibrated s).

(** The canonical pair of a preset mode. *)
Definition canonical_pair (m : Z) : option (Z * Z) :=
  if decide (m = WINDOW_MODE_CLOSED) then Some (HANDLE_POSITION_CLOSED, 0)
  else if decide (m = WINDOW_MODE_OPEN) then Some (HANDLE_POSITION_OPEN, 100)
  else if decide (m = WINDOW_MODE_VENTILATE) then
    Some (HANDLE_POSITION_VENTILATE, 20)
  else None.

(** Mode-position consistency of a window state. *)
Definition consistent (s : window_state_t) : Prop :=
  ∀ p, canonical_pair (mode s) = Some p → (handle_pos s, gap_percentage s) = p.

(** The events a call appended to the trace. *)
Definition emitted (w w' : world) : list event :=
  drop (length (trace w)) (trace w').

Definition is_servo_cmd (e : event) : bool :=
  match e with ServoHandleCmd _ | ServoGapCmd _ => true | _ => false end.

Definition is_alert (a : zigbee_device_alert_type_t) (e : event) : bool :=
  match e with ZbSendAlert a' _ => bool_decide (a' = a) | _ => false end.

Definition is_log (e : event) : bool :=
  match e with Log _ _ => true | _ => false end.

(** A call that only wrote log messages (and possibly the NVS): both
    modules' statics and the environment are as before. *)
Definition only_logs (w w' : world) : Prop :=
  state_ctx w' = state_ctx w ∧ servo_ctx w' = servo_ctx w
  ∧ nvs_open_err w' = nvs_open_err w ∧ nvs_io_err w' = nvs_io_err w
  ∧ clock_us w' = clock_us w
  ∧ ∃ l, trace w' = trace w ++ l ∧ forallb is_log l = true.

(** The environment moves the clock between two calls. *)
Definition at_time (t : Z) (w : world) : world :=
  {| state_ctx := state_ctx w; servo_ctx := servo_ctx w;
     zigbee_ctx := zigbee_ctx w; zb_ctx := zb_ctx w; nvs := nvs w;
     nvs_open_err := nvs_open_err w; nvs_io_err := nvs_io_err w;
     zb_queue_full := zb_queue_full w; clock_us := t; trace := trace w |}.

(** The mode [state_set_handle_position] derives from a handle position. *)
Definition mode_of_handle (position : Z) : Z :=
  if decide (position = HANDLE_POSITION_CLOSED) then WINDOW_MODE_CLOSED
  else if decide (position = HANDLE_POSITION_OPEN) then WINDOW_MODE_OPEN
  else if decide (position = HANDLE_POSITION_VENTILATE) then
    WINDOW_MODE_VENTILATE
  else WINDOW_MODE_CUSTOM.

(** The three handle positions of [handle_position_t]. *)
Definition valid_handle (position : Z) : Prop :=
  position = HANDLE_POSITION_CLOSED ∨ position = HANDLE_POSITION_OPEN
  ∨ position = HANDLE_POSITION_VENTILATE.

(** The handle position and gap percentage [state_set_window_mode]
    aims at, from the mode and the current state. *)
Definition mode_target (m : Z) (s : window_state_t) : Z * Z :=
  if decide (m = WINDOW_MODE_CLOSED) then (HANDLE_POSITION_CLOSED, 0)
  else if decide (m = WINDOW_MODE_OPEN) then (HANDLE_POSITION_OPEN, 100)
  else if decide (m = WINDOW_MODE_VENTILATE) then
    (HANDLE_POSITION_VENTILATE, 20)
  else (handle_pos s, gap_percentage s).

(** The mode [state_set_gap_percentage] leaves behind: custom when the
    new percentage is not the one that goes with the handle position. *)
Definition mode_after_gap (s : window_state_t) (percentage : Z) : Z :=
  if bool_decide
       ((handle_pos s = HANDLE_POSITION_OPEN ∧ percentage ≠ 100)
        ∨ (handle_pos s = HANDLE_POSITION_VENTILATE ∧ percentage ≠ 20)
        ∨ (handle_pos s = HANDLE_POSITION_CLOSED ∧ percentage ≠ 0))
  then WINDOW_MODE_CUSTOM else mode s.

(** The four modes of [window_mode_t]. *)
Definition valid_mode (m : Z) : Prop :=
  m = WINDOW_MODE_CLOSED ∨ m = WINDOW_MODE_OPEN
  ∨ m = WINDOW_MODE_VENTILATE ∨ m = WINDOW_MODE_CUSTOM.

(** The record [state_save_to_nvs] leaves in the namespace. *)
Definition saved_record (s : window_state_t) (nv : gmap string Z)
  : gmap string Z :=
  <[NVS_KEY_CALIBRATED := u8 (if calibrated s then 1 else 0)]>
    (<[NVS_KEY_GAP_PERCENTAGE := u8 (gap_percentage s)]>
       (<[NVS_KEY_HANDLE_POS := u8 (u8 (handle_pos s))]>
          (<[NVS_KEY_MODE := u8 (u8 (mode s))]> nv))).

(** The calls the application makes into the two modules. *)
Inductive call : Type :=
| Call_servo_init
| Call_state_init (cfg : option state_config_t)
| Call_state_set_window_mode (m : Z)
| Call_state_set_handle_position (p : Z)
| Call_state_set_gap_percentage (p : Z)
| Call_state_get_window_state
| Call_state_save
| Call_state_restore
| Call_state_factory_reset
| Call_state_task_handler
| Call_app_main (cfg : state_config_t).

Definition run (c : call) (w : world) : world :=
  match c with
  | Call_servo_init => (servo_init (Some tt) (Some tt) w).2
  | Call_state_init cfg => (state_init cfg w).2
  | Call_state_set_window_mode m => (state_set_window_mode m w).2
  | Call_state_set_handle_position p => (state_set_handle_position p w).2
  | Call_state_set_gap_percentage p => (state_set_gap_percentage p w).2
  | Call_state_get_window_state => (state_get_window_state w).2
  | Call_state_save => (state_save w).2
  | Call_state_restore => (state_restore w).2
  | Call_state_factory_reset => (state_factory_reset w).2
  | Call_state_task_handler => (state_task_handler w).2
  | Call_app_main cfg => (app_main cfg w).2
  end.

(** The environment changes what the flash driver answers and the time. *)
Definition with_env (open_err io_err : esp_err_t) (t : Z) (w : world)
  : world :=
  {| state_ctx := state_ctx w; servo_ctx := servo_ctx w;
     zigbee_ctx := zigbee_ctx w; zb_ctx := zb_ctx w; nvs := nvs w;
     nvs_open_err := open_err; nvs_io_err := io_err;
     zb_queue_full := zb_queue_full w; clock_us := t; trace := trace w |}.

(** The other tasks of the radio (the connection timer of the library,
    the command task of zigbee_device.c, the task that empties the
    queue) change its state between two calls. *)
Definition with_radio (c : zigbee_ctx_t) (z : zb_ctx_t) (full : bool)
    (w : world) : world :=
  {| state_ctx := state_ctx w; servo_ctx := servo_ctx w;
     zigbee_ctx := c; zb_ctx := z; nvs := nvs w;
     nvs_open_err := nvs_open_err w; nvs_io_err := nvs_io_err w;
     zb_queue_full := full; clock_us := clock_us w; trace := trace w |}.

(** The worlds the firmware can be in: from power-on with an empty
    namespace, through any calls, ZigBee commands (with a payload at
    least as long as announced), restarts and changes of the
    environment and of the radio. *)
Inductive reachable : world → Prop :=
| reachable_power_on open_err io_err t :
    reachable (with_env open_err io_err t power_on)
| reachable_call w c :
    reachable w → reachable (run c w)
| reachable_command w cmd data len w' :
    reachable w → zigbee_command_handler cmd data len w = Some w' →
    reachable w'
| reachable_restart w :
    reachable w → reachable (restart w)
| reachable_env w open_err io_err t :
    reachable w → reachable (with_env open_err io_err t w)
| reachable_timer w :
    reachable w → reachable (zigbee_connection_timer_callback w).2
| reachable_radio w c z full :
    reachable w → reachable (with_radio c z full w).

(** The ranges of the stored positions. *)
Definition state_in_range (s : window_state_t) : Prop :=
  0 <= mode s < 256 ∧ valid_handle (handle_pos s)
  ∧ 0 <= gap_percentage s <= 100.

Definition in_range (w : world) : Prop :=
  state_in_range (state (state_ctx w))
  ∧ valid_handle (servo_handle_pos (servo_ctx w))
  ∧ 0 <= servo_gap_percentage (servo_ctx w) <= 100
  ∧ (∀ v, nvs w !! NVS_KEY_HANDLE_POS = Some v → valid_handle (u8 v))
  ∧ (∀ v, nvs w !! NVS_KEY_GAP_PERCENTAGE = Some v → u8 v <= 100).

(** A call keeps the stored positions in range. *)
Definition preserves {A} (m : M A) : Prop :=
  ∀ w, in_range w → in_range (m w).2.

(** *** Vocabulary of the further properties *)

(** An event that goes out to the hub: a report or an alert. *)
Definition is_outward (e : event) : bool :=
  match e with ZbReportState _ _ | ZbSendAlert _ _ => true | _ => false end.

(** The radio takes a message: the ZigBee module and the library are
    initialised, the library is connected or paired, and its queue has
    room. *)
Definition radio_up (w : world) : Prop :=
  zigbee_initialized (zigbee_ctx w) = true
  ∧ zb_initialized (zb_ctx w) = true
  ∧ (zb_state (zb_ctx w) = ESP_ZIGBEE_STATE_CONNECTED
     ∨ zb_state (zb_ctx w) = ESP_ZIGBEE_STATE_PAIRED)
  ∧ zb_queue_full w = false.

(** A state the radio reports: one of the three preset modes, and at
    most 100 percent. *)
Definition reportable (m p : Z) : Prop :=
  (m = WINDOW_MODE_CLOSED ∨ m = WINDOW_MODE_OPEN
   ∨ m = WINDOW_MODE_VENTILATE)
  ∧ u8 p <= 100.

#[global] Instance radio_up_dec w : Decision (radio_up w).
Proof. unfold radio_up. apply _. Defined.

#[global] Instance reportable_dec m p : Decision (reportable m p).
Proof. unfold reportable. apply _. Defined.

(** The messages that reach the queue of the library when
    [zigbee_device_report_state(m, p)], respectively
    [zigbee_device_send_alert(a, v)], is called in [w]. *)
Definition sent_report (w : world) (m p : Z) : list event :=
  if decide (radio_up w ∧ reportable m p) then [ZbReportState m (u8 p)]
  else [].

Definition sent_alert (w : world) (a : zigbee_device_alert_type_t) (v : Z)
  : list event :=
  if decide (radio_up w) then [ZbSendAlert a (u8 v)] else [].

(** What one call of [zigbee_device_report_state] appends to the trace:
    the report, when the radio is up and the state is one it reports;
    log lines, at least one of them an error, otherwise. *)
Definition report_outcome (w : world) (m p : Z) (l : list event) : Prop :=
  (radio_up w ∧ reportable m p ∧ l = [ZbReportState m (u8 p)])
  ∨ (¬ (radio_up w ∧ reportable m p)
     ∧ forallb is_log l = true ∧ In (Log LOG_ERROR ZIGBEE_TAG) l).

(** What one call of [zigbee_device_send_alert] appends to the trace. *)
Definition alert_outcome (w : world) (a : zigbee_device_alert_type_t)
    (v : Z) (l : list event) : Prop :=
  (radio_up w ∧ l = [ZbSendAlert a (u8 v)])
  ∨ (¬ radio_up w
     ∧ forallb is_log l = true ∧ In (Log LOG_ERROR ZIGBEE_TAG) l).

(** A call that left the radio as able to send as it was. *)
Definition radio_kept (w w' : world) : Prop :=
  zigbee_initialized (zigbee_ctx w') = zigbee_initialized (zigbee_ctx w)
  ∧ zigbee_state (zigbee_ctx w') = zigbee_state (zigbee_ctx w)
  ∧ zb_initialized (zb_ctx w') = zb_initialized (zb_ctx w)
  ∧ zb_state (zb_ctx w') = zb_state (zb_ctx w)
  ∧ connection_retry_count (zb_ctx w')
    = connection_retry_count (zb_ctx w)
  ∧ zb_queue_full w' = zb_queue_full w.

(** A call that left the NVS namespace and the flash driver's answer as
    they were. *)
Definition nvs_kept (w w' : world) : Prop :=
  nvs_io_err w' = nvs_io_err w ∧ nvs w' = nvs w.

(** A call that cannot write the NVS while the flash driver fails. *)
Definition keeps_nvs {A} (m : M A) : Prop :=
  ∀ w, nvs_io_err w ≠ ESP_OK → nvs_kept w (m w).2.

(** The window state after [state_restore_from_nvs]: every field whose
    key is in the namespace is taken from there, the others are kept. *)
Definition restored (nv : gmap string Z) (s : window_state_t)
  : window_state_t :=
  {| mode := match nv !! NVS_KEY_MODE with
             | Some v => u8 v | None => mode s end;
     handle_pos := match nv !! NVS_KEY_HANDLE_POS with
                   | Some v => u8 v | None => handle_pos s end;
     gap_percentage := match nv !! NVS_KEY_GAP_PERCENTAGE with
                       | Some v => u8 v | None => gap_percentage s end;
     calibrated := match nv !! NVS_KEY_CALIBRATED with
                   | Some v => bool_decide (u8 v = 1)
                   | None => calibrated s end;
     in_motion := in_motion s;
     last_action_time := last_action_time s |}.

(** One iteration of the loop of [state_task] (main.c): the housekeeping
    of the state module, then the poll of the resistance check of the
    handle servo. *)
Definition state_task_iteration : M unit :=
  _ <- state_task_handler ;;
  stuck <- servo_check_resistance ;;
  if stuck then
    _ <- zigbee_device_send_alert ZIGBEE_ALERT_STUCK 0 ;; ret tt
  else ret tt.

End Device.

(** ** The motion controller of [main/servo_control.c] *)

Module Servo.

(** [window_mode_t] of this variant's servo_control.h. *)
Definition WINDOW_MODE_CLOSED : Z := 0.
Definition WINDOW_MODE_OPEN : Z := 1.
Definition WINDOW_MODE_VENT : Z := 2.

Definition SERVO_MIN_PULSEWIDTH_US : Z := 500.
Definition SERVO_MAX_PULSEWIDTH_US : Z := 2500.
Definition DEFAULT_RESISTANCE_THRESHOLD : Z := 2000.
Definition ANGLE_CLOSED : Z := 0.
Definition ANGLE_OPEN : Z := 90.
Definition ANGLE_VENT : Z := 180.

(** [esp_zigbee_cmd_t] and [esp_zigbee_alert_type_t] (esp_zigbee_lib.h). *)
Definition ESP_ZIGBEE_CMD_SET_MODE : Z := 0.
Definition ESP_ZIGBEE_CMD_SET_POSITION : Z := 1.
Definition ESP_ZIGBEE_CMD_STOP : Z := 2.
Definition ESP_ZIGBEE_CMD_CALIBRATE : Z := 3.
Definition ESP_ZIGBEE_CMD_PING : Z := 4.

Inductive esp_zigbee_alert_type_t : Set :=
| ESP_ZIGBEE_ALERT_LOW_BATTERY
| ESP_ZIGBEE_ALERT_STUCK
| ESP_ZIGBEE_ALERT_MODE_CHANGE
| ESP_ZIGBEE_ALERT_PROTECTION.

#[global] Instance esp_zigbee_alert_eq_dec : EqDecision esp_zigbee_alert_type_t.
Proof. solve_decision. Defined.

(** [zigbee_state_t] and [zigbee_alert_type_t] (zigbee_handler.h). *)
Inductive zigbee_state_t : Set :=
| ZIGBEE_STATE_DISCONNECTED
| ZIGBEE_STATE_CONNECTING
| ZIGBEE_STATE_CONNECTED.

#[global] Instance zigbee_state_eq_dec : EqDecision zigbee_state_t.
Proof. solve_decision. Defined.

Inductive zigbee_alert_type_t : Set :=
| ZIGBEE_ALERT_LOW_BATTERY
| ZIGBEE_ALERT_RESISTANCE
| ZIGBEE_ALERT_MODE_CHANGE
| ZIGBEE_ALERT_PROTECTION.

(** The two statics a [servo_t *] can point to. *)
Inductive servo_id : Set := HANDLE_SERVO | GAP_SERVO.

#[global] Instance servo_id_eq_dec : EqDecision servo_id.
Proof. solve_decision. Defined.

(** [servo_t] without the MCPWM handles. *)
Record servo_t : Type := {
  current_angle : Z;
  target_angle : Z;
  is_enabled : bool;
  gpio_pin : Z
}.

(** Observable calls, oldest first in the trace. *)
Inductive event : Type :=
| Log (lvl : log_level) (tag : string)
| PwmCompare (servo : servo_id) (pulse_width_us : Z)
    (* mcpwm_comparator_set_compare_value *)
| PwmForceLevel (servo : servo_id) (level : Z) (hold : bool)
    (* mcpwm_generator_set_force_level *)
| ZbReportMode (mode : Z)              (* esp_zigbee_report_window_mode *)
| ZbReportPosition (position : Z)      (* esp_zigbee_report_position *)
| ZbReportState (mode gap : Z)         (* esp_zigbee_report_window_state *)
| ZbAlert (alert : esp_zigbee_alert_type_t) (value : Z).
    (* esp_zigbee_send_alert *)

(** The world: the statics of servo_control.c and zigbee_handler.c, and
    the environment: [adc_raw n] is what the [n]-th [adc_oneshot_read]
    delivers ([None]: the read fails), [mcpwm_err] and [zigbee_err] are
    what the MCPWM driver and the ZigBee library answer,
    [adc_cali_scheme_err] and [adc_cali_conv_err] what
    [adc_cali_create_scheme_curve_fitting] and [adc_cali_raw_to_voltage]
    answer. *)
Record world : Type := {
  handle_servo : servo_t;
  gap_servo : servo_t;
  current_window_mode : Z;
  current_gap_percentage : Z;
  resistance_threshold : Z;
  resistance_detected : bool;
  adc_initialized : bool;               (* adc1_handle != NULL *)
  adc_cali_enabled : bool;
  zb_current_state : zigbee_state_t;    (* zigbee_handler.c: current_state *)
  zb_current_window_mode : Z;           (* zigbee_handler.c: current_window_mode *)
  zb_current_gap_percentage : Z;        (* zigbee_handler.c: current_gap_percentage *)
  adc_raw : nat -> option Z;
  adc_reads : nat;
  mcpwm_err : esp_err_t;
  zigbee_err : esp_err_t;
  adc_cali_scheme_err : esp_err_t;
  adc_cali_conv_err : esp_err_t;
  trace : list event
}.

Definition M (A : Type) : Type := world -> A * world.

Definition ret {A} (a : A) : M A := fun w => (a, w).

Definition bind {A B} (m : M A) (k : A -> M B) : M B :=
  fun w => let (a, w') := m w in k a w'.

Declare Scope servo_scope.
Delimit Scope servo_scope with servo.
Notation "x <- m ;; k" := (bind m (fun x => k))
  (at level 100, m at next level, right associativity) : servo_scope.
Notation "m ;; k" := (bind m (fun _ => k))
  (at level 100, right associativity) : servo_scope.
Open Scope servo_scope.

Definition gets {A} (f : world -> A) : M A := fun w => (f w, w).
Definition modify (f : world -> world) : M unit := fun w => (tt, f w).

(** Assignments to the statics. *)
Definition set_servo (sid : servo_id) (s : servo_t) : M unit :=
  modify (fun w =>
    {| handle_servo := if decide (sid = HANDLE_SERVO) then s else handle_servo w;
       gap_servo := if decide (sid = GAP_SERVO) then s else gap_servo w;
       current_window_mode := current_window_mode w;
       current_gap_percentage := current_gap_percentage w;
       resistance_threshold := resistance_threshold w;
       resistance_detected := resistance_detected w;
       adc_initialized := adc_initialized w;
       adc_cali_enabled := adc_cali_enabled w;
       zb_current_state := zb_current_state w;
       zb_current_window_mode := zb_current_window_mode w;
       zb_current_gap_percentage := zb_current_gap_percentage w;
       adc_raw := adc_raw w; adc_reads := adc_reads w;
       mcpwm_err := mcpwm_err w; zigbee_err := zigbee_err w;
       adc_cali_scheme_err := adc_cali_scheme_err w;
       adc_cali_conv_err := adc_cali_conv_err w;
       trace := trace w |}).

Definition set_current_window_mode (m : Z) : M unit :=
  modify (fun w =>
    {| handle_servo := handle_servo w; gap_servo := gap_servo w;
       current_window_mode := m;
       current_gap_percentage := current_gap_percentage w;
       resistance_threshold := resistance_threshold w;
       resistance_detected := resistance_detected w;
       adc_initialized := adc_initialized w;
       adc_cali_enabled := adc_cali_enabled w;
       zb_current_state := zb_current_state w;
       zb_current_window_mode := zb_current_window_mode w;
       zb_current_gap_percentage := zb_current_gap_percentage w;
       adc_raw := adc_raw w; adc_reads := adc_reads w;
       mcpwm_err := mcpwm_err w; zigbee_err := zigbee_err w;
       adc_cali_scheme_err := adc_cali_scheme_err w;
       adc_cali_conv_err := adc_cali_conv_err w;
       trace := trace w |}).

Definition set_current_gap_percentage (g : Z) : M unit :=
  modify (fun w =>
    {| handle_servo := handle_servo w; gap_servo := gap_servo w;
       current_window_mode := current_window_mode w;
       current_gap_percentage := g;
       resistance_threshold := resistance_threshold w;
       resistance_detected := resistance_detected w;
       adc_initialized := adc_initialized w;
       adc_cali_enabled := adc_cali_enabled w;
       zb_current_state := zb_current_state w;
       zb_current_window_mode := zb_current_window_mode w;
       zb_current_gap_percentage := zb_current_gap_percentage w;
       adc_raw := adc_raw w; adc_reads := adc_reads w;
       mcpwm_err := mcpwm_err w; zigbee_err := zigbee_err w;
       adc_cali_scheme_err := adc_cali_scheme_err w;
       adc_cali_conv_err := adc_cali_conv_err w;
       trace := trace w |}).

Definition set_resistance_threshold (t : Z) : M unit :=
  modify (fun w =>
    {| handle_servo := handle_servo w; gap_servo := gap_servo w;
       current_window_mode := current_window_mode w;
       current_gap_percentage := current_gap_percentage w;
       resistance_threshold := t;
       resistance_detected := resistance_detected w;
       adc_initialized := adc_initialized w;
       adc_cali_enabled := adc_cali_enabled w;
       zb_current_state := zb_current_state w;
       zb_current_window_mode := zb_current_window_mode w;
       zb_current_gap_percentage := zb_current_gap_percentage w;
       adc_raw := adc_raw w; adc_reads := adc_reads w;
       mcpwm_err := mcpwm_err w; zigbee_err := zigbee_err w;
       adc_cali_scheme_err := adc_cali_scheme_err w;
       adc_cali_conv_err := adc_cali_conv_err w;
       trace := trace w |}).

Definition set_resistance_detected (b : bool) : M unit :=
  modify (fun w =>
    {| handle_servo := handle_servo w; gap_servo := gap_servo w;
       current_window_mode := current_window_mode w;
       current_gap_percentage := current_gap_percentage w;
       resistance_threshold := resistance_threshold w;
       resistance_detected := b;
       adc_initialized := adc_initialized w;
       adc_cali_enabled := adc_cali_enabled w;
       zb_current_state := zb_current_state w;
       zb_current_window_mode := zb_current_window_mode w;
       zb_current_gap_percentage := zb_current_gap_percentage w;
       adc_raw := adc_raw w; adc_reads := adc_reads w;
       mcpwm_err := mcpwm_err w; zigbee_err := zigbee_err w;
       adc_cali_scheme_err := adc_cali_scheme_err w;
       adc_cali_conv_err := adc_cali_conv_err w;
       trace := trace w |}).

Definition set_adc_initialized (b : bool) : M unit :=
  modify (fun w =>
    {| handle_servo := handle_servo w; gap_servo := gap_servo w;
       current_window_mode := current_window_mode w;
       current_gap_percentage := current_gap_percentage w;
       resistance_threshold := resistance_threshold w;
       resistance_detected := resistance_detected w;
       adc_initialized := b;
       adc_cali_enabled := adc_cali_enabled w;
       zb_current_state := zb_current_state w;
       zb_current_window_mode := zb_current_window_mode w;
       zb_current_gap_percentage := zb_current_gap_percentage w;
       adc_raw := adc_raw w; adc_reads := adc_reads w;
       mcpwm_err := mcpwm_err w; zigbee_err := zigbee_err w;
       adc_cali_scheme_err := adc_cali_scheme_err w;
       adc_cali_conv_err := adc_cali_conv_err w;
       trace := trace w |}).

Definition set_adc_cali_enabled (b : bool) : M unit :=
  modify (fun w =>
    {| handle_servo := handle_servo w; gap_servo := gap_servo w;
       current_window_mode := current_window_mode w;
       current_gap_percentage := current_gap_percentage w;
       resistance_threshold := resistance_threshold w;
       resistance_detected := resistance_detected w;
       adc_initialized := adc_initialized w;
       adc_cali_enabled := b;
       zb_current_state := zb_current_state w;
       zb_current_window_mode := zb_current_window_mode w;
       zb_current_gap_percentage := zb_current_gap_percentage w;
       adc_raw := adc_raw w; adc_reads := adc_reads w;
       mcpwm_err := mcpwm_err w; zigbee_err := zigbee_err w;
       adc_cali_scheme_err := adc_cali_scheme_err w;
       adc_cali_conv_err := adc_cali_conv_err w;
       trace := trace w |}).

Definition set_zb_current_state (st : zigbee_state_t) : M unit :=
  modify (fun w =>
    {| handle_servo := handle_servo w; gap_servo := gap_servo w;
       current_window_mode := current_window_mode w;
       current_gap_percentage := current_gap_percentage w;
       resistance_threshold := resistance_threshold w;
       resistance_detected := resistance_detected w;
       adc_initialized := adc_initialized w;
       adc_cali_enabled := adc_cali_enabled w;
       zb_current_state := st;
       zb_current_window_mode := zb_current_window_mode w;
       zb_current_gap_percentage := zb_current_gap_percentage w;
       adc_raw := adc_raw w; adc_reads := adc_reads w;
       mcpwm_err := mcpwm_err w; zigbee_err := zigbee_err w;
       adc_cali_scheme_err := adc_cali_scheme_err w;
       adc_cali_conv_err := adc_cali_conv_err w;
       trace := trace w |}).

Definition set_zb_current_window_mode (m : Z) : M unit :=
  modify (fun w =>
    {| handle_servo := handle_servo w; gap_servo := gap_servo w;
       current_window_mode := current_window_mode w;
       current_gap_percentage := current_gap_percentage w;
       resistance_threshold := resistance_threshold w;
       resistance_detected := resistance_detected w;
       adc_initialized := adc_initialized w;
       adc_cali_enabled := adc_cali_enabled w;
       zb_current_state := zb_current_state w;
       zb_current_window_mode := m;
       zb_current_gap_percentage := zb_current_gap_percentage w;
       adc_raw := adc_raw w; adc_reads := adc_reads w;
       mcpwm_err := mcpwm_err w; zigbee_err := zigbee_err w;
       adc_cali_scheme_err := adc_cali_scheme_err w;
       adc_cali_conv_err := adc_cali_conv_err w;
       trace := trace w |}).

Definition set_zb_current_gap_percentage (g : Z) : M unit :=
  modify (fun w =>
    {| handle_servo := handle_servo w; gap_servo := gap_servo w;
       current_window_mode := current_window_mode w;
       current_gap_percentage := current_gap_percentage w;
       resistance_threshold := resistance_threshold w;
       resistance_detected := resistance_detected w;
       adc_initialized := adc_initialized w;
       adc_cali_enabled := adc_cali_enabled w;
       zb_current_state := zb_current_state w;
       zb_current_window_mode := zb_current_window_mode w;
       zb_current_gap_percentage := g;
       adc_raw := adc_raw w; adc_reads := adc_reads w;
       mcpwm_err := mcpwm_err w; zigbee_err := zigbee_err w;
       adc_cali_scheme_err := adc_cali_scheme_err w;
       adc_cali_conv_err := adc_cali_conv_err w;
       trace := trace w |}).

Definition set_adc_reads (n : nat) : M unit :=
  modify (fun w =>
    {| handle_servo := handle_servo w; gap_servo := gap_servo w;
       current_window_mode := current_window_mode w;
       current_gap_percentage := current_gap_percentage w;
       resistance_threshold := resistance_threshold w;
       resistance_detected := resistance_detected w;
       adc_initialized := adc_initialized w;
       adc_cali_enabled := adc_cali_enabled w;
       zb_current_state := zb_current_state w;
       zb_current_window_mode := zb_current_window_mode w;
       zb_current_gap_percentage := zb_current_gap_percentage w;
       adc_raw := adc_raw w; adc_reads := n;
       mcpwm_err := mcpwm_err w; zigbee_err := zigbee_err w;
       adc_cali_scheme_err := adc_cali_scheme_err w;
       adc_cali_conv_err := adc_cali_conv_err w;
       trace := trace w |}).

Definition emit (e : event) : M unit :=
  modify (fun w =>
    {| handle_servo := handle_servo w; gap_servo := gap_servo w;
       current_window_mode := current_window_mode w;
       current_gap_percentage := current_gap_percentage w;
       resistance_threshold := resistance_threshold w;
       resistance_detected := resistance_detected w;
       adc_initialized := adc_initialized w;
       adc_cali_enabled := adc_cali_enabled w;
       zb_current_state := zb_current_state w;
       zb_current_window_mode := zb_current_window_mode w;
       zb_current_gap_percentage := zb_current_gap_percentage w;
       adc_raw := adc_raw w; adc_reads := adc_reads w;
       mcpwm_err := mcpwm_err w; zigbee_err := zigbee_err w;
       adc_cali_scheme_err := adc_cali_scheme_err w;
       adc_cali_conv_err := adc_cali_conv_err w;
       trace := trace w ++ [e] |}).

Definition TAG : string := "SERVO_CONTROL".
Definition ESP_LOGE (tag : string) : M unit := emit (Log LOG_ERROR tag).
Definition ESP_LOGW (tag : string) : M unit := emit (Log LOG_WARN tag).

Definition servo (sid : servo_id) (w : world) : servo_t :=
  match sid with HANDLE_SERVO => handle_servo w | GAP_SERVO => gap_servo w end.

Definition with_current_angle (a : Z) (s : servo_t) : servo_t :=
  {| current_angle := a; target_angle := target_angle s;
     is_enabled := is_enabled s; gpio_pin := gpio_pin s |}.

Definition with_target_angle (a : Z) (s : servo_t) : servo_t :=
  {| current_angle := current_angle s; target_angle := a;
     is_enabled := is_enabled s; gpio_pin := gpio_pin s |}.

Definition with_is_enabled (b : bool) (s : servo_t) : servo_t :=
  {| current_angle := current_angle s; target_angle := target_angle s;
     is_enabled := b; gpio_pin := gpio_pin s |}.

(** *** The drivers: MCPWM and ADC *)

(** [mcpwm_comparator_set_compare_value]: the compare value reaches the
    hardware when the driver answers [ESP_OK]. *)
Definition mcpwm_comparator_set_compare_value (sid : servo_id) (v : Z)
  : M esp_err_t :=
  e <- gets mcpwm_err ;;
  if decide (e = ESP_OK) then emit (PwmCompare sid v) ;; ret ESP_OK else ret e.

Definition mcpwm_generator_set_force_level (sid : servo_id) (level : Z)
    (hold : bool) : M esp_err_t :=
  e <- gets mcpwm_err ;;
  if decide (e = ESP_OK) then emit (PwmForceLevel sid level hold) ;; ret ESP_OK
  else ret e.

(** [adc_oneshot_read]: consumes the next sample of the environment. *)
Definition adc_oneshot_read : M (option Z) :=
  n <- gets adc_reads ;;
  set_adc_reads (S n) ;;
  f <- gets adc_raw ;;
  ret (f n).

(** *** servo_control.c *)

(** [static esp_err_t set_servo_angle(servo_t *servo, int angle)]. *)
Definition set_servo_angle (sid : servo_id) (angle : Z) : M esp_err_t :=
  s <- gets (servo sid) ;;
  if negb (is_enabled s) then ret ESP_ERR_INVALID_STATE
  else
    let angle := if bool_decide (angle < 0) then 0 else angle in
    let angle := if bool_decide (angle > 180) then 180 else angle in
    set_servo sid (with_current_angle angle s) ;;
    let pulse_width_us :=
      u32 (SERVO_MIN_PULSEWIDTH_US
           + Z.quot ((SERVO_MAX_PULSEWIDTH_US - SERVO_MIN_PULSEWIDTH_US) * angle)
                    180) in
    err <- mcpwm_comparator_set_compare_value sid pulse_width_us ;;
    if decide (err ≠ ESP_OK) then ESP_LOGE TAG ;; ret err
    else ret ESP_OK.

(** [static uint16_t read_current_sensor(void)].  The optional
    conversion to millivolts only feeds a debug message; its failure is
    logged as a warning. *)
Definition read_current_sensor : M Z :=
  ready <- gets adc_initialized ;;
  if negb ready then ret 1000
  else
    r <- adc_oneshot_read ;;
    match r with
    | None => ESP_LOGW TAG ;; ret 1000
    | Some adc_raw_value =>
        cali <- gets adc_cali_enabled ;;
        (if cali then
           err <- gets adc_cali_conv_err ;;
           if decide (err ≠ ESP_OK) then ESP_LOGW TAG else ret tt
         else ret tt) ;;
        ret (u16 adc_raw_value)
    end.

(** [bool servo_check_resistance(void)]. *)
Definition servo_check_resistance : M bool :=
  current_value <- read_current_sensor ;;
  forced <- gets resistance_detected ;;
  if forced then ESP_LOGW TAG ;; ret true
  else
    threshold <- gets resistance_threshold ;;
    if bool_decide (current_value > threshold) then
      ESP_LOGW TAG ;;
      set_resistance_detected true ;;
      ret true
    else
      set_resistance_detected false ;;
      ret false.

(** [void servo_simulate_resistance(bool enable)]. *)
Definition servo_simulate_resistance (enable : bool) : M unit :=
  if enable then ESP_LOGW TAG ;; set_resistance_detected true
  else set_resistance_detected false.

(** The body of the two [for] loops of [move_servo_smooth]: [n] is the
    number of iterations left, [angle] the loop variable and [step] its
    increment ([1] or [-1]). *)
Fixpoint sweep (n : nat) (step : Z) (sid : servo_id) (angle : Z)
  : M esp_err_t :=
  match n with
  | O => ret ESP_OK
  | S n' =>
      r <- set_servo_angle sid angle ;;
      if decide (r ≠ ESP_OK) then ret r
      else
        resistance <- servo_check_resistance ;;
        if resistance then ESP_LOGW TAG ;; ret ESP_ERR_TIMEOUT
        else sweep n' step sid (angle + step)
  end.

(** [static esp_err_t move_servo_smooth(servo_t *servo, int target_angle)].
    The loop from [current] up to [target_angle] (inclusive) runs
    [target_angle - current + 1] times, the loop down likewise. *)
Definition move_servo_smooth (sid : servo_id) (target_angle : Z)
  : M esp_err_t :=
  s <- gets (servo sid) ;;
  if negb (is_enabled s) then ret ESP_ERR_INVALID_STATE
  else
    let target_angle := if bool_decide (target_angle < 0) then 0
                        else target_angle in
    let target_angle := if bool_decide (target_angle > 180) then 180
                        else target_angle in
    let current := current_angle s in
    r <- (if bool_decide (current < target_angle) then
            sweep (Z.to_nat (target_angle - current + 1)) 1 sid current
          else if bool_decide (current > target_angle) then
            sweep (Z.to_nat (current - target_angle + 1)) (-1) sid current
          else ret ESP_OK) ;;
    if decide (r ≠ ESP_OK) then ret r
    else
      s <- gets (servo sid) ;;
      set_servo sid (with_target_angle target_angle s) ;;
      ret ESP_OK.

(** [esp_err_t servo_set_window_mode(window_mode_t mode)]. *)
Definition servo_set_window_mode (mode : Z) : M esp_err_t :=
  if bool_decide (mode ≠ WINDOW_MODE_CLOSED ∧ mode ≠ WINDOW_MODE_OPEN
                  ∧ mode ≠ WINDOW_MODE_VENT) then
    ESP_LOGE TAG ;; ret ESP_ERR_INVALID_ARG
  else
    let target_angle :=
      if decide (mode = WINDOW_MODE_CLOSED) then ANGLE_CLOSED
      else if decide (mode = WINDOW_MODE_OPEN) then ANGLE_OPEN
      else ANGLE_VENT in
    r <- move_servo_smooth HANDLE_SERVO target_angle ;;
    (if decide (r = ESP_OK) then
       set_current_window_mode mode ;;
       if decide (mode = WINDOW_MODE_CLOSED) then
         set_current_gap_percentage 0 ;;
         _ <- move_servo_smooth GAP_SERVO 0 ;;
         ret tt
       else ret tt
     else ret tt) ;;
    ret r.

(** [esp_err_t servo_set_gap(uint8_t percentage)]. *)
Definition servo_set_gap (percentage : Z) : M esp_err_t :=
  let percentage := u8 percentage in
  m <- gets current_window_mode ;;
  if decide (m ≠ WINDOW_MODE_OPEN) then
    ESP_LOGW TAG ;; ret ESP_ERR_INVALID_STATE
  else
    let percentage := if bool_decide (percentage > 100) then 100
                      else percentage in
    let target_angle := Z.quot (percentage * 90) 100 in
    r <- move_servo_smooth GAP_SERVO target_angle ;;
    (if decide (r = ESP_OK) then set_current_gap_percentage percentage
     else ret tt) ;;
    ret r.

Definition servo_get_window_mode : M Z := gets current_window_mode.
Definition servo_get_gap : M Z := gets current_gap_percentage.

(** [esp_err_t servo_set_resistance_threshold(uint16_t threshold)]. *)
Definition servo_set_resistance_threshold (threshold : Z) : M esp_err_t :=
  set_resistance_threshold (u16 threshold) ;; ret ESP_OK.

(** [ESP_RETURN_ON_ERROR(call, TAG, msg)]: on an error of the call, log
    and return it, else continue. *)
Definition ESP_RETURN_ON_ERROR (call : M esp_err_t) (k : M esp_err_t)
  : M esp_err_t :=
  err <- call ;;
  if decide (err ≠ ESP_OK) then ESP_LOGE TAG ;; ret err else k.

(** [static esp_err_t setup_servo(servo_t *servo, uint8_t gpio_pin)].
    The MCPWM timer, operator, comparator and generator are created by a
    chain of driver calls, each under [ESP_RETURN_ON_ERROR]; they all
    answer [mcpwm_err].  The initial [set_servo_angle] runs while the
    servo is still disabled. *)
Definition setup_servo (sid : servo_id) (pin : Z) : M esp_err_t :=
  set_servo sid {| current_angle := 0; target_angle := 0;
                   is_enabled := false; gpio_pin := u8 pin |} ;;
  ESP_RETURN_ON_ERROR (gets mcpwm_err)
    (_ <- set_servo_angle sid 0 ;;
     s <- gets (servo sid) ;;
     set_servo sid (with_is_enabled true s) ;;
     ret ESP_OK).

(** [static esp_err_t init_adc_for_current_sensing(void)]: the creation
    of the ADC unit and of its channel aborts the program on failure, so
    the function returns having created the unit; the calibration scheme
    is optional, and its absence is logged as a warning. *)
Definition init_adc_for_current_sensing : M esp_err_t :=
  set_adc_initialized true ;;
  err <- gets adc_cali_scheme_err ;;
  (if decide (err = ESP_OK) then set_adc_cali_enabled true
   else ESP_LOGW TAG ;; set_adc_cali_enabled false) ;;
  ret ESP_OK.

(** [esp_err_t servo_init(uint8_t handle_servo_pin, uint8_t gap_servo_pin)]. *)
Definition servo_init (handle_servo_pin gap_servo_pin : Z) : M esp_err_t :=
  r <- setup_servo HANDLE_SERVO handle_servo_pin ;;
  if decide (r ≠ ESP_OK) then ESP_LOGE TAG ;; ret r
  else
    r <- setup_servo GAP_SERVO gap_servo_pin ;;
    if decide (r ≠ ESP_OK) then ESP_LOGE TAG ;; ret r
    else
      r <- init_adc_for_current_sensing ;;
      (if decide (r ≠ ESP_OK) then ESP_LOGW TAG else ret tt) ;;
      set_current_window_mode WINDOW_MODE_CLOSED ;;
      set_current_gap_percentage 0 ;;
      set_resistance_detected false ;;
      ret ESP_OK.

(** [esp_err_t servo_disable(void)]. *)
Definition servo_disable : M esp_err_t :=
  h <- gets handle_servo ;;
  r <- (if is_enabled h then
          ESP_RETURN_ON_ERROR
            (mcpwm_generator_set_force_level HANDLE_SERVO 0 true)
            (set_servo HANDLE_SERVO (with_is_enabled false h) ;; ret ESP_OK)
        else ret ESP_OK) ;;
  if decide (r ≠ ESP_OK) then ret r
  else
    g <- gets gap_servo ;;
    if is_enabled g then
      ESP_RETURN_ON_ERROR
        (mcpwm_generator_set_force_level GAP_SERVO 0 true)
        (set_servo GAP_SERVO (with_is_enabled false g) ;; ret ESP_OK)
    else ret ESP_OK.

(** [esp_err_t servo_calibrate(void)]. *)
Definition servo_calibrate : M esp_err_t :=
  h <- gets handle_servo ;;
  r <- (if negb (is_enabled h) then
          ESP_RETURN_ON_ERROR
            (mcpwm_generator_set_force_level HANDLE_SERVO 0 false)
            (set_servo HANDLE_SERVO (with_is_enabled true h) ;; ret ESP_OK)
        else ret ESP_OK) ;;
  if decide (r ≠ ESP_OK) then ret r
  else
    g <- gets gap_servo ;;
    r <- (if negb (is_enabled g) then
            ESP_RETURN_ON_ERROR
              (mcpwm_generator_set_force_level GAP_SERVO 0 false)
              (set_servo GAP_SERVO (with_is_enabled true g) ;; ret ESP_OK)
          else ret ESP_OK) ;;
    if decide (r ≠ ESP_OK) then ret r
    else
      ESP_RETURN_ON_ERROR (move_servo_smooth HANDLE_SERVO 0)
     (ESP_RETURN_ON_ERROR (move_servo_smooth HANDLE_SERVO 180)
     (ESP_RETURN_ON_ERROR (move_servo_smooth HANDLE_SERVO 0)
     (ESP_RETURN_ON_ERROR (move_servo_smooth GAP_SERVO 0)
     (ESP_RETURN_ON_ERROR (move_servo_smooth GAP_SERVO 90)
     (ESP_RETURN_ON_ERROR (move_servo_smooth GAP_SERVO 0)
     (set_current_window_mode WINDOW_MODE_CLOSED ;;
      set_current_gap_percentage 0 ;;
      ret ESP_OK)))))).

(** *** zigbee_handler.c *)

Definition ZB_TAG : string := "ZIGBEE_HANDLER".

(** The calls into esp_zigbee_lib: the call is recorded, the library
    answers [zigbee_err]. *)
Definition esp_zigbee_report_window_mode (mode : Z) : M esp_err_t :=
  emit (ZbReportMode (u8 mode)) ;; gets zigbee_err.

Definition esp_zigbee_report_position (position : Z) : M esp_err_t :=
  emit (ZbReportPosition (u8 position)) ;; gets zigbee_err.

Definition esp_zigbee_report_window_state (mode gap : Z) : M esp_err_t :=
  emit (ZbReportState (u8 mode) (u8 gap)) ;; gets zigbee_err.

Definition esp_zigbee_send_alert (alert : esp_zigbee_alert_type_t) (value : Z)
  : M esp_err_t :=
  emit (ZbAlert alert (u8 value)) ;; gets zigbee_err.

(** [esp_err_t zigbee_send_window_mode(uint8_t mode)]. *)
Definition zigbee_send_window_mode (mode : Z) : M esp_err_t :=
  let mode := u8 mode in
  st <- gets zb_current_state ;;
  if decide (st ≠ ZIGBEE_STATE_CONNECTED) then
    emit (Log LOG_WARN ZB_TAG) ;; ret ESP_ERR_INVALID_STATE
  else
    err <- esp_zigbee_report_window_mode mode ;;
    if decide (err ≠ ESP_OK) then emit (Log LOG_ERROR ZB_TAG) ;; ret err
    else set_zb_current_window_mode mode ;; ret ESP_OK.

(** [esp_err_t zigbee_send_gap_position(uint8_t gap_percentage)]. *)
Definition zigbee_send_gap_position (gap : Z) : M esp_err_t :=
  let gap := u8 gap in
  st <- gets zb_current_state ;;
  if decide (st ≠ ZIGBEE_STATE_CONNECTED) then
    emit (Log LOG_WARN ZB_TAG) ;; ret ESP_ERR_INVALID_STATE
  else
    err <- esp_zigbee_report_position gap ;;
    if decide (err ≠ ESP_OK) then emit (Log LOG_ERROR ZB_TAG) ;; ret err
    else set_zb_current_gap_percentage gap ;; ret ESP_OK.

(** [esp_err_t zigbee_send_alert(zigbee_alert_type_t alert_type,
    uint8_t value)]. *)
Definition zigbee_send_alert (alert_type : zigbee_alert_type_t) (value : Z)
  : M esp_err_t :=
  st <- gets zb_current_state ;;
  if decide (st ≠ ZIGBEE_STATE_CONNECTED) then
    emit (Log LOG_WARN ZB_TAG) ;; ret ESP_ERR_INVALID_STATE
  else
    let zb_alert_type :=
      match alert_type with
      | ZIGBEE_ALERT_LOW_BATTERY => ESP_ZIGBEE_ALERT_LOW_BATTERY
      | ZIGBEE_ALERT_RESISTANCE => ESP_ZIGBEE_ALERT_STUCK
      | ZIGBEE_ALERT_MODE_CHANGE => ESP_ZIGBEE_ALERT_MODE_CHANGE
      | ZIGBEE_ALERT_PROTECTION => ESP_ZIGBEE_ALERT_PROTECTION
      end in
    err <- esp_zigbee_send_alert zb_alert_type value ;;
    if decide (err ≠ ESP_OK) then emit (Log LOG_ERROR ZB_TAG) ;; ret err
    else ret ESP_OK.

(** The three cases of the [switch] of [zigbee_on_command], after the
    payload has been read. *)
Definition on_set_mode (mode : Z) : M unit :=
  err <- servo_set_window_mode mode ;;
  if decide (err = ESP_OK) then
    set_zb_current_window_mode mode ;;
    _ <- zigbee_send_window_mode mode ;;
    ret tt
  else ret tt.

Definition on_set_position (position : Z) : M unit :=
  err <- servo_set_gap position ;;
  if decide (err = ESP_OK) then
    set_zb_current_gap_percentage position ;;
    _ <- zigbee_send_gap_position position ;;
    ret tt
  else ret tt.

Definition on_calibrate : M unit :=
  err <- servo_calibrate ;;
  if decide (err ≠ ESP_OK) then emit (Log LOG_ERROR ZB_TAG) else ret tt.

(** [static void zigbee_on_command(uint8_t cmd, const uint8_t *data,
    uint16_t len)].  The payload is the list of bytes behind [data];
    reading past its end is [None]. *)
Definition zigbee_on_command (cmd : Z) (data : list Z) (len : Z)
  : world -> option world :=
  fun w =>
  let cmd := u8 cmd in
  if decide (cmd = ESP_ZIGBEE_CMD_SET_MODE) then
    if bool_decide (len >= 1) then
      match data !! 0%nat with
      | Some d0 => Some (on_set_mode (u8 d0) w).2
      | None => None
      end
    else Some w
  else if decide (cmd = ESP_ZIGBEE_CMD_SET_POSITION) then
    if bool_decide (len >= 1) then
      match data !! 0%nat with
      | Some d0 => Some (on_set_position (u8 d0) w).2
      | None => None
      end
    else Some w
  else if decide (cmd = ESP_ZIGBEE_CMD_CALIBRATE) then
    Some (on_calibrate w).2
  else
    Some (emit (Log LOG_WARN ZB_TAG) w).2.

(** *** Vocabulary of the statements *)

(** The events a call appended to the trace. *)
Definition emitted (w w' : world) : list event :=
  drop (length (trace w)) (trace w').

Definition is_alert (e : event) : bool :=
  match e with ZbAlert _ _ => true | _ => false end.

Definition is_resistance_alert (e : event) : bool :=
  match e with ZbAlert ESP_ZIGBEE_ALERT_STUCK _ => true | _ => false end.

Definition is_pwm (sid : servo_id) (e : event) : bool :=
  match e with
  | PwmCompare sid' _ => bool_decide (sid' = sid)
  | _ => false
  end.

(** The angles commanded to a servo, in order. *)
Definition pulse_width (angle : Z) : Z :=
  u32 (SERVO_MIN_PULSEWIDTH_US
       + Z.quot ((SERVO_MAX_PULSEWIDTH_US - SERVO_MIN_PULSEWIDTH_US) * angle)
                180).

(** What [read_current_sensor] returns for the [n]-th ADC sample. *)
Definition sensor_value (w : world) (n : nat) : Z :=
  if adc_initialized w then
    match adc_raw w n with Some raw => u16 raw | None => 1000 end
  else 1000.

(** The resistance check on the [n]-th sample trips. *)
Definition trips (w : world) (n : nat) : Prop :=
  sensor_value w n > resistance_threshold w.

#[global] Instance trips_dec w n : Decision (trips w n).
Proof. unfold trips. apply _. Defined.

(** The other of the two servos. *)
Definition other (sid : servo_id) : servo_id :=
  match sid with HANDLE_SERVO => GAP_SERVO | GAP_SERVO => HANDLE_SERVO end.

(** What a sweep of servo [sid] leaves alone. *)
Definition sweep_frame (sid : servo_id) (w w' : world) : Prop :=
  servo (other sid) w' = servo (other sid) w
  ∧ is_enabled (servo sid w') = is_enabled (servo sid w)
  ∧ target_angle (servo sid w') = target_angle (servo sid w)
  ∧ gpio_pin (servo sid w') = gpio_pin (servo sid w)
  ∧ current_window_mode w' = current_window_mode w
  ∧ current_gap_percentage w' = current_gap_percentage w
  ∧ resistance_threshold w' = resistance_threshold w
  ∧ adc_initialized w' = adc_initialized w
  ∧ zb_current_state w' = zb_current_state w
  ∧ zb_current_window_mode w' = zb_current_window_mode w
  ∧ zb_current_gap_percentage w' = zb_current_gap_percentage w
  ∧ adc_raw w' = adc_raw w
  ∧ mcpwm_err w' = mcpwm_err w
  ∧ zigbee_err w' = zigbee_err w
  ∧ adc_cali_enabled w' = adc_cali_enabled w
  ∧ adc_cali_scheme_err w' = adc_cali_scheme_err w
  ∧ adc_cali_conv_err w' = adc_cali_conv_err w
  ∧ ∃ l, trace w' = trace w ++ l
         ∧ List.filter is_alert l = []
         ∧ List.filter (is_pwm (other sid)) l = [].

(** The limit of a target angle to 0..180 in [move_servo_smooth]. *)
Definition clamp_angle (a : Z) : Z :=
  let a := if bool_decide (a < 0) then 0 else a in
  if bool_decide (a > 180) then 180 else a.

(** The sweep [move_servo_smooth] runs from the current angle. *)
Definition sweep_to (sid : servo_id) (target : Z) : M esp_err_t :=
  fun w =>
  let current := current_angle (servo sid w) in
  if bool_decide (current < target) then
    sweep (Z.to_nat (target - current + 1)) 1 sid current w
  else if bool_decide (current > target) then
    sweep (Z.to_nat (current - target + 1)) (-1) sid current w
  else (ESP_OK, w).

(** The resistance check of iteration [j] of a sweep started in [w]
    answers true: the flag is latched, or the sample read then exceeds
    the threshold. *)
Definition trips_at (w : world) (j : nat) : Prop :=
  resistance_detected w = true ∨ trips w (adc_reads w + j)%nat.

(** The compare values a call sent to a servo, in order. *)
Definition emitted_pwm (sid : servo_id) (w w' : world) : list event :=
  List.filter (is_pwm sid) (emitted w w').

(** The result of a sweep of servo [sid] that started at angle [cur] with
    increment [step] and was stopped by the resistance check of its
    iteration [k]. *)
Definition aborted_at (sid : servo_id) (cur step : Z) (k : nat)
    (w w' : world) : Prop :=
  sweep_frame sid w w'
  ∧ current_angle (servo sid w') = cur + step * Z.of_nat k
  ∧ resistance_detected w' = true
  ∧ adc_reads w' = (adc_reads w + S k)%nat
  ∧ emitted_pwm sid w w'
    = map (λ j, PwmCompare sid (pulse_width (cur + step * Z.of_nat j)))
          (seq 0 (S k)).

(** The handle angle of a mode in [servo_set_window_mode]. *)
Definition mode_angle (m : Z) : Z :=
  if decide (m = WINDOW_MODE_CLOSED) then ANGLE_CLOSED
  else if decide (m = WINDOW_MODE_OPEN) then ANGLE_OPEN
  else ANGLE_VENT.

(** Power-on: zeroed statics, working drivers; [samples] is what the
    current sensor will deliver. *)
Definition power_on (samples : nat → option Z) : world :=
  {| handle_servo := {| current_angle := 0; target_angle := 0;
                        is_enabled := false; gpio_pin := 0 |};
     gap_servo := {| current_angle := 0; target_angle := 0;
                     is_enabled := false; gpio_pin := 0 |};
     current_window_mode := WINDOW_MODE_CLOSED;
     current_gap_percentage := 0;
     resistance_threshold := DEFAULT_RESISTANCE_THRESHOLD;
     resistance_detected := false;
     adc_initialized := false;
     adc_cali_enabled := false;
     zb_current_state := ZIGBEE_STATE_DISCONNECTED;
     zb_current_window_mode := 0;
     zb_current_gap_percentage := 0;
     adc_raw := samples; adc_reads := 0;
     mcpwm_err := ESP_OK; zigbee_err := ESP_OK;
     adc_cali_scheme_err := ESP_OK; adc_cali_conv_err := ESP_OK;
     trace := [] |}.

(** The same device with an ADC that has no calibration scheme. *)
Definition set_no_calibration (w : world) : world :=
  {| handle_servo := handle_servo w; gap_servo := gap_servo w;
     current_window_mode := current_window_mode w;
     current_gap_percentage := current_gap_percentage w;
     resistance_threshold := resistance_threshold w;
     resistance_detected := resistance_detected w;
     adc_initialized := adc_initialized w;
     adc_cali_enabled := adc_cali_enabled w;
     zb_current_state := zb_current_state w;
     zb_current_window_mode := zb_current_window_mode w;
     zb_current_gap_percentage := zb_current_gap_percentage w;
     adc_raw := adc_raw w; adc_reads := adc_reads w;
     mcpwm_err := mcpwm_err w; zigbee_err := zigbee_err w;
     adc_cali_scheme_err := ESP_FAIL;
     adc_cali_conv_err := adc_cali_conv_err w;
     trace := trace w |}.

(** The device after [servo_init(4, 5)], joined to the network. *)
Definition ready (samples : nat → option Z) : world :=
  (set_zb_current_state ZIGBEE_STATE_CONNECTED
     (servo_init 4 5 (power_on samples)).2).2.

(** A current sensor that reads 1000 until sample [n] and 3000 from
    there on. *)
Definition blocked_from (n : nat) : nat → option Z :=
  fun i => if (i <? n)%nat then Some 1000 else Some 3000.

(** The window half open: mode open, gap at 50 percent, with a current
    sensor that reads high from sample [n] on. *)
Definition half_open (n : nat) : world :=
  (servo_set_gap 50
     (servo_set_window_mode WINDOW_MODE_OPEN (ready (blocked_from n))).2).2.

(** *** Vocabulary of the further properties *)

(** What a completed [move_servo_smooth] of servo [sid] to angle [a]
    leaves behind: the servo stands at [a] with [a] as its target, and
    everything else but the trace and the count of ADC reads is as
    before. *)
Definition settled_at (sid : servo_id) (a : Z) (w w' : world) : Prop :=
  current_angle (servo sid w') = a
  ∧ target_angle (servo sid w') = a
  ∧ is_enabled (servo sid w') = is_enabled (servo sid w)
  ∧ gpio_pin (servo sid w') = gpio_pin (servo sid w)
  ∧ servo (other sid) w' = servo (other sid) w
  ∧ current_window_mode w' = current_window_mode w
  ∧ current_gap_percentage w' = current_gap_percentage w
  ∧ resistance_threshold w' = resistance_threshold w
  ∧ resistance_detected w' = resistance_detected w
  ∧ adc_initialized w' = adc_initialized w
  ∧ zb_current_state w' = zb_current_state w
  ∧ zb_current_window_mode w' = zb_current_window_mode w
  ∧ zb_current_gap_percentage w' = zb_current_gap_percentage w
  ∧ adc_raw w' = adc_raw w
  ∧ mcpwm_err w' = mcpwm_err w
  ∧ zigbee_err w' = zigbee_err w
  ∧ adc_cali_enabled w' = adc_cali_enabled w
  ∧ adc_cali_scheme_err w' = adc_cali_scheme_err w
  ∧ adc_cali_conv_err w' = adc_cali_conv_err w.

(** The compare values of a sweep of [n] iterations from angle [cur] with
    increment [step]. *)
Definition sweep_pwm (sid : servo_id) (cur step : Z) (n : nat) : list event :=
  map (λ j, PwmCompare sid (pulse_width (cur + step * Z.of_nat j))) (seq 0 n).

(** The number of iterations of the sweep from [cur] to [target]: none
    when the servo is there already, else one per degree, both ends
    included. *)
Definition sweep_length (cur target : Z) : nat :=
  if decide (cur = target) then 0%nat
  else S (Z.to_nat (Z.abs (target - cur))).

Definition sweep_step (cur target : Z) : Z :=
  if bool_decide (cur < target) then 1 else -1.

(** [esp_err_t zigbee_report_state(void)] (zigbee_handler.c): the two
    values go through [uint8_t] locals. *)
Definition zigbee_report_state : M esp_err_t :=
  st <- gets zb_current_state ;;
  if decide (st ≠ ZIGBEE_STATE_CONNECTED) then
    emit (Log LOG_WARN ZB_TAG) ;; ret ESP_ERR_INVALID_STATE
  else
    m <- servo_get_window_mode ;;
    g <- servo_get_gap ;;
    let mode := u8 m in
    let gap := u8 g in
    err <- esp_zigbee_report_window_state mode gap ;;
    if decide (err ≠ ESP_OK) then emit (Log LOG_ERROR ZB_TAG) ;; ret err
    else
      set_zb_current_window_mode mode ;;
      set_zb_current_gap_percentage gap ;;
      ret ESP_OK.

(** [zigbee_state_t zigbee_get_state(void)]. *)
Definition zigbee_get_state : M zigbee_state_t := gets zb_current_state.

(** [static void zigbee_on_disconnected(void)]. *)
Definition zigbee_on_disconnected : M unit :=
  emit (Log LOG_WARN ZB_TAG) ;;
  set_zb_current_state ZIGBEE_STATE_DISCONNECTED.

(** An event that goes out over the radio. *)
Definition is_radio (e : event) : bool :=
  match e with
  | ZbReportMode _ | ZbReportPosition _ | ZbReportState _ _ | ZbAlert _ _ => true
  | _ => false
  end.

(** The sensor never trips from the state [w] on: the flag is not
    latched and no sample yet to be read exceeds the threshold. *)
Definition never_trips (w : world) : Prop :=
  resistance_detected w = false ∧ ∀ n, (adc_reads w <= n)%nat → ¬ trips w n.

(** The six sweeps of [servo_calibrate], once both servos are enabled. *)
Definition calibrate_sweeps : M esp_err_t :=
  ESP_RETURN_ON_ERROR (move_servo_smooth HANDLE_SERVO 0)
 (ESP_RETURN_ON_ERROR (move_servo_smooth HANDLE_SERVO 180)
 (ESP_RETURN_ON_ERROR (move_servo_smooth HANDLE_SERVO 0)
 (ESP_RETURN_ON_ERROR (move_servo_smooth GAP_SERVO 0)
 (ESP_RETURN_ON_ERROR (move_servo_smooth GAP_SERVO 90)
 (ESP_RETURN_ON_ERROR (move_servo_smooth GAP_SERVO 0)
 (set_current_window_mode WINDOW_MODE_CLOSED ;;
  set_current_gap_percentage 0 ;;
  ret ESP_OK)))))).

(** The enabling of a disabled servo at the start of [servo_calibrate],
    with a working MCPWM driver. *)
Definition enabled (sid : servo_id) (w : world) : world :=
  if is_enabled (servo sid w) then w
  else (set_servo sid (with_is_enabled true (servo sid w))
          (emit (PwmForceLevel sid 0 false) w).2).2.

(** A call that sends nothing over the radio and leaves the connection
    state and the answers of the ZigBee library and of the MCPWM driver
    alone. *)
Definition quiet (w w' : world) : Prop :=
  zb_current_state w' = zb_current_state w
  ∧ zigbee_err w' = zigbee_err w
  ∧ mcpwm_err w' = mcpwm_err w
  ∧ ∃ l, trace w' = trace w ++ l ∧ List.filter is_radio l = [].

Definition quiet_op {A} (m : M A) : Prop := ∀ w, quiet w (m w).2.

End Servo.

(** ** The state record of [main/state_management.c] *)

Module State.

(** [device_state_t] (state_management.h); [window_mode_t] is the
    enumeration of servo_control.h. *)
Record device_state_t : Type := {
  window_mode : Z;
  gap_percentage : Z;
  calibrated : bool;
  last_activity_time : Z;
  resistance_detected : bool
}.

Inductive event : Type :=
| Log (lvl : log_level) (tag : string).

(** The world: the static [current_state], the NVS namespace
    ["window_state"] behind the static [nvs_handle], and the environment
    ([nvs_open_err], [nvs_io_err]: what the flash driver answers, an
    error in particular when the handle was never opened; [clock_us]:
    what [esp_timer_get_time] returns). *)
Record world : Type := {
  current_state : device_state_t;
  nvs : gmap string Z;
  nvs_open_err : esp_err_t;
  nvs_io_err : esp_err_t;
  clock_us : Z;
  trace : list event
}.

Definition M (A : Type) : Type := world -> A * world.

Definition ret {A} (a : A) : M A := fun w => (a, w).

Definition bind {A B} (m : M A) (k : A -> M B) : M B :=
  fun w => let (a, w') := m w in k a w'.

Declare Scope state_scope.
Delimit Scope state_scope with state.
Notation "x <- m ;; k" := (bind m (fun x => k))
  (at level 100, m at next level, right associativity) : state_scope.
Notation "m ;; k" := (bind m (fun _ => k))
  (at level 100, right associativity) : state_scope.
Open Scope state_scope.

Definition gets {A} (f : world -> A) : M A := fun w => (f w, w).
Definition modify (f : world -> world) : M unit := fun w => (tt, f w).

Definition emit (e : event) : M unit :=
  modify (fun w =>
    {| current_state := current_state w; nvs := nvs w;
       nvs_open_err := nvs_open_err w; nvs_io_err := nvs_io_err w;
       clock_us := clock_us w; trace := trace w ++ [e] |}).

Definition TAG : string := "STATE_MGMT".
Definition ESP_LOGE (tag : string) : M unit := emit (Log LOG_ERROR tag).

Definition set_current_state (s : device_state_t) : M unit :=
  modify (fun w =>
    {| current_state := s; nvs := nvs w;
       nvs_open_err := nvs_open_err w; nvs_io_err := nvs_io_err w;
       clock_us := clock_us w; trace := trace w |}).

Definition set_nvs (m : gmap string Z) : M unit :=
  modify (fun w =>
    {| current_state := current_state w; nvs := m;
       nvs_open_err := nvs_open_err w; nvs_io_err := nvs_io_err w;
       clock_us := clock_us w; trace := trace w |}).

Definition update (f : device_state_t -> device_state_t) : M unit :=
  s <- gets current_state ;; set_current_state (f s).

Definition with_window_mode (m : Z) (s : device_state_t) : device_state_t :=
  {| window_mode := m; gap_percentage := gap_percentage s;
     calibrated := calibrated s;
     last_activity_time := last_activity_time s;
     resistance_detected := resistance_detected s |}.

Definition with_gap_percentage (g : Z) (s : device_state_t)
  : device_state_t :=
  {| window_mode := window_mode s; gap_percentage := g;
     calibrated := calibrated s;
     last_activity_time := last_activity_time s;
     resistance_detected := resistance_detected s |}.

Definition with_calibrated (b : bool) (s : device_state_t) : device_state_t :=
  {| window_mode := window_mode s; gap_percentage := gap_percentage s;
     calibrated := b;
     last_activity_time := last_activity_time s;
     resistance_detected := resistance_detected s |}.

Definition with_last_activity_time (t : Z) (s : device_state_t)
  : device_state_t :=
  {| window_mode := window_mode s; gap_percentage := gap_percentage s;
     calibrated := calibrated s;
     last_activity_time := t;
     resistance_detected := resistance_detected s |}.

Definition with_resistance_detected (b : bool) (s : device_state_t)
  : device_state_t :=
  {| window_mode := window_mode s; gap_percentage := gap_percentage s;
     calibrated := calibrated s;
     last_activity_time := last_activity_time s;
     resistance_detected := b |}.

(** The initial value of [current_state]. *)
Definition current_state_init : device_state_t :=
  {| window_mode := Servo.WINDOW_MODE_CLOSED; gap_percentage := 0;
     calibrated := false; last_activity_time := 0;
     resistance_detected := false |}.

(** *** NVS: one namespace, entries of type [uint8_t] and [uint32_t]

    Every key is written and read with one type only.  [nvs_open]
    answers [nvs_open_err]; every other operation answers [nvs_io_err]
    and has its effect only when that is [ESP_OK]; a read of an absent
    key answers [ESP_ERR_NVS_NOT_FOUND] and leaves its out-parameter
    alone. *)

Definition NVS_KEY_WINDOW_MODE : string := "window_mode".
Definition NVS_KEY_GAP_PERCENTAGE : string := "gap_pct".
Definition NVS_KEY_CALIBRATED : string := "calibrated".
Definition NVS_KEY_ACTIVITY_TIME : string := "activity_time".

Definition nvs_open : M esp_err_t := gets nvs_open_err.

Definition nvs_set (conv : Z -> Z) (key : string) (value : Z) : M esp_err_t :=
  e <- gets nvs_io_err ;;
  if decide (e = ESP_OK) then
    m <- gets nvs ;; set_nvs (<[key := conv value]> m) ;; ret ESP_OK
  else ret e.

Definition nvs_get (conv : Z -> Z) (key : string) : M (esp_err_t * Z) :=
  e <- gets nvs_io_err ;;
  if decide (e = ESP_OK) then
    m <- gets nvs ;;
    match m !! key with
    | Some v => ret (ESP_OK, conv v)
    | None => ret (ESP_ERR_NVS_NOT_FOUND, 0)
    end
  else ret (e, 0).

Definition nvs_set_u8 : string -> Z -> M esp_err_t := nvs_set u8.
Definition nvs_set_u32 : string -> Z -> M esp_err_t := nvs_set u32.
Definition nvs_get_u8 : string -> M (esp_err_t * Z) := nvs_get u8.
Definition nvs_get_u32 : string -> M (esp_err_t * Z) := nvs_get u32.

Definition nvs_erase_all : M esp_err_t :=
  e <- gets nvs_io_err ;;
  if decide (e = ESP_OK) then set_nvs ∅ ;; ret ESP_OK else ret e.

Definition nvs_commit : M esp_err_t := gets nvs_io_err.

(** [esp_timer_get_time() / 1000], stored in a [uint32_t]. *)
Definition now_ms : M Z := gets (fun w => u32 (Z.quot (clock_us w) 1000)).

(** *** state_management.c *)

(** [esp_err_t state_init(void)]. *)
Definition state_init : M esp_err_t :=
  err <- nvs_open ;;
  if decide (err ≠ ESP_OK) then ESP_LOGE TAG ;; ret err
  else
    t <- now_ms ;;
    update (with_last_activity_time t) ;;
    ret ESP_OK.

(** One step of [state_save] and [state_reset]: on an error of the call,
    log and return it, else continue. *)
Definition or_fail (call : M esp_err_t) (k : M esp_err_t) : M esp_err_t :=
  err <- call ;;
  if decide (err ≠ ESP_OK) then ESP_LOGE TAG ;; ret err else k.

(** [esp_err_t state_save(void)]. *)
Definition state_save : M esp_err_t :=
  s <- gets current_state ;;
  or_fail (nvs_set_u8 NVS_KEY_WINDOW_MODE (u8 (window_mode s)))
 (or_fail (nvs_set_u8 NVS_KEY_GAP_PERCENTAGE (gap_percentage s))
 (or_fail (nvs_set_u8 NVS_KEY_CALIBRATED (if calibrated s then 1 else 0))
 (or_fail (nvs_set_u32 NVS_KEY_ACTIVITY_TIME (u32 (last_activity_time s)))
 (or_fail nvs_commit
 (ret ESP_OK))))).

(** One step of [state_load]: read a key; on success store the checked
    value, on an error other than not-found log it; continue in any
    case. *)
Definition load_key (get : string -> M (esp_err_t * Z)) (key : string)
    (store : Z -> device_state_t -> device_state_t) : M unit :=
  r <- get key ;;
  if decide (r.1 = ESP_OK) then update (store r.2)
  else if decide (r.1 ≠ ESP_ERR_NVS_NOT_FOUND) then ESP_LOGE TAG
  else ret tt.

(** [esp_err_t state_load(void)]. *)
Definition state_load : M esp_err_t :=
  load_key nvs_get_u8 NVS_KEY_WINDOW_MODE
    (fun v => if bool_decide (v <= Servo.WINDOW_MODE_VENT)
              then with_window_mode v
              else with_window_mode Servo.WINDOW_MODE_CLOSED) ;;
  load_key nvs_get_u8 NVS_KEY_GAP_PERCENTAGE
    (fun v => if bool_decide (v <= 100) then with_gap_percentage v
              else with_gap_percentage 0) ;;
  load_key nvs_get_u8 NVS_KEY_CALIBRATED
    (fun v => with_calibrated (bool_decide (v = 1))) ;;
  load_key nvs_get_u32 NVS_KEY_ACTIVITY_TIME with_last_activity_time ;;
  ret ESP_OK.

(** [esp_err_t state_reset(void)]. *)
Definition state_reset : M esp_err_t :=
  t <- now_ms ;;
  set_current_state
    {| window_mode := Servo.WINDOW_MODE_CLOSED; gap_percentage := 0;
       calibrated := false; last_activity_time := t;
       resistance_detected := false |} ;;
  or_fail nvs_erase_all (or_fail nvs_commit (ret ESP_OK)).

(** [device_state_t state_get_current(void)]. *)
Definition state_get_current : M device_state_t := gets current_state.

(** [esp_err_t state_update_window_mode(window_mode_t mode)]; the
    argument is a value of the enumerated type. *)
Definition state_update_window_mode (mode : Z) : M esp_err_t :=
  if bool_decide (mode > Servo.WINDOW_MODE_VENT) then
    ESP_LOGE TAG ;; ret ESP_ERR_INVALID_ARG
  else
    update (with_window_mode mode) ;;
    t <- now_ms ;;
    update (with_last_activity_time t) ;;
    ret ESP_OK.

(** [esp_err_t state_update_gap_percentage(uint8_t percentage)]. *)
Definition state_update_gap_percentage (percentage : Z) : M esp_err_t :=
  let percentage := u8 percentage in
  if bool_decide (percentage > 100) then
    ESP_LOGE TAG ;; ret ESP_ERR_INVALID_ARG
  else
    update (with_gap_percentage percentage) ;;
    t <- now_ms ;;
    update (with_last_activity_time t) ;;
    ret ESP_OK.

(** [esp_err_t state_update_calibration(bool calibrated)]. *)
Definition state_update_calibration (b : bool) : M esp_err_t :=
  update (with_calibrated b) ;; ret ESP_OK.

(** [esp_err_t state_update_activity_time(void)]. *)
Definition state_update_activity_time : M esp_err_t :=
  t <- now_ms ;; update (with_last_activity_time t) ;; ret ESP_OK.

(** [esp_err_t state_update_resistance_detected(bool detected)]. *)
Definition state_update_resistance_detected (detected : bool)
  : M esp_err_t :=
  s <- gets current_state ;;
  (if negb (eqb (resistance_detected s) detected) then
     update (with_resistance_detected detected) ;;
     if detected then
       t <- now_ms ;; update (with_last_activity_time t)
     else ret tt
   else ret tt) ;;
  ret ESP_OK.

(** [bool state_is_calibration_required(void)]. *)
Definition state_is_calibration_required : M bool :=
  gets (fun w => negb (calibrated (current_state w))).

(** [uint32_t state_get_inactivity_time(void)]. *)
Definition state_get_inactivity_time : M Z :=
  current_time <- now_ms ;;
  s <- gets current_state ;;
  ret (u32 (current_time - last_activity_time s)).

(** [bool state_is_resistance_detected(void)]. *)
Definition state_is_resistance_detected : M bool :=
  gets (fun w => resistance_detected (current_state w)).

(** *** Vocabulary of the statements *)

(** A restart: the static is re-initialised, the NVS and the environment
    persist. *)
Definition restart (w : world) : world :=
  {| current_state := current_state_init; nvs := nvs w;
     nvs_open_err := nvs_open_err w; nvs_io_err := nvs_io_err w;
     clock_us := clock_us w; trace := trace w |}.

(** The same world at another reading of the clock. *)
Definition at_clock (t : Z) (w : world) : world :=
  {| current_state := current_state w; nvs := nvs w;
     nvs_open_err := nvs_open_err w; nvs_io_err := nvs_io_err w;
     clock_us := t; trace := trace w |}.

(** The values a [device_state_t] can hold and the module accepts. *)
Definition in_range (s : device_state_t) : Prop :=
  0 <= window_mode s <= Servo.WINDOW_MODE_VENT
  ∧ 0 <= gap_percentage s <= 100
  ∧ 0 <= last_activity_time s < 2 ^ 32.

(** The part of the state that [state_save] stores. *)
Definition persistent (s : device_state_t) : Z * Z * bool * Z :=
  (window_mode s, gap_percentage s, calibrated s, last_activity_time s).

(** What a successful [state_save] of record [s] leaves in the flash. *)
Definition saved (s : device_state_t) (m : gmap string Z) : gmap string Z :=
  <[NVS_KEY_ACTIVITY_TIME := u32 (u32 (last_activity_time s))]>
    (<[NVS_KEY_CALIBRATED := u8 (if calibrated s then 1 else 0)]>
       (<[NVS_KEY_GAP_PERCENTAGE := u8 (gap_percentage s)]>
          (<[NVS_KEY_WINDOW_MODE := u8 (u8 (window_mode s))]> m))).

(** The module before [state_init], on a device with an empty, working
    flash, [t] microseconds after power-on. *)
Definition power_on (t : Z) : world :=
  {| current_state := current_state_init; nvs := ∅;
     nvs_open_err := ESP_OK; nvs_io_err := ESP_OK;
     clock_us := t; trace := [] |}.

(** The record after a factory reset at clock reading [t]. *)
Definition factory_record (t : Z) : device_state_t :=
  {| window_mode := Servo.WINDOW_MODE_CLOSED; gap_percentage := 0;
     calibrated := false; last_activity_time := u32 (Z.quot t 1000);
     resistance_detected := false |}.

(** An operation leaves a record within these values so. *)
Definition keeps_range {A} (m : M A) : Prop :=
  ∀ w, in_range (current_state w) → in_range (current_state (m w).2).

(** Bring-up after a restart, as [init_device] does it. *)
Definition bring_up : M esp_err_t :=
  err <- state_init ;;
  if decide (err ≠ ESP_OK) then ret err else state_load.

End State.

(** ** The battery gauge of [main/power_management.c] *)

Module Power.

Inductive power_source_t : Set :=
| POWER_SOURCE_BATTERY
| POWER_SOURCE_EXTERNAL.

#[global] Instance power_source_eq_dec : EqDecision power_source_t.
Proof. solve_decision. Defined.

(** [power_config_t] (power_management.h). *)
Record power_config_t : Type := {
  source : power_source_t;
  low_battery_threshold : Z;
  critical_battery_threshold : Z;
  sleep_timeout_ms : Z;
  enable_auto_sleep : bool
}.

Definition BATTERY_FULL_VOLTAGE : Z := 4200.
Definition BATTERY_EMPTY_VOLTAGE : Z := 3000.

(** The world: the fields of the static [power_state] that the gauge
    uses ([calibrated]: [adc_cali_handle != NULL]), and the environment:
    [adc_raw] is what [adc_oneshot_read] delivers ([None]: the read
    fails), [adc_cali mv] what [adc_cali_raw_to_voltage] makes of a
    sample ([None]: it fails), [gpio_level] the level of the
    power-source pin. *)
Record world : Type := {
  config : power_config_t;
  battery_voltage : Z;
  battery_level : Z;
  calibrated : bool;
  adc_raw : option Z;
  adc_cali : Z -> option Z;
  gpio_level : Z
}.

Definition M (A : Type) : Type := world -> A * world.

Definition ret {A} (a : A) : M A := fun w => (a, w).

Definition bind {A B} (m : M A) (k : A -> M B) : M B :=
  fun w => let (a, w') := m w in k a w'.

Declare Scope power_scope.
Delimit Scope power_scope with power.
Notation "x <- m ;; k" := (bind m (fun x => k))
  (at level 100, m at next level, right associativity) : power_scope.
Notation "m ;; k" := (bind m (fun _ => k))
  (at level 100, right associativity) : power_scope.
Open Scope power_scope.

Definition gets {A} (f : world -> A) : M A := fun w => (f w, w).

Definition set_battery_voltage (v : Z) : M unit :=
  fun w => (tt, {| config := config w; battery_voltage := v;
                   battery_level := battery_level w;
                   calibrated := calibrated w; adc_raw := adc_raw w;
                   adc_cali := adc_cali w; gpio_level := gpio_level w |}).

Definition set_battery_level (l : Z) : M unit :=
  fun w => (tt, {| config := config w;
                   battery_voltage := battery_voltage w;
                   battery_level := l;
                   calibrated := calibrated w; adc_raw := adc_raw w;
                   adc_cali := adc_cali w; gpio_level := gpio_level w |}).

(** [static uint16_t power_read_battery_voltage(void)].  The product
    [adc_raw * 3300] is taken in [Z]: the samples of the 12-bit
    converter are far from the range of [int]. *)
Definition power_read_battery_voltage : M Z :=
  r <- gets adc_raw ;;
  match r with
  | Some adc_raw_value =>
      cal <- gets calibrated ;;
      if cal then
        f <- gets adc_cali ;;
        match f adc_raw_value with
        | Some voltage_mv => ret (u16 voltage_mv)
        | None => ret 0
        end
      else ret (u16 (Z.quot (adc_raw_value * 3300) 4095))
  | None => ret 0
  end.

(** [static uint8_t power_calculate_battery_level(uint16_t voltage)]. *)
Definition power_calculate_battery_level (voltage : Z) : Z :=
  let voltage := u16 voltage in
  if bool_decide (voltage >= BATTERY_FULL_VOLTAGE) then 100
  else if bool_decide (voltage <= BATTERY_EMPTY_VOLTAGE) then 0
  else
    u8 (Z.quot ((voltage - BATTERY_EMPTY_VOLTAGE) * 100)
               (BATTERY_FULL_VOLTAGE - BATTERY_EMPTY_VOLTAGE)).

(** [static esp_err_t power_update_battery_status(void)]. *)
Definition power_update_battery_status : M esp_err_t :=
  v <- power_read_battery_voltage ;;
  set_battery_voltage v ;;
  v <- gets battery_voltage ;;
  set_battery_level (power_calculate_battery_level v) ;;
  ret ESP_OK.

(** [static bool power_check_external_source(void)]. *)
Definition power_check_external_source : M bool :=
  level <- gets gpio_level ;; ret (bool_decide (level = 1)).

(** [uint8_t power_get_battery_level(void)]. *)
Definition power_get_battery_level : M Z := gets battery_level.

(** [uint16_t power_get_battery_voltage(void)]. *)
Definition power_get_battery_voltage : M Z := gets battery_voltage.

(** [bool power_is_low_battery(void)]. *)
Definition power_is_low_battery : M bool :=
  c <- gets config ;;
  if decide (source c = POWER_SOURCE_EXTERNAL) then ret false
  else
    v <- gets battery_voltage ;;
    ret (bool_decide (v <= low_battery_threshold c)).

(** [bool power_is_critical_battery(void)]. *)
Definition power_is_critical_battery : M bool :=
  c <- gets config ;;
  if decide (source c = POWER_SOURCE_EXTERNAL) then ret false
  else
    v <- gets battery_voltage ;;
    ret (bool_decide (v <= critical_battery_threshold c)).

(** [power_source_t power_get_source(void)]. *)
Definition power_get_source : M power_source_t :=
  ext <- power_check_external_source ;;
  ret (if ext then POWER_SOURCE_EXTERNAL else POWER_SOURCE_BATTERY).

(** *** Vocabulary of the statements *)

(** The configuration that [init_device] of main.c passes, and a device
    on battery with it whose converter has no calibration scheme and
    delivers sample [raw]. *)
Definition main_config : power_config_t :=
  {| source := POWER_SOURCE_BATTERY; low_battery_threshold := 3300;
     critical_battery_threshold := 3000; sleep_timeout_ms := 300000;
     enable_auto_sleep := true |}.

Definition uncalibrated (raw : option Z) : world :=
  {| config := main_config; battery_voltage := 0; battery_level := 0;
     calibrated := false; adc_raw := raw; adc_cali := fun _ => None;
     gpio_level := 0 |}.

End Power.

(** ** The main task of [main/main.c] *)

Module Main.

(** The world of main.c: the statics of the modules it calls and the
    bits of its event group [xWindowEvents].  The warnings of main.c are
    recorded, under its own tag, in the trace of the servo and ZigBee
    modules, whose calls they stand between. *)
Record world : Type := {
  servo_world : Servo.world;
  state_world : State.world;
  xWindowEvents : Z
}.

Definition M (A : Type) : Type := world -> A * world.

Definition ret {A} (a : A) : M A := fun w => (a, w).

Definition bind {A B} (m : M A) (k : A -> M B) : M B :=
  fun w => let (a, w') := m w in k a w'.

Declare Scope main_scope.
Delimit Scope main_scope with main.
Notation "x <- m ;; k" := (bind m (fun x => k))
  (at level 100, m at next level, right associativity) : main_scope.
Notation "m ;; k" := (bind m (fun _ => k))
  (at level 100, right associativity) : main_scope.
Open Scope main_scope.

(** A call into servo_control.c or zigbee_handler.c. *)
Definition servo_call {A} (m : Servo.M A) : M A :=
  fun w => let (a, s) := m (servo_world w) in
           (a, {| servo_world := s; state_world := state_world w;
                  xWindowEvents := xWindowEvents w |}).

(** A call into state_management.c. *)
Definition state_call {A} (m : State.M A) : M A :=
  fun w => let (a, s) := m (state_world w) in
           (a, {| servo_world := servo_world w; state_world := s;
                  xWindowEvents := xWindowEvents w |}).

Definition TAG : string := "WINDOW_MAIN".
Definition ESP_LOGW (tag : string) : M unit :=
  servo_call (Servo.emit (Servo.Log LOG_WARN tag)).

Definition EVENT_WINDOW_MODE_CHANGED : Z := Z.shiftl 1 0.
Definition EVENT_GAP_CHANGED : Z := Z.shiftl 1 1.
Definition EVENT_RESISTANCE_DETECTED : Z := Z.shiftl 1 2.
Definition EVENT_CALIBRATION_REQUIRED : Z := Z.shiftl 1 3.

Definition xEventGroupSetBits (bits : Z) : M unit :=
  fun w => (tt, {| servo_world := servo_world w;
                   state_world := state_world w;
                   xWindowEvents := Z.lor (xWindowEvents w) bits |}).

(** [static void handle_window_events(void)]. *)
Definition handle_window_events : M unit :=
  stuck <- servo_call Servo.servo_check_resistance ;;
  if stuck then
    ESP_LOGW TAG ;;
    servo_call Servo.servo_disable ;;
    state_call (State.state_update_resistance_detected true) ;;
    st <- servo_call Servo.zigbee_get_state ;;
    (if decide (st = Servo.ZIGBEE_STATE_CONNECTED) then
       servo_call (Servo.zigbee_send_alert Servo.ZIGBEE_ALERT_RESISTANCE 1) ;;
       ret tt
     else ret tt) ;;
    xEventGroupSetBits EVENT_RESISTANCE_DETECTED
  else
    state_call (State.state_update_resistance_detected false) ;;
    ret tt.

(** *** Vocabulary of the statements *)

(** [n] consecutive calls of [handle_window_events], the part of the
    loop of [main_task] that touches the window. *)
Fixpoint polls (n : nat) : M unit :=
  match n with
  | O => ret tt
  | S n => handle_window_events ;; polls n
  end.

(** The alert of the poll. *)
Definition stuck_alert : Servo.event :=
  Servo.ZbAlert Servo.ESP_ZIGBEE_ALERT_STUCK 1.

(** The radio traffic between two worlds. *)
Definition radio (w w' : world) : list Servo.event :=
  List.filter Servo.is_radio (Servo.emitted (servo_world w) (servo_world w')).

(** The poll finds resistance: the flag is latched, or the sample it
    takes is above the threshold. *)
Definition stuck (w : world) : Prop :=
  Servo.resistance_detected (servo_world w) = true
  ∨ Servo.trips (servo_world w) (Servo.adc_reads (servo_world w)).

#[global] Instance stuck_dec w : Decision (stuck w).
Proof. unfold stuck. apply _. Defined.

End Main.

(** * Properties of the state machine *)

Module DeviceFacts.
Import Device.

Lemma u8_small x : 0 <= x < 256 -> u8 x = x.
Proof. intros H. unfold u8. apply Z.mod_small. lia. Qed.

Lemma u8_range x : 0 <= u8 x < 256.
Proof. unfold u8. apply Z.mod_pos_bound. lia. Qed.

Lemma u8_idemp x : u8 (u8 x) = u8 x.
Proof. apply u8_small, u8_range. Qed.

(** Unfolding of the model down to the conditions of the C code. *)
Ltac unfold_model :=
  cbv beta iota zeta delta
    [bind ret gets modify emit ESP_LOGE ESP_LOGW set_servo_ctx set_state_ctx
     set_nvs set_state get_state update_state now_ms with_state
     with_mode with_handle_pos with_gap_percentage with_calibrated
     with_in_motion with_last_action_time with_nvs_opened with_last_save_time
     state_update_last_action_time
     servo_set_handle_position servo_set_gap_percentage
     servo_get_handle_position servo_get_gap_percentage
     state_set_window_mode state_set_handle_position state_set_gap_percentage
     state_get_window_state state_factory_reset or_fail
     nvs_erase_all nvs_commit
     state_ctx servo_ctx zigbee_ctx zb_ctx nvs nvs_open_err nvs_io_err
     zb_queue_full clock_us trace
     initialized config state last_save_time nvs_opened
     mode handle_pos gap_percentage calibrated in_motion last_action_time
     servo_initialized servo_handle_pos servo_gap_percentage
     handle_calibrated gap_calibrated
     zigbee_initialized zigbee_state current_mode current_percentage
     zb_initialized zb_state last_report_time connection_retry_count
     save_to_nvs save_interval_ms restore_on_boot negb fst snd].

(** The same, with the calls into the radio unfolded too. *)
Ltac unfold_radio :=
  cbv beta iota zeta delta
    [bind ret gets modify emit ESP_LOGE ESP_LOGW set_zigbee_ctx set_zb_ctx
     update_zigbee_ctx update_zb_ctx now_ms
     with_current with_zigbee_initialized with_zigbee_state
     with_zb_initialized with_zb_state with_last_report_time
     with_connection_retry_count
     zigbee_device_report_state zigbee_device_send_alert
     esp_zigbee_report_window_state esp_zigbee_send_alert
     zigbee_device_init zigbee_device_start esp_zigbee_init esp_zigbee_start
     state_ctx servo_ctx zigbee_ctx zb_ctx nvs nvs_open_err nvs_io_err
     zb_queue_full clock_us trace
     zigbee_initialized zigbee_state current_mode current_percentage
     zb_initialized zb_state last_report_time connection_retry_count
     negb fst snd].

Ltac proj_simpl :=
  cbn [fst snd state_ctx servo_ctx zigbee_ctx zb_ctx nvs nvs_open_err
       nvs_io_err zb_queue_full clock_us trace
       initialized config state last_save_time nvs_opened
       mode handle_pos gap_percentage calibrated in_motion last_action_time
       servo_initialized servo_handle_pos servo_gap_percentage
       handle_calibrated gap_calibrated with_state
       zigbee_initialized zigbee_state current_mode current_percentage
       zb_initialized zb_state last_report_time connection_retry_count
       save_to_nvs save_interval_ms restore_on_boot] in *.

Ltac break_world w :=
  destruct w as [[?ini [? ? ?] [?md ?hp ?gp ?cal ?mot ?lat] ?lst ?nvo]
                 [?sini ?shp ?sgp ?hc ?gc]
                 [?zini ?zst ?zcm ?zcp] [?bini ?bst ?blr ?brc]
                 ?nv ?oe ?ie ?qf ?clk ?tr].

Ltac u8_consts :=
  change (u8 0) with 0 in *; change (u8 20) with 20 in *;
  change (u8 100) with 100 in *.

Ltac consts :=
  unfold WINDOW_MODE_CLOSED, WINDOW_MODE_OPEN, WINDOW_MODE_VENTILATE,
    WINDOW_MODE_CUSTOM, HANDLE_POSITION_CLOSED, HANDLE_POSITION_OPEN,
    HANDLE_POSITION_VENTILATE in *.

(** Case analysis on the conditions, outermost first. *)
Ltac break_conds :=
  repeat ((match goal with
           | |- context [if ?b then _ else _] => is_var b; destruct b
           end || case_bool_decide || case_decide); cbv beta iota zeta).

Lemma only_logs_refl w : only_logs w w.
Proof.
  repeat split. exists []. by rewrite app_nil_r.
Qed.

Lemma only_logs_log lvl tag w : only_logs w (emit (Log lvl tag) w).2.
Proof. repeat split. by exists [Log lvl tag]. Qed.

Lemma only_logs_trans w1 w2 w3 :
  only_logs w1 w2 → only_logs w2 w3 → only_logs w1 w3.
Proof.
  intros (A1 & A2 & A3 & A4 & A5 & l1 & A6 & A7)
         (B1 & B2 & B3 & B4 & B5 & l2 & B6 & B7).
  repeat split; try congruence.
  exists (l1 ++ l2). rewrite B6, A6, app_assoc. split; [done|].
  rewrite forallb_app, A7, B7. done.
Qed.

Lemma state_save_to_nvs_frame w : only_logs w (state_save_to_nvs w).2.
Proof.
  unfold only_logs, state_save_to_nvs, or_fail, nvs_set_u8, nvs_commit.
  cbv [bind ret gets modify emit ESP_LOGE set_nvs].
  destruct (nvs_opened (state_ctx w)); simpl.
  2:{ repeat split; eauto. }
  destruct (decide (nvs_io_err w = ESP_OK)) as [->|Hne]; simpl.
  - repeat split. exists []. by rewrite app_nil_r.
  - destruct (decide (nvs_io_err w ≠ ESP_OK)); [|done]. simpl.
    repeat split; eauto.
Qed.

Lemma save_if_configured_frame w : only_logs w (save_if_configured w).2.
Proof.
  unfold save_if_configured. cbv [bind ret gets].
  destruct (save_to_nvs (config (state_ctx w)) && nvs_opened (state_ctx w)).
  - pose proof (state_save_to_nvs_frame w) as H.
    destruct (state_save_to_nvs w) as [r w']. exact H.
  - apply only_logs_refl.
Qed.

Lemma state_save_to_nvs_nvs w :
  nvs (state_save_to_nvs w).2 = nvs w
  ∨ nvs (state_save_to_nvs w).2 = saved_record (state (state_ctx w)) (nvs w).
Proof.
  unfold state_save_to_nvs, or_fail, nvs_set_u8, nvs_commit, saved_record.
  cbv [bind ret gets modify emit ESP_LOGE set_nvs].
  destruct (nvs_opened (state_ctx w)); simpl; [|by left].
  destruct (decide (nvs_io_err w = ESP_OK)) as [->|Hne]; simpl.
  - right. by rewrite u8_idemp.
  - destruct (decide (nvs_io_err w ≠ ESP_OK)); [|done]. by left.
Qed.

Lemma save_if_configured_nvs w :
  nvs (save_if_configured w).2 = nvs w
  ∨ nvs (save_if_configured w).2
    = saved_record (state (state_ctx w)) (nvs w).
Proof.
  unfold save_if_configured. cbv [bind ret gets].
  destruct (save_to_nvs (config (state_ctx w)) && nvs_opened (state_ctx w)).
  - pose proof (state_save_to_nvs_nvs w) as H.
    destruct (state_save_to_nvs w) as [r w']. exact H.
  - by left.
Qed.

Lemma state_save_to_nvs_radio w :
  zigbee_ctx (state_save_to_nvs w).2 = zigbee_ctx w
  ∧ zb_ctx (state_save_to_nvs w).2 = zb_ctx w
  ∧ zb_queue_full (state_save_to_nvs w).2 = zb_queue_full w.
Proof.
  unfold state_save_to_nvs, or_fail, nvs_set_u8, nvs_commit.
  cbv [bind ret gets modify emit ESP_LOGE set_nvs].
  destruct (nvs_opened (state_ctx w)); simpl; [|done].
  destruct (decide (nvs_io_err w = ESP_OK)) as [->|Hne]; simpl; [done|].
  destruct (decide (nvs_io_err w ≠ ESP_OK)); done.
Qed.

Lemma save_if_configured_radio w :
  zigbee_ctx (save_if_configured w).2 = zigbee_ctx w
  ∧ zb_ctx (save_if_configured w).2 = zb_ctx w
  ∧ zb_queue_full (save_if_configured w).2 = zb_queue_full w.
Proof.
  unfold save_if_configured. cbv [bind ret gets].
  destruct (save_to_nvs (config (state_ctx w)) && nvs_opened (state_ctx w)).
  - pose proof (state_save_to_nvs_radio w) as H.
    destruct (state_save_to_nvs w) as [r w']. exact H.
  - done.
Qed.

Ltac step_save :=
  match goal with
  | |- context [save_if_configured ?W] =>
      let Hs := fresh "Hsave" in
      let Hn := fresh "Hnvs" in
      let Hr := fresh "Hradio" in
      pose proof (save_if_configured_frame W) as Hs;
      pose proof (save_if_configured_nvs W) as Hn;
      pose proof (save_if_configured_radio W) as Hr;
      destruct (save_if_configured W) as [[] ?w'];
      destruct Hs as (? & ? & ? & ? & ? & ?l & ? & ?);
      destruct Hr as (? & ? & ?)
  end.

(** ** The two calls into the radio *)

Ltac known_connected :=
  match goal with
  | H : ¬ (?b ≠ ESP_ZIGBEE_STATE_CONNECTED ∧ ?b ≠ ESP_ZIGBEE_STATE_PAIRED)
    |- _ =>
      assert (b = ESP_ZIGBEE_STATE_CONNECTED ∨ b = ESP_ZIGBEE_STATE_PAIRED)
        by (destruct b; auto; exfalso; apply H; by split)
  end.

(** [zigbee_device_report_state] changes only the statics of the radio
    and the trace; it returns [ESP_OK] exactly when the radio is up and
    the state is one it reports, and then the report is all it
    appended. *)
Lemma zigbee_device_report_state_spec m p w :
  ∃ r cm cp lrt l,
    zigbee_device_report_state m p w =
      (r, {| state_ctx := state_ctx w; servo_ctx := servo_ctx w;
             zigbee_ctx :=
               {| zigbee_initialized := zigbee_initialized (zigbee_ctx w);
                  zigbee_state := zigbee_state (zigbee_ctx w);
                  current_mode := cm; current_percentage := cp |};
             zb_ctx :=
               {| zb_initialized := zb_initialized (zb_ctx w);
                  zb_state := zb_state (zb_ctx w);
                  last_report_time := lrt;
                  connection_retry_count :=
                    connection_retry_count (zb_ctx w) |};
             nvs := nvs w; nvs_open_err := nvs_open_err w;
             nvs_io_err := nvs_io_err w; zb_queue_full := zb_queue_full w;
             clock_us := clock_us w; trace := trace w ++ l |})
    ∧ (r = ESP_OK ↔ radio_up w ∧ reportable m p)
    ∧ report_outcome w m p l.
Proof.
  break_world w.
  unfold report_outcome, radio_up, reportable. unfold_radio.
  rewrite ?u8_idemp.
  break_conds.
  all: try done.
  all: try (exfalso; unfold ESP_ZIGBEE_WINDOW_MODE_CLOSED,
              ESP_ZIGBEE_WINDOW_MODE_OPEN, ESP_ZIGBEE_WINDOW_MODE_VENTILATE
              in *; lia).
  all: eexists _, _, _, _, _; (split; [rewrite <- ?app_assoc; reflexivity|]).
  all: try known_connected.
  all: first
    [ split; [split; [intros _|done]|left]; subst;
      repeat split; auto; lia
    | split; [split; [done|intros HH; exfalso; revert HH]
             |right; split; [intros HH; exfalso; revert HH|]];
      [ intuition (try congruence; try lia)
      | intuition (try congruence; try lia)
      | split; [done|simpl; auto] ] ].
Qed.

(** [zigbee_device_send_alert] changes only the trace; it returns
    [ESP_OK] exactly when the radio is up, and then the alert is all it
    appended. *)
Lemma zigbee_device_send_alert_spec a v w :
  ∃ r l,
    zigbee_device_send_alert a v w =
      (r, {| state_ctx := state_ctx w; servo_ctx := servo_ctx w;
             zigbee_ctx := zigbee_ctx w; zb_ctx := zb_ctx w;
             nvs := nvs w; nvs_open_err := nvs_open_err w;
             nvs_io_err := nvs_io_err w; zb_queue_full := zb_queue_full w;
             clock_us := clock_us w; trace := trace w ++ l |})
    ∧ (r = ESP_OK ↔ radio_up w)
    ∧ alert_outcome w a v l.
Proof.
  break_world w.
  unfold alert_outcome, radio_up. unfold_radio.
  rewrite ?u8_idemp.
  break_conds.
  all: try done.
  all: eexists _, _; (split; [rewrite <- ?app_assoc; reflexivity|]).
  all: try known_connected.
  all: first
    [ split; [split; [intros _|done]|left]; subst;
      repeat split; auto
    | split; [split; [done|intros HH; exfalso; revert HH]
             |right; split; [intros HH; exfalso; revert HH|]];
      [ intuition (try congruence)
      | intuition (try congruence)
      | split; [done|simpl; auto] ] ].
Qed.

Lemma report_outcome_no_servo_cmd w m p l :
  report_outcome w m p l → List.filter is_servo_cmd l = [].
Proof.
  intros [(_ & _ & ->)|(_ & Hl & _)]; [done|].
  induction l as [|e l IH]; [done|]. simpl in *.
  apply andb_true_iff in Hl as [He Hl]. destruct e; simpl in *; auto; done.
Qed.

Lemma alert_outcome_no_servo_cmd w a v l :
  alert_outcome w a v l → List.filter is_servo_cmd l = [].
Proof.
  intros [(_ & ->)|(_ & Hl & _)]; [done|].
  induction l as [|e l IH]; [done|]. simpl in *.
  apply andb_true_iff in Hl as [He Hl]. destruct e; simpl in *; auto; done.
Qed.

Lemma logs_no_outward l :
  forallb is_log l = true → List.filter is_outward l = [].
Proof.
  induction l as [|e l IH]; [done|]. simpl. intros [He Hl]%andb_true_iff.
  destruct e; simpl in *; try done; auto.
Qed.

Lemma report_outcome_outward w m p l :
  report_outcome w m p l → List.filter is_outward l = sent_report w m p.
Proof.
  unfold sent_report.
  intros [(Hu & Hr & ->)|(Hn & Hl & _)].
  - by rewrite decide_True.
  - rewrite decide_False by done. by apply logs_no_outward.
Qed.

Lemma alert_outcome_outward w a v l :
  alert_outcome w a v l → List.filter is_outward l = sent_alert w a v.
Proof.
  unfold sent_alert.
  intros [(Hu & ->)|(Hn & Hl & _)].
  - by rewrite decide_True.
  - rewrite decide_False by done. by apply logs_no_outward.
Qed.

Lemma radio_kept_refl w : radio_kept w w.
Proof. by repeat split. Qed.

Lemma radio_kept_up w w' : radio_kept w w' → radio_up w' ↔ radio_up w.
Proof.
  intros (A & _ & B & C & _ & D). unfold radio_up. by rewrite A, B, C, D.
Qed.

Lemma radio_kept_sent_report w w' m p :
  radio_kept w w' → sent_report w' m p = sent_report w m p.
Proof.
  intros H%radio_kept_up. unfold sent_report.
  destruct (decide (radio_up w ∧ reportable m p)) as [Hd|Hd].
  - rewrite decide_True; [done|]. tauto.
  - rewrite decide_False; [done|]. tauto.
Qed.

Lemma radio_kept_sent_alert w w' a v :
  radio_kept w w' → sent_alert w' a v = sent_alert w a v.
Proof.
  intros H%radio_kept_up. unfold sent_alert.
  destruct (decide (radio_up w)) as [Hd|Hd].
  - rewrite decide_True; [done|]. tauto.
  - rewrite decide_False; [done|]. tauto.
Qed.

Lemma sent_report_reportable w m p :
  reportable m p →
  sent_report w m p
  = if decide (radio_up w) then [ZbReportState m (u8 p)] else [].
Proof.
  intros Hr. unfold sent_report.
  destruct (decide (radio_up w)) as [Hu|Hu].
  - by rewrite decide_True.
  - rewrite decide_False; [done|]. tauto.
Qed.

Lemma sent_report_refused w m p : ¬ reportable m p → sent_report w m p = [].
Proof.
  intros Hr. unfold sent_report. rewrite decide_False; [done|]. tauto.
Qed.

Lemma reportable_preset m p :
  m = WINDOW_MODE_CLOSED ∨ m = WINDOW_MODE_OPEN ∨ m = WINDOW_MODE_VENTILATE →
  0 <= p <= 100 → reportable m p.
Proof. intros Hm Hp. split; [done|]. rewrite u8_small; lia. Qed.

Lemma not_reportable_custom p : ¬ reportable WINDOW_MODE_CUSTOM p.
Proof. unfold reportable. consts. lia. Qed.

(** Replaces a call into the radio by what it returns. *)
Ltac step_radio :=
  match goal with
  | |- context [zigbee_device_report_state ?m ?p ?W] =>
      let Ho := fresh "Hrep" in
      destruct (zigbee_device_report_state_spec m p W)
        as (? & ?cm & ?cp & ?lrt & ?rep & -> & _ & Ho)
  | |- context [zigbee_device_send_alert ?a ?v ?W] =>
      let Ho := fresh "Halert" in
      destruct (zigbee_device_send_alert_spec a v W)
        as (? & ?alr & -> & _ & Ho)
  end.

Ltac solve_nvs :=
  match goal with
  | H : state_ctx ?w = _ |- context [state_ctx ?w] => rewrite H
  end; proj_simpl; assumption.

Ltac solve_only_logs :=
  unfold only_logs; proj_simpl; repeat split; rewrite <- ?app_assoc;
  first [ by eexists; split; [reflexivity|]
        | by exists []; rewrite app_nil_r ].

(** Runs a setter on a world given by its fields and splits on the
    conditions of the code; the conclusion is kept folded meanwhile. *)
Ltac crunch w :=
  break_world w;
  match goal with
  | |- _ = _ → ?Q =>
      let G := fresh "G" in
      set (G := Q); unfold_model; break_conds;
      repeat (step_radio; unfold_model; break_conds); u8_consts;
      try step_save; subst G; cbv beta iota zeta; proj_simpl
  end;
  try done; try (exfalso; consts; lia).

Ltac solve_trace :=
  match goal with
  | H : trace _ = _ |- trace _ = _ => rewrite H
  end; by rewrite <- ?app_assoc.

Ltac solve_facts :=
  unfold mode_target, valid_mode, valid_handle in *; proj_simpl;
  repeat case_decide; proj_simpl;
  repeat split;
  first [ done
        | consts; lia
        | unfold emitted; simpl; by rewrite drop_app_length
        | left; done
        | right; consts; lia ].

Ltac pick_case :=
  first [ solve [left; solve_facts]
        | solve [right; left; solve_facts]
        | solve [right; right; left; solve_facts]
        | solve [right; right; right; solve_facts] ].

(** What [state_set_window_mode] does: it either refuses or finds the
    mode already set (only log messages are written), or it commands the
    handle servo, then (except for the custom mode) the gap servo, and
    commits the new state. *)
Lemma state_set_window_mode_spec m w r w' :
  state_set_window_mode m w = (r, w') →
  let old := state (state_ctx w) in
  (only_logs w w' ∧ nvs w' = nvs w
   ∧ ((r = ESP_ERR_INVALID_STATE ∧ initialized (state_ctx w) = false)
      ∨ (r = ESP_ERR_INVALID_ARG ∧ initialized (state_ctx w) = true
         ∧ ¬ valid_mode m)
      ∨ (r = ESP_OK ∧ initialized (state_ctx w) = true ∧ valid_mode m
         ∧ mode old = m ∧ emitted w w' = [Log LOG_WARN TAG])
      ∨ (r ≠ ESP_OK ∧ initialized (state_ctx w) = true ∧ valid_mode m
         ∧ mode old ≠ m
         ∧ (servo_initialized (servo_ctx w) = false
            ∨ ¬ valid_handle (mode_target m old).1))))
  ∨ (r = ESP_OK ∧ valid_mode m ∧ initialized (state_ctx w) = true
     ∧ servo_initialized (servo_ctx w) = true
     ∧ mode old ≠ m
     ∧ ∃ rep alr logs,
         let '(hp, gp) := mode_target m old in
         valid_handle hp
         ∧ state_ctx w' =
             with_state (state_ctx w)
               {| mode := m; handle_pos := hp; gap_percentage := gp;
                  calibrated := calibrated old; in_motion := true;
                  last_action_time := u32 (Z.quot (clock_us w) 1000) |}
         ∧ servo_ctx w' =
             {| servo_initialized := true; servo_handle_pos := hp;
                servo_gap_percentage :=
                  (if decide (m = WINDOW_MODE_CUSTOM) then
                     servo_gap_percentage (servo_ctx w)
                   else gp);
                handle_calibrated := handle_calibrated (servo_ctx w);
                gap_calibrated := gap_calibrated (servo_ctx w) |}
         ∧ trace w' =
             trace w ++ [ServoHandleCmd hp]
             ++ (if decide (m = WINDOW_MODE_CUSTOM) then []
                 else [ServoGapCmd gp])
             ++ rep ++ alr ++ logs
         ∧ report_outcome w m gp rep
         ∧ alert_outcome w ZIGBEE_ALERT_MODE_CHANGED m alr
         ∧ forallb is_log logs = true
         ∧ (nvs w' = nvs w
            ∨ nvs w' = saved_record (state (state_ctx w')) (nvs w))).
Proof.
  crunch w.
  all: intros [= <- <-]; cbv zeta.
  all: try solve
    [ left; split; [solve_only_logs|]; split; [done|]; pick_case ].
  all: right; unfold mode_target, valid_handle, valid_mode; proj_simpl.
  all: repeat (split; [first [done | consts; lia]|]).
  all: match goal with
       | _ : report_outcome _ _ _ ?rep, _ : alert_outcome _ _ _ ?alr,
         _ : forallb is_log ?l = true |- _ => exists rep, alr, l
       end.
  all: repeat case_decide; try done; simplify_eq.
  all: try (exfalso; consts; lia).
  all: u8_consts; repeat split; try done; try (consts; lia); try congruence.
  all: try solve_trace.
  all: try solve_nvs.
  all: assumption.
Qed.

(** What [state_set_handle_position] does. *)
Lemma state_set_handle_position_spec p w r w' :
  state_set_handle_position p w = (r, w') →
  let old := state (state_ctx w) in
  (only_logs w w' ∧ nvs w' = nvs w
   ∧ ((r = ESP_ERR_INVALID_STATE ∧ initialized (state_ctx w) = false)
      ∨ (r = ESP_ERR_INVALID_ARG ∧ initialized (state_ctx w) = true
         ∧ ¬ valid_handle p)
      ∨ (r = ESP_OK ∧ initialized (state_ctx w) = true ∧ valid_handle p
         ∧ handle_pos old = p)
      ∨ (r = ESP_ERR_INVALID_STATE ∧ initialized (state_ctx w) = true
         ∧ valid_handle p ∧ handle_pos old ≠ p
         ∧ servo_initialized (servo_ctx w) = false)))
  ∨ (r = ESP_OK ∧ valid_handle p ∧ initialized (state_ctx w) = true
     ∧ servo_initialized (servo_ctx w) = true
     ∧ handle_pos old ≠ p
     ∧ ∃ rep logs,
         state_ctx w' =
           with_state (state_ctx w)
             {| mode := mode_of_handle p; handle_pos := p;
                gap_percentage := gap_percentage old;
                calibrated := calibrated old; in_motion := true;
                last_action_time := u32 (Z.quot (clock_us w) 1000) |}
         ∧ servo_ctx w' =
             {| servo_initialized := true; servo_handle_pos := p;
                servo_gap_percentage := servo_gap_percentage (servo_ctx w);
                handle_calibrated := handle_calibrated (servo_ctx w);
                gap_calibrated := gap_calibrated (servo_ctx w) |}
         ∧ trace w' = trace w ++ [ServoHandleCmd p] ++ rep ++ logs
         ∧ report_outcome w (mode_of_handle p) (gap_percentage old) rep
         ∧ forallb is_log logs = true
         ∧ (nvs w' = nvs w
            ∨ nvs w' = saved_record (state (state_ctx w')) (nvs w))).
Proof.
  crunch w.
  all: intros [= <- <-]; cbv zeta.
  all: try solve
    [ left; split; [solve_only_logs|]; split; [done|]; pick_case ].
  all: right; unfold mode_of_handle, valid_handle; proj_simpl.
  all: repeat (split; [first [done | consts; lia]|]).
  all: match goal with
       | _ : report_outcome _ _ _ ?rep,
         _ : forallb is_log ?l = true |- _ => exists rep, l
       end.
  all: repeat case_decide; try done; simplify_eq.
  all: try (exfalso; consts; lia).
  all: repeat split; try done; try congruence.
  all: try solve_trace.
  all: try solve_nvs.
  all: assumption.
Qed.

(** What [state_set_gap_percentage] does. *)
Lemma state_set_gap_percentage_spec p w r w' :
  state_set_gap_percentage p w = (r, w') →
  let old := state (state_ctx w) in
  (only_logs w w' ∧ nvs w' = nvs w
   ∧ ((r = ESP_ERR_INVALID_STATE ∧ initialized (state_ctx w) = false)
      ∨ (r = ESP_ERR_INVALID_ARG ∧ initialized (state_ctx w) = true
         ∧ u8 p > 100 ∧ emitted w w' = [Log LOG_ERROR TAG])
      ∨ (r = ESP_OK ∧ initialized (state_ctx w) = true ∧ u8 p <= 100
         ∧ gap_percentage old = u8 p)
      ∨ (r = ESP_ERR_INVALID_STATE ∧ initialized (state_ctx w) = true
         ∧ u8 p <= 100 ∧ gap_percentage old ≠ u8 p
         ∧ servo_initialized (servo_ctx w) = false)))
  ∨ (r = ESP_OK ∧ u8 p <= 100 ∧ initialized (state_ctx w) = true
     ∧ servo_initialized (servo_ctx w) = true
     ∧ gap_percentage old ≠ u8 p
     ∧ ∃ rep logs,
         state_ctx w' =
           with_state (state_ctx w)
             {| mode := mode_after_gap old (u8 p);
                handle_pos := handle_pos old;
                gap_percentage := u8 p;
                calibrated := calibrated old; in_motion := true;
                last_action_time := u32 (Z.quot (clock_us w) 1000) |}
         ∧ servo_ctx w' =
             {| servo_initialized := true;
                servo_handle_pos := servo_handle_pos (servo_ctx w);
                servo_gap_percentage := u8 p;
                handle_calibrated := handle_calibrated (servo_ctx w);
                gap_calibrated := gap_calibrated (servo_ctx w) |}
         ∧ trace w' = trace w ++ [ServoGapCmd (u8 p)] ++ rep ++ logs
         ∧ report_outcome w (mode_after_gap old (u8 p)) (u8 p) rep
         ∧ forallb is_log logs = true
         ∧ (nvs w' = nvs w
            ∨ nvs w' = saved_record (state (state_ctx w')) (nvs w))).
Proof.
  crunch w.
  all: intros [= <- <-]; cbv zeta.
  all: rewrite ?u8_idemp in *.
  all: try solve
    [ left; split; [solve_only_logs|]; split; [done|]; pick_case ].
  all: right; unfold mode_after_gap; proj_simpl.
  all: repeat (split; [first [done | lia]|]).
  all: match goal with
       | _ : report_outcome _ _ _ ?rep,
         _ : forallb is_log ?l = true |- _ => exists rep, l
       end.
  all: repeat case_bool_decide; try done; simplify_eq.
  all: repeat split; try done; try congruence.
  all: try solve_trace.
  all: try solve_nvs.
  all: assumption.
Qed.

Lemma emitted_app w w' l : trace w' = trace w ++ l → emitted w w' = l.
Proof. intros H. unfold emitted. by rewrite H, drop_app_length. Qed.

Lemma logs_no_servo_cmd l :
  forallb is_log l = true → List.filter is_servo_cmd l = [].
Proof.
  induction l as [|e l IH]; [done|]. simpl. intros [He Hl]%andb_true_iff.
  destruct e; simpl in *; try done; auto.
Qed.

Lemma only_logs_no_servo_cmd w w' :
  only_logs w w' → List.filter is_servo_cmd (emitted w w') = [].
Proof.
  intros (_ & _ & _ & _ & _ & l & Hl & Hlog).
  rewrite (emitted_app _ _ _ Hl). by apply logs_no_servo_cmd.
Qed.

Lemma servo_set_handle_position_accepts hp w :
  servo_initialized (servo_ctx w) = true → valid_handle hp →
  (servo_set_handle_position hp w).1 = ESP_OK.
Proof.
  intros Hi Hv. unfold servo_set_handle_position.
  cbv [bind ret gets]. rewrite Hi. simpl.
  case_bool_decide as Hc; [|done].
  exfalso. unfold valid_handle in Hv. tauto.
Qed.

Lemma state_set_window_mode_noop m w :
  initialized (state_ctx w) = true → valid_mode m →
  mode (state (state_ctx w)) = m →
  state_set_window_mode m w = (ESP_OK, (ESP_LOGW TAG w).2).
Proof.
  intros Hi Hv Hm. unfold state_set_window_mode.
  cbv [bind ret gets]. rewrite Hi. simpl.
  case_bool_decide as Hc.
  { exfalso. unfold valid_mode in Hv. tauto. }
  case_decide; [done|]. congruence.
Qed.

(** C7: calling [state_set_window_mode] a second time with the mode a
    successful first call has just set returns [ESP_OK], commands no
    servo (it only logs a warning) and leaves the whole stored state
    (mode, handle position, gap percentage, calibrated, in_motion,
    last_action_time), the servo module and the NVS as they are, at
    whatever time the second call is made. *)
Theorem set_mode_twice_is_noop m w w1 t :
  state_set_window_mode m w = (ESP_OK, w1) →
  ∃ w2,
    state_set_window_mode m (at_time t w1) = (ESP_OK, w2)
    ∧ state_ctx w2 = state_ctx w1
    ∧ servo_ctx w2 = servo_ctx w1
    ∧ nvs w2 = nvs w1
    ∧ emitted (at_time t w1) w2 = [Log LOG_WARN TAG]
    ∧ List.filter is_servo_cmd (emitted (at_time t w1) w2) = [].
Proof.
  intros H1.
  assert (initialized (state_ctx w1) = true ∧ valid_mode m
          ∧ mode (state (state_ctx w1)) = m) as (Hi & Hv & Hm).
  { apply state_set_window_mode_spec in H1. cbv zeta in H1.
    destruct H1 as [(Hl & _ & Hc)|(_ & Hv & Hi & _ & _ & rep & alr & logs & Hc)].
    - destruct Hl as (Hs & _).
      destruct Hc as [(? & _)|[(? & _)|[(_ & Hi & Hv & Hm & _)|(? & _)]]];
        try done.
      rewrite Hs. done.
    - destruct (mode_target m (state (state_ctx w))) as [hp gp].
      destruct Hc as (_ & Hs & _). rewrite Hs. simpl. done. }
  exists (ESP_LOGW TAG (at_time t w1)).2.
  split; [by apply state_set_window_mode_noop|].
  repeat split. unfold emitted. simpl. by rewrite drop_app_length.
  unfold emitted. simpl. by rewrite drop_app_length.
Qed.

Lemma set_mode_twice_is_noop_witness :
  ∃ w2,
    state_set_window_mode WINDOW_MODE_OPEN
      (at_time 7000000 (state_set_window_mode WINDOW_MODE_OPEN booted).2)
    = (ESP_OK, w2)
    ∧ state_ctx w2
      = state_ctx (state_set_window_mode WINDOW_MODE_OPEN booted).2.
Proof.
  destruct (set_mode_twice_is_noop WINDOW_MODE_OPEN booted
              (state_set_window_mode WINDOW_MODE_OPEN booted).2 7000000)
    as (w2 & H & Hs & _).
  - vm_compute. reflexivity.
  - exists w2. split; assumption.
Defined.

(** C5: within one [state_set_window_mode] call the servo commands are,
    in this order, at most one handle command followed by at most one gap
    command; whenever anything is commanded, the handle command comes
    first and the handle servo accepted it; a gap command is never issued
    without it.  A call that changes the mode on initialised modules
    returns [ESP_OK] and commands the handle servo to the position of the
    new mode and then, except for the custom mode, the gap servo to the
    percentage of the new mode, and nothing else; a call that fails or
    finds the mode already set commands no servo. *)
Theorem set_mode_handle_before_gap m w :
  let cmds :=
    List.filter is_servo_cmd (emitted w (state_set_window_mode m w).2) in
  let old := state (state_ctx w) in
  (cmds = []
   ∨ ∃ hp,
       (servo_set_handle_position hp w).1 = ESP_OK
       ∧ (cmds = [ServoHandleCmd hp]
          ∨ ∃ gp, cmds = [ServoHandleCmd hp; ServoGapCmd gp]))
  ∧ (initialized (state_ctx w) = true →
     servo_initialized (servo_ctx w) = true →
     valid_mode m → mode old ≠ m →
     valid_handle (mode_target m old).1 →
     (state_set_window_mode m w).1 = ESP_OK
     ∧ cmds = ServoHandleCmd (mode_target m old).1
              :: (if decide (m = WINDOW_MODE_CUSTOM) then []
                  else [ServoGapCmd (mode_target m old).2]))
  ∧ ((state_set_window_mode m w).1 ≠ ESP_OK ∨ mode old = m → cmds = []).
Proof.
  cbv zeta.
  destruct (state_set_window_mode m w) as [r w'] eqn:E.
  apply state_set_window_mode_spec in E. cbv zeta in E. cbn [fst snd].
  destruct E as [(Hl & _ & Hr)|(-> & _ & _ & Hsi & Hne & rep & alr & logs & Hc)].
  - pose proof (only_logs_no_servo_cmd _ _ Hl) as Hn.
    split; [by left|]. split; [|done].
    intros Hi Hsi Hv Hne Hh. exfalso.
    destruct Hr as [(_ & ?)|[(_ & _ & ?)|[(_ & _ & _ & ? & _)|
                    (_ & _ & _ & _ & [?|?])]]]; congruence.
  - destruct (mode_target m (state (state_ctx w))) as [hp gp].
    destruct Hc as (Hv & _ & _ & Ht & Hrep & Halr & Hlogs & _).
    assert (List.filter is_servo_cmd (emitted w w')
            = ServoHandleCmd hp
              :: (if decide (m = WINDOW_MODE_CUSTOM) then []
                  else [ServoGapCmd gp])) as Hcmds.
    { rewrite (emitted_app _ _ _ Ht).
      rewrite !List.filter_app, (logs_no_servo_cmd _ Hlogs),
        (report_outcome_no_servo_cmd _ _ _ _ Hrep),
        (alert_outcome_no_servo_cmd _ _ _ _ Halr), !app_nil_r.
      by case_decide. }
    rewrite Hcmds. cbn [fst snd]. split; [|split].
    + right. exists hp.
      split; [by apply servo_set_handle_position_accepts|].
      case_decide; [left; done|right; by exists gp].
    + done.
    + intros [?|?]; done.
Qed.

Lemma set_mode_handle_before_gap_witness :
  List.filter is_servo_cmd
    (emitted booted (state_set_window_mode WINDOW_MODE_OPEN booted).2)
  = [ServoHandleCmd HANDLE_POSITION_OPEN; ServoGapCmd 100].
Proof.
  destruct (set_mode_handle_before_gap WINDOW_MODE_OPEN booted)
    as (_ & H & _).
  destruct H as (_ & H).
  - reflexivity.
  - reflexivity.
  - right. left. reflexivity.
  - vm_compute. discriminate.
  - right. left. reflexivity.
  - exact H.
Defined.

(** What [state_factory_reset] leaves in the state. *)
Lemma state_factory_reset_state w r w' :
  state_factory_reset w = (r, w') →
  (initialized (state_ctx w) = false ∧ state_ctx w' = state_ctx w)
  ∨ state (state_ctx w') =
      {| mode := WINDOW_MODE_CLOSED; handle_pos := HANDLE_POSITION_CLOSED;
         gap_percentage := 0; calibrated := false; in_motion := false;
         last_action_time := u32 (Z.quot (clock_us w) 1000) |}.
Proof.
  crunch w.
  all: intros [= <- <-]; proj_simpl; auto.
Qed.

(** C4 (as the code has it): [state_set_window_mode] accepts the custom
    mode.  On an initialised device whose mode is not custom and whose
    handle is at one of its three positions, the call returns [ESP_OK],
    sets the mode to custom, keeps handle position and gap percentage,
    re-commands the handle servo to its position and does not command the
    gap servo.  The custom mode is also reached through
    [state_set_gap_percentage], whenever the new percentage is not the
    one that goes with the handle position. *)
Theorem set_mode_accepts_custom w :
  initialized (state_ctx w) = true →
  servo_initialized (servo_ctx w) = true →
  valid_handle (handle_pos (state (state_ctx w))) →
  mode (state (state_ctx w)) ≠ WINDOW_MODE_CUSTOM →
  (∃ w',
     state_set_window_mode WINDOW_MODE_CUSTOM w = (ESP_OK, w')
     ∧ mode (state (state_ctx w')) = WINDOW_MODE_CUSTOM
     ∧ handle_pos (state (state_ctx w')) = handle_pos (state (state_ctx w))
     ∧ gap_percentage (state (state_ctx w'))
       = gap_percentage (state (state_ctx w))
     ∧ List.filter is_servo_cmd (emitted w w')
       = [ServoHandleCmd (handle_pos (state (state_ctx w)))])
  ∧ (∀ p, 0 <= p <= 100 →
       p ≠ gap_percentage (state (state_ctx w)) →
       mode_after_gap (state (state_ctx w)) p = WINDOW_MODE_CUSTOM →
       ∃ w',
         state_set_gap_percentage p w = (ESP_OK, w')
         ∧ mode (state (state_ctx w')) = WINDOW_MODE_CUSTOM
         ∧ gap_percentage (state (state_ctx w')) = p).
Proof.
  intros Hi Hsi Hv Hm. split.
  - destruct (state_set_window_mode WINDOW_MODE_CUSTOM w) as [r w'] eqn:E.
    exists w'.
    apply state_set_window_mode_spec in E. cbv zeta in E.
    unfold mode_target in E. simpl in E.
    destruct E as [(_ & _ & Hc)|(-> & _ & _ & _ & _ & rep & alr & logs & Hc)].
    + exfalso.
      destruct Hc as [(_ & ?)|[(_ & _ & Hn)|[(_ & _ & _ & ? & _)|
                      (_ & _ & _ & _ & [?|?])]]]; try congruence.
      apply Hn. unfold valid_mode. tauto.
    + destruct Hc as (_ & Hs & _ & Ht & Hrep & Halr & Hlogs & _).
      rewrite Hs. simpl. repeat split.
      rewrite (emitted_app _ _ _ Ht). simpl.
      rewrite !List.filter_app, (logs_no_servo_cmd _ Hlogs),
        (report_outcome_no_servo_cmd _ _ _ _ Hrep),
        (alert_outcome_no_servo_cmd _ _ _ _ Halr). done.
  - intros p Hp Hne Hc.
    destruct (state_set_gap_percentage p w) as [r w'] eqn:E.
    exists w'.
    apply state_set_gap_percentage_spec in E. cbv zeta in E.
    rewrite (u8_small p) in E by lia.
    destruct E as [(_ & _ & Hr)|(-> & _ & _ & _ & _ & rep & logs & Hs & _)].
    + exfalso.
      destruct Hr as [(_ & ?)|[(_ & _ & ? & _)|[(_ & _ & _ & ?)|
                      (_ & _ & _ & _ & ?)]]]; try congruence; lia.
    + rewrite Hs. simpl. done.
Qed.

Lemma set_mode_accepts_custom_witness :
  ∃ w',
    state_set_window_mode WINDOW_MODE_CUSTOM booted = (ESP_OK, w')
    ∧ mode (state (state_ctx w')) = WINDOW_MODE_CUSTOM.
Proof.
  destruct (set_mode_accepts_custom booted) as [(w' & H & Hm & _) _].
  - reflexivity.
  - reflexivity.
  - left. reflexivity.
  - vm_compute. discriminate.
  - exists w'. split; assumption.
Defined.

(** C4, counterexample: on the booted device (closed window),
    [state_set_window_mode(WINDOW_MODE_CUSTOM)] is not rejected: it
    returns [ESP_OK] and the mode is custom afterwards. *)
Lemma set_mode_custom_not_rejected :
  (state_set_window_mode WINDOW_MODE_CUSTOM booted).1 = ESP_OK
  ∧ mode (state (state_ctx
        (state_set_window_mode WINDOW_MODE_CUSTOM booted).2))
    = WINDOW_MODE_CUSTOM
  ∧ mode (state (state_ctx booted)) = WINDOW_MODE_CLOSED.
Proof. vm_compute. done. Qed.

Lemma preserves_ret {A} (a : A) : preserves (ret a).
Proof. intros w H. exact H. Qed.

Lemma preserves_bind {A B} (m : M A) (k : A → M B) :
  preserves m → (∀ a, preserves (k a)) → preserves (bind m k).
Proof.
  intros Hm Hk w H. unfold bind. specialize (Hm w H).
  destruct (m w) as [a w1]. by apply Hk.
Qed.

Lemma preserves_gets_bind {A B} (f : world → A) (k : A → M B) :
  (∀ w, in_range w → in_range (k (f w) w).2) → preserves (bind (gets f) k).
Proof. intros Hk w H. unfold bind, gets. by apply Hk. Qed.

Lemma preserves_gets {A} (f : world → A) : preserves (gets f).
Proof. intros w H. exact H. Qed.

Lemma preserves_emit e : preserves (emit e).
Proof. intros w H. exact H. Qed.

Lemma preserves_ESP_LOGE tag : preserves (ESP_LOGE tag).
Proof. apply preserves_emit. Qed.

Lemma preserves_ESP_LOGW tag : preserves (ESP_LOGW tag).
Proof. apply preserves_emit. Qed.

Lemma preserves_servo_set_handle_position p :
  preserves (servo_set_handle_position p).
Proof.
  intros w H. break_world w. unfold in_range, state_in_range, valid_handle in *.
  unfold_model. break_conds; proj_simpl; try done.
  intuition (consts; lia).
Qed.

Lemma preserves_servo_set_gap_percentage p :
  preserves (servo_set_gap_percentage p).
Proof.
  intros w H. break_world w. unfold in_range, state_in_range, valid_handle in *.
  unfold_model. break_conds; proj_simpl; try done.
  pose proof (u8_range p). intuition lia.
Qed.

Lemma preserves_servo_init {C} (a b : option C) : preserves (servo_init a b).
Proof.
  intros w H. break_world w. unfold in_range in *. unfold servo_init.
  unfold_model. destruct sini, a, b; proj_simpl; done.
Qed.

Lemma preserves_state_open_nvs : preserves state_open_nvs.
Proof.
  intros w H. break_world w. unfold in_range in *. unfold state_open_nvs, nvs_open.
  unfold_model. destruct nvo; cbv beta iota zeta; proj_simpl; case_decide; proj_simpl; done.
Qed.

Lemma saved_record_handle s nv v :
  saved_record s nv !! NVS_KEY_HANDLE_POS = Some v → v = u8 (handle_pos s).
Proof.
  unfold saved_record. rewrite lookup_insert_ne by done.
  rewrite lookup_insert_ne by done. rewrite lookup_insert_eq, u8_idemp. congruence.
Qed.

Lemma saved_record_gap s nv v :
  saved_record s nv !! NVS_KEY_GAP_PERCENTAGE = Some v → v = u8 (gap_percentage s).
Proof.
  unfold saved_record. rewrite lookup_insert_ne by done.
  rewrite lookup_insert_eq. congruence.
Qed.

Lemma in_range_saved w w' :
  in_range w → state_ctx w' = state_ctx w → servo_ctx w' = servo_ctx w →
  (nvs w' = nvs w ∨ nvs w' = saved_record (state (state_ctx w)) (nvs w)) →
  in_range w'.
Proof.
  unfold in_range. intros (Hs & Hh & Hg & Hn1 & Hn2) -> -> [-> | ->]; [done|].
  repeat split; try apply Hs; try done; try lia.
  - intros v ->%saved_record_handle. rewrite u8_idemp.
    destruct Hs as (_ & Hv & _). rewrite u8_small; [done|].
    unfold valid_handle in Hv. consts. lia.
  - intros v ->%saved_record_gap. rewrite u8_idemp.
    destruct Hs as (_ & _ & Hv). rewrite u8_small; lia.
Qed.

Lemma preserves_state_save_to_nvs : preserves state_save_to_nvs.
Proof.
  intros w H. destruct (state_save_to_nvs_frame w) as (Hs & Hv & _).
  eapply in_range_saved; eauto using state_save_to_nvs_nvs.
Qed.

Lemma preserves_save_if_configured : preserves save_if_configured.
Proof.
  intros w H. destruct (save_if_configured_frame w) as (Hs & Hv & _).
  eapply in_range_saved; eauto using save_if_configured_nvs.
Qed.

Lemma preserves_update_state f :
  (∀ s, state_in_range s → state_in_range (f s)) → preserves (update_state f).
Proof.
  intros Hf w H. break_world w. unfold in_range in *. unfold_model. proj_simpl.
  destruct H as (Hs & H). split; [|exact H]. by apply Hf.
Qed.

Lemma preserves_set_state_ctx_same (g : state_ctx_t → state_ctx_t) :
  (∀ c, state (g c) = state c) →
  preserves (bind (gets state_ctx) (λ c, set_state_ctx (g c))).
Proof.
  intros Hg. apply preserves_gets_bind. intros w H.
  unfold in_range in *. simpl. by rewrite Hg.
Qed.

Lemma preserves_set_zigbee_ctx c : preserves (set_zigbee_ctx c).
Proof. intros w H. exact H. Qed.

Lemma preserves_set_zb_ctx z : preserves (set_zb_ctx z).
Proof. intros w H. exact H. Qed.

Lemma preserves_zigbee_device_report_state m p :
  preserves (zigbee_device_report_state m p).
Proof.
  intros w H.
  destruct (zigbee_device_report_state_spec m p w)
    as (r & cm & cp & lrt & l & -> & _).
  exact H.
Qed.

Lemma preserves_zigbee_device_send_alert a v :
  preserves (zigbee_device_send_alert a v).
Proof.
  intros w H.
  destruct (zigbee_device_send_alert_spec a v w) as (r & l & -> & _).
  exact H.
Qed.

Ltac pres_step :=
  lazymatch goal with
  | |- preserves (ret _) => apply preserves_ret
  | |- preserves (set_zigbee_ctx _) => apply preserves_set_zigbee_ctx
  | |- preserves (set_zb_ctx _) => apply preserves_set_zb_ctx
  | |- preserves (zigbee_device_report_state _ _) =>
      apply preserves_zigbee_device_report_state
  | |- preserves (zigbee_device_send_alert _ _) =>
      apply preserves_zigbee_device_send_alert
  | |- preserves (emit _) => apply preserves_emit
  | |- preserves (ESP_LOGE _) => apply preserves_ESP_LOGE
  | |- preserves (ESP_LOGW _) => apply preserves_ESP_LOGW
  | |- preserves (gets _) => apply preserves_gets
  | |- preserves (servo_set_handle_position _) =>
      apply preserves_servo_set_handle_position
  | |- preserves (servo_set_gap_percentage _) =>
      apply preserves_servo_set_gap_percentage
  | |- preserves (servo_init _ _) => apply preserves_servo_init
  | |- preserves state_open_nvs => apply preserves_state_open_nvs
  | |- preserves state_save_to_nvs => apply preserves_state_save_to_nvs
  | |- preserves save_if_configured => apply preserves_save_if_configured
  | |- preserves (update_state _) =>
      apply preserves_update_state;
      unfold state_in_range, valid_handle; simpl; intros;
      (intuition (try done; try (consts; lia)))
  | |- preserves (bind (gets state_ctx) (λ c, set_state_ctx _)) =>
      apply preserves_set_state_ctx_same; done
  | |- preserves (bind _ _) => apply preserves_bind; [|intros ?]
  | |- preserves (if decide _ then _ else _) => case_decide
  | |- preserves (if bool_decide _ then _ else _) => case_bool_decide
  | |- preserves (if ?b then _ else _) => destruct b
  | |- preserves (match ?x with _ => _ end) => destruct x
  | |- preserves _ => solve [auto]
  end.

Ltac pres := repeat pres_step.

Lemma preserves_zigbee_device_init : preserves zigbee_device_init.
Proof.
  unfold zigbee_device_init, esp_zigbee_init, update_zigbee_ctx,
    update_zb_ctx.
  pres.
Qed.

Lemma preserves_zigbee_device_start : preserves zigbee_device_start.
Proof.
  unfold zigbee_device_start, esp_zigbee_start, update_zigbee_ctx,
    update_zb_ctx.
  pres.
Qed.

Lemma preserves_zigbee_connection_timer_callback :
  preserves zigbee_connection_timer_callback.
Proof.
  unfold zigbee_connection_timer_callback, update_zb_ctx. cbv zeta.
  pres.
Qed.

Lemma preserves_state_update_last_action_time :
  preserves state_update_last_action_time.
Proof. unfold state_update_last_action_time, now_ms. pres. Qed.

Lemma preserves_or_fail call k :
  preserves call → preserves k → preserves (or_fail call k).
Proof. intros. unfold or_fail. pres. Qed.

Lemma preserves_restore_key key store k :
  (∀ w v, in_range w → nvs w !! key = Some v →
          in_range (update_state (store (u8 v)) w).2) →
  preserves k → preserves (restore_key key store k).
Proof.
  intros Hs Hk w H. unfold restore_key, nvs_get_u8.
  cbv [bind gets ret].
  destruct (decide (nvs_io_err w = ESP_OK)) as [Hio|Hio].
  - destruct (nvs w !! key) as [v|] eqn:E; simpl.
    + specialize (Hs w v H E). apply Hk. exact Hs.
    + by apply Hk.
  - simpl. destruct (decide (nvs_io_err w = ESP_OK)); [done|].
    case_decide; [done|]. by apply Hk.
Qed.

Lemma preserves_state_restore_from_nvs : preserves state_restore_from_nvs.
Proof.
  unfold state_restore_from_nvs.
  apply preserves_bind; [pres|intros c].
  destruct (negb (nvs_opened c)); [pres|].
  repeat (apply preserves_restore_key; [|]); [..|pres].
  all: intros w v H Hv; break_world w.
  all: unfold in_range, state_in_range in *; unfold_model; proj_simpl.
  all: destruct H as ((Hm & Hh & Hg) & Hsh & Hsg & Hn1 & Hn2).
  all: pose proof (u8_range v); repeat split; try done; try lia; eauto.
Qed.

Lemma preserves_state_save : preserves state_save.
Proof. unfold state_save. pres. Qed.

Lemma preserves_state_restore : preserves state_restore.
Proof.
  unfold state_restore, get_state.
  pose proof preserves_state_restore_from_nvs. pres.
Qed.

Lemma preserves_state_factory_reset : preserves state_factory_reset.
Proof.
  unfold state_factory_reset.
  pose proof preserves_state_update_last_action_time.
  assert (preserves nvs_erase_all).
  { intros w Hw. unfold nvs_erase_all. cbv [bind gets ret set_nvs modify].
    case_decide; [|done]. unfold in_range in *. simpl.
    repeat split; try apply Hw; intros v Hv; by rewrite lookup_empty in Hv. }
  assert (preserves nvs_commit) by (unfold nvs_commit; pres).
  pres.
  all: try (apply preserves_or_fail; pres).
  all: try (apply preserves_or_fail; pres).
Qed.

Lemma preserves_state_task_handler : preserves state_task_handler.
Proof.
  unfold state_task_handler, get_state, now_ms. pres.
Qed.

Lemma preserves_set_state_ctx c :
  state_in_range (state c) → preserves (set_state_ctx c).
Proof.
  intros Hc w (_ & H). unfold in_range. simpl. by split.
Qed.

(** A write-back of the state context that keeps the window state. *)
Ltac pres_same_state :=
  apply preserves_gets_bind;
  let w := fresh "w" in
  let Hw := fresh "Hw" in
  intros w Hw;
  cbv [bind gets ret modify set_state_ctx now_ms with_last_save_time
       with_nvs_opened];
  unfold in_range in *; simpl; exact Hw.

Lemma preserves_state_init cfg : preserves (state_init cfg).
Proof.
  unfold state_init.
  pose proof preserves_state_restore_from_nvs.
  apply preserves_bind; [pres|intros c].
  destruct (initialized c); [pres|].
  destruct cfg as [cfg|]; [|pres].
  apply preserves_bind.
  { apply preserves_set_state_ctx. unfold state_in_range, valid_handle. simpl.
    consts. lia. }
  intros _. apply preserves_bind.
  { destruct (save_to_nvs cfg); [|pres].
    apply preserves_bind; [pres|intros err].
    case_decide; [|pres].
    apply preserves_bind; [pres|intros _]. pres_same_state. }
  intros _. apply preserves_bind; [pres|intros c'].
  apply preserves_bind; [pres|intros _].
  pres_same_state.
Qed.

Lemma in_range_only_logs w w' :
  in_range w → only_logs w w' → nvs w' = nvs w → in_range w'.
Proof.
  intros H (Hs & Hv & _) Hn. eapply in_range_saved; eauto.
Qed.

Lemma in_range_commit w w' :
  in_range w →
  state_in_range (state (state_ctx w')) →
  valid_handle (servo_handle_pos (servo_ctx w')) →
  0 <= servo_gap_percentage (servo_ctx w') <= 100 →
  (nvs w' = nvs w ∨ nvs w' = saved_record (state (state_ctx w')) (nvs w)) →
  in_range w'.
Proof.
  intros (_ & _ & _ & Hn1 & Hn2) Hs' Hh' Hg' Hn'.
  split; [done|]. split; [done|]. split; [done|].
  destruct Hn' as [->| ->]; [done|].
  split.
  - intros v ->%saved_record_handle. rewrite u8_idemp.
    destruct Hs' as (_ & Hv & _). rewrite u8_small; [done|].
    unfold valid_handle in Hv. consts. lia.
  - intros v ->%saved_record_gap. rewrite u8_idemp.
    destruct Hs' as (_ & _ & Hv). rewrite u8_small; lia.
Qed.

Lemma preserves_state_set_window_mode m : preserves (state_set_window_mode m).
Proof.
  intros w H. destruct (state_set_window_mode m w) as [r w'] eqn:E.
  apply state_set_window_mode_spec in E. cbv zeta in E. simpl.
  destruct E as [(Hl & Hn & _)|(_ & Hm & _ & _ & _ & rep & alr & logs & Hc)].
  { by eapply in_range_only_logs. }
  unfold mode_target in Hc.
  pose proof H as ((Hmd & Hh & Hg) & Hsh & Hsg & _).
  unfold state_in_range, valid_mode, valid_handle in *.
  repeat case_decide; destruct Hc as (Hv & Hs & Hsv & _ & _ & _ & _ & Hn');
    (apply (in_range_commit w); [done|..|done]); rewrite ?Hs, ?Hsv;
    unfold state_in_range, valid_handle; simpl;
    repeat split; try done; try (consts; lia).
Qed.

Lemma preserves_state_set_handle_position p :
  preserves (state_set_handle_position p).
Proof.
  intros w H. destruct (state_set_handle_position p w) as [r w'] eqn:E.
  apply state_set_handle_position_spec in E. cbv zeta in E. simpl.
  destruct E as [(Hl & Hn & _)|(_ & Hp & _ & _ & _ & rep & logs & Hc)].
  { by eapply in_range_only_logs. }
  pose proof H as ((Hmd & Hh & Hg) & Hsh & Hsg & _).
  destruct Hc as (Hs & Hsv & _ & _ & _ & Hn').
  apply (in_range_commit w); [done|..|done]; rewrite ?Hs, ?Hsv;
    unfold state_in_range, mode_of_handle, valid_handle in *; simpl;
    repeat case_decide; repeat split; try done; try (consts; lia).
Qed.

Lemma preserves_state_set_gap_percentage p :
  preserves (state_set_gap_percentage p).
Proof.
  intros w H. destruct (state_set_gap_percentage p w) as [r w'] eqn:E.
  apply state_set_gap_percentage_spec in E. cbv zeta in E. simpl.
  destruct E as [(Hl & Hn & _)|(_ & Hp & _ & _ & _ & rep & logs & Hc)].
  { by eapply in_range_only_logs. }
  pose proof H as ((Hmd & Hh & Hg) & Hsh & Hsg & _).
  destruct Hc as (Hs & Hsv & _ & _ & _ & Hn').
  pose proof (u8_range p).
  apply (in_range_commit w); [done|..|done]; rewrite ?Hs, ?Hsv;
    unfold state_in_range, mode_after_gap, valid_handle in *; simpl;
    repeat case_bool_decide; repeat split; try done; try (consts; lia).
Qed.

Lemma preserves_state_get_window_state : preserves state_get_window_state.
Proof.
  intros w H. break_world w. unfold in_range, state_in_range in *.
  unfold_model. proj_simpl. tauto.
Qed.

Lemma preserves_app_main cfg : preserves (app_main cfg).
Proof.
  unfold app_main, ESP_ERROR_CHECK.
  pose proof preserves_state_init. pose proof preserves_state_restore.
  pose proof preserves_zigbee_device_init.
  pose proof preserves_zigbee_device_start.
  pose proof preserves_state_set_window_mode.
  pose proof preserves_state_set_gap_percentage.
  pres.
Qed.

Lemma in_range_command cmd data len w w' :
  in_range w → zigbee_command_handler cmd data len w = Some w' → in_range w'.
Proof.
  intros H. unfold zigbee_command_handler.
  case_bool_decide; [intros [= <-]; exact H|].
  destruct (data !! 0%nat) as [d0|]; [|done].
  destruct (data !! 1%nat) as [d1|]; [|done].
  intros [= <-]. revert w H.
  change (preserves (apply_command (u8 d0) (u8 d1))).
  unfold apply_command.
  pose proof preserves_state_set_window_mode.
  pose proof preserves_state_set_gap_percentage.
  pres.
Qed.

(** Every reachable world keeps the stored positions in range. *)
Lemma reachable_in_range w : reachable w → in_range w.
Proof.
  induction 1 as [oe ie t|w c _ IH|w cmd data len w' _ IH Hc|w _ IH
                 |w oe ie t _ IH|w _ IH|w c z full _ IH].
  - unfold in_range, state_in_range, valid_handle. simpl.
    repeat split; try done; try (consts; lia); intros v Hv;
      by rewrite lookup_empty in Hv.
  - destruct c; simpl.
    + by apply preserves_servo_init.
    + by apply preserves_state_init.
    + by apply preserves_state_set_window_mode.
    + by apply preserves_state_set_handle_position.
    + by apply preserves_state_set_gap_percentage.
    + by apply preserves_state_get_window_state.
    + by apply preserves_state_save.
    + by apply preserves_state_restore.
    + by apply preserves_state_factory_reset.
    + by apply preserves_state_task_handler.
    + by apply preserves_app_main.
  - by eapply in_range_command.
  - destruct IH as (_ & _ & _ & Hn). unfold in_range, state_in_range, valid_handle.
    simpl. repeat split; try done; try (consts; lia); apply Hn.
  - exact IH.
  - by apply preserves_zigbee_connection_timer_callback.
  - exact IH.
Qed.

Ltac unfold_storage :=
  cbv beta iota zeta delta
    [bind ret gets modify emit ESP_LOGE ESP_LOGW set_servo_ctx set_state_ctx
     set_nvs set_state get_state update_state now_ms with_state
     with_mode with_handle_pos with_gap_percentage with_calibrated
     with_in_motion with_last_action_time with_nvs_opened with_last_save_time
     state_update_last_action_time
     servo_set_handle_position servo_set_gap_percentage servo_init
     state_init state_save state_restore state_save_to_nvs
     state_restore_from_nvs restore_key or_fail state_open_nvs
     nvs_open nvs_get_u8 nvs_set_u8 nvs_commit nvs_erase_all
     save_if_configured restart state_ctx_init servo_ctx_init
     state_ctx servo_ctx zigbee_ctx zb_ctx nvs nvs_open_err nvs_io_err
     zb_queue_full clock_us trace
     initialized config state last_save_time nvs_opened
     mode handle_pos gap_percentage calibrated in_motion last_action_time
     servo_initialized servo_handle_pos servo_gap_percentage
     handle_calibrated gap_calibrated
     zigbee_initialized zigbee_state current_mode current_percentage
     zb_initialized zb_state last_report_time connection_retry_count
     save_to_nvs save_interval_ms restore_on_boot negb andb fst snd].

Lemma state_save_ok w :
  initialized (state_ctx w) = true →
  save_to_nvs (config (state_ctx w)) = true →
  nvs_open_err w = ESP_OK → nvs_io_err w = ESP_OK →
  ∃ w1,
    state_save w = (ESP_OK, w1)
    ∧ nvs w1 = saved_record (state (state_ctx w)) (nvs w)
    ∧ nvs_open_err w1 = ESP_OK ∧ nvs_io_err w1 = ESP_OK
    ∧ state (state_ctx w1) = state (state_ctx w)
    ∧ trace w1 = trace w.
Proof.
  break_world w. simpl. intros -> -> -> ->.
  destruct nvo; eexists; unfold saved_record; unfold_storage.
  all: repeat (case_decide; try done; cbv beta iota zeta).
  all: rewrite ?u8_idemp; split; [reflexivity|]; done.
Qed.

Lemma boot_restore_ok zc zb qf nv t tr cfg a b c d :
  save_to_nvs cfg = true →
  nv !! NVS_KEY_MODE = Some a →
  nv !! NVS_KEY_HANDLE_POS = Some b →
  nv !! NVS_KEY_GAP_PERCENTAGE = Some c →
  nv !! NVS_KEY_CALIBRATED = Some d →
  valid_handle (u8 b) → u8 c <= 100 →
  let w0 := {| state_ctx := state_ctx_init; servo_ctx := servo_ctx_init;
               zigbee_ctx := zc; zb_ctx := zb;
               nvs := nv; nvs_open_err := ESP_OK; nvs_io_err := ESP_OK;
               zb_queue_full := qf; clock_us := t; trace := tr |} in
  let w2 := (state_init (Some cfg)
               (servo_init (Some tt) (Some tt) w0).2).2 in
  let '(r, w3) := state_restore w2 in
  r = ESP_OK
  ∧ canonical (state (state_ctx w3))
    = (u8 a, u8 b, u8 c, bool_decide (u8 d = 1)).
Proof.
  intros Hcfg Ha Hb Hc Hd Hvb Hvc. destruct cfg as [sv iv rb].
  simpl in Hcfg. subst sv. cbv zeta.
  unfold_storage.
  unfold NVS_KEY_MODE, NVS_KEY_HANDLE_POS, NVS_KEY_GAP_PERCENTAGE,
    NVS_KEY_CALIBRATED in *.
  destruct rb; cbv beta iota zeta.
  all: repeat (first [ progress rewrite ?Ha, ?Hb, ?Hc, ?Hd, ?u8_idemp
                     | case_bool_decide | case_decide
                     | step_radio; unfold_storage ];
               try done; try (exfalso; unfold valid_handle in *; consts; lia);
               cbv beta iota zeta).
Qed.

(** C6: for every reachable world of an initialised device that saves to
    a working NVS, [state_save] succeeds, and after a restart (fresh
    statics, same NVS), the bring-up of both modules ([servo_init],
    [state_init] with any configuration that saves to NVS) and
    [state_restore], also successful, the mode, handle position, gap
    percentage and calibrated flag are those that were saved. *)
Theorem save_restart_restore_roundtrip w cfg :
  reachable w →
  initialized (state_ctx w) = true →
  save_to_nvs (config (state_ctx w)) = true →
  save_to_nvs cfg = true →
  nvs_open_err w = ESP_OK → nvs_io_err w = ESP_OK →
  let '(r1, w1) := state_save w in
  let w2 := (state_init (Some cfg)
               (servo_init (Some tt) (Some tt) (restart w1)).2).2 in
  let '(r2, w3) := state_restore w2 in
  r1 = ESP_OK ∧ r2 = ESP_OK
  ∧ canonical (state (state_ctx w3)) = canonical (state (state_ctx w)).
Proof.
  intros Hr Hi Hs Hcfg Ho Hio.
  apply reachable_in_range in Hr as ((Hm & Hh & Hg) & _).
  destruct (state_save_ok w Hi Hs Ho Hio) as (w1 & -> & Hn & Ho1 & Hio1 & _).
  set (s := state (state_ctx w)) in *.
  pose proof (boot_restore_ok zigbee_ctx_init zb_ctx_init (zb_queue_full w1)
                (nvs w1) (clock_us w1) (trace w1) cfg
                (u8 (u8 (mode s))) (u8 (u8 (handle_pos s)))
                (u8 (gap_percentage s))
                (u8 (if calibrated s then 1 else 0)) Hcfg) as H.
  assert (u8 (handle_pos s) = handle_pos s) as Eh.
  { apply u8_small. unfold valid_handle in Hh. consts. lia. }
  assert (u8 (gap_percentage s) = gap_percentage s) as Eg by (apply u8_small; lia).
  assert (u8 (mode s) = mode s) as Em by (by apply u8_small).
  rewrite !Eh, !Eg, !Em in H.
  unfold restart. rewrite Ho1, Hio1.
  cbv zeta in H.
  destruct (state_restore _) as [r2 w3].
  destruct H as [-> Hc].
  - rewrite Hn. unfold saved_record. rewrite !lookup_insert_ne by done.
    by rewrite lookup_insert_eq, !Em.
  - rewrite Hn. unfold saved_record. rewrite !lookup_insert_ne by done.
    by rewrite lookup_insert_eq, !Eh.
  - rewrite Hn. unfold saved_record. rewrite !lookup_insert_ne by done.
    by rewrite lookup_insert_eq, ?Eg.
  - rewrite Hn. unfold saved_record. by rewrite lookup_insert_eq.
  - done.
  - lia.
  - split; [done|]. split; [done|]. rewrite Hc. unfold canonical.
    f_equal. destruct (calibrated s); reflexivity.
Qed.

Lemma save_restart_restore_roundtrip_witness :
  let w := run (Call_state_set_window_mode WINDOW_MODE_OPEN)
             (run (Call_app_main state_config)
                (with_env ESP_OK ESP_OK 0 power_on)) in
  let '(r1, w1) := state_save w in
  let w2 := (state_init (Some state_config)
               (servo_init (Some tt) (Some tt) (restart w1)).2).2 in
  let '(r2, w3) := state_restore w2 in
  r1 = ESP_OK ∧ r2 = ESP_OK
  ∧ canonical (state (state_ctx w3)) = canonical (state (state_ctx w)).
Proof.
  apply (save_restart_restore_roundtrip
           (run (Call_state_set_window_mode WINDOW_MODE_OPEN)
              (run (Call_app_main state_config)
                 (with_env ESP_OK ESP_OK 0 power_on)))
           state_config).
  - apply reachable_call, reachable_call, reachable_power_on.
  - reflexivity.
  - reflexivity.
  - reflexivity.
  - reflexivity.
  - reflexivity.
Defined.

(** What [state_restore] leaves in the state when the namespace holds a
    full record: the state as it was (the restore was refused or the
    flash driver failed), or the stored record. *)
Lemma state_restore_state w a b c d :
  nvs w !! NVS_KEY_MODE = Some a →
  nvs w !! NVS_KEY_HANDLE_POS = Some b →
  nvs w !! NVS_KEY_GAP_PERCENTAGE = Some c →
  nvs w !! NVS_KEY_CALIBRATED = Some d →
  let s' := state (state_ctx (state_restore w).2) in
  s' = state (state_ctx w)
  ∨ (mode s', handle_pos s', gap_percentage s') = (u8 a, u8 b, u8 c).
Proof.
  break_world w.
  unfold NVS_KEY_MODE, NVS_KEY_HANDLE_POS, NVS_KEY_GAP_PERCENTAGE,
    NVS_KEY_CALIBRATED. proj_simpl.
  intros Ha Hb Hc Hd. cbv zeta.
  unfold_storage.
  unfold NVS_KEY_MODE, NVS_KEY_HANDLE_POS, NVS_KEY_GAP_PERCENTAGE,
    NVS_KEY_CALIBRATED in *.
  repeat (first [ progress rewrite ?Ha, ?Hb, ?Hc, ?Hd, ?u8_idemp
                | match goal with
                  | |- context [if ?x then _ else _] => is_var x; destruct x
                  end
                | case_bool_decide | case_decide
                | step_radio; unfold_storage ];
          try done; cbv beta iota zeta).
  all: proj_simpl; auto.
Qed.

Lemma consistent_same s s' :
  (mode s', handle_pos s', gap_percentage s')
  = (mode s, handle_pos s, gap_percentage s) →
  consistent s → consistent s'.
Proof. unfold consistent. intros [= -> -> ->]. done. Qed.

(** C2 (as the code has it): from a state that satisfies the
    mode-position pairing, [state_set_window_mode],
    [state_set_gap_percentage] and [state_factory_reset] lead to a state
    that satisfies it (the gap setter by forcing the custom mode), and so
    does [state_restore] when the record in the NVS satisfies it.
    [state_set_handle_position] derives the mode from the handle position
    alone and keeps the gap percentage: after it the handle position is
    the one of the mode, the gap percentage is the old one. *)
Theorem consistency_kept_except_by_handle_setter w :
  consistent (state (state_ctx w)) →
  (∀ m, consistent (state (state_ctx (state_set_window_mode m w).2)))
  ∧ (∀ p, consistent (state (state_ctx (state_set_gap_percentage p w).2)))
  ∧ consistent (state (state_ctx (state_factory_reset w).2))
  ∧ (∀ a b c d,
       nvs w !! NVS_KEY_MODE = Some a →
       nvs w !! NVS_KEY_HANDLE_POS = Some b →
       nvs w !! NVS_KEY_GAP_PERCENTAGE = Some c →
       nvs w !! NVS_KEY_CALIBRATED = Some d →
       (∀ hg, canonical_pair (u8 a) = Some hg → (u8 b, u8 c) = hg) →
       consistent (state (state_ctx (state_restore w).2)))
  ∧ (∀ p,
       let s' := state (state_ctx (state_set_handle_position p w).2) in
       (∀ hg, canonical_pair (mode s') = Some hg → handle_pos s' = hg.1)
       ∧ gap_percentage s' = gap_percentage (state (state_ctx w))).
Proof.
  intros Hc. split; [|split; [|split; [|split]]].
  - intros m. destruct (state_set_window_mode m w) as [r w'] eqn:E.
    apply state_set_window_mode_spec in E. cbv zeta in E. simpl.
    destruct E as [((Hs & _) & _)|(_ & Hm & _ & _ & _ & rep & alr & logs & H)].
    { by rewrite Hs. }
    clear Hc. unfold mode_target in H.
    destruct Hm as [-> | [-> | [-> | ->]]];
      repeat (case_decide; try done; try (exfalso; consts; lia));
      destruct H as (_ & -> & _); unfold consistent, canonical_pair; simpl;
      repeat (case_decide; try done; try (exfalso; consts; lia));
      by intros p [= <-].
  - intros p. destruct (state_set_gap_percentage p w) as [r w'] eqn:E.
    apply state_set_gap_percentage_spec in E. cbv zeta in E. simpl.
    destruct E as [((Hs & _) & _)|(_ & Hp & _ & _ & Hne & rep & logs & H)].
    { by rewrite Hs. }
    destruct H as (-> & _). revert Hc Hne.
    unfold consistent, canonical_pair, mode_after_gap. simpl.
    generalize (u8 p). intros q Hc Hne.
    case_bool_decide as Hb.
    + repeat case_decide; try done; exfalso; consts; lia.
    + intros hg Hhg. specialize (Hc hg Hhg). exfalso.
      repeat case_decide; simplify_eq; apply Hb; consts; lia.
  - destruct (state_factory_reset w) as [r w'] eqn:E.
    apply state_factory_reset_state in E. simpl.
    destruct E as [(_ & ->)| ->]; [done|].
    unfold consistent, canonical_pair. simpl.
    repeat case_decide; try done; by intros p [= <-].
  - intros a b c d Ha Hb Hc' Hd Hrec.
    destruct (state_restore_state w a b c d Ha Hb Hc' Hd) as [-> | H]; [done|].
    injection H as Hm Hh Hg. unfold consistent. rewrite Hm, Hh, Hg. exact Hrec.
  - intros p. cbv zeta.
    destruct (state_set_handle_position p w) as [r w'] eqn:E.
    apply state_set_handle_position_spec in E. cbv zeta in E. simpl.
    destruct E as [((Hs & _) & _)|(_ & Hp & _ & _ & _ & rep & logs & H)].
    { rewrite Hs. split; [|done]. intros hg Hhg. by rewrite <- (Hc hg Hhg). }
    destruct H as (-> & _). simpl. split; [|done].
    unfold canonical_pair, mode_of_handle, valid_handle in *.
    intros hg. repeat case_decide; try done; try (exfalso; consts; lia);
      by intros [= <-].
Qed.

Lemma booted_consistent : consistent (state (state_ctx booted)).
Proof. intros p. vm_compute. by intros [= <-]. Qed.

Lemma consistency_kept_except_by_handle_setter_witness :
  consistent
    (state (state_ctx (state_set_window_mode WINDOW_MODE_OPEN booted).2)).
Proof.
  destruct (consistency_kept_except_by_handle_setter booted) as (H & _).
  - intros p. vm_compute. by intros [= <-].
  - apply H.
Defined.

(** C2, counterexample: on the booted device (closed, handle 0, gap 0),
    [state_set_handle_position(HANDLE_POSITION_OPEN)] succeeds and leaves
    mode open with handle 90 and gap 0, which is not the pair (90, 100)
    of the open mode. *)
Lemma handle_setter_breaks_consistency :
  consistent (state (state_ctx booted))
  ∧ (state_set_handle_position HANDLE_POSITION_OPEN booted).1 = ESP_OK
  ∧ canonical
      (state (state_ctx
         (state_set_handle_position HANDLE_POSITION_OPEN booted).2))
    = (WINDOW_MODE_OPEN, HANDLE_POSITION_OPEN, 0, false)
  ∧ ¬ consistent
        (state (state_ctx
           (state_set_handle_position HANDLE_POSITION_OPEN booted).2)).
Proof.
  split; [apply booted_consistent|]. split; [by vm_compute|].
  split; [by vm_compute|].
  intros H. specialize (H (HANDLE_POSITION_OPEN, 100)).
  vm_compute in H. specialize (H eq_refl). discriminate H.
Qed.

(** The state machine rejects a percentage above 100. *)
Lemma state_set_gap_percentage_rejects p w :
  initialized (state_ctx w) = true → 100 < p < 256 →
  ∃ w',
    state_set_gap_percentage p w = (ESP_ERR_INVALID_ARG, w')
    ∧ state_ctx w' = state_ctx w ∧ servo_ctx w' = servo_ctx w
    ∧ nvs w' = nvs w
    ∧ emitted w w' = [Log LOG_ERROR TAG].
Proof.
  intros Hi Hp. destruct (state_set_gap_percentage p w) as [r w'] eqn:E.
  exists w'. apply state_set_gap_percentage_spec in E. cbv zeta in E.
  rewrite (u8_small p) in E by lia.
  destruct E as [((Hs & Hv & _) & Hn & Hr)|(_ & ? & _)]; [|lia].
  destruct Hr as [(_ & ?)|[(-> & _ & _ & He)|[(_ & _ & ? & _)|
                  (_ & _ & ? & _)]]]; try congruence; try lia.
  done.
Qed.

(** The command handler of main.c on short and on long enough payloads. *)
Lemma zigbee_command_handler_drops cmd data len w :
  len < 2 →
  zigbee_command_handler cmd data len w = Some (ESP_LOGW MAIN_TAG w).2.
Proof.
  intros H. unfold zigbee_command_handler. by rewrite bool_decide_eq_true_2.
Qed.

Lemma zigbee_command_handler_decodes cmd data len w :
  2 <= len <= Z.of_nat (length data) →
  ∃ d0 d1,
    data !! 0%nat = Some d0 ∧ data !! 1%nat = Some d1
    ∧ zigbee_command_handler cmd data len w
      = Some (apply_command (u8 d0) (u8 d1) w).2.
Proof.
  intros H. unfold zigbee_command_handler.
  rewrite bool_decide_eq_false_2 by lia.
  destruct data as [|d0 [|d1 data]]; simpl in H; try lia.
  exists d0, d1. done.
Qed.

(** ** Further properties of the state machine *)

(** X11: in every world the firmware can reach from power-on with an
    empty NVS namespace (through any calls of the state machine, ZigBee
    commands, restarts and changes of what the flash driver answers) the
    stored handle position is one of 0, 90 and 180, the stored gap
    percentage lies in 0..100, the servo module holds such values too,
    and so do the handle position and gap percentage saved in the NVS. *)
Theorem reachable_positions_in_range w :
  reachable w →
  valid_handle (handle_pos (state (state_ctx w)))
  ∧ 0 <= gap_percentage (state (state_ctx w)) <= 100
  ∧ valid_handle (servo_handle_pos (servo_ctx w))
  ∧ 0 <= servo_gap_percentage (servo_ctx w) <= 100
  ∧ (∀ v, nvs w !! NVS_KEY_HANDLE_POS = Some v → valid_handle (u8 v))
  ∧ (∀ v, nvs w !! NVS_KEY_GAP_PERCENTAGE = Some v → 0 <= u8 v <= 100).
Proof.
  intros H. apply reachable_in_range in H.
  destruct H as ((_ & Hh & Hg) & Hsh & Hsg & Hnh & Hng).
  repeat split; try done; try lia.
  - pose proof (u8_range v). lia.
  - by apply Hng.
Qed.

Lemma reachable_positions_in_range_witness :
  valid_handle
    (handle_pos (state (state_ctx
       (run (Call_state_set_gap_percentage 40)
          (run (Call_app_main state_config) (with_env ESP_OK ESP_OK 0 power_on)))))).
Proof.
  apply reachable_positions_in_range.
  apply reachable_call, reachable_call, reachable_power_on.
Defined.

Lemma refuses_uninitialized_set_window_mode m w :
  initialized (state_ctx w) = false →
  state_set_window_mode m w = (ESP_ERR_INVALID_STATE, (ESP_LOGE TAG w).2).
Proof.
  intros H. unfold state_set_window_mode. unfold bind at 1, gets at 1.
  by rewrite H.
Qed.

Lemma refuses_uninitialized_set_handle_position p w :
  initialized (state_ctx w) = false →
  state_set_handle_position p w = (ESP_ERR_INVALID_STATE, (ESP_LOGE TAG w).2).
Proof.
  intros H. unfold state_set_handle_position. unfold bind at 1, gets at 1.
  by rewrite H.
Qed.

Lemma refuses_uninitialized_set_gap_percentage p w :
  initialized (state_ctx w) = false →
  state_set_gap_percentage p w = (ESP_ERR_INVALID_STATE, (ESP_LOGE TAG w).2).
Proof.
  intros H. unfold state_set_gap_percentage. cbv zeta.
  unfold bind at 1, gets at 1. by rewrite H.
Qed.

(** X12: before [state_init] every operation of the state module that
    changes or stores the state ([state_set_window_mode],
    [state_set_handle_position], [state_set_gap_percentage],
    [state_save], [state_restore], [state_factory_reset],
    [state_task_handler]) returns [ESP_ERR_INVALID_STATE] and does
    nothing but log one error; and a ZigBee command that arrives then,
    whatever its two bytes, ends in two error logs: no servo command, no
    report, no change of state or NVS. *)
Theorem uninitialized_module_refuses w :
  initialized (state_ctx w) = false →
  let refused := (ESP_ERR_INVALID_STATE, (ESP_LOGE TAG w).2) in
  (∀ m, state_set_window_mode m w = refused)
  ∧ (∀ p, state_set_handle_position p w = refused)
  ∧ (∀ p, state_set_gap_percentage p w = refused)
  ∧ state_save w = refused
  ∧ state_restore w = refused
  ∧ state_factory_reset w = refused
  ∧ state_task_handler w = refused
  ∧ (∀ cmd d0 d1,
       zigbee_command_handler cmd [d0; d1] 2 w
       = Some (ESP_LOGE MAIN_TAG (ESP_LOGE TAG w).2).2).
Proof.
  intros H. cbv zeta.
  split; [intros m; by apply refuses_uninitialized_set_window_mode|].
  split; [intros p; by apply refuses_uninitialized_set_handle_position|].
  split; [intros p; by apply refuses_uninitialized_set_gap_percentage|].
  split. { unfold state_save. unfold bind at 1, gets at 1. by rewrite H. }
  split. { unfold state_restore. unfold bind at 1, gets at 1. by rewrite H. }
  split.
  { unfold state_factory_reset. unfold bind at 1, gets at 1. by rewrite H. }
  split.
  { unfold state_task_handler. unfold bind at 1, gets at 1. by rewrite H. }
  intros cmd d0 d1. unfold zigbee_command_handler.
  rewrite bool_decide_eq_false_2 by lia. simpl lookup. cbv iota zeta.
  unfold apply_command. unfold bind at 1.
  rewrite refuses_uninitialized_set_window_mode by done.
  by rewrite decide_True.
Qed.

Lemma uninitialized_module_refuses_witness :
  state_save power_on = (ESP_ERR_INVALID_STATE, (ESP_LOGE TAG power_on).2).
Proof.
  destruct (uninitialized_module_refuses power_on) as (_ & _ & _ & H & _).
  - reflexivity.
  - exact H.
Defined.

Lemma only_logs_no_outward w w' :
  only_logs w w' → List.filter is_outward (emitted w w') = [].
Proof.
  intros (_ & _ & _ & _ & _ & l & Hl & Hlog).
  rewrite (emitted_app _ _ _ Hl). by apply logs_no_outward.
Qed.

(** X13: what the three setters send to the hub.  The radio takes a
    message only when it is up (the ZigBee module and the library
    initialised, the library connected or paired, room in its queue),
    and [zigbee_device_report_state] refuses every state whose mode is
    not closed, open or ventilate or whose percentage exceeds 100: it
    returns [ESP_OK] exactly when the radio is up and the state is one
    of those, and the custom mode is never reported.  A setter call that
    changes the state sends one state report, with the mode and the gap
    percentage it has just stored, when the radio is up and that state
    is reported, and no report otherwise (an error is logged instead);
    [state_set_window_mode] follows it with one mode-changed alert
    carrying the new mode when the radio is up, also for the custom
    mode.  A call that fails or finds the value already set sends
    nothing, and nothing is sent while the radio is down.  No setter
    ever sends an alert of another kind. *)
Theorem setters_report_each_change_once w :
  let old := state (state_ctx w) in
  (∀ m r w',
     state_set_window_mode m w = (r, w') →
     (r = ESP_OK → mode old ≠ m →
      mode (state (state_ctx w')) = m
      ∧ List.filter is_outward (emitted w w')
        = sent_report w m (gap_percentage (state (state_ctx w')))
          ++ (if decide (radio_up w) then
                [ZbSendAlert ZIGBEE_ALERT_MODE_CHANGED m]
              else []))
     ∧ (r ≠ ESP_OK ∨ mode old = m →
        List.filter is_outward (emitted w w') = []))
  ∧ (∀ p r w',
       state_set_handle_position p w = (r, w') →
       (r = ESP_OK → handle_pos old ≠ p →
        List.filter is_outward (emitted w w')
        = sent_report w (mode (state (state_ctx w')))
            (gap_percentage (state (state_ctx w'))))
       ∧ (r ≠ ESP_OK ∨ handle_pos old = p →
          List.filter is_outward (emitted w w') = []))
  ∧ (∀ p r w',
       state_set_gap_percentage p w = (r, w') →
       (r = ESP_OK → gap_percentage old ≠ u8 p →
        List.filter is_outward (emitted w w')
        = sent_report w (mode (state (state_ctx w')))
            (gap_percentage (state (state_ctx w'))))
       ∧ (r ≠ ESP_OK ∨ gap_percentage old = u8 p →
          List.filter is_outward (emitted w w') = []))
  ∧ (∀ m p,
       ((zigbee_device_report_state m p w).1 = ESP_OK
        ↔ radio_up w ∧ reportable m p)
       ∧ List.filter is_outward
           (emitted w (zigbee_device_report_state m p w).2)
         = sent_report w m p
       ∧ (radio_up w → reportable m p →
          emitted w (zigbee_device_report_state m p w).2
          = [ZbReportState m (u8 p)])
       ∧ (¬ (radio_up w ∧ reportable m p) →
          In (Log LOG_ERROR ZIGBEE_TAG)
            (emitted w (zigbee_device_report_state m p w).2)))
  ∧ (∀ p, ¬ reportable WINDOW_MODE_CUSTOM p
          ∧ sent_report w WINDOW_MODE_CUSTOM p = []).
Proof.
  cbv zeta. split; [|split; [|split; [|split]]].
  - intros m r w' E. apply state_set_window_mode_spec in E. cbv zeta in E.
    destruct E as [(Hl & _ & Hc)
                  |(-> & Hv & _ & Hsi & Hne & rep & alr & logs & Hc)].
    + split; [|intros _; by apply only_logs_no_outward].
      intros -> Hne. exfalso.
      destruct Hc as [(? & _)|[(? & _)|[(_ & _ & _ & ? & _)|(? & _)]]]; done.
    + split; [|intros [?|?]; done]. intros _ _.
      destruct (mode_target m (state (state_ctx w))) as [hp gp] eqn:Et.
      destruct Hc as (_ & Hs & _ & Ht & Hrep & Halr & Hlogs & _).
      rewrite (emitted_app _ _ _ Ht), Hs.
      rewrite !List.filter_app, (logs_no_outward _ Hlogs),
        (report_outcome_outward _ _ _ _ Hrep),
        (alert_outcome_outward _ _ _ _ Halr), app_nil_r.
      assert (u8 m = m) as Hu.
      { apply u8_small. unfold valid_mode in Hv. consts. lia. }
      split; [done|]. unfold sent_alert. rewrite Hu.
      by destruct (decide (m = WINDOW_MODE_CUSTOM)).
  - intros p r w' E. apply state_set_handle_position_spec in E.
    cbv zeta in E.
    destruct E as [(Hl & _ & Hc)
                  |(-> & Hv & _ & Hsi & Hne & rep & logs & Hc)].
    + split; [|intros _; by apply only_logs_no_outward].
      intros -> Hne. exfalso.
      destruct Hc as [(? & _)|[(? & _)|[(_ & _ & _ & ?)|(? & _)]]]; done.
    + split; [|intros [?|?]; done]. intros _ _.
      destruct Hc as (Hs & _ & Ht & Hrep & Hlogs & _).
      rewrite (emitted_app _ _ _ Ht), Hs.
      rewrite !List.filter_app, (logs_no_outward _ Hlogs),
        (report_outcome_outward _ _ _ _ Hrep), app_nil_r.
      done.
  - intros p r w' E. apply state_set_gap_percentage_spec in E.
    cbv zeta in E.
    destruct E as [(Hl & _ & Hc)
                  |(-> & Hv & _ & Hsi & Hne & rep & logs & Hc)].
    + split; [|intros _; by apply only_logs_no_outward].
      intros -> Hne. exfalso.
      destruct Hc as [(? & _)|[(? & _)|[(_ & _ & _ & ?)|(? & _)]]]; done.
    + split; [|intros [?|?]; done]. intros _ _.
      destruct Hc as (Hs & _ & Ht & Hrep & Hlogs & _).
      rewrite (emitted_app _ _ _ Ht), Hs.
      rewrite !List.filter_app, (logs_no_outward _ Hlogs),
        (report_outcome_outward _ _ _ _ Hrep), app_nil_r.
      done.
  - intros m p.
    destruct (zigbee_device_report_state_spec m p w)
      as (r & cm & cp & lrt & l & -> & Hr & Ho).
    cbn [fst snd]. split; [exact Hr|].
    rewrite (emitted_app w _ l) by done.
    split; [by apply report_outcome_outward|].
    split.
    + intros Hu Hp. destruct Ho as [(_ & _ & ->)|(Hn & _)]; [done|].
      exfalso. by apply Hn.
    + intros Hn. destruct Ho as [(Hu & Hp & _)|(_ & _ & Hin)]; [|done].
      exfalso. by apply Hn.
  - intros p.
    split; [apply not_reportable_custom|].
    apply sent_report_refused, not_reportable_custom.
Qed.

Lemma setters_report_each_change_once_witness :
  List.filter is_outward
    (emitted (joined booted)
       (state_set_window_mode WINDOW_MODE_OPEN (joined booted)).2)
  = [ZbReportState WINDOW_MODE_OPEN 100;
     ZbSendAlert ZIGBEE_ALERT_MODE_CHANGED WINDOW_MODE_OPEN].
Proof.
  destruct (setters_report_each_change_once (joined booted)) as (H & _).
  destruct (H WINDOW_MODE_OPEN ESP_OK
              (state_set_window_mode WINDOW_MODE_OPEN (joined booted)).2)
    as ((_ & E) & _).
  - vm_compute. reflexivity.
  - reflexivity.
  - vm_compute. discriminate.
  - rewrite E. vm_compute. reflexivity.
Defined.

(** X14: the custom mode is never left through the gap setter: on a
    window in custom mode [state_set_gap_percentage] leaves the mode
    custom, whatever the percentage and whatever it returns, also when
    the new percentage is the one that goes with the handle position.
    In the other modes a successful change of the percentage keeps the
    mode exactly when the new percentage is the one that goes with the
    handle position, and makes it custom otherwise. *)
Theorem gap_setter_never_leaves_custom p w :
  let old := state (state_ctx w) in
  let new := state (state_ctx (state_set_gap_percentage p w).2) in
  (mode old = WINDOW_MODE_CUSTOM → mode new = WINDOW_MODE_CUSTOM)
  ∧ ((state_set_gap_percentage p w).1 = ESP_OK →
     gap_percentage old ≠ u8 p →
     gap_percentage new = u8 p
     ∧ handle_pos new = handle_pos old
     ∧ ((handle_pos old, u8 p) = (HANDLE_POSITION_CLOSED, 0)
        ∨ (handle_pos old, u8 p) = (HANDLE_POSITION_OPEN, 100)
        ∨ (handle_pos old, u8 p) = (HANDLE_POSITION_VENTILATE, 20) →
        mode new = mode old)
     ∧ (valid_handle (handle_pos old) →
        (handle_pos old, u8 p) ≠ (HANDLE_POSITION_CLOSED, 0) →
        (handle_pos old, u8 p) ≠ (HANDLE_POSITION_OPEN, 100) →
        (handle_pos old, u8 p) ≠ (HANDLE_POSITION_VENTILATE, 20) →
        mode new = WINDOW_MODE_CUSTOM)).
Proof.
  cbv zeta. destruct (state_set_gap_percentage p w) as [r w'] eqn:E.
  apply state_set_gap_percentage_spec in E. cbv zeta in E. simpl.
  destruct E as [((Hs & _) & _ & Hc)
                |(-> & Hv & _ & Hsi & Hne & rep & logs & Hc)].
  - rewrite Hs. split; [done|]. intros -> Hne. exfalso.
    destruct Hc as [(? & _)|[(? & _)|[(_ & _ & _ & ?)|(? & _)]]]; done.
  - destruct Hc as (-> & _). simpl. unfold mode_after_gap, valid_handle.
    split.
    { intros Hm. case_bool_decide; done. }
    intros _ _. split; [done|]. split; [done|]. split.
    + intros Hp. rewrite bool_decide_eq_false_2; [done|].
      consts. intros [(? & ?)|[(? & ?)|(? & ?)]];
        destruct Hp as [Hp|[Hp|Hp]]; injection Hp as ? ?; lia.
    + intros Hh H1 H2 H3. rewrite bool_decide_eq_true_2; [done|].
      consts.
      destruct Hh as [Hh|[Hh|Hh]]; rewrite Hh in *.
      * right. right. split; [done|]. intros Hz. apply H1. by rewrite Hz.
      * left. split; [done|]. intros Hz. apply H2. by rewrite Hz.
      * right. left. split; [done|]. intros Hz. apply H3. by rewrite Hz.
Qed.

Lemma gap_setter_never_leaves_custom_witness :
  mode (state (state_ctx
    (state_set_gap_percentage 100
       (state_set_gap_percentage 40
          (state_set_window_mode WINDOW_MODE_OPEN booted).2).2).2))
  = WINDOW_MODE_CUSTOM.
Proof.
  destruct (gap_setter_never_leaves_custom 100
              (state_set_gap_percentage 40
                 (state_set_window_mode WINDOW_MODE_OPEN booted).2).2)
    as (H & _).
  apply H. vm_compute. reflexivity.
Defined.

(** The setters do not touch the environment, and leave the radio as
    able to send as it was. *)
Lemma state_set_window_mode_env m w r w' :
  state_set_window_mode m w = (r, w') →
  clock_us w' = clock_us w ∧ nvs_io_err w' = nvs_io_err w
  ∧ nvs_open_err w' = nvs_open_err w.
Proof. crunch w. all: by intros [= <- <-]. Qed.

Lemma state_set_gap_percentage_env p w r w' :
  state_set_gap_percentage p w = (r, w') →
  clock_us w' = clock_us w ∧ nvs_io_err w' = nvs_io_err w
  ∧ nvs_open_err w' = nvs_open_err w.
Proof. crunch w. all: by intros [= <- <-]. Qed.

Ltac solve_radio_kept :=
  unfold radio_kept;
  repeat match goal with
         | H : zigbee_ctx ?w = _ |- context [zigbee_ctx ?w] => rewrite H
         | H : zb_ctx ?w = _ |- context [zb_ctx ?w] => rewrite H
         | H : zb_queue_full ?w = _ |- context [zb_queue_full ?w] =>
             rewrite H
         end;
  proj_simpl; done.

Lemma state_set_window_mode_radio m w r w' :
  state_set_window_mode m w = (r, w') → radio_kept w w'.
Proof. crunch w. all: intros [= <- <-]; solve_radio_kept. Qed.

Lemma state_set_gap_percentage_radio p w r w' :
  state_set_gap_percentage p w = (r, w') → radio_kept w w'.
Proof. crunch w. all: intros [= <- <-]; solve_radio_kept. Qed.

(** [state_set_window_mode] to another mode, on initialised modules. *)
Lemma state_set_window_mode_commits m w :
  initialized (state_ctx w) = true →
  servo_initialized (servo_ctx w) = true →
  valid_mode m → mode (state (state_ctx w)) ≠ m →
  valid_handle (mode_target m (state (state_ctx w))).1 →
  ∃ w' l,
    state_set_window_mode m w = (ESP_OK, w')
    ∧ state_ctx w' =
        with_state (state_ctx w)
          {| mode := m;
             handle_pos := (mode_target m (state (state_ctx w))).1;
             gap_percentage := (mode_target m (state (state_ctx w))).2;
             calibrated := calibrated (state (state_ctx w));
             in_motion := true;
             last_action_time := u32 (Z.quot (clock_us w) 1000) |}
    ∧ servo_initialized (servo_ctx w') = true
    ∧ servo_handle_pos (servo_ctx w')
      = (mode_target m (state (state_ctx w))).1
    ∧ trace w' = trace w ++ l
    ∧ List.filter is_outward l
      = sent_report w m (mode_target m (state (state_ctx w))).2
        ++ sent_alert w ZIGBEE_ALERT_MODE_CHANGED m
    ∧ clock_us w' = clock_us w
    ∧ nvs_io_err w' = nvs_io_err w ∧ nvs_open_err w' = nvs_open_err w
    ∧ radio_kept w w'.
Proof.
  intros Hi Hsi Hv Hne Hh.
  destruct (state_set_window_mode m w) as [r w'] eqn:E. exists w'.
  pose proof (state_set_window_mode_env _ _ _ _ E) as (F1 & F2 & F3).
  pose proof (state_set_window_mode_radio _ _ _ _ E) as F4.
  apply state_set_window_mode_spec in E. cbv zeta in E.
  destruct E as [(_ & _ & Hc)|(-> & _ & _ & _ & _ & rep & alr & logs & Hc)].
  { exfalso.
    destruct Hc as [(_ & ?)|[(_ & _ & ?)|[(_ & _ & _ & ? & _)|
                    (_ & _ & _ & _ & [?|?])]]]; congruence. }
  destruct (mode_target m (state (state_ctx w))) as [hp gp].
  destruct Hc as (_ & Hs & Hsv & Ht & Hrep & Halr & Hlogs & _). simpl.
  eexists. split; [done|]. split; [done|]. rewrite Hsv. simpl.
  split; [done|]. split; [done|]. split; [exact Ht|].
  split; [|done].
  rewrite !List.filter_app, (logs_no_outward _ Hlogs),
    (report_outcome_outward _ _ _ _ Hrep),
    (alert_outcome_outward _ _ _ _ Halr), app_nil_r.
  by case_decide.
Qed.

(** [state_set_gap_percentage] to another percentage, on initialised
    modules. *)
Lemma state_set_gap_percentage_commits p w :
  initialized (state_ctx w) = true →
  servo_initialized (servo_ctx w) = true →
  0 <= p <= 100 → gap_percentage (state (state_ctx w)) ≠ p →
  ∃ w' l,
    state_set_gap_percentage p w = (ESP_OK, w')
    ∧ state_ctx w' =
        with_state (state_ctx w)
          {| mode := mode_after_gap (state (state_ctx w)) p;
             handle_pos := handle_pos (state (state_ctx w));
             gap_percentage := p;
             calibrated := calibrated (state (state_ctx w));
             in_motion := true;
             last_action_time := u32 (Z.quot (clock_us w) 1000) |}
    ∧ servo_initialized (servo_ctx w') = true
    ∧ servo_gap_percentage (servo_ctx w') = p
    ∧ trace w' = trace w ++ l
    ∧ List.filter is_outward l
      = sent_report w (mode_after_gap (state (state_ctx w)) p) p
    ∧ radio_kept w w'.
Proof.
  intros Hi Hsi Hp Hne.
  assert (u8 p = p) as Hu by (apply u8_small; lia).
  destruct (state_set_gap_percentage p w) as [r w'] eqn:E. exists w'.
  pose proof (state_set_gap_percentage_radio _ _ _ _ E) as F4.
  apply state_set_gap_percentage_spec in E. cbv zeta in E. rewrite Hu in E.
  destruct E as [(_ & _ & Hc)|(-> & _ & _ & _ & _ & rep & logs & Hc)].
  { exfalso.
    destruct Hc as [(_ & ?)|[(_ & _ & ? & _)|[(_ & _ & _ & ?)|
                    (_ & _ & _ & _ & ?)]]]; try congruence; lia. }
  destruct Hc as (Hs & Hsv & Ht & Hrep & Hlogs & _).
  eexists. split; [done|]. split; [done|]. rewrite Hsv.
  split; [done|]. split; [done|]. split; [exact Ht|]. split; [|done].
  rewrite !List.filter_app, (logs_no_outward _ Hlogs),
    (report_outcome_outward _ _ _ _ Hrep), app_nil_r. done.
Qed.

(** X15: the final report of [zigbee_command_handler] echoes the two
    bytes of the command, not the state.  On initialised modules, a
    command (open, p) with p below 100, arriving in another mode, leaves
    the window in custom mode with the handle at 90 degrees and the gap
    at p percent; with the radio up the hub receives the report
    (open, 100) and the mode-changed alert of the mode setter and then
    the report (open, p) of the handler: the report of the gap setter,
    which would say custom, is refused by [zigbee_device_report_state],
    so that the last report says mode open.  A command (closed, p),
    arriving in another mode, closes the window (gap 0); with the radio
    up the hub receives the report (closed, 0), the alert, and then,
    when p is at most 100, the report (closed, p); for a larger p the
    library refuses the last report.  With the radio down nothing goes
    out. *)
Theorem command_report_echoes_request cmd p w :
  initialized (state_ctx w) = true →
  servo_initialized (servo_ctx w) = true →
  0 <= p < 256 →
  (mode (state (state_ctx w)) ≠ WINDOW_MODE_OPEN → p < 100 →
   ∃ w',
     zigbee_command_handler cmd [WINDOW_MODE_OPEN; p] 2 w = Some w'
     ∧ mode (state (state_ctx w')) = WINDOW_MODE_CUSTOM
     ∧ handle_pos (state (state_ctx w')) = HANDLE_POSITION_OPEN
     ∧ gap_percentage (state (state_ctx w')) = p
     ∧ List.filter is_outward (emitted w w')
       = (if decide (radio_up w) then
            [ZbReportState WINDOW_MODE_OPEN 100;
             ZbSendAlert ZIGBEE_ALERT_MODE_CHANGED WINDOW_MODE_OPEN;
             ZbReportState WINDOW_MODE_OPEN p]
          else []))
  ∧ (mode (state (state_ctx w)) ≠ WINDOW_MODE_CLOSED →
     ∃ w',
       zigbee_command_handler cmd [WINDOW_MODE_CLOSED; p] 2 w = Some w'
       ∧ mode (state (state_ctx w')) = WINDOW_MODE_CLOSED
       ∧ handle_pos (state (state_ctx w')) = HANDLE_POSITION_CLOSED
       ∧ gap_percentage (state (state_ctx w')) = 0
       ∧ List.filter is_outward (emitted w w')
         = (if decide (radio_up w) then
              [ZbReportState WINDOW_MODE_CLOSED 0;
               ZbSendAlert ZIGBEE_ALERT_MODE_CHANGED WINDOW_MODE_CLOSED]
              ++ (if decide (p <= 100) then
                    [ZbReportState WINDOW_MODE_CLOSED p]
                  else [])
            else [])).
Proof.
  intros Hi Hsi Hp.
  assert (u8 p = p) as Hu by (by apply u8_small).
  split.
  - intros Hm Hlt.
    destruct (state_set_window_mode_commits WINDOW_MODE_OPEN w)
      as (w1 & l1 & E1 & S1 & V1 & _ & T1 & L1 & _ & _ & _ & K1); try done.
    { unfold valid_mode. tauto. }
    { unfold mode_target, valid_handle. simpl. tauto. }
    unfold mode_target in S1, L1. simpl in S1, L1.
    destruct (state_set_gap_percentage_commits p w1)
      as (w2 & l2 & E2 & S2 & V2 & _ & T2 & L2 & K2).
    { by rewrite S1. }
    { done. }
    { lia. }
    { rewrite S1. simpl. lia. }
    rewrite S1 in S2. unfold mode_after_gap in S2, L2. simpl in S2.
    rewrite S1 in L2. simpl in L2.
    rewrite bool_decide_eq_true_2 in S2, L2 by (left; split; [done|lia]).
    destruct (zigbee_device_report_state_spec WINDOW_MODE_OPEN p w2)
      as (r3 & cm & cp & lrt & l3 & E3 & _ & L3).
    apply report_outcome_outward in L3.
    rewrite (radio_kept_sent_report w1 w2) in L3 by done.
    rewrite (radio_kept_sent_report w w1) in L2, L3 by done.
    eexists. split.
    { unfold zigbee_command_handler. rewrite bool_decide_eq_false_2 by lia.
      simpl lookup. cbv iota zeta.
      change (u8 WINDOW_MODE_OPEN) with WINDOW_MODE_OPEN. rewrite Hu.
      unfold apply_command. unfold bind at 1. rewrite E1.
      rewrite decide_False by (by intros ?).
      rewrite bool_decide_eq_true_2 by tauto.
      unfold bind at 1. rewrite E2.
      rewrite decide_False by (by intros ?).
      unfold bind at 1. rewrite E3. reflexivity. }
    cbn [snd state_ctx]. rewrite S2. simpl.
    split; [done|]. split; [done|]. split; [done|].
    rewrite (emitted_app w _ (l1 ++ l2 ++ l3)).
    2:{ cbn [trace]. rewrite T2, T1, <- !app_assoc. done. }
    rewrite !List.filter_app, L1, L2, L3.
    rewrite (sent_report_reportable w WINDOW_MODE_OPEN 100)
      by (apply reportable_preset; [tauto|lia]).
    rewrite (sent_report_reportable w WINDOW_MODE_OPEN p)
      by (apply reportable_preset; [tauto|lia]).
    rewrite (sent_report_refused w WINDOW_MODE_CUSTOM p)
      by apply not_reportable_custom.
    unfold sent_alert. rewrite Hu.
    by destruct (decide (radio_up w)).
  - intros Hm.
    destruct (state_set_window_mode_commits WINDOW_MODE_CLOSED w)
      as (w1 & l1 & E1 & S1 & V1 & _ & T1 & L1 & _ & _ & _ & K1); try done.
    { unfold valid_mode. tauto. }
    { unfold mode_target, valid_handle. simpl. tauto. }
    unfold mode_target in S1, L1. simpl in S1, L1.
    destruct (zigbee_device_report_state_spec WINDOW_MODE_CLOSED p w1)
      as (r3 & cm & cp & lrt & l3 & E3 & _ & L3).
    apply report_outcome_outward in L3.
    rewrite (radio_kept_sent_report w w1) in L3 by done.
    eexists. split.
    { unfold zigbee_command_handler. rewrite bool_decide_eq_false_2 by lia.
      simpl lookup. cbv iota zeta.
      change (u8 WINDOW_MODE_CLOSED) with WINDOW_MODE_CLOSED. rewrite Hu.
      unfold apply_command. unfold bind at 1. rewrite E1.
      rewrite decide_False by (by intros ?).
      rewrite bool_decide_eq_false_2 by (consts; lia).
      unfold bind at 1. unfold ret at 1.
      rewrite decide_False by (by intros ?).
      unfold bind at 1. rewrite E3. reflexivity. }
    cbn [snd state_ctx]. rewrite S1. simpl.
    split; [done|]. split; [done|]. split; [done|].
    rewrite (emitted_app w _ (l1 ++ l3)).
    2:{ cbn [trace]. rewrite T1, <- !app_assoc. done. }
    rewrite !List.filter_app, L1, L3.
    rewrite (sent_report_reportable w WINDOW_MODE_CLOSED 0)
      by (apply reportable_preset; [tauto|lia]).
    unfold sent_alert.
    destruct (decide (p <= 100)) as [Hle|Hle].
    + rewrite (sent_report_reportable w WINDOW_MODE_CLOSED p)
        by (apply reportable_preset; [tauto|lia]).
      rewrite Hu. by destruct (decide (radio_up w)).
    + rewrite (sent_report_refused w WINDOW_MODE_CLOSED p).
      * by destruct (decide (radio_up w)).
      * unfold reportable. rewrite Hu. tauto.
Qed.

Lemma command_report_echoes_request_witness :
  ∃ w',
    zigbee_command_handler 0 [WINDOW_MODE_OPEN; 40] 2 (joined booted)
    = Some w'
    ∧ mode (state (state_ctx w')) = WINDOW_MODE_CUSTOM
    ∧ List.filter is_outward (emitted (joined booted) w')
      = [ZbReportState WINDOW_MODE_OPEN 100;
         ZbSendAlert ZIGBEE_ALERT_MODE_CHANGED WINDOW_MODE_OPEN;
         ZbReportState WINDOW_MODE_OPEN 40].
Proof.
  destruct (command_report_echoes_request 0 40 (joined booted)) as [H _].
  - reflexivity.
  - reflexivity.
  - lia.
  - destruct H as (w' & E & Hm & _ & _ & Ho).
    + vm_compute. discriminate.
    + lia.
    + exists w'. split; [exact E|]. split; [exact Hm|].
      rewrite Ho. vm_compute. reflexivity.
Defined.

(** X16: a command whose mode byte is none of the four modes is
    refused before anything moves: the handler ends with the two error
    logs of [state_set_window_mode] and of itself, and the state, the
    servo module and the NVS are as before; nothing is reported. *)
Theorem command_with_unknown_mode_is_refused cmd d0 d1 w :
  initialized (state_ctx w) = true →
  ¬ valid_mode (u8 d0) →
  ∃ w',
    zigbee_command_handler cmd [d0; d1] 2 w = Some w'
    ∧ state_ctx w' = state_ctx w ∧ servo_ctx w' = servo_ctx w
    ∧ nvs w' = nvs w
    ∧ emitted w w' = [Log LOG_ERROR TAG; Log LOG_ERROR MAIN_TAG].
Proof.
  intros Hi Hv.
  assert (state_set_window_mode (u8 d0) w
          = (ESP_ERR_INVALID_ARG, (ESP_LOGE TAG w).2)) as E.
  { unfold state_set_window_mode. unfold bind at 1, gets at 1.
    rewrite Hi. simpl negb. cbv iota.
    rewrite bool_decide_eq_true_2; [done|]. unfold valid_mode in Hv. tauto. }
  eexists. split.
  { unfold zigbee_command_handler. rewrite bool_decide_eq_false_2 by lia.
    simpl lookup. cbv iota zeta. unfold apply_command. unfold bind at 1.
    rewrite E. rewrite decide_True by done. reflexivity. }
  simpl. repeat split. unfold emitted. simpl.
  by rewrite <- app_assoc, drop_app_length.
Qed.

Lemma command_with_unknown_mode_is_refused_witness :
  ∃ w',
    zigbee_command_handler 0 [7; 50] 2 booted = Some w'
    ∧ state_ctx w' = state_ctx booted.
Proof.
  destruct (command_with_unknown_mode_is_refused 0 7 50 booted)
    as (w' & E & H & _).
  - reflexivity.
  - vm_compute. intros [H|[H|[H|H]]]; discriminate H.
  - exists w'. split; [exact E|exact H].
Defined.

Lemma keeps_nvs_ret {A} (a : A) : keeps_nvs (ret a).
Proof. by intros w H. Qed.

Lemma keeps_nvs_gets {A} (f : world → A) : keeps_nvs (gets f).
Proof. by intros w H. Qed.

Lemma keeps_nvs_bind {A B} (m : M A) (k : A → M B) :
  keeps_nvs m → (∀ a, keeps_nvs (k a)) → keeps_nvs (bind m k).
Proof.
  intros Hm Hk w H. unfold bind. specialize (Hm w H).
  destruct (m w) as [a w1]. destruct Hm as [E1 E2]. simpl in *.
  destruct (Hk a w1) as [F1 F2]; [congruence|].
  split; congruence.
Qed.

Lemma keeps_nvs_modify (f : world → world) :
  (∀ w, nvs_io_err (f w) = nvs_io_err w ∧ nvs (f w) = nvs w) →
  keeps_nvs (modify f).
Proof. intros H w _. apply H. Qed.

Lemma keeps_nvs_set_state_ctx c : keeps_nvs (set_state_ctx c).
Proof. by apply keeps_nvs_modify. Qed.

Lemma keeps_nvs_set_servo_ctx s : keeps_nvs (set_servo_ctx s).
Proof. by apply keeps_nvs_modify. Qed.

Lemma keeps_nvs_emit e : keeps_nvs (emit e).
Proof. by apply keeps_nvs_modify. Qed.

Lemma keeps_nvs_nvs_set_u8 key v : keeps_nvs (nvs_set_u8 key v).
Proof.
  intros w H. unfold nvs_set_u8. unfold bind at 1, gets at 1.
  by rewrite decide_False.
Qed.

Lemma keeps_nvs_nvs_erase_all : keeps_nvs nvs_erase_all.
Proof.
  intros w H. unfold nvs_erase_all. unfold bind at 1, gets at 1.
  by rewrite decide_False.
Qed.

Lemma keeps_nvs_or_fail call k :
  keeps_nvs call → keeps_nvs k → keeps_nvs (or_fail call k).
Proof.
  intros Hc Hk. unfold or_fail. apply keeps_nvs_bind; [done|].
  intros err. case_decide; [|done].
  apply keeps_nvs_bind; [apply keeps_nvs_emit|]. intros _.
  apply keeps_nvs_ret.
Qed.

Lemma keeps_nvs_set_zigbee_ctx c : keeps_nvs (set_zigbee_ctx c).
Proof. by intros w H. Qed.

Lemma keeps_nvs_set_zb_ctx z : keeps_nvs (set_zb_ctx z).
Proof. by intros w H. Qed.

Lemma keeps_nvs_zigbee_device_report_state m p :
  keeps_nvs (zigbee_device_report_state m p).
Proof.
  intros w _.
  destruct (zigbee_device_report_state_spec m p w)
    as (r & cm & cp & lrt & l & -> & _).
  by split.
Qed.

Lemma keeps_nvs_zigbee_device_send_alert a v :
  keeps_nvs (zigbee_device_send_alert a v).
Proof.
  intros w _.
  destruct (zigbee_device_send_alert_spec a v w) as (r & l & -> & _).
  by split.
Qed.

Ltac keeps_step :=
  lazymatch goal with
  | |- keeps_nvs (ret _) => apply keeps_nvs_ret
  | |- keeps_nvs (set_zigbee_ctx _) => apply keeps_nvs_set_zigbee_ctx
  | |- keeps_nvs (set_zb_ctx _) => apply keeps_nvs_set_zb_ctx
  | |- keeps_nvs (zigbee_device_report_state _ _) =>
      apply keeps_nvs_zigbee_device_report_state
  | |- keeps_nvs (zigbee_device_send_alert _ _) =>
      apply keeps_nvs_zigbee_device_send_alert
  | |- keeps_nvs (gets _) => apply keeps_nvs_gets
  | |- keeps_nvs (emit _) => apply keeps_nvs_emit
  | |- keeps_nvs (ESP_LOGE _) => apply keeps_nvs_emit
  | |- keeps_nvs (ESP_LOGW _) => apply keeps_nvs_emit
  | |- keeps_nvs (set_state_ctx _) => apply keeps_nvs_set_state_ctx
  | |- keeps_nvs (set_servo_ctx _) => apply keeps_nvs_set_servo_ctx
  | |- keeps_nvs (nvs_set_u8 _ _) => apply keeps_nvs_nvs_set_u8
  | |- keeps_nvs nvs_erase_all => apply keeps_nvs_nvs_erase_all
  | |- keeps_nvs nvs_commit => apply keeps_nvs_gets
  | |- keeps_nvs (or_fail _ _) => apply keeps_nvs_or_fail
  | |- keeps_nvs (bind _ _) => apply keeps_nvs_bind; [|intros ?]
  | |- keeps_nvs (if decide _ then _ else _) => case_decide
  | |- keeps_nvs (if bool_decide _ then _ else _) => case_bool_decide
  | |- keeps_nvs (if ?b then _ else _) => destruct b
  | |- keeps_nvs (match ?x with _ => _ end) => destruct x
  | |- keeps_nvs (let _ := _ in _) => cbv zeta
  | |- keeps_nvs _ => solve [auto]
  end.

Ltac keeps := repeat keeps_step.

Lemma keeps_nvs_update_state f : keeps_nvs (update_state f).
Proof. unfold update_state, set_state, get_state. keeps. Qed.

Lemma keeps_nvs_servo_set_handle_position p :
  keeps_nvs (servo_set_handle_position p).
Proof. unfold servo_set_handle_position. keeps. Qed.

Lemma keeps_nvs_servo_set_gap_percentage p :
  keeps_nvs (servo_set_gap_percentage p).
Proof. unfold servo_set_gap_percentage. keeps. Qed.

Lemma keeps_nvs_servo_init {C} (a b : option C) : keeps_nvs (servo_init a b).
Proof. unfold servo_init. keeps. Qed.

Lemma keeps_nvs_state_open_nvs : keeps_nvs state_open_nvs.
Proof. unfold state_open_nvs, nvs_open. keeps. Qed.

Lemma keeps_nvs_state_save_to_nvs : keeps_nvs state_save_to_nvs.
Proof.
  unfold state_save_to_nvs. keeps.
Qed.

Lemma keeps_nvs_save_if_configured : keeps_nvs save_if_configured.
Proof.
  pose proof keeps_nvs_state_save_to_nvs. unfold save_if_configured. keeps.
Qed.

Lemma keeps_nvs_state_update_last_action_time :
  keeps_nvs state_update_last_action_time.
Proof.
  pose proof keeps_nvs_update_state.
  unfold state_update_last_action_time, now_ms. keeps.
Qed.

Ltac keeps_known :=
  pose proof keeps_nvs_update_state;
  pose proof keeps_nvs_servo_set_handle_position;
  pose proof keeps_nvs_servo_set_gap_percentage;
  pose proof keeps_nvs_state_open_nvs;
  pose proof keeps_nvs_state_save_to_nvs;
  pose proof keeps_nvs_save_if_configured;
  pose proof keeps_nvs_state_update_last_action_time.

Lemma keeps_nvs_state_set_window_mode m : keeps_nvs (state_set_window_mode m).
Proof.
  keeps_known.
  unfold state_set_window_mode, get_state.
  keeps.
  all: match goal with
       | |- keeps_nvs (let '(_, _) := ?x in _) => destruct x
       end; keeps.
Qed.

Lemma keeps_nvs_state_set_handle_position p :
  keeps_nvs (state_set_handle_position p).
Proof.
  keeps_known.
  unfold state_set_handle_position, get_state.
  keeps.
Qed.

Lemma keeps_nvs_state_set_gap_percentage p :
  keeps_nvs (state_set_gap_percentage p).
Proof.
  keeps_known.
  unfold state_set_gap_percentage, get_state.
  keeps.
Qed.

Lemma keeps_nvs_restore_key key store k :
  keeps_nvs k → keeps_nvs (restore_key key store k).
Proof.
  intros. keeps_known. unfold restore_key, nvs_get_u8. keeps.
Qed.

Lemma keeps_nvs_state_restore_from_nvs : keeps_nvs state_restore_from_nvs.
Proof.
  unfold state_restore_from_nvs.
  repeat lazymatch goal with
         | |- keeps_nvs (restore_key _ _ _) => apply keeps_nvs_restore_key
         | |- _ => keeps_step
         end.
Qed.

Lemma keeps_nvs_state_init cfg : keeps_nvs (state_init cfg).
Proof.
  keeps_known. pose proof keeps_nvs_state_restore_from_nvs.
  unfold state_init, now_ms. keeps.
Qed.

Lemma keeps_nvs_state_save : keeps_nvs state_save.
Proof. keeps_known. unfold state_save. keeps. Qed.

Lemma keeps_nvs_state_restore : keeps_nvs state_restore.
Proof.
  keeps_known. pose proof keeps_nvs_state_restore_from_nvs.
  unfold state_restore, get_state. keeps.
Qed.

Lemma keeps_nvs_state_factory_reset : keeps_nvs state_factory_reset.
Proof.
  keeps_known.
  unfold state_factory_reset. keeps.
Qed.

Lemma keeps_nvs_state_task_handler : keeps_nvs state_task_handler.
Proof.
  keeps_known. unfold state_task_handler, now_ms, get_state. keeps.
Qed.

Lemma keeps_nvs_state_get_window_state : keeps_nvs state_get_window_state.
Proof.
  keeps_known.
  unfold state_get_window_state, servo_get_handle_position,
    servo_get_gap_percentage, get_state.
  keeps.
Qed.

Lemma keeps_nvs_zigbee_device_init : keeps_nvs zigbee_device_init.
Proof.
  unfold zigbee_device_init, esp_zigbee_init, update_zigbee_ctx,
    update_zb_ctx.
  keeps.
Qed.

Lemma keeps_nvs_zigbee_device_start : keeps_nvs zigbee_device_start.
Proof.
  unfold zigbee_device_start, esp_zigbee_start, update_zigbee_ctx,
    update_zb_ctx.
  keeps.
Qed.

Lemma keeps_nvs_app_main cfg : keeps_nvs (app_main cfg).
Proof.
  pose proof (@keeps_nvs_servo_init unit).
  pose proof keeps_nvs_state_init. pose proof keeps_nvs_state_restore.
  pose proof keeps_nvs_state_set_window_mode.
  pose proof keeps_nvs_state_set_gap_percentage.
  pose proof keeps_nvs_zigbee_device_init.
  pose proof keeps_nvs_zigbee_device_start.
  unfold app_main, ESP_ERROR_CHECK. keeps.
Qed.

Lemma keeps_nvs_apply_command m p : keeps_nvs (apply_command m p).
Proof.
  pose proof keeps_nvs_state_set_window_mode.
  pose proof keeps_nvs_state_set_gap_percentage.
  unfold apply_command. keeps.
Qed.

(** X17: a failing flash driver never blocks the state machine and never
    corrupts the stored record.  While the driver answers an error, no
    call into the two modules and no ZigBee command changes the NVS
    namespace; and a mode change on initialised modules still returns
    [ESP_OK] and commits the new mode. *)
Theorem flash_failure_neither_blocks_nor_writes w :
  nvs_io_err w ≠ ESP_OK →
  (∀ c, nvs (run c w) = nvs w)
  ∧ (∀ cmd data len w',
       zigbee_command_handler cmd data len w = Some w' → nvs w' = nvs w)
  ∧ (∀ m,
       initialized (state_ctx w) = true →
       servo_initialized (servo_ctx w) = true →
       valid_mode m → mode (state (state_ctx w)) ≠ m →
       valid_handle (mode_target m (state (state_ctx w))).1 →
       (state_set_window_mode m w).1 = ESP_OK
       ∧ mode (state (state_ctx (state_set_window_mode m w).2)) = m).
Proof.
  intros H. split; [|split].
  - intros c. destruct c; simpl.
    + by apply (@keeps_nvs_servo_init unit).
    + by apply keeps_nvs_state_init.
    + by apply keeps_nvs_state_set_window_mode.
    + by apply keeps_nvs_state_set_handle_position.
    + by apply keeps_nvs_state_set_gap_percentage.
    + by apply keeps_nvs_state_get_window_state.
    + by apply keeps_nvs_state_save.
    + by apply keeps_nvs_state_restore.
    + by apply keeps_nvs_state_factory_reset.
    + by apply keeps_nvs_state_task_handler.
    + by apply keeps_nvs_app_main.
  - intros cmd data len w'. unfold zigbee_command_handler.
    case_bool_decide; [by intros [= <-]|].
    destruct (data !! 0%nat) as [d0|]; [|done].
    destruct (data !! 1%nat) as [d1|]; [|done].
    intros [= <-]. by apply keeps_nvs_apply_command.
  - intros m Hi Hsi Hv Hne Hh.
    destruct (state_set_window_mode_commits m w)
      as (w' & l & -> & S & _); try done.
    simpl. by rewrite S.
Qed.

Lemma flash_failure_neither_blocks_nor_writes_witness :
  nvs (run (Call_state_set_window_mode WINDOW_MODE_OPEN)
         (with_env ESP_OK ESP_FAIL 0 booted))
  = nvs (with_env ESP_OK ESP_FAIL 0 booted).
Proof.
  destruct (flash_failure_neither_blocks_nor_writes
              (with_env ESP_OK ESP_FAIL 0 booted)) as (H & _).
  - discriminate.
  - apply H.
Defined.

(** What [state_factory_reset] does on initialised modules. *)
Lemma state_factory_reset_spec w r w' :
  state_factory_reset w = (r, w') →
  initialized (state_ctx w) = true →
  servo_initialized (servo_ctx w) = true →
  state (state_ctx w')
  = {| mode := WINDOW_MODE_CLOSED; handle_pos := HANDLE_POSITION_CLOSED;
       gap_percentage := 0; calibrated := false; in_motion := false;
       last_action_time := u32 (Z.quot (clock_us w) 1000) |}
  ∧ initialized (state_ctx w') = true
  ∧ nvs_opened (state_ctx w') = nvs_opened (state_ctx w)
  ∧ servo_ctx w'
    = {| servo_initialized := true;
         servo_handle_pos := HANDLE_POSITION_CLOSED;
         servo_gap_percentage := 0;
         handle_calibrated := handle_calibrated (servo_ctx w);
         gap_calibrated := gap_calibrated (servo_ctx w) |}
  ∧ clock_us w' = clock_us w ∧ nvs_io_err w' = nvs_io_err w
  ∧ ((r = ESP_OK
      ∧ (nvs_opened (state_ctx w) = false ∨ nvs_io_err w = ESP_OK)
      ∧ nvs w' = (if nvs_opened (state_ctx w) then ∅ else nvs w)
      ∧ ∃ rep,
          trace w'
          = trace w ++ [ServoHandleCmd HANDLE_POSITION_CLOSED; ServoGapCmd 0]
            ++ rep
          ∧ report_outcome w WINDOW_MODE_CLOSED 0 rep)
     ∨ (r = nvs_io_err w ∧ nvs_io_err w ≠ ESP_OK
        ∧ nvs_opened (state_ctx w) = true
        ∧ nvs w' = nvs w
        ∧ trace w'
          = trace w ++ [ServoHandleCmd HANDLE_POSITION_CLOSED; ServoGapCmd 0;
                        Log LOG_ERROR TAG])).
Proof.
  crunch w.
  all: intros [= <- <-]; proj_simpl; intros ? ?; try done.
  all: repeat (split; [done|]).
  all: first [ left; split; [done|]; split; [tauto|]; split; [done|];
               match goal with
               | _ : report_outcome _ _ _ ?rep |- _ => exists rep
               end;
               split; [by rewrite <- ?app_assoc|assumption]
             | right; repeat split; try done; by rewrite <- ?app_assoc ].
Qed.

(** X18: [state_factory_reset] on initialised modules, with the NVS not
    opened or the flash driver working: it returns [ESP_OK]; the window
    state is closed, handle 0, gap 0, not calibrated, not in motion; both
    servos were commanded to that position; an opened NVS namespace is
    empty afterwards; and exactly one report (closed, 0) went out when
    the radio is up, none when it is down.  A second reset leaves the
    same state.  When the erase fails, the driver's error is returned
    after the state has been reset, and nothing is reported. *)
Theorem factory_reset_restores_defaults w :
  initialized (state_ctx w) = true →
  servo_initialized (servo_ctx w) = true →
  let defaults :=
    {| mode := WINDOW_MODE_CLOSED; handle_pos := HANDLE_POSITION_CLOSED;
       gap_percentage := 0; calibrated := false; in_motion := false;
       last_action_time := u32 (Z.quot (clock_us w) 1000) |} in
  let w' := (state_factory_reset w).2 in
  state (state_ctx w') = defaults
  ∧ servo_handle_pos (servo_ctx w') = HANDLE_POSITION_CLOSED
  ∧ servo_gap_percentage (servo_ctx w') = 0
  ∧ List.filter is_servo_cmd (emitted w w')
    = [ServoHandleCmd HANDLE_POSITION_CLOSED; ServoGapCmd 0]
  ∧ (nvs_opened (state_ctx w) = false ∨ nvs_io_err w = ESP_OK →
     (state_factory_reset w).1 = ESP_OK
     ∧ nvs w' = (if nvs_opened (state_ctx w) then ∅ else nvs w)
     ∧ List.filter is_outward (emitted w w')
       = (if decide (radio_up w) then [ZbReportState WINDOW_MODE_CLOSED 0]
          else [])
     ∧ state (state_ctx (state_factory_reset w').2) = defaults)
  ∧ (nvs_opened (state_ctx w) = true → nvs_io_err w ≠ ESP_OK →
     (state_factory_reset w).1 = nvs_io_err w
     ∧ nvs w' = nvs w
     ∧ List.filter is_outward (emitted w w') = []).
Proof.
  intros Hi Hsi. cbv zeta.
  destruct (state_factory_reset w) as [r w'] eqn:E.
  destruct (state_factory_reset_spec _ _ _ E Hi Hsi)
    as (S & I & O & V & C & IO & R). simpl.
  split; [exact S|]. rewrite V. simpl. split; [done|]. split; [done|].
  split.
  { destruct R as [(_ & _ & _ & rep & T & Hrep)|(_ & _ & _ & _ & T)];
      rewrite (emitted_app _ _ _ T); [|done].
    rewrite List.filter_app, (report_outcome_no_servo_cmd _ _ _ _ Hrep).
    done. }
  split.
  - intros Hok.
    destruct R as [(-> & _ & N & rep & T & Hrep)|(_ & Hne & Ho & _)].
    + split; [done|]. split; [done|].
      split.
      { rewrite (emitted_app _ _ _ T).
        rewrite List.filter_app, (report_outcome_outward _ _ _ _ Hrep).
        rewrite sent_report_reportable
          by (apply reportable_preset; [tauto|lia]).
        done. }
      destruct (state_factory_reset w') as [r2 w2] eqn:E2.
      destruct (state_factory_reset_spec _ _ _ E2) as (S2 & _).
      * done.
      * by rewrite V.
      * simpl. by rewrite S2, C.
    + exfalso. destruct Hok; congruence.
  - intros Ho Hne.
    destruct R as [(_ & [?|?] & _)|(-> & _ & _ & N & T)]; try congruence.
    split; [done|]. split; [done|]. by rewrite (emitted_app _ _ _ T).
Qed.

Lemma factory_reset_restores_defaults_witness :
  mode (state (state_ctx
    (state_factory_reset
       (state_set_window_mode WINDOW_MODE_OPEN (joined booted)).2).2))
  = WINDOW_MODE_CLOSED
  ∧ List.filter is_outward
      (emitted (state_set_window_mode WINDOW_MODE_OPEN (joined booted)).2
         (state_factory_reset
            (state_set_window_mode WINDOW_MODE_OPEN (joined booted)).2).2)
    = [ZbReportState WINDOW_MODE_CLOSED 0].
Proof.
  destruct (factory_reset_restores_defaults
              (state_set_window_mode WINDOW_MODE_OPEN (joined booted)).2)
    as (H & _ & _ & _ & Hok & _).
  - reflexivity.
  - reflexivity.
  - split; [by rewrite H|].
    destruct Hok as (_ & _ & Ho & _); [right; reflexivity|].
    rewrite Ho. vm_compute. reflexivity.
Defined.

Lemma state_restore_from_nvs_ok w :
  nvs_opened (state_ctx w) = true → nvs_io_err w = ESP_OK →
  state_restore_from_nvs w
  = (ESP_OK, (set_state (restored (nvs w) (state (state_ctx w))) w).2).
Proof.
  break_world w. proj_simpl. intros -> ->.
  unfold restored. unfold_storage.
  unfold NVS_KEY_MODE, NVS_KEY_HANDLE_POS, NVS_KEY_GAP_PERCENTAGE,
    NVS_KEY_CALIBRATED.
  repeat (first [ case_decide
                | match goal with
                  | |- context [nv !! ?k] => destruct (nv !! k)
                  end ];
          try done; cbv beta iota zeta).
Qed.

(** What [state_restore] does once the namespace is open and the flash
    driver works. *)
Lemma state_restore_spec w r w' :
  state_restore w = (r, w') →
  initialized (state_ctx w) = true →
  save_to_nvs (config (state_ctx w)) = true →
  nvs_opened (state_ctx w) = true → nvs_io_err w = ESP_OK →
  let s' := restored (nvs w) (state (state_ctx w)) in
  state (state_ctx w') = s' ∧ nvs w' = nvs w
  ∧ ((r = ESP_OK ∧ servo_initialized (servo_ctx w) = true
      ∧ valid_handle (handle_pos s') ∧ u8 (gap_percentage s') <= 100
      ∧ servo_handle_pos (servo_ctx w') = handle_pos s'
      ∧ servo_gap_percentage (servo_ctx w') = u8 (gap_percentage s')
      ∧ ∃ rep,
          trace w'
          = trace w ++ [ServoHandleCmd (handle_pos s');
                        ServoGapCmd (u8 (gap_percentage s'))] ++ rep
          ∧ report_outcome w (mode s') (gap_percentage s') rep)
     ∨ (r ≠ ESP_OK
        ∧ (servo_initialized (servo_ctx w) = false
           ∨ ¬ valid_handle (handle_pos s') ∨ u8 (gap_percentage s') > 100)
        ∧ List.filter is_outward (emitted w w') = [])).
Proof.
  intros E Hi Hs Ho Hio. cbv zeta. revert E.
  unfold state_restore. unfold bind at 1, gets at 1.
  rewrite Hi, Hs, Ho. cbv beta iota delta [negb].
  unfold bind at 1. unfold ret at 1. cbv beta iota.
  rewrite decide_False by (by intros ?).
  unfold bind at 1. rewrite state_restore_from_nvs_ok by done.
  cbv beta iota.
  rewrite decide_False by (by intros ?).
  set (s' := restored (nvs w) (state (state_ctx w))).
  clearbody s'. destruct s' as [m' h' g' c' im' la'].
  break_world w. proj_simpl. subst.
  unfold emitted.
  unfold_model. unfold valid_handle. proj_simpl.
  break_conds.
  all: repeat (step_radio; unfold_model; break_conds).
  all: intros [= <- <-]; proj_simpl.
  all: split; [done|]; split; [done|].
  all: first
    [ left; repeat (split; [first [done | consts; lia]|]);
      match goal with
      | _ : report_outcome _ _ _ ?rep |- _ => exists rep
      end;
      split; [by rewrite <- ?app_assoc|assumption]
    | right; split; [done|]; split;
      [ first [ by left | right; left; consts; lia | right; right; lia ]
      | rewrite <- ?app_assoc, ?drop_app_length; done ] ].
Qed.

(** X19: [state_restore] with the namespace open and the flash driver
    working takes each of mode, handle position, gap percentage and
    calibration flag from the NVS when its key is there and keeps the
    current value when the key is missing (the stored values are not
    checked), never writes the NVS, and returns [ESP_OK] exactly when the
    servo module is initialised and accepts the resulting handle position
    and gap percentage; then both servos were commanded there, handle
    first, and the restored state was handed to the radio: one report
    went out when the radio is up and the restored mode is closed, open
    or ventilate, and none otherwise (a restored custom mode is not
    reported).  When it fails the state has been overwritten all the
    same, and nothing was reported.  With an empty namespace the state
    is as before. *)
Theorem restore_takes_what_is_stored w :
  initialized (state_ctx w) = true →
  save_to_nvs (config (state_ctx w)) = true →
  nvs_opened (state_ctx w) = true → nvs_io_err w = ESP_OK →
  let s' := restored (nvs w) (state (state_ctx w)) in
  let w' := (state_restore w).2 in
  state (state_ctx w') = s' ∧ nvs w' = nvs w
  ∧ ((state_restore w).1 = ESP_OK ↔
     servo_initialized (servo_ctx w) = true
     ∧ valid_handle (handle_pos s') ∧ u8 (gap_percentage s') <= 100)
  ∧ ((state_restore w).1 = ESP_OK →
     servo_handle_pos (servo_ctx w') = handle_pos s'
     ∧ servo_gap_percentage (servo_ctx w') = u8 (gap_percentage s')
     ∧ List.filter is_servo_cmd (emitted w w')
       = [ServoHandleCmd (handle_pos s');
          ServoGapCmd (u8 (gap_percentage s'))]
     ∧ List.filter is_outward (emitted w w')
       = sent_report w (mode s') (gap_percentage s')
     ∧ (radio_up w → reportable (mode s') (gap_percentage s') →
        emitted w w'
        = [ServoHandleCmd (handle_pos s');
           ServoGapCmd (u8 (gap_percentage s'));
           ZbReportState (mode s') (u8 (gap_percentage s'))]))
  ∧ ((state_restore w).1 ≠ ESP_OK →
     List.filter is_outward (emitted w w') = [])
  ∧ (nvs w = ∅ → s' = state (state_ctx w))
  ∧ (∀ a b c d,
       nvs w !! NVS_KEY_MODE = Some a →
       nvs w !! NVS_KEY_HANDLE_POS = Some b →
       nvs w !! NVS_KEY_GAP_PERCENTAGE = Some c →
       nvs w !! NVS_KEY_CALIBRATED = Some d →
       canonical s' = (u8 a, u8 b, u8 c, bool_decide (u8 d = 1))).
Proof.
  intros Hi Hs Ho Hio. cbv zeta.
  destruct (state_restore w) as [r w'] eqn:E.
  destruct (state_restore_spec _ _ _ E Hi Hs Ho Hio) as (S & N & R).
  cbn [fst snd]. split; [exact S|]. split; [exact N|].
  split; [|split; [|split; [|split]]].
  - destruct R as [(-> & A & B & C & _)|(Hr & Hc & _)].
    + done.
    + split; [done|]. intros (A & B & C). exfalso.
      destruct Hc as [?|[?|?]]; [congruence|done|lia].
  - intros ->.
    destruct R as [(_ & _ & _ & _ & A & B & rep & T & Hrep)|(? & _)];
      [|done].
    split; [done|]. split; [done|].
    rewrite (emitted_app _ _ _ T), !List.filter_app,
      (report_outcome_no_servo_cmd _ _ _ _ Hrep),
      (report_outcome_outward _ _ _ _ Hrep).
    split; [done|]. split; [done|].
    intros Hu Hp. destruct Hrep as [(_ & _ & ->)|(Hn & _)]; [done|].
    exfalso. by apply Hn.
  - intros Hr. destruct R as [(? & _)|(_ & _ & T)]; done.
  - intros Hn. unfold restored. rewrite Hn, !lookup_empty.
    by destruct (state (state_ctx w)).
  - intros a b c d Ha Hb Hc Hd. unfold restored, canonical. cbn.
    by rewrite Ha, Hb, Hc, Hd.
Qed.

Lemma restore_takes_what_is_stored_witness :
  let w :=
    with_env ESP_OK ESP_OK 9000000
      (state_set_window_mode WINDOW_MODE_CLOSED
         (with_env ESP_OK ESP_FAIL 8000000
            (state_set_window_mode WINDOW_MODE_OPEN (joined booted)).2)).2
  in
  canonical (state (state_ctx w))
  = (WINDOW_MODE_CLOSED, HANDLE_POSITION_CLOSED, 0, false)
  ∧ canonical (state (state_ctx (state_restore w).2))
    = (WINDOW_MODE_OPEN, HANDLE_POSITION_OPEN, 100, false)
  ∧ emitted w (state_restore w).2
    = [ServoHandleCmd HANDLE_POSITION_OPEN; ServoGapCmd 100;
       ZbReportState WINDOW_MODE_OPEN 100].
Proof.
  cbv zeta.
  destruct (restore_takes_what_is_stored
              (with_env ESP_OK ESP_OK 9000000
                 (state_set_window_mode WINDOW_MODE_CLOSED
                    (with_env ESP_OK ESP_FAIL 8000000
                       (state_set_window_mode WINDOW_MODE_OPEN
                          (joined booted)).2)).2))
    as (S & _ & Hok & Hcmd & _ & _ & Hst).
  - reflexivity.
  - reflexivity.
  - reflexivity.
  - reflexivity.
  - split; [vm_compute; reflexivity|].
    split.
    + rewrite S.
      apply (Hst WINDOW_MODE_OPEN HANDLE_POSITION_OPEN 100 0);
        vm_compute; reflexivity.
    + destruct Hcmd as (_ & _ & _ & _ & Hall).
      * apply Hok. vm_compute. split; [reflexivity|].
        split; [right; left; reflexivity|discriminate].
      * rewrite Hall.
        -- vm_compute. reflexivity.
        -- vm_compute. repeat split; try reflexivity. right. reflexivity.
        -- vm_compute. split; [right; left; reflexivity|discriminate].
Defined.

Lemma state_save_to_nvs_writes w :
  nvs_opened (state_ctx w) = true → nvs_io_err w = ESP_OK →
  nvs (state_save_to_nvs w).2 = saved_record (state (state_ctx w)) (nvs w).
Proof.
  intros Ho Hio.
  unfold state_save_to_nvs, or_fail, nvs_set_u8, nvs_commit, saved_record.
  cbv [bind ret gets modify emit ESP_LOGE set_nvs].
  rewrite Ho. simpl.
  destruct (decide (nvs_io_err w = ESP_OK)) as [->|Hne]; [|done]. simpl.
  by rewrite u8_idemp.
Qed.

(** What [state_task_handler] does on an initialised module. *)
Lemma state_task_handler_spec w r w' :
  state_task_handler w = (r, w') →
  initialized (state_ctx w) = true →
  let c := state_ctx w in
  let s := state c in
  let now := u64 (Z.quot (clock_us w) 1000) in
  let due := save_to_nvs (config c) && nvs_opened c
             && bool_decide (u64 (now - last_save_time c)
                             >= save_interval_ms (config c)) in
  r = ESP_OK
  ∧ state (state_ctx w')
    = with_in_motion
        (in_motion s
         && negb (bool_decide (u64 (now - last_action_time s) >= 5000))) s
  ∧ last_save_time (state_ctx w')
    = (if due then now else last_save_time c)
  ∧ servo_ctx w' = servo_ctx w
  ∧ (∃ l, trace w' = trace w ++ l ∧ forallb is_log l = true)
  ∧ (due = false → nvs w' = nvs w)
  ∧ (due = true → nvs_io_err w = ESP_OK →
     nvs w' = saved_record s (nvs w))
  ∧ (due = true → nvs_io_err w ≠ ESP_OK → nvs w' = nvs w).
Proof.
  intros E Hi. cbv zeta. revert E.
  unfold state_task_handler. unfold bind at 1, gets at 1.
  rewrite Hi. cbv beta iota delta [negb].
  unfold bind at 1.
  destruct (save_to_nvs (config (state_ctx w))) eqn:Hs;
    destruct (nvs_opened (state_ctx w)) eqn:Ho; cbn [andb].
  2-4: unfold ret at 1; cbv beta iota.
  2-4: break_world w; proj_simpl; subst;
       unfold_model; break_conds; intros [= <- <-]; proj_simpl;
       repeat split; try done; try (exists []; by rewrite app_nil_r).
  unfold bind at 1, now_ms at 1, gets at 1. cbv beta iota zeta.
  case_bool_decide as Hdue.
  - unfold bind at 1.
    pose proof (state_save_to_nvs_frame w) as F.
    pose proof (state_save_to_nvs_writes w Ho) as Wr.
    pose proof (keeps_nvs_state_save_to_nvs w) as K.
    destruct (state_save_to_nvs w) as [r1 w1]. simpl in F, Wr, K.
    destruct F as (F1 & F2 & F3 & F4 & F5 & l & F6 & F7).
    unfold bind at 1, gets at 1. cbv beta iota.
    destruct w as [c sv zc zb nv oe ie qf clk tr],
      w1 as [c1 sv1 zc1 zb1 nv1 oe1 ie1 qf1 clk1 tr1].
    simpl in *. subst c1 sv1 oe1 ie1 clk1 tr1.
    destruct c as [ini cfg [md hp gp cal mot lat] lst nvo].
    simpl in *. subst.
    unfold_model. break_conds; intros [= <- <-]; proj_simpl.
    all: repeat split; try done; try (by exists l);
      try (intros _ Hx; by destruct (K Hx)).
    all: exists l; by rewrite <- ?app_assoc.
  - unfold ret at 1. cbv beta iota.
    break_world w. proj_simpl. subst.
    unfold_model. break_conds; intros [= <- <-]; proj_simpl.
    all: repeat split; try done; try (exists []; by rewrite app_nil_r).
Qed.

(** X20: the housekeeping of [state_task_handler] on an initialised
    module.  It returns [ESP_OK], sends nothing and commands no servo,
    and leaves mode, positions, calibration flag and the time of the last
    action alone.  The motion flag is never set by it, and is cleared
    once 5000 ms have passed since the last action.  When saving is
    configured, the namespace is open and the save interval has passed
    since the last save, the state is written to the NVS (if the flash
    driver works) and the time of the last save becomes the current
    time, whether the write succeeded or not; otherwise the NVS and that
    time are untouched. *)
Theorem task_handler_housekeeping w :
  initialized (state_ctx w) = true →
  let c := state_ctx w in
  let s := state c in
  let now := Z.quot (clock_us w) 1000 in
  let w' := (state_task_handler w).2 in
  let s' := state (state_ctx w') in
  0 <= last_action_time s <= now → 0 <= last_save_time c <= now →
  now < 2 ^ 64 →
  (state_task_handler w).1 = ESP_OK
  ∧ canonical s' = canonical s
  ∧ last_action_time s' = last_action_time s
  ∧ List.filter is_servo_cmd (emitted w w') = []
  ∧ List.filter is_outward (emitted w w') = []
  ∧ (in_motion s = false → in_motion s' = false)
  ∧ (in_motion s = true →
     (in_motion s' = false ↔ now - last_action_time s >= 5000))
  ∧ (save_to_nvs (config c) = true → nvs_opened c = true →
     now - last_save_time c >= save_interval_ms (config c) →
     last_save_time (state_ctx w') = now
     ∧ (nvs_io_err w = ESP_OK → nvs w' = saved_record s (nvs w))
     ∧ (nvs_io_err w ≠ ESP_OK → nvs w' = nvs w))
  ∧ (save_to_nvs (config c) = false ∨ nvs_opened c = false
     ∨ now - last_save_time c < save_interval_ms (config c) →
     last_save_time (state_ctx w') = last_save_time c ∧ nvs w' = nvs w).
Proof.
  intros Hi. cbv zeta. intros Ha Hsv Hn.
  destruct (state_task_handler w) as [r w'] eqn:E.
  destruct (state_task_handler_spec _ _ _ E Hi)
    as (-> & S & L & V & (l & T & Hl) & N0 & N1 & N2).
  cbn [fst snd].
  assert (u64 (clock_us w ÷ 1000) = clock_us w ÷ 1000) as Hu.
  { unfold u64. apply Z.mod_small. lia. }
  rewrite Hu in *.
  assert (u64 (clock_us w ÷ 1000 - last_action_time (state (state_ctx w)))
          = clock_us w ÷ 1000 - last_action_time (state (state_ctx w)))
    as Hu1.
  { unfold u64. apply Z.mod_small. lia. }
  assert (u64 (clock_us w ÷ 1000 - last_save_time (state_ctx w))
          = clock_us w ÷ 1000 - last_save_time (state_ctx w)) as Hu2.
  { unfold u64. apply Z.mod_small. lia. }
  rewrite Hu1 in S. rewrite Hu2 in L, N0, N1, N2.
  split; [done|]. rewrite S. split; [done|]. split; [done|].
  rewrite (emitted_app _ _ _ T).
  split; [by apply logs_no_servo_cmd|].
  split; [by apply logs_no_outward|].
  split. { intros Hm. cbn [in_motion with_in_motion]. by rewrite Hm. }
  split.
  { intros Hm. cbn [in_motion with_in_motion]. rewrite Hm.
    destruct (decide (clock_us w ÷ 1000
                      - last_action_time (state (state_ctx w)) >= 5000))
      as [Hb|Hb].
    - rewrite bool_decide_eq_true_2 by done. done.
    - rewrite bool_decide_eq_false_2 by done. cbn [negb andb].
      split; [done|]. intros ?. exfalso. by apply Hb. }
  split.
  - intros Hs Ho Hd.
    rewrite Hs, Ho, bool_decide_eq_true_2 in L, N1, N2 by done.
    simpl in L, N1, N2. split; [done|]. split; auto.
  - intros Hd.
    assert (save_to_nvs (config (state_ctx w)) && nvs_opened (state_ctx w)
            && bool_decide
                 (clock_us w ÷ 1000 - last_save_time (state_ctx w)
                  >= save_interval_ms (config (state_ctx w))) = false) as Hf.
    { destruct Hd as [->|[->|Hd]]; [done|by rewrite andb_false_r|].
      rewrite bool_decide_eq_false_2 by lia. by rewrite andb_false_r. }
    rewrite Hf in L, N0. split; [done|]. by apply N0.
Qed.

Lemma task_handler_housekeeping_witness :
  in_motion (state (state_ctx
    (state_task_handler
       (at_time 6000000
          (state_set_window_mode WINDOW_MODE_OPEN booted).2)).2))
  = false.
Proof.
  destruct (task_handler_housekeeping
              (at_time 6000000
                 (state_set_window_mode WINDOW_MODE_OPEN booted).2))
    as (_ & _ & _ & _ & _ & _ & H & _).
  - reflexivity.
  - vm_compute. split; discriminate.
  - vm_compute. split; discriminate.
  - reflexivity.
  - apply H; [reflexivity|]. vm_compute. discriminate.
Defined.

(** X21: in this variant the resistance check of the servo module always
    answers false, so an iteration of [state_task] never raises the
    stuck alert: whatever the state, it sends nothing to the hub and
    commands no servo. *)
Theorem state_task_never_alerts w :
  let w' := (state_task_iteration w).2 in
  List.filter is_outward (emitted w w') = []
  ∧ List.filter is_servo_cmd (emitted w w') = []
  ∧ List.filter (is_alert ZIGBEE_ALERT_STUCK) (emitted w w') = [].
Proof.
  cbv zeta.
  assert ((state_task_iteration w).2 = (state_task_handler w).2) as ->.
  { unfold state_task_iteration, servo_check_resistance, bind, ret.
    by destruct (state_task_handler w). }
  destruct (state_task_handler w) as [r w1] eqn:E. cbn [snd].
  assert (∃ l, trace w1 = trace w ++ l ∧ forallb is_log l = true)
    as (l & T & Hl).
  { destruct (initialized (state_ctx w)) eqn:Hi.
    - by destruct (state_task_handler_spec _ _ _ E Hi)
        as (_ & _ & _ & _ & H & _).
    - revert E. unfold state_task_handler. unfold bind at 1, gets at 1.
      rewrite Hi. cbv beta iota zeta delta [negb bind ret ESP_LOGE emit modify].
      intros [= _ <-]. exists [Log LOG_ERROR TAG]. split; reflexivity. }
  rewrite (emitted_app _ _ _ T).
  split; [by apply logs_no_outward|].
  split; [by apply logs_no_servo_cmd|].
  clear T. induction l as [|e l IH]; [done|].
  simpl in Hl. apply andb_true_iff in Hl as [He Hl].
  destruct e; simpl in *; try done. by apply IH.
Qed.

Ltac unfold_boot :=
  cbv beta iota zeta delta
    [bind ret gets modify emit ESP_LOGE ESP_LOGW set_servo_ctx set_state_ctx
     set_nvs set_state get_state update_state now_ms with_state
     with_mode with_handle_pos with_gap_percentage with_calibrated
     with_in_motion with_last_action_time with_nvs_opened with_last_save_time
     set_zigbee_ctx set_zb_ctx update_zigbee_ctx update_zb_ctx
     with_zigbee_initialized with_zigbee_state with_zb_initialized
     with_zb_state with_connection_retry_count
     zigbee_device_init zigbee_device_start esp_zigbee_init esp_zigbee_start
     zigbee_ctx_init zb_ctx_init ESP_ERROR_CHECK
     state_update_last_action_time
     servo_set_handle_position servo_set_gap_percentage servo_init
     state_init state_save state_restore state_save_to_nvs
     state_restore_from_nvs restore_key or_fail state_open_nvs
     nvs_open nvs_get_u8 nvs_set_u8 nvs_commit nvs_erase_all
     save_if_configured restart state_ctx_init servo_ctx_init
     window_state_zero app_main state_config
     state_set_window_mode state_set_gap_percentage
     state_ctx servo_ctx zigbee_ctx zb_ctx nvs nvs_open_err nvs_io_err
     zb_queue_full clock_us trace
     initialized config state last_save_time nvs_opened
     mode handle_pos gap_percentage calibrated in_motion last_action_time
     servo_initialized servo_handle_pos servo_gap_percentage
     handle_calibrated gap_calibrated
     zigbee_initialized zigbee_state current_mode current_percentage
     zb_initialized zb_state last_report_time connection_retry_count
     save_to_nvs save_interval_ms restore_on_boot negb andb fst snd].

(** X22: a boot with a flash driver that cannot open the namespace.
    [app_main] still brings both modules up: the state module is
    initialised with saving switched off and the namespace closed, the
    window state is the closed one, the NVS is untouched, and no servo is
    commanded and nothing is reported during the boot (the restore is
    refused, and the fall-back to the closed state finds it set).  From
    then on [state_save] answers [ESP_OK] without saving and
    [state_restore] answers [ESP_ERR_INVALID_STATE]. *)
Theorem boot_with_unusable_flash w :
  nvs_open_err w ≠ ESP_OK →
  let w' := (app_main state_config (restart w)).2 in
  initialized (state_ctx w') = true
  ∧ save_to_nvs (config (state_ctx w')) = false
  ∧ nvs_opened (state_ctx w') = false
  ∧ canonical (state (state_ctx w'))
    = (WINDOW_MODE_CLOSED, HANDLE_POSITION_CLOSED, 0, false)
  ∧ servo_initialized (servo_ctx w') = true
  ∧ nvs w' = nvs w
  ∧ List.filter is_servo_cmd (emitted w w') = []
  ∧ List.filter is_outward (emitted w w') = []
  ∧ state_save w' = (ESP_OK, (ESP_LOGW TAG w').2)
  ∧ state_restore w' = (ESP_ERR_INVALID_STATE, (ESP_LOGW TAG w').2).
Proof.
  intros Ho. cbv zeta.
  assert (∃ sc sv' zc' zb' l,
            (app_main state_config (restart w)).2
            = {| state_ctx := sc; servo_ctx := sv'; zigbee_ctx := zc';
                 zb_ctx := zb'; nvs := nvs w;
                 nvs_open_err := nvs_open_err w;
                 nvs_io_err := nvs_io_err w;
                 zb_queue_full := zb_queue_full w;
                 clock_us := clock_us w; trace := trace w ++ l |}
            ∧ initialized sc = true
            ∧ save_to_nvs (config sc) = false
            ∧ nvs_opened sc = false
            ∧ canonical (state sc)
              = (WINDOW_MODE_CLOSED, HANDLE_POSITION_CLOSED, 0, false)
            ∧ servo_initialized sv' = true
            ∧ forallb is_log l = true)
    as (sc & sv' & zc' & zb' & l & E & H1 & H2 & H3 & H4 & H5 & Hl).
  { destruct w as [c sv zc zb nv oe ie qf clk tr]. simpl in Ho.
    eexists _, _, _, _, _.
    unfold_boot.
    change (u8 0) with 0.
    repeat (match goal with
            | |- context [@decide ?P ?i] =>
                first [ rewrite (@decide_True _ P i)
                          by (first [exact Ho|done|consts; lia])
                      | rewrite (@decide_False _ P i)
                          by (first [done|consts; lia|congruence]) ]
            | |- context [@bool_decide ?P ?i] =>
                first [ rewrite (@bool_decide_eq_true_2 P i)
                          by (first [done|consts; lia])
                      | rewrite (@bool_decide_eq_false_2 P i)
                          by (first [done|consts; lia|consts; tauto]) ]
            end; cbv beta iota zeta).
    rewrite <- ?app_assoc. split; [reflexivity|].
    repeat split; reflexivity. }
  rewrite E. cbn [state_ctx servo_ctx nvs].
  rewrite (emitted_app w _ l) by done.
  repeat (split; [first [assumption|reflexivity]|]).
  split; [by apply logs_no_servo_cmd|].
  split; [by apply logs_no_outward|].
  split; [unfold state_save|unfold state_restore];
    unfold bind at 1, gets at 1; cbn [state_ctx]; by rewrite H1, H2.
Qed.

Lemma boot_with_unusable_flash_witness :
  canonical (state (state_ctx
    (app_main state_config
       (restart (with_env ESP_FAIL ESP_OK 0 power_on))).2))
  = (WINDOW_MODE_CLOSED, HANDLE_POSITION_CLOSED, 0, false).
Proof.
  destruct (boot_with_unusable_flash (with_env ESP_FAIL ESP_OK 0 power_on))
    as (_ & _ & _ & H & _).
  - discriminate.
  - exact H.
Defined.

End DeviceFacts.

(** * Properties of the motion controller *)

Module ServoFacts.
Import Servo.

Ltac break_world w :=
  destruct w as [[?hca ?hta ?hen ?hpin] [?gca ?gta ?gen ?gpin]
                 ?md ?gp ?thr ?rd ?adci ?cali ?zst ?zmd ?zgp ?raw ?rds ?pe ?ze
                 ?cse ?cce ?tr].

Ltac unfold_servo :=
  cbv beta iota zeta delta
    [bind ret gets modify emit ESP_LOGE ESP_LOGW set_servo
     set_current_window_mode set_current_gap_percentage
     set_resistance_threshold set_resistance_detected set_adc_initialized
     set_zb_current_state set_zb_current_window_mode
     set_zb_current_gap_percentage set_adc_reads
     servo with_current_angle with_target_angle with_is_enabled
     mcpwm_comparator_set_compare_value mcpwm_generator_set_force_level
     adc_oneshot_read set_servo_angle read_current_sensor
     servo_check_resistance other
     handle_servo gap_servo current_window_mode current_gap_percentage
     resistance_threshold resistance_detected adc_initialized
     zb_current_state zb_current_window_mode zb_current_gap_percentage
     adc_raw adc_reads mcpwm_err zigbee_err trace
     adc_cali_enabled adc_cali_scheme_err adc_cali_conv_err
     current_angle target_angle is_enabled gpio_pin negb fst snd].

Ltac proj_simpl :=
  cbn [fst snd servo other
       handle_servo gap_servo current_window_mode current_gap_percentage
       resistance_threshold resistance_detected adc_initialized
       zb_current_state zb_current_window_mode zb_current_gap_percentage
       adc_raw adc_reads mcpwm_err zigbee_err trace
     adc_cali_enabled adc_cali_scheme_err adc_cali_conv_err
       current_angle target_angle is_enabled gpio_pin] in *.

Ltac break_conds :=
  repeat ((match goal with
           | |- context [if ?b then _ else _] => is_var b; destruct b
           | |- context [match ?r ?n with _ => _ end] =>
               is_var r; destruct (r n) eqn:?
           end || case_bool_decide || case_decide);
          try done; cbv beta iota zeta).

Ltac solve_frame :=
  unfold sweep_frame; proj_simpl; repeat split; rewrite <- ?app_assoc;
  first [ by exists []; rewrite app_nil_r
        | eexists; split; [reflexivity|]; split; reflexivity ].

Lemma sweep_frame_refl sid w : sweep_frame sid w w.
Proof. repeat split. exists []. by rewrite app_nil_r. Qed.

Lemma sweep_frame_trans sid w1 w2 w3 :
  sweep_frame sid w1 w2 → sweep_frame sid w2 w3 → sweep_frame sid w1 w3.
Proof.
  intros (A1&A2&A3&A4&A5&A6&A7&A8&A9&A10&A11&A12&A13&A14&A15&A16&A17&l1
          &Al&Aa&Ap)
         (B1&B2&B3&B4&B5&B6&B7&B8&B9&B10&B11&B12&B13&B14&B15&B16&B17&l2&Bl&Ba&Bp).
  repeat split; try congruence.
  exists (l1 ++ l2). rewrite Bl, Al, app_assoc.
  rewrite !List.filter_app, Aa, Ba, Ap, Bp. done.
Qed.

Lemma set_servo_angle_frame sid angle w :
  sweep_frame sid w (set_servo_angle sid angle w).2.
Proof.
  break_world w. destruct sid; unfold_servo; break_conds; solve_frame.
Qed.

Lemma servo_check_resistance_frame sid w :
  sweep_frame sid w (servo_check_resistance w).2
  ∧ servo sid (servo_check_resistance w).2 = servo sid w.
Proof.
  break_world w. destruct sid; unfold_servo; break_conds; split; try done; solve_frame.
Qed.

Lemma sweep_unfold n step sid angle w :
  sweep (S n) step sid angle w =
  let '(r, w1) := set_servo_angle sid angle w in
  if decide (r ≠ ESP_OK) then (r, w1)
  else
    let '(resistance, w2) := servo_check_resistance w1 in
    if resistance then (ESP_ERR_TIMEOUT, (ESP_LOGW TAG w2).2)
    else sweep n step sid (angle + step) w2.
Proof.
  cbn [sweep]. unfold bind at 1. destruct (set_servo_angle sid angle w) as [r w1].
  case_decide; [done|]. unfold bind at 1.
  destruct (servo_check_resistance w1) as [[] w2]; [|done].
  unfold bind, ret. by destruct (ESP_LOGW TAG w2).
Qed.

Lemma ESP_LOGW_frame sid tag w : sweep_frame sid w (ESP_LOGW tag w).2.
Proof. break_world w. unfold_servo. solve_frame. Qed.

Lemma sweep_keeps_frame n step sid angle w :
  sweep_frame sid w (sweep n step sid angle w).2.
Proof.
  revert angle w. induction n as [|n IH]; intros angle w.
  { apply sweep_frame_refl. }
  rewrite sweep_unfold.
  pose proof (set_servo_angle_frame sid angle w) as H1.
  destruct (set_servo_angle sid angle w) as [r w1].
  case_decide; [exact H1|].
  destruct (servo_check_resistance_frame sid w1) as [H2 _].
  destruct (servo_check_resistance w1) as [[] w2]; simpl in *.
  - eapply sweep_frame_trans; [exact H1|].
    eapply sweep_frame_trans; [exact H2|]. apply ESP_LOGW_frame.
  - eapply sweep_frame_trans; [exact H1|].
    eapply sweep_frame_trans; [exact H2|]. apply IH.
Qed.

Lemma move_servo_smooth_unfold sid target w :
  move_servo_smooth sid target w =
  if negb (is_enabled (servo sid w)) then (ESP_ERR_INVALID_STATE, w)
  else
    let '(r, w1) := sweep_to sid (clamp_angle target) w in
    if decide (r ≠ ESP_OK) then (r, w1)
    else (ESP_OK,
          (set_servo sid (with_target_angle (clamp_angle target) (servo sid w1))
             w1).2).
Proof.
  unfold move_servo_smooth, sweep_to, clamp_angle.
  unfold bind at 1. unfold gets at 1.
  destruct (negb (is_enabled (servo sid w))); [done|].
  cbv zeta. unfold bind at 1.
  repeat case_bool_decide;
    match goal with
    | |- context [sweep ?n ?s ?i ?a ?w] => destruct (sweep n s i a w) as [r w1]
    | _ => unfold ret at 1
    end; case_decide; try done.
Qed.

Lemma sweep_to_frame sid target w :
  sweep_frame sid w (sweep_to sid target w).2.
Proof.
  unfold sweep_to. repeat case_bool_decide; try apply sweep_keeps_frame.
  apply sweep_frame_refl.
Qed.

(** [move_servo_smooth] on one servo leaves the other servo, the stored
    mode and the stored gap percentage alone, and sends no alert. *)
Lemma move_servo_smooth_frame sid target w :
  let w' := (move_servo_smooth sid target w).2 in
  servo (other sid) w' = servo (other sid) w
  ∧ current_window_mode w' = current_window_mode w
  ∧ current_gap_percentage w' = current_gap_percentage w
  ∧ ∃ l, trace w' = trace w ++ l
         ∧ List.filter is_alert l = []
         ∧ List.filter (is_pwm (other sid)) l = [].
Proof.
  cbv zeta. rewrite move_servo_smooth_unfold.
  destruct (negb (is_enabled (servo sid w))).
  { simpl. split; [done|]. split; [done|]. split; [done|].
    exists []. by rewrite app_nil_r. }
  pose proof (sweep_to_frame sid (clamp_angle target) w) as HS.
  destruct (sweep_to sid (clamp_angle target) w) as [r w1]. simpl in HS.
  destruct HS as (A1&A2&A3&A4&A5&A6&A7&A8&A9&A10&A11&A12&A13&A14&A15&A16&A17&l&Al&Aa&Ap).
  case_decide; simpl.
  { split; [done|]. split; [done|]. split; [done|]. by exists l. }
  destruct sid; simpl in *; (split; [done|]); (split; [done|]);
    (split; [done|]); by exists l.
Qed.

Lemma servo_emitted_app w w' l : trace w' = trace w ++ l → emitted w w' = l.
Proof. intros H. unfold emitted. by rewrite H, drop_app_length. Qed.

Lemma servo_emitted_trans w w1 w' l1 l2 :
  trace w1 = trace w ++ l1 → trace w' = trace w1 ++ l2 →
  emitted w w' = l1 ++ l2.
Proof.
  intros H1 H2. apply servo_emitted_app. by rewrite H2, H1, app_assoc.
Qed.

Lemma set_servo_angle_ok sid angle w :
  is_enabled (servo sid w) = true → mcpwm_err w = ESP_OK →
  0 <= angle <= 180 →
  ∃ w1,
    set_servo_angle sid angle w = (ESP_OK, w1)
    ∧ sweep_frame sid w w1
    ∧ current_angle (servo sid w1) = angle
    ∧ resistance_detected w1 = resistance_detected w
    ∧ adc_reads w1 = adc_reads w
    ∧ trace w1 = trace w ++ [PwmCompare sid (pulse_width angle)].
Proof.
  break_world w. destruct sid; proj_simpl; intros -> -> Ha; eexists;
    unfold pulse_width; unfold_servo; break_conds; try lia;
    (split; [reflexivity|]); proj_simpl;
    (split; [solve_frame|]); done.
Qed.

Lemma servo_check_resistance_trips sid w :
  adc_initialized w = true → trips_at w 0 →
  ∃ w1 l,
    servo_check_resistance w = (true, w1)
    ∧ sweep_frame sid w w1
    ∧ servo sid w1 = servo sid w
    ∧ resistance_detected w1 = true
    ∧ adc_reads w1 = S (adc_reads w)
    ∧ trace w1 = trace w ++ l
    ∧ List.filter (is_pwm sid) l = [].
Proof.
  unfold trips_at, trips, sensor_value. rewrite Nat.add_0_r.
  break_world w. proj_simpl. intros -> Ht.
  destruct sid; unfold_servo; break_conds.
  all: try (exfalso; destruct Ht as [Ht|Ht]; [done|];
            rewrite ?Heqo in Ht; lia).
  all: eexists; eexists; (split; [reflexivity|]); proj_simpl.
  all: (split; [solve_frame|]); rewrite <- ?app_assoc.
  all: repeat split; reflexivity.
Qed.

Lemma servo_check_resistance_passes sid w :
  adc_initialized w = true → ¬ trips_at w 0 →
  ∃ w1 l,
    servo_check_resistance w = (false, w1)
    ∧ sweep_frame sid w w1
    ∧ servo sid w1 = servo sid w
    ∧ resistance_detected w1 = false
    ∧ adc_reads w1 = S (adc_reads w)
    ∧ trace w1 = trace w ++ l
    ∧ List.filter (is_pwm sid) l = [].
Proof.
  unfold trips_at, trips, sensor_value. rewrite Nat.add_0_r.
  break_world w. proj_simpl. intros -> Ht.
  destruct sid; unfold_servo; break_conds.
  all: try (exfalso; apply Ht; first [by left | right; rewrite ?Heqo; lia]).
  all: eexists; eexists; (split; [reflexivity|]); proj_simpl.
  all: (split; [solve_frame|]); rewrite <- ?app_assoc.
  all: repeat split; first [reflexivity | by rewrite app_nil_r].
Qed.

Lemma trips_frame sid w w' n : sweep_frame sid w w' → trips w' n ↔ trips w n.
Proof.
  intros (_&_&_&_&_&_&Ht&Ha&_&_&_&Hr&_). unfold trips, sensor_value.
  by rewrite Ht, Ha, Hr.
Qed.

Lemma sweep_aborts k : ∀ n step sid angle w,
  (k < n)%nat →
  is_enabled (servo sid w) = true → mcpwm_err w = ESP_OK →
  adc_initialized w = true →
  (∀ j, (j <= k)%nat → 0 <= angle + step * Z.of_nat j <= 180) →
  (∀ j, (j < k)%nat → ¬ trips_at w j) → trips_at w k →
  ∃ w',
    sweep n step sid angle w = (ESP_ERR_TIMEOUT, w')
    ∧ aborted_at sid angle step k w w'.
Proof.
  induction k as [|k IH]; intros n step sid angle w Hn He Hp Ha Hr Hq Ht.
  - destruct n as [|n]; [lia|]. rewrite sweep_unfold.
    destruct (set_servo_angle_ok sid angle w He Hp) as (w1 & -> & F1 & C1 & R1 & D1 & T1).
    { specialize (Hr 0%nat). lia. }
    case_decide; [done|].
    destruct (servo_check_resistance_trips sid w1) as (w2 & l & -> & F2 & S2 & R2 & D2 & T2 & P2).
    { destruct F1 as (_&_&_&_&_&_&_&->&_). done. }
    { unfold trips_at in *. rewrite R1, D1. destruct Ht as [?|Ht]; [by left|right].
      by apply (trips_frame sid w w1). }
    eexists. split; [reflexivity|].
    assert (sweep_frame sid w (ESP_LOGW TAG w2).2) as F.
    { eapply sweep_frame_trans; [exact F1|].
      eapply sweep_frame_trans; [exact F2|]. apply ESP_LOGW_frame. }
    split; [exact F|]. simpl.
    split. { destruct sid; simpl in *; rewrite S2, C1; lia. }
    split; [done|]. split. { rewrite D2, D1. lia. }
    unfold emitted_pwm.
    rewrite (servo_emitted_app w _ ([PwmCompare sid (pulse_width angle)] ++ l ++ [Log LOG_WARN TAG])).
    2:{ simpl. rewrite T2, T1. by rewrite <- !app_assoc. }
    rewrite !List.filter_app, P2. simpl.
    rewrite bool_decide_eq_true_2 by done. simpl.
    do 3 f_equal. lia.
  - destruct n as [|n]; [lia|]. rewrite sweep_unfold.
    destruct (set_servo_angle_ok sid angle w He Hp) as (w1 & -> & F1 & C1 & R1 & D1 & T1).
    { specialize (Hr 0%nat). lia. }
    case_decide; [done|].
    destruct (servo_check_resistance_passes sid w1) as (w2 & l & -> & F2 & S2 & R2 & D2 & T2 & P2).
    { destruct F1 as (_&_&_&_&_&_&_&->&_). done. }
    { unfold trips_at in *. rewrite R1, D1. intros [?|Hx].
      - apply (Hq 0%nat); [lia|]. by left.
      - apply (Hq 0%nat); [lia|]. right. by apply (trips_frame sid w w1). }
    assert (sweep_frame sid w w2) as F12.
    { eapply sweep_frame_trans; [exact F1|exact F2]. }
    destruct (IH n step sid (angle + step) w2) as (w' & E & F & C & R & D & P).
    + lia.
    + destruct F12 as (_&->&_). done.
    + destruct F12 as (_&_&_&_&_&_&_&_&_&_&_&_&->&_). done.
    + destruct F12 as (_&_&_&_&_&_&_&->&_). done.
    + intros j Hj. specialize (Hr (S j)). lia.
    + intros j Hj [Hx|Hx]; [congruence|].
      apply (Hq (S j)); [lia|]. right. apply (trips_frame sid w w2) in Hx; [|done].
      rewrite D2, D1 in Hx. by replace (adc_reads w + S j)%nat with (S (adc_reads w) + j)%nat by lia.
    + right. destruct Ht as [Hx|Hx].
      { exfalso. apply (Hq 0%nat); [lia|]. by left. }
      apply (trips_frame sid w w2); [done|]. rewrite D2, D1.
      by replace (S (adc_reads w) + k)%nat with (adc_reads w + S k)%nat by lia.
    + exists w'. split; [exact E|].
      split. { eapply sweep_frame_trans; [exact F12|exact F]. }
      split. { rewrite C. lia. }
      split; [done|]. split. { rewrite D, D2, D1. lia. }
      destruct F as (_&_&_&_&_&_&_&_&_&_&_&_&_&_&_&_&_&l'&Tl'&_).
      unfold emitted_pwm in *. rewrite (servo_emitted_app _ _ _ Tl') in P.
      rewrite (servo_emitted_app w w' ([PwmCompare sid (pulse_width angle)] ++ l ++ l')).
      2:{ rewrite Tl', T2, T1. by rewrite <- !app_assoc. }
      rewrite !List.filter_app, P2, P. cbn [List.filter is_pwm app].
      rewrite bool_decide_eq_true_2 by done.
      cbn [seq map app]. f_equal. { do 2 f_equal. lia. }
      f_equal. { do 2 f_equal. lia. }
      rewrite <- (seq_shift k 1), List.map_map. apply List.map_ext.
      intros j. do 2 f_equal. lia.
Qed.

Ltac sconsts :=
  unfold WINDOW_MODE_CLOSED, WINDOW_MODE_OPEN, WINDOW_MODE_VENT,
    ANGLE_CLOSED, ANGLE_OPEN, ANGLE_VENT in *.

Lemma u8_small_servo x : 0 <= x < 256 → u8 x = x.
Proof. intros H. unfold u8. apply Z.mod_small. lia. Qed.

(** C1 (as the code has it): when, in [servo_set_window_mode] on an
    enabled and working handle servo that is not yet at the angle of the
    mode, the resistance check first answers true in iteration [k] of the
    degree-by-degree sweep, the sweep stops there: the compare values
    sent are those of the angles of iterations 0 to [k] and no more, the
    handle servo stays at the angle of iteration [k] (it is not moved
    back), [ESP_ERR_TIMEOUT] is returned, the stored mode and gap
    percentage and the gap servo are as before, the resistance flag is
    latched, and the call sends no alert; the command callback
    [zigbee_on_command] that made the call adds nothing (no report, no
    alert). *)
Theorem handle_sweep_abort w m k :
  m = WINDOW_MODE_CLOSED ∨ m = WINDOW_MODE_OPEN ∨ m = WINDOW_MODE_VENT →
  is_enabled (handle_servo w) = true → mcpwm_err w = ESP_OK →
  adc_initialized w = true →
  0 <= current_angle (handle_servo w) <= 180 →
  let cur := current_angle (handle_servo w) in
  let step := if bool_decide (cur < mode_angle m) then 1 else -1 in
  Z.of_nat k <= Z.abs (mode_angle m - cur) → cur ≠ mode_angle m →
  (∀ j, (j < k)%nat → ¬ trips_at w j) → trips_at w k →
  ∃ w',
    servo_set_window_mode m w = (ESP_ERR_TIMEOUT, w')
    ∧ zigbee_on_command ESP_ZIGBEE_CMD_SET_MODE [m] 1 w = Some w'
    ∧ current_window_mode w' = current_window_mode w
    ∧ current_gap_percentage w' = current_gap_percentage w
    ∧ gap_servo w' = gap_servo w
    ∧ current_angle (handle_servo w') = cur + step * Z.of_nat k
    ∧ resistance_detected w' = true
    ∧ emitted_pwm HANDLE_SERVO w w'
      = map (λ j, PwmCompare HANDLE_SERVO
                    (pulse_width (cur + step * Z.of_nat j)))
            (seq 0 (S k))
    ∧ emitted_pwm GAP_SERVO w w' = []
    ∧ List.filter is_alert (emitted w w') = [].
Proof.
  intros Hm He Hp Ha Hc cur step Hk Hne Hq Ht.
  assert (0 <= mode_angle m <= 180) as Hr.
  { unfold mode_angle. repeat case_decide; sconsts; lia. }
  assert (clamp_angle (mode_angle m) = mode_angle m) as Hcl.
  { unfold clamp_angle. repeat case_bool_decide; lia. }
  assert (∃ w', sweep_to HANDLE_SERVO (mode_angle m) w = (ESP_ERR_TIMEOUT, w')
                ∧ aborted_at HANDLE_SERVO cur step k w w') as (w' & Hs & Hab).
  { unfold sweep_to. subst step. simpl servo. fold cur.
    destruct (decide (cur < mode_angle m)) as [Hlt|Hge].
    - rewrite !bool_decide_eq_true_2 by done.
      apply sweep_aborts; try done; [lia|]. intros j Hj. lia.
    - rewrite !bool_decide_eq_false_2 by done.
      rewrite bool_decide_eq_true_2 by lia.
      apply sweep_aborts; try done; [lia|]. intros j Hj. lia. }
  assert (servo_set_window_mode m w = (ESP_ERR_TIMEOUT, w')) as Hset.
  { unfold servo_set_window_mode.
    rewrite bool_decide_eq_false_2 by (sconsts; lia).
    fold (mode_angle m). unfold bind at 1.
    rewrite move_servo_smooth_unfold. simpl servo. rewrite He. simpl negb.
    cbv iota. rewrite Hcl, Hs. case_decide; [|done].
    unfold bind at 1. case_decide; [done|]. done. }
  exists w'. split; [exact Hset|].
  split.
  { unfold zigbee_on_command.
    change (u8 ESP_ZIGBEE_CMD_SET_MODE) with ESP_ZIGBEE_CMD_SET_MODE.
    cbv zeta. case_decide; [|done]. rewrite bool_decide_eq_true_2 by lia.
    simpl lookup. cbv iota beta. rewrite (u8_small_servo m) by (sconsts; lia).
    unfold on_set_mode. unfold bind at 1. rewrite Hset. case_decide; done. }
  destruct Hab as (F & C & R & D & P).
  destruct F as (F1&_&_&_&F5&F6&_&_&_&_&_&_&_&_&_&_&_&l&Tl&Fa&Fp).
  simpl in *. repeat split; try done.
  - unfold emitted_pwm. by rewrite (servo_emitted_app _ _ _ Tl).
  - by rewrite (servo_emitted_app _ _ _ Tl).
Qed.

Lemma handle_sweep_abort_witness :
  ∃ w',
    servo_set_window_mode WINDOW_MODE_VENT (ready (blocked_from 4))
    = (ESP_ERR_TIMEOUT, w')
    ∧ current_window_mode w' = WINDOW_MODE_CLOSED
    ∧ current_angle (handle_servo w') = 4.
Proof.
  destruct (handle_sweep_abort (ready (blocked_from 4)) WINDOW_MODE_VENT 4)
    as (w' & H & _ & Hm & _ & _ & Ha & _).
  - right. right. reflexivity.
  - reflexivity.
  - reflexivity.
  - reflexivity.
  - vm_compute. split; discriminate.
  - vm_compute. discriminate.
  - vm_compute. discriminate.
  - intros j Hj [Hf|Ht]; [discriminate Hf|].
    unfold trips, sensor_value in Ht. simpl in Ht.
    unfold blocked_from in Ht.
    destruct (Nat.ltb_spec j 4) as [_|Hge]; [|lia].
    vm_compute in Ht. discriminate Ht.
  - right. vm_compute. reflexivity.
  - exists w'. split; [exact H|]. split; [exact Hm|exact Ha].
Defined.

(** C1, counterexample: with a current sensor that reads high from its
    fifth sample on, the command to ventilate a closed, connected window
    returns [ESP_ERR_TIMEOUT] after five compare values; the number of
    resistance alerts the call emitted is not one (there is none), and
    the handle servo, at 0 degrees before, is left at 4 degrees. *)
Lemma abort_sends_no_alert_and_leaves_handle :
  let w := ready (blocked_from 4) in
  let w' := (servo_set_window_mode WINDOW_MODE_VENT w).2 in
  (servo_set_window_mode WINDOW_MODE_VENT w).1 = ESP_ERR_TIMEOUT
  ∧ zigbee_on_command ESP_ZIGBEE_CMD_SET_MODE [WINDOW_MODE_VENT] 1 w = Some w'
  ∧ zb_current_state w = ZIGBEE_STATE_CONNECTED
  ∧ length (List.filter is_resistance_alert (emitted w w')) ≠ 1%nat
  ∧ current_angle (handle_servo w) = 0
  ∧ current_angle (handle_servo w') = 4.
Proof. vm_compute. repeat split; discriminate. Qed.

(** C9: whatever the percentage, [servo_set_gap] in a mode other than
    open returns [ESP_ERR_INVALID_STATE] and only logs a warning: no
    compare value is sent, the gap servo and the stored percentage are
    as before. *)
Theorem servo_set_gap_needs_open_mode p w :
  current_window_mode w ≠ WINDOW_MODE_OPEN →
  servo_set_gap p w = (ESP_ERR_INVALID_STATE, (ESP_LOGW TAG w).2)
  ∧ gap_servo (servo_set_gap p w).2 = gap_servo w
  ∧ current_gap_percentage (servo_set_gap p w).2 = current_gap_percentage w
  ∧ emitted w (servo_set_gap p w).2 = [Log LOG_WARN TAG].
Proof.
  intros H.
  assert (servo_set_gap p w = (ESP_ERR_INVALID_STATE, (ESP_LOGW TAG w).2)) as E.
  { unfold servo_set_gap. cbv zeta. unfold bind at 1. unfold gets at 1.
    case_decide; [|done]. done. }
  rewrite E. repeat split. apply (servo_emitted_app w). reflexivity.
Qed.

Lemma servo_set_gap_needs_open_mode_witness :
  servo_set_gap 50 (ready (blocked_from 1000))
  = (ESP_ERR_INVALID_STATE, (ESP_LOGW TAG (ready (blocked_from 1000))).2).
Proof.
  apply (servo_set_gap_needs_open_mode 50 (ready (blocked_from 1000))).
  vm_compute. discriminate.
Defined.

(** C10: when the handle sweep of [servo_set_window_mode] to the closed
    mode succeeds, the call stores mode closed and gap 0, runs the gap
    sweep to 0 and returns [ESP_OK] whatever that sweep returned; and
    there is a run (window half open, sensor high from sample 228 on)
    where the gap sweep returns [ESP_ERR_TIMEOUT], the call returns
    [ESP_OK], the stored gap is 0 and the gap servo stands at 45
    degrees. *)
Theorem close_discards_gap_result :
  (∀ w,
     (move_servo_smooth HANDLE_SERVO ANGLE_CLOSED w).1 = ESP_OK →
     let w1 := (move_servo_smooth HANDLE_SERVO ANGLE_CLOSED w).2 in
     let w2 := (set_current_gap_percentage 0
                  (set_current_window_mode WINDOW_MODE_CLOSED w1).2).2 in
     let w3 := (move_servo_smooth GAP_SERVO 0 w2).2 in
     servo_set_window_mode WINDOW_MODE_CLOSED w = (ESP_OK, w3)
     ∧ current_window_mode w3 = WINDOW_MODE_CLOSED
     ∧ current_gap_percentage w3 = 0)
  ∧ (let w := half_open 228 in
     let w1 := (move_servo_smooth HANDLE_SERVO ANGLE_CLOSED w).2 in
     let w2 := (set_current_gap_percentage 0
                  (set_current_window_mode WINDOW_MODE_CLOSED w1).2).2 in
     let w' := (servo_set_window_mode WINDOW_MODE_CLOSED w).2 in
     (move_servo_smooth GAP_SERVO 0 w2).1 = ESP_ERR_TIMEOUT
     ∧ (servo_set_window_mode WINDOW_MODE_CLOSED w).1 = ESP_OK
     ∧ current_gap_percentage w' = 0
     ∧ current_angle (gap_servo w') = 45).
Proof.
  split.
  - intros w H. cbv zeta.
    assert (servo_set_window_mode WINDOW_MODE_CLOSED w
            = (ESP_OK,
               (move_servo_smooth GAP_SERVO 0
                  (set_current_gap_percentage 0
                     (set_current_window_mode WINDOW_MODE_CLOSED
                        (move_servo_smooth HANDLE_SERVO ANGLE_CLOSED w).2).2).2).2))
      as E.
    { unfold servo_set_window_mode.
      rewrite bool_decide_eq_false_2 by (unfold WINDOW_MODE_CLOSED; lia).
      cbv zeta. repeat (case_decide; [|done]). unfold bind at 1.
      destruct (move_servo_smooth HANDLE_SERVO ANGLE_CLOSED w) as [r w1].
      simpl in H. subst r. repeat (case_decide; [|done]).
      unfold bind, ret. simpl.
      by destruct (move_servo_smooth GAP_SERVO 0 _) as [rg w3]. }
    split; [exact E|].
    match goal with
    | |- context [move_servo_smooth GAP_SERVO 0 ?W] =>
        pose proof (move_servo_smooth_frame GAP_SERVO 0 W) as HF
    end.
    cbv zeta in HF. destruct HF as (_ & Hm & Hg & _).
    rewrite Hm, Hg. done.
  - vm_compute. repeat split.
Qed.

Lemma close_discards_gap_result_witness :
  servo_set_window_mode WINDOW_MODE_CLOSED (half_open 1000)
  = (ESP_OK,
     (move_servo_smooth GAP_SERVO 0
        (set_current_gap_percentage 0
           (set_current_window_mode WINDOW_MODE_CLOSED
              (move_servo_smooth HANDLE_SERVO ANGLE_CLOSED
                 (half_open 1000)).2).2).2).2).
Proof.
  apply (proj1 close_discards_gap_result (half_open 1000)).
  vm_compute. reflexivity.
Defined.

(** The servo-level gap setter limits a percentage above 100 to 100. *)
Lemma servo_set_gap_clamps p w :
  100 < p < 256 → servo_set_gap p w = servo_set_gap 100 w.
Proof.
  intros H. unfold servo_set_gap. rewrite (u8_small_servo p) by lia.
  change (u8 100) with 100.
  rewrite bool_decide_eq_true_2 by lia.
  rewrite (bool_decide_eq_false_2 (100 > 100)) by lia. done.
Qed.

(** C3, counterexample: in open mode [servo_set_gap 150] returns
    [ESP_OK], stores 100 percent and drives the gap servo from 0 to 90
    degrees with 91 compare values: the value is clamped, not
    rejected. *)
Lemma servo_set_gap_150_is_clamped :
  let w := (servo_set_window_mode WINDOW_MODE_OPEN
              (ready (blocked_from 1000))).2 in
  let w' := (servo_set_gap 150 w).2 in
  (servo_set_gap 150 w).1 = ESP_OK
  ∧ current_gap_percentage w = 0 ∧ current_gap_percentage w' = 100
  ∧ current_angle (gap_servo w) = 0 ∧ current_angle (gap_servo w') = 90
  ∧ length (emitted_pwm GAP_SERVO w w') = 91%nat.
Proof. vm_compute. repeat split. Qed.

(** The command callback of zigbee_handler.c. *)
Lemma zigbee_on_command_total cmd data len w :
  len <= Z.of_nat (length data) → is_Some (zigbee_on_command cmd data len w).
Proof.
  intros H. unfold zigbee_on_command. cbv zeta.
  repeat case_decide; repeat case_bool_decide; try done;
    destruct data as [|d0 data]; simpl in *; try done; lia.
Qed.

Lemma zigbee_on_command_set_mode data len w :
  1 <= len <= Z.of_nat (length data) →
  ∃ d0,
    data !! 0%nat = Some d0
    ∧ zigbee_on_command ESP_ZIGBEE_CMD_SET_MODE data len w
      = Some (on_set_mode (u8 d0) w).2.
Proof.
  intros H. destruct data as [|d0 data]; simpl in H; [lia|].
  exists d0. split; [done|]. unfold zigbee_on_command. cbv zeta.
  change (u8 ESP_ZIGBEE_CMD_SET_MODE) with ESP_ZIGBEE_CMD_SET_MODE.
  case_decide; [|done]. by rewrite bool_decide_eq_true_2 by lia.
Qed.

Lemma zigbee_on_command_set_position data len w :
  1 <= len <= Z.of_nat (length data) →
  ∃ d0,
    data !! 0%nat = Some d0
    ∧ zigbee_on_command ESP_ZIGBEE_CMD_SET_POSITION data len w
      = Some (on_set_position (u8 d0) w).2.
Proof.
  intros H. destruct data as [|d0 data]; simpl in H; [lia|].
  exists d0. split; [done|]. unfold zigbee_on_command. cbv zeta.
  change (u8 ESP_ZIGBEE_CMD_SET_POSITION) with ESP_ZIGBEE_CMD_SET_POSITION.
  case_decide; [done|]. case_decide; [|done].
  by rewrite bool_decide_eq_true_2 by lia.
Qed.

Lemma zigbee_on_command_empty cmd data len w :
  len < 1 →
  u8 cmd = ESP_ZIGBEE_CMD_SET_MODE ∨ u8 cmd = ESP_ZIGBEE_CMD_SET_POSITION →
  zigbee_on_command cmd data len w = Some w.
Proof.
  intros H Hc. unfold zigbee_on_command. cbv zeta.
  rewrite !bool_decide_eq_false_2 by lia.
  repeat case_decide; try done; destruct Hc; try done.
Qed.

Lemma zigbee_on_command_unknown cmd data len w :
  u8 cmd ≠ ESP_ZIGBEE_CMD_SET_MODE → u8 cmd ≠ ESP_ZIGBEE_CMD_SET_POSITION →
  u8 cmd ≠ ESP_ZIGBEE_CMD_CALIBRATE →
  zigbee_on_command cmd data len w = Some (emit (Log LOG_WARN ZB_TAG) w).2.
Proof.
  intros H1 H2 H3. unfold zigbee_on_command. cbv zeta.
  repeat case_decide; done.
Qed.

(** C8, counterexample: the callback of zigbee_handler.c executes a
    set-mode command whose payload has length 1: the closed window ends
    in open mode, with the handle servo driven to 90 degrees. *)
Lemma one_byte_set_mode_is_executed :
  let w := ready (blocked_from 1000) in
  ∃ w',
    zigbee_on_command ESP_ZIGBEE_CMD_SET_MODE [WINDOW_MODE_OPEN] 1 w = Some w'
    ∧ current_window_mode w = WINDOW_MODE_CLOSED
    ∧ current_window_mode w' = WINDOW_MODE_OPEN
    ∧ current_angle (handle_servo w') = 90
    ∧ length (emitted_pwm HANDLE_SERVO w w') = 91%nat.
Proof. eexists. vm_compute. repeat split. Qed.

(** ** Further properties of the motion controller *)

(** A sweep whose resistance checks all pass runs to its end. *)
Lemma sweep_completes n : ∀ step sid angle w,
  is_enabled (servo sid w) = true → mcpwm_err w = ESP_OK →
  adc_initialized w = true →
  (∀ j, (j < n)%nat → 0 <= angle + step * Z.of_nat j <= 180) →
  (∀ j, (j < n)%nat → ¬ trips_at w j) →
  ∃ w',
    sweep n step sid angle w = (ESP_OK, w')
    ∧ sweep_frame sid w w'
    ∧ (n ≠ 0%nat →
       current_angle (servo sid w') = angle + step * Z.of_nat (pred n))
    ∧ resistance_detected w' = resistance_detected w
    ∧ adc_reads w' = (adc_reads w + n)%nat
    ∧ emitted_pwm sid w w' = sweep_pwm sid angle step n.
Proof.
  induction n as [|n IH]; intros step sid angle w He Hp Ha Hr Hq.
  - exists w. split; [done|]. split; [apply sweep_frame_refl|].
    split; [done|]. split; [done|]. split; [lia|].
    unfold emitted_pwm. rewrite (servo_emitted_app w w []); [done|].
    by rewrite app_nil_r.
  - rewrite sweep_unfold.
    destruct (set_servo_angle_ok sid angle w He Hp)
      as (w1 & -> & F1 & C1 & R1 & D1 & T1).
    { specialize (Hr 0%nat). lia. }
    case_decide; [done|].
    assert (resistance_detected w = false) as Hrd.
    { destruct (resistance_detected w) eqn:E; [|done].
      exfalso. apply (Hq 0%nat); [lia|]. by left. }
    destruct (servo_check_resistance_passes sid w1)
      as (w2 & l & -> & F2 & S2 & R2 & D2 & T2 & P2).
    { destruct F1 as (_&_&_&_&_&_&_&->&_). done. }
    { unfold trips_at in *. rewrite R1, D1. intros [?|Hx].
      - apply (Hq 0%nat); [lia|]. by left.
      - apply (Hq 0%nat); [lia|]. right. by apply (trips_frame sid w w1). }
    assert (sweep_frame sid w w2) as F12.
    { eapply sweep_frame_trans; [exact F1|exact F2]. }
    destruct (IH step sid (angle + step) w2) as (w' & E & F & C & R & D & P).
    + destruct F12 as (_&->&_). done.
    + destruct F12 as (_&_&_&_&_&_&_&_&_&_&_&_&->&_). done.
    + destruct F12 as (_&_&_&_&_&_&_&->&_). done.
    + intros j Hj. specialize (Hr (S j)). lia.
    + intros j Hj [Hx|Hx]; [congruence|].
      apply (Hq (S j)); [lia|]. right.
      apply (trips_frame sid w w2) in Hx; [|done].
      rewrite D2, D1 in Hx.
      by replace (adc_reads w + S j)%nat
        with (S (adc_reads w) + j)%nat by lia.
    + exists w'. split; [exact E|].
      split. { eapply sweep_frame_trans; [exact F12|exact F]. }
      split.
      { intros _. destruct n as [|n].
        - simpl in E. injection E as <-. rewrite S2, C1. simpl. lia.
        - rewrite C by done. simpl. lia. }
      split. { rewrite R, R2. done. }
      split. { rewrite D, D2, D1. lia. }
      destruct F as (_&_&_&_&_&_&_&_&_&_&_&_&_&_&_&_&_&l'&Tl'&_).
      unfold emitted_pwm, sweep_pwm in *.
      rewrite (servo_emitted_app _ _ _ Tl') in P.
      rewrite (servo_emitted_app w w'
                 ([PwmCompare sid (pulse_width angle)] ++ l ++ l')).
      2:{ rewrite Tl', T2, T1. by rewrite <- !app_assoc. }
      rewrite !List.filter_app, P2, P. cbn [List.filter is_pwm app].
      rewrite bool_decide_eq_true_2 by done.
      cbn [seq map app]. f_equal. { do 2 f_equal. lia. }
      rewrite <- (seq_shift n 0), List.map_map. apply List.map_ext.
      intros j. do 2 f_equal. lia.
Qed.

Lemma clamp_angle_range a : 0 <= clamp_angle a <= 180.
Proof. unfold clamp_angle. repeat case_bool_decide; lia. Qed.

Lemma clamp_angle_id a : 0 <= a <= 180 → clamp_angle a = a.
Proof. intros H. unfold clamp_angle. repeat case_bool_decide; lia. Qed.

(** [move_servo_smooth] with no resistance on the way: the servo ends at
    the target (limited to 0..180), one compare value was sent per degree
    from the old angle to the target, both included, and none when the
    servo stood there already. *)
Lemma move_servo_smooth_completes sid target w :
  is_enabled (servo sid w) = true → mcpwm_err w = ESP_OK →
  adc_initialized w = true →
  0 <= current_angle (servo sid w) <= 180 →
  let cur := current_angle (servo sid w) in
  let t := clamp_angle target in
  (∀ j, (j < sweep_length cur t)%nat → ¬ trips_at w j) →
  ∃ w' l,
    move_servo_smooth sid target w = (ESP_OK, w')
    ∧ settled_at sid t w w'
    ∧ adc_reads w' = (adc_reads w + sweep_length cur t)%nat
    ∧ trace w' = trace w ++ l
    ∧ List.filter (is_pwm sid) l
      = sweep_pwm sid cur (sweep_step cur t) (sweep_length cur t)
    ∧ List.filter (is_pwm (other sid)) l = []
    ∧ List.filter is_alert l = [].
Proof.
  intros He Hp Ha Hc cur t Hq.
  pose proof (clamp_angle_range target) as Ht. fold t in Ht.
  rewrite move_servo_smooth_unfold, He. simpl negb. cbv iota. fold t.
  assert (∃ w1,
            sweep_to sid t w = (ESP_OK, w1)
            ∧ sweep_frame sid w w1
            ∧ current_angle (servo sid w1) = t
            ∧ resistance_detected w1 = resistance_detected w
            ∧ adc_reads w1 = (adc_reads w + sweep_length cur t)%nat
            ∧ emitted_pwm sid w w1
              = sweep_pwm sid cur (sweep_step cur t) (sweep_length cur t))
    as (w1 & -> & F & C & R & D & P).
  { unfold sweep_to, sweep_length, sweep_step in *. fold cur.
    destruct (decide (cur = t)) as [Heq|Hne].
    - rewrite !bool_decide_eq_false_2 by lia.
      exists w. split; [done|]. split; [apply sweep_frame_refl|].
      split; [done|]. split; [done|]. split; [lia|].
      unfold emitted_pwm. rewrite (servo_emitted_app w w []); [done|].
      by rewrite app_nil_r.
    - destruct (decide (cur < t)) as [Hlt|Hge].
      + rewrite !bool_decide_eq_true_2 by done.
        replace (Z.to_nat (t - cur + 1))
          with (S (Z.to_nat (Z.abs (t - cur)))) by lia.
        destruct (sweep_completes (S (Z.to_nat (Z.abs (t - cur)))) 1 sid cur w)
          as (w1 & E & F & C & R & D & P); try done.
        { intros j Hj. lia. }
        exists w1. split; [exact E|]. split; [exact F|].
        split. { rewrite C by done. simpl. lia. }
        done.
      + rewrite !bool_decide_eq_false_2 by done.
        rewrite bool_decide_eq_true_2 by lia.
        replace (Z.to_nat (cur - t + 1))
          with (S (Z.to_nat (Z.abs (t - cur)))) by lia.
        destruct (sweep_completes (S (Z.to_nat (Z.abs (t - cur)))) (-1) sid cur w)
          as (w1 & E & F & C & R & D & P); try done.
        { intros j Hj. lia. }
        exists w1. split; [exact E|]. split; [exact F|].
        split. { rewrite C by done. simpl. lia. }
        done. }
  case_decide; [done|].
  destruct F as (F1&F2&F3&F4&F5&F6&F7&F8&F9&F10&F11&F12&F13&F14&F15&F16&F17
                 &l&Tl&Al&Pl).
  eexists. exists l. split; [reflexivity|].
  unfold emitted_pwm in *.
  rewrite (servo_emitted_app _ _ _ Tl) in P.
  destruct sid; simpl in *; unfold settled_at; simpl;
    repeat split; done.
Qed.

Lemma pulse_width_range a : 0 <= a <= 180 → 500 <= pulse_width a <= 2500.
Proof.
  intros H. unfold pulse_width, SERVO_MIN_PULSEWIDTH_US, SERVO_MAX_PULSEWIDTH_US.
  assert (0 <= (2500 - 500) * a ÷ 180 <= 2000) as Hq.
  { split.
    - apply Z.quot_pos; lia.
    - apply Z.quot_le_upper_bound; lia. }
  unfold u32. rewrite Z.mod_small; lia.
Qed.

(** X1: [set_servo_angle] on an enabled servo with a working MCPWM driver
    limits the angle to 0..180, records it as the current angle and sends
    exactly one compare value, [500 + 2000 * angle / 180] microseconds,
    which lies between 500 and 2500; on a disabled servo it returns
    [ESP_ERR_INVALID_STATE] and does nothing. *)
Theorem set_servo_angle_pulse_in_range sid angle w :
  mcpwm_err w = ESP_OK →
  (is_enabled (servo sid w) = true →
   ∃ w',
     set_servo_angle sid angle w = (ESP_OK, w')
     ∧ current_angle (servo sid w') = clamp_angle angle
     ∧ 0 <= current_angle (servo sid w') <= 180
     ∧ emitted w w' = [PwmCompare sid (pulse_width (clamp_angle angle))]
     ∧ pulse_width (clamp_angle angle)
       = 500 + 2000 * clamp_angle angle ÷ 180
     ∧ 500 <= pulse_width (clamp_angle angle) <= 2500)
  ∧ (is_enabled (servo sid w) = false →
     set_servo_angle sid angle w = (ESP_ERR_INVALID_STATE, w)).
Proof.
  intros Hp. split.
  - intros He.
    assert (set_servo_angle sid angle w
            = set_servo_angle sid (clamp_angle angle) w) as ->.
    { unfold set_servo_angle, clamp_angle. unfold bind, gets.
      rewrite He. simpl negb. cbv iota zeta.
      repeat case_bool_decide; try lia; try done. }
    pose proof (clamp_angle_range angle) as Hr.
    destruct (set_servo_angle_ok sid (clamp_angle angle) w He Hp Hr)
      as (w' & E & _ & C & _ & _ & T).
    exists w'. split; [exact E|]. split; [exact C|].
    split; [by rewrite C|].
    split; [by apply servo_emitted_app|].
    pose proof (pulse_width_range _ Hr) as Hw.
    split; [|exact Hw].
    revert Hw. unfold pulse_width, SERVO_MIN_PULSEWIDTH_US,
      SERVO_MAX_PULSEWIDTH_US, u32.
    change (2500 - 500) with 2000. intros Hw.
    apply Z.mod_small.
    assert (0 <= 2000 * clamp_angle angle ÷ 180) by (apply Z.quot_pos; lia).
    assert (2000 * clamp_angle angle ÷ 180 <= 2000)
      by (apply Z.quot_le_upper_bound; lia).
    lia.
  - intros He. unfold set_servo_angle. unfold bind at 1, gets at 1.
    by rewrite He.
Qed.

Lemma set_servo_angle_pulse_in_range_witness :
  ∃ w',
    set_servo_angle HANDLE_SERVO 300 (ready (blocked_from 0)) = (ESP_OK, w')
    ∧ current_angle (handle_servo w') = 180.
Proof.
  destruct (set_servo_angle_pulse_in_range HANDLE_SERVO 300
              (ready (blocked_from 0))) as [H _].
  - reflexivity.
  - destruct H as (w' & E & C & _); [reflexivity|].
    exists w'. split; [exact E|exact C].
Defined.

Lemma mode_angle_range m : 0 <= mode_angle m <= 180.
Proof. unfold mode_angle. repeat case_decide; sconsts; lia. Qed.

Lemma servo_set_window_mode_unfold m w :
  m = WINDOW_MODE_CLOSED ∨ m = WINDOW_MODE_OPEN ∨ m = WINDOW_MODE_VENT →
  servo_set_window_mode m w =
  let '(r, w1) := move_servo_smooth HANDLE_SERVO (mode_angle m) w in
  if decide (r = ESP_OK) then
    let w2 := (set_current_window_mode m w1).2 in
    if decide (m = WINDOW_MODE_CLOSED) then
      (r, (move_servo_smooth GAP_SERVO 0
             (set_current_gap_percentage 0 w2).2).2)
    else (r, w2)
  else (r, w1).
Proof.
  intros Hm. unfold servo_set_window_mode.
  rewrite bool_decide_eq_false_2 by (sconsts; lia).
  fold (mode_angle m). unfold bind at 1.
  destruct (move_servo_smooth HANDLE_SERVO (mode_angle m) w) as [r w1].
  case_decide; [|done].
  unfold bind at 1. unfold bind at 1.
  destruct (set_current_window_mode m w1) as [[] w2] eqn:E2. simpl.
  case_decide; [|done].
  unfold bind, ret. simpl.
  by destruct (move_servo_smooth GAP_SERVO 0 _).
Qed.

(** [servo_set_window_mode] with no resistance on the handle's way. *)
Lemma servo_set_window_mode_moves m w :
  m = WINDOW_MODE_CLOSED ∨ m = WINDOW_MODE_OPEN ∨ m = WINDOW_MODE_VENT →
  is_enabled (handle_servo w) = true → mcpwm_err w = ESP_OK →
  adc_initialized w = true →
  0 <= current_angle (handle_servo w) <= 180 →
  let cur := current_angle (handle_servo w) in
  (∀ j, (j < sweep_length cur (mode_angle m))%nat → ¬ trips_at w j) →
  ∃ w',
    servo_set_window_mode m w = (ESP_OK, w')
    ∧ current_window_mode w' = m
    ∧ current_angle (handle_servo w') = mode_angle m
    ∧ target_angle (handle_servo w') = mode_angle m
    ∧ emitted_pwm HANDLE_SERVO w w'
      = sweep_pwm HANDLE_SERVO cur (sweep_step cur (mode_angle m))
          (sweep_length cur (mode_angle m))
    ∧ List.filter is_alert (emitted w w') = []
    ∧ (m = WINDOW_MODE_CLOSED → current_gap_percentage w' = 0)
    ∧ (m ≠ WINDOW_MODE_CLOSED →
       gap_servo w' = gap_servo w
       ∧ current_gap_percentage w' = current_gap_percentage w
       ∧ emitted_pwm GAP_SERVO w w' = []).
Proof.
  intros Hm He Hp Ha Hc cur Hq.
  pose proof (mode_angle_range m) as Hr.
  destruct (move_servo_smooth_completes HANDLE_SERVO (mode_angle m) w)
    as (w1 & l & E & S & D & T & P & Po & Al); try done.
  { by rewrite clamp_angle_id. }
  rewrite clamp_angle_id in S, P by done. fold cur in P.
  rewrite (servo_set_window_mode_unfold m w Hm), E.
  destruct S as (S1&S2&S3&S4&S5&S6&S7&_).
  simpl in S1, S2, S5.
  destruct (decide (ESP_OK = ESP_OK)) as [_|?]; [|done]. cbv zeta.
  destruct (decide (m = WINDOW_MODE_CLOSED)) as [Hcl|Hncl].
  - match goal with
    | |- context [move_servo_smooth GAP_SERVO 0 ?W] =>
        pose proof (move_servo_smooth_frame GAP_SERVO 0 W) as HF;
        set (w2 := W) in *
    end.
    cbv zeta in HF. destruct HF as (G1 & G2 & G3 & l2 & T2 & A2 & P2).
    simpl in G1, P2.
    eexists. split; [reflexivity|].
    assert (trace (move_servo_smooth GAP_SERVO 0 w2).2 = trace w ++ l ++ l2)
      as Tw.
    { rewrite T2. subst w2. simpl. rewrite T. by rewrite app_assoc. }
    unfold emitted_pwm. rewrite (servo_emitted_app _ _ _ Tw).
    rewrite !List.filter_app, P, P2, Al, A2, !app_nil_r.
    rewrite G1, G2, G3. subst w2. simpl.
    repeat split; try done.
  - eexists. split; [reflexivity|]. simpl.
    unfold emitted_pwm. rewrite (servo_emitted_app w _ l) by done.
    simpl in Po. repeat split; try done.
Qed.

(** X2: [servo_set_window_mode] with no resistance on the handle's way:
    it returns [ESP_OK], stores the mode, and the handle servo stands at
    the angle of the mode (0, 90 or 180 degrees) after one compare value
    per degree from its old angle, both ends included (none when it stood
    there already); for the open and ventilation modes the gap servo and
    the stored gap percentage are untouched, for the closed mode the
    stored gap percentage is 0. *)
Theorem servo_set_window_mode_completes m w :
  m = WINDOW_MODE_CLOSED ∨ m = WINDOW_MODE_OPEN ∨ m = WINDOW_MODE_VENT →
  is_enabled (handle_servo w) = true → mcpwm_err w = ESP_OK →
  adc_initialized w = true →
  0 <= current_angle (handle_servo w) <= 180 →
  let cur := current_angle (handle_servo w) in
  (∀ j, (j < sweep_length cur (mode_angle m))%nat → ¬ trips_at w j) →
  ∃ w',
    servo_set_window_mode m w = (ESP_OK, w')
    ∧ current_window_mode w' = m
    ∧ current_angle (handle_servo w') = mode_angle m
    ∧ target_angle (handle_servo w') = mode_angle m
    ∧ emitted_pwm HANDLE_SERVO w w'
      = sweep_pwm HANDLE_SERVO cur (sweep_step cur (mode_angle m))
          (sweep_length cur (mode_angle m))
    ∧ List.filter is_alert (emitted w w') = []
    ∧ (m = WINDOW_MODE_CLOSED → current_gap_percentage w' = 0)
    ∧ (m ≠ WINDOW_MODE_CLOSED →
       gap_servo w' = gap_servo w
       ∧ current_gap_percentage w' = current_gap_percentage w
       ∧ emitted_pwm GAP_SERVO w w' = []).
Proof.
  apply servo_set_window_mode_moves.
Qed.

Lemma servo_set_window_mode_completes_witness :
  ∃ w',
    servo_set_window_mode WINDOW_MODE_OPEN (ready (blocked_from 1000))
    = (ESP_OK, w')
    ∧ current_window_mode w' = WINDOW_MODE_OPEN
    ∧ current_angle (handle_servo w') = 90.
Proof.
  destruct (servo_set_window_mode_completes WINDOW_MODE_OPEN
              (ready (blocked_from 1000)))
    as (w' & E & Hm & Hc & _).
  - right. left. reflexivity.
  - reflexivity.
  - reflexivity.
  - reflexivity.
  - vm_compute. split; discriminate.
  - intros j Hj [Hf|Ht]; [discriminate Hf|].
    change (sweep_length _ _) with 91%nat in Hj.
    unfold trips, sensor_value in Ht. simpl in Ht.
    unfold blocked_from in Ht.
    destruct (Nat.ltb_spec j 1000) as [_|Hge]; [|lia].
    vm_compute in Ht. discriminate Ht.
  - exists w'. split; [exact E|]. split; [exact Hm|exact Hc].
Defined.

(** [servo_set_gap] in the open mode with no resistance on the way. *)
Lemma servo_set_gap_moves p w :
  current_window_mode w = WINDOW_MODE_OPEN →
  is_enabled (gap_servo w) = true → mcpwm_err w = ESP_OK →
  adc_initialized w = true →
  0 <= current_angle (gap_servo w) <= 180 →
  let cur := current_angle (gap_servo w) in
  let q := Z.min (u8 p) 100 in
  let t := q * 90 ÷ 100 in
  (∀ j, (j < sweep_length cur t)%nat → ¬ trips_at w j) →
  ∃ w',
    servo_set_gap p w = (ESP_OK, w')
    ∧ current_gap_percentage w' = q
    ∧ current_angle (gap_servo w') = t
    ∧ 0 <= t <= 90
    ∧ handle_servo w' = handle_servo w
    ∧ current_window_mode w' = WINDOW_MODE_OPEN
    ∧ emitted_pwm GAP_SERVO w w'
      = sweep_pwm GAP_SERVO cur (sweep_step cur t) (sweep_length cur t)
    ∧ emitted_pwm HANDLE_SERVO w w' = []
    ∧ List.filter is_alert (emitted w w') = [].
Proof.
  intros Hm He Hp Ha Hc cur q t Hq.
  assert (0 <= u8 p < 256) as Hu by (unfold u8; apply Z.mod_pos_bound; lia).
  assert (0 <= q <= 100) as Hqr by (subst q; lia).
  assert (0 <= t <= 90) as Ht.
  { subst t. split.
    - apply Z.quot_pos; lia.
    - apply Z.quot_le_upper_bound; lia. }
  destruct (move_servo_smooth_completes GAP_SERVO t w)
    as (w1 & l & E & S & D & T & P & Po & Al); try done.
  { rewrite clamp_angle_id by lia. exact Hq. }
  rewrite clamp_angle_id in S, P by lia. fold cur in P.
  assert ((if bool_decide (u8 p > 100) then 100 else u8 p) = q) as Eq.
  { subst q. case_bool_decide; lia. }
  unfold servo_set_gap. cbv zeta. unfold bind at 1, gets at 1.
  rewrite Hm.
  destruct (decide (WINDOW_MODE_OPEN ≠ WINDOW_MODE_OPEN)) as [?|_]; [done|].
  rewrite Eq. fold t. unfold bind at 1. rewrite E.
  destruct (decide (ESP_OK = ESP_OK)) as [_|?]; [|done].
  unfold bind, ret. simpl.
  destruct S as (S1&S2&S3&S4&S5&S6&S7&_). simpl in S1, S5, Po.
  eexists. split; [reflexivity|]. simpl.
  unfold emitted_pwm. rewrite (servo_emitted_app w _ l) by done.
  rewrite S6, Hm. repeat split; try done; lia.
Qed.

(** X3: [servo_set_gap] in the open mode with no resistance on the gap
    servo's way: the percentage (limited to 100) is stored, and the gap
    servo stands at [percentage * 90 / 100] degrees, which is at most 90;
    the handle servo and the stored mode are untouched. *)
Theorem servo_set_gap_completes p w :
  current_window_mode w = WINDOW_MODE_OPEN →
  is_enabled (gap_servo w) = true → mcpwm_err w = ESP_OK →
  adc_initialized w = true →
  0 <= current_angle (gap_servo w) <= 180 →
  let cur := current_angle (gap_servo w) in
  let q := Z.min (u8 p) 100 in
  let t := q * 90 ÷ 100 in
  (∀ j, (j < sweep_length cur t)%nat → ¬ trips_at w j) →
  ∃ w',
    servo_set_gap p w = (ESP_OK, w')
    ∧ current_gap_percentage w' = q
    ∧ current_angle (gap_servo w') = t
    ∧ 0 <= t <= 90
    ∧ handle_servo w' = handle_servo w
    ∧ current_window_mode w' = WINDOW_MODE_OPEN
    ∧ emitted_pwm GAP_SERVO w w'
      = sweep_pwm GAP_SERVO cur (sweep_step cur t) (sweep_length cur t)
    ∧ emitted_pwm HANDLE_SERVO w w' = []
    ∧ List.filter is_alert (emitted w w') = [].
Proof.
  apply servo_set_gap_moves.
Qed.

Lemma servo_set_gap_completes_witness :
  ∃ w',
    servo_set_gap 150
      (servo_set_window_mode WINDOW_MODE_OPEN (ready (blocked_from 1000))).2
    = (ESP_OK, w')
    ∧ current_gap_percentage w' = 100.
Proof.
  destruct (servo_set_gap_completes 150
              (servo_set_window_mode WINDOW_MODE_OPEN
                 (ready (blocked_from 1000))).2)
    as (w' & E & Hg & _).
  - reflexivity.
  - reflexivity.
  - reflexivity.
  - reflexivity.
  - vm_compute. split; discriminate.
  - intros j Hj [Hf|Ht]; [vm_compute in Hf; discriminate Hf|].
    change (sweep_length _ _) with 91%nat in Hj.
    unfold trips, sensor_value in Ht.
    change (adc_initialized _) with true in Ht.
    change (resistance_threshold _) with 2000 in Ht.
    change (adc_raw _) with (blocked_from 1000) in Ht.
    change (adc_reads _) with 91%nat in Ht.
    cbv iota in Ht. unfold blocked_from in Ht.
    destruct (Nat.ltb_spec (91 + j) 1000) as [_|Hge]; [|lia].
    vm_compute in Ht. discriminate Ht.
  - exists w'. split; [exact E|exact Hg].
Defined.

Lemma servo_t_eq (a b : servo_t) :
  current_angle a = current_angle b → target_angle a = target_angle b →
  is_enabled a = is_enabled b → gpio_pin a = gpio_pin b → a = b.
Proof. destruct a, b. simpl. by intros -> -> -> ->. Qed.

Lemma move_servo_smooth_disabled sid target w :
  is_enabled (servo sid w) = false →
  move_servo_smooth sid target w = (ESP_ERR_INVALID_STATE, w).
Proof. intros H. by rewrite move_servo_smooth_unfold, H. Qed.

(** X4: [servo_disable] with a working MCPWM driver leaves both servos
    disabled, at their angles; from then on [servo_set_window_mode] and
    [servo_set_gap] return [ESP_ERR_INVALID_STATE] and change nothing,
    and a set-mode command from the network is dropped without a trace
    (no motion, no log, no report). *)
Theorem disabled_servos_refuse_motion w :
  mcpwm_err w = ESP_OK →
  ∃ w1,
    servo_disable w = (ESP_OK, w1)
    ∧ is_enabled (handle_servo w1) = false
    ∧ is_enabled (gap_servo w1) = false
    ∧ current_angle (handle_servo w1) = current_angle (handle_servo w)
    ∧ current_angle (gap_servo w1) = current_angle (gap_servo w)
    ∧ current_window_mode w1 = current_window_mode w
    ∧ (∀ m,
         m = WINDOW_MODE_CLOSED ∨ m = WINDOW_MODE_OPEN ∨ m = WINDOW_MODE_VENT →
         servo_set_window_mode m w1 = (ESP_ERR_INVALID_STATE, w1)
         ∧ zigbee_on_command ESP_ZIGBEE_CMD_SET_MODE [m] 1 w1 = Some w1)
    ∧ (∀ p,
         current_window_mode w = WINDOW_MODE_OPEN →
         servo_set_gap p w1 = (ESP_ERR_INVALID_STATE, w1)).
Proof.
  intros Hp.
  assert (∃ w1,
            servo_disable w = (ESP_OK, w1)
            ∧ is_enabled (handle_servo w1) = false
            ∧ is_enabled (gap_servo w1) = false
            ∧ current_angle (handle_servo w1) = current_angle (handle_servo w)
            ∧ current_angle (gap_servo w1) = current_angle (gap_servo w)
            ∧ current_window_mode w1 = current_window_mode w)
    as (w1 & E & H1 & H2 & H3 & H4 & H5).
  { break_world w. simpl in Hp. subst.
    unfold servo_disable, ESP_RETURN_ON_ERROR. unfold_servo.
    destruct hen, gen; cbv beta iota zeta; eexists;
      (split; [reflexivity|]); done. }
  exists w1. split; [exact E|]. repeat (split; [assumption|]).
  split.
  - intros m Hm.
    assert (servo_set_window_mode m w1 = (ESP_ERR_INVALID_STATE, w1)) as Es.
    { rewrite (servo_set_window_mode_unfold m w1 Hm).
      rewrite move_servo_smooth_disabled by done.
      destruct (decide (ESP_ERR_INVALID_STATE = ESP_OK)); done. }
    split; [exact Es|].
    unfold zigbee_on_command.
    change (u8 ESP_ZIGBEE_CMD_SET_MODE) with ESP_ZIGBEE_CMD_SET_MODE.
    cbv zeta.
    destruct (decide (ESP_ZIGBEE_CMD_SET_MODE = ESP_ZIGBEE_CMD_SET_MODE));
      [|done].
    rewrite bool_decide_eq_true_2 by lia.
    simpl lookup. cbv iota beta. rewrite (u8_small_servo m) by (sconsts; lia).
    unfold on_set_mode. unfold bind at 1. rewrite Es.
    destruct (decide (ESP_ERR_INVALID_STATE = ESP_OK)); done.
  - intros p Hm. unfold servo_set_gap. cbv zeta. unfold bind at 1, gets at 1.
    rewrite H5, Hm.
    destruct (decide (WINDOW_MODE_OPEN ≠ WINDOW_MODE_OPEN)) as [?|_]; [done|].
    unfold bind at 1. rewrite move_servo_smooth_disabled by done.
    destruct (decide (ESP_ERR_INVALID_STATE = ESP_OK)); done.
Qed.

Lemma disabled_servos_refuse_motion_witness :
  ∃ w1,
    servo_disable (ready (blocked_from 1000)) = (ESP_OK, w1)
    ∧ is_enabled (handle_servo w1) = false.
Proof.
  destruct (disabled_servos_refuse_motion (ready (blocked_from 1000)))
    as (w1 & E & H & _).
  - reflexivity.
  - exists w1. split; [exact E|exact H].
Defined.

(** X5: once the resistance flag is set, [servo_check_resistance]
    answers true and keeps the flag, whatever the sensor reads, and
    [servo_simulate_resistance(false)] clears it; while it is set, every
    [move_servo_smooth] of an enabled servo to another angle stops in
    its first iteration: it re-sends the compare value of the current
    angle, returns [ESP_ERR_TIMEOUT] and leaves the servo where it
    stood. *)
Theorem latched_resistance_blocks_motion sid target w :
  resistance_detected w = true →
  ((servo_check_resistance w).1 = true
   ∧ resistance_detected (servo_check_resistance w).2 = true
   ∧ resistance_detected (servo_simulate_resistance false w).2 = false)
  ∧ (is_enabled (servo sid w) = true → mcpwm_err w = ESP_OK →
     adc_initialized w = true →
     0 <= current_angle (servo sid w) <= 180 →
     current_angle (servo sid w) ≠ clamp_angle target →
     ∃ w',
       move_servo_smooth sid target w = (ESP_ERR_TIMEOUT, w')
       ∧ servo sid w' = servo sid w
       ∧ resistance_detected w' = true
       ∧ emitted_pwm sid w w'
         = [PwmCompare sid (pulse_width (current_angle (servo sid w)))]).
Proof.
  intros Hl. split.
  - break_world w. simpl in Hl. subst. unfold servo_simulate_resistance.
    unfold_servo. break_conds; done.
  - intros He Hp Ha Hc Hne.
    pose proof (clamp_angle_range target) as Hr.
    set (cur := current_angle (servo sid w)) in *.
    set (t := clamp_angle target) in *.
    assert (∃ step w',
              sweep_to sid t w = (ESP_ERR_TIMEOUT, w')
              ∧ aborted_at sid cur step 0 w w') as (step & w' & Hs & Hab).
    { unfold sweep_to. fold cur.
      destruct (decide (cur < t)) as [Hlt|Hge].
      - rewrite !bool_decide_eq_true_2 by done. exists 1.
        apply sweep_aborts;
          first [done | lia | by left | intros j Hj; lia].
      - rewrite !bool_decide_eq_false_2 by done.
        rewrite bool_decide_eq_true_2 by lia. exists (-1).
        apply sweep_aborts;
          first [done | lia | by left | intros j Hj; lia]. }
    exists w'. rewrite move_servo_smooth_unfold, He. simpl negb. cbv iota.
    fold t. rewrite Hs.
    destruct (decide (ESP_ERR_TIMEOUT ≠ ESP_OK)) as [_|Hx];
      [|exfalso; apply Hx; discriminate].
    split; [done|].
    destruct Hab as (F & C & R & D & P).
    destruct F as (_&F2&F3&F4&_).
    split.
    { apply servo_t_eq; try done. rewrite C. lia. }
    split; [done|]. rewrite P. simpl. do 3 f_equal. lia.
Qed.

Lemma latched_resistance_blocks_motion_witness :
  (servo_check_resistance
     (servo_simulate_resistance true (ready (blocked_from 1000))).2).1 = true.
Proof.
  destruct (latched_resistance_blocks_motion HANDLE_SERVO 90
              (servo_simulate_resistance true (ready (blocked_from 1000))).2)
    as [(H & _) _].
  - reflexivity.
  - exact H.
Defined.

Lemma setup_servo_ok sid pin w :
  mcpwm_err w = ESP_OK →
  setup_servo sid pin w
  = (ESP_OK,
     (set_servo sid {| current_angle := 0; target_angle := 0;
                       is_enabled := true; gpio_pin := u8 pin |} w).2).
Proof.
  intros Hp. break_world w. simpl in Hp. subst.
  destruct sid; reflexivity.
Qed.

Lemma setup_servo_fails sid pin w :
  mcpwm_err w ≠ ESP_OK →
  setup_servo sid pin w
  = (mcpwm_err w,
     (ESP_LOGE TAG
        (set_servo sid {| current_angle := 0; target_angle := 0;
                          is_enabled := false; gpio_pin := u8 pin |} w).2).2).
Proof.
  intros Hp. unfold setup_servo, ESP_RETURN_ON_ERROR.
  unfold bind at 1. unfold set_servo at 1, modify at 1.
  unfold bind at 1. unfold gets at 1. cbn [mcpwm_err].
  destruct (decide (mcpwm_err w ≠ ESP_OK)) as [_|?]; [|done].
  unfold bind, ret. destruct sid; reflexivity.
Qed.

Lemma init_adc_ok w :
  adc_cali_scheme_err w = ESP_OK →
  init_adc_for_current_sensing w
  = (ESP_OK, (set_adc_cali_enabled true (set_adc_initialized true w).2).2).
Proof.
  intros He. unfold init_adc_for_current_sensing.
  unfold bind at 1. unfold set_adc_initialized at 1, modify at 1.
  unfold bind at 1. unfold gets at 1. cbn [adc_cali_scheme_err].
  rewrite (decide_True _ _ He). reflexivity.
Qed.

Lemma init_adc_no_cali w :
  adc_cali_scheme_err w ≠ ESP_OK →
  init_adc_for_current_sensing w
  = (ESP_OK,
     (set_adc_cali_enabled false
        (ESP_LOGW TAG (set_adc_initialized true w).2).2).2).
Proof.
  intros He. unfold init_adc_for_current_sensing.
  unfold bind at 1. unfold set_adc_initialized at 1, modify at 1.
  unfold bind at 1. unfold gets at 1. cbn [adc_cali_scheme_err].
  rewrite (decide_False _ _ He). reflexivity.
Qed.

(** X6: [servo_init] with a working MCPWM driver returns [ESP_OK] with
    both servos enabled and recorded at 0 degrees, the mode closed, the
    gap 0 and the resistance flag cleared, but it sends no compare value:
    the initial [set_servo_angle] of [setup_servo] runs before the servo
    is marked enabled and is refused.  The only thing it may write is
    one warning, when the ADC calibration scheme cannot be created; the
    calibration is enabled exactly when it can.  With a failing driver
    it returns the driver's error and the handle servo stays disabled. *)
Theorem servo_init_sends_no_compare_value hp gp w :
  (mcpwm_err w = ESP_OK →
   ∃ w',
     servo_init hp gp w = (ESP_OK, w')
     ∧ handle_servo w' = {| current_angle := 0; target_angle := 0;
                            is_enabled := true; gpio_pin := u8 hp |}
     ∧ gap_servo w' = {| current_angle := 0; target_angle := 0;
                         is_enabled := true; gpio_pin := u8 gp |}
     ∧ current_window_mode w' = WINDOW_MODE_CLOSED
     ∧ current_gap_percentage w' = 0
     ∧ resistance_detected w' = false
     ∧ adc_initialized w' = true
     ∧ adc_cali_enabled w' = bool_decide (adc_cali_scheme_err w = ESP_OK)
     ∧ emitted w w'
       = (if decide (adc_cali_scheme_err w = ESP_OK) then []
          else [Log LOG_WARN TAG])
     ∧ emitted_pwm HANDLE_SERVO w w' = []
     ∧ emitted_pwm GAP_SERVO w w' = [])
  ∧ (mcpwm_err w ≠ ESP_OK →
     ∃ w',
       servo_init hp gp w = (mcpwm_err w, w')
       ∧ is_enabled (handle_servo w') = false
       ∧ current_window_mode w' = current_window_mode w
       ∧ emitted_pwm HANDLE_SERVO w w' = []
       ∧ emitted_pwm GAP_SERVO w w' = []).
Proof.
  split.
  - intros Hp. unfold servo_init. unfold bind at 1.
    rewrite setup_servo_ok by done.
    destruct (decide (ESP_OK ≠ ESP_OK)) as [?|_]; [done|].
    unfold bind at 1. rewrite setup_servo_ok by done.
    destruct (decide (ESP_OK ≠ ESP_OK)) as [?|_]; [done|].
    unfold bind at 1.
    destruct (decide (adc_cali_scheme_err w = ESP_OK)) as [He|He].
    + rewrite init_adc_ok by done.
      destruct (decide (ESP_OK ≠ ESP_OK)) as [?|_]; [done|].
      rewrite (bool_decide_eq_true_2 _ He).
      eexists. split; [reflexivity|].
      unfold emitted_pwm, emitted. simpl. rewrite drop_all. done.
    + rewrite init_adc_no_cali by done.
      destruct (decide (ESP_OK ≠ ESP_OK)) as [?|_]; [done|].
      rewrite (bool_decide_eq_false_2 _ He).
      eexists. split; [reflexivity|].
      unfold emitted_pwm, emitted. simpl. rewrite drop_app_length. done.
  - intros Hp. unfold servo_init. unfold bind at 1.
    rewrite setup_servo_fails by done.
    destruct (decide (mcpwm_err w ≠ ESP_OK)) as [_|?]; [|done].
    eexists. split; [reflexivity|]. simpl.
    unfold emitted_pwm, emitted. simpl.
    rewrite <- ?app_assoc, drop_app_length. done.
Qed.

(** A device whose ADC has no calibration scheme. *)
Lemma servo_init_sends_no_compare_value_witness :
  let w := set_no_calibration (power_on (blocked_from 0)) in
  ∃ w',
    servo_init 4 5 w = (ESP_OK, w')
    ∧ emitted w w' = [Log LOG_WARN TAG]
    ∧ emitted_pwm HANDLE_SERVO w w' = [].
Proof.
  destruct (servo_init_sends_no_compare_value 4 5
              (set_no_calibration (power_on (blocked_from 0))))
    as [H _].
  destruct H as (w' & E & _ & _ & _ & _ & _ & _ & _ & He & Hh & _);
    [reflexivity|].
  exists w'. split; [exact E|]. split; [exact He|exact Hh].
Defined.

Lemma never_trips_at w j : never_trips w → ¬ trips_at w j.
Proof.
  intros [Hf Hn] [Hx|Hx]; [congruence|]. apply (Hn (adc_reads w + j)%nat); [lia|done].
Qed.

Lemma never_trips_settled sid a w w' :
  never_trips w → settled_at sid a w w' → (adc_reads w <= adc_reads w')%nat →
  never_trips w'.
Proof.
  intros [Hf Hn] (_&_&_&_&_&_&_&Ht&Hr&Ha&_&_&_&Hraw&_) Hle.
  split; [congruence|]. intros n Hn'. unfold trips, sensor_value.
  rewrite Ht, Ha, Hraw. apply Hn. lia.
Qed.

(** One sweep of the calibration cycle. *)
Lemma calibration_move sid target w :
  is_enabled (servo sid w) = true → is_enabled (servo (other sid) w) = true →
  mcpwm_err w = ESP_OK → adc_initialized w = true → never_trips w →
  0 <= current_angle (servo sid w) <= 180 → 0 <= target <= 180 →
  ∃ w',
    move_servo_smooth sid target w = (ESP_OK, w')
    ∧ servo sid w' = {| current_angle := target; target_angle := target;
                        is_enabled := true;
                        gpio_pin := gpio_pin (servo sid w) |}
    ∧ servo (other sid) w' = servo (other sid) w
    ∧ mcpwm_err w' = ESP_OK ∧ adc_initialized w' = true ∧ never_trips w'
    ∧ adc_reads w'
      = (adc_reads w + sweep_length (current_angle (servo sid w)) target)%nat.
Proof.
  intros He Ho Hp Ha Hn Hc Ht.
  destruct (move_servo_smooth_completes sid target w)
    as (w' & l & E & S & D & _); try done.
  { intros j _. by apply never_trips_at. }
  rewrite clamp_angle_id in S, D by done.
  exists w'. split; [exact E|].
  pose proof (never_trips_settled sid target w w' Hn S) as Hn'.
  destruct S as (S1&S2&S3&S4&S5&_&_&_&_&S10&_&_&_&_&S15&_).
  split. { apply servo_t_eq; simpl; congruence. }
  split; [done|]. split; [congruence|]. split; [congruence|].
  split; [apply Hn'; lia|done].
Qed.

Lemma ESP_RETURN_ON_ERROR_ok call k w w1 :
  call w = (ESP_OK, w1) → ESP_RETURN_ON_ERROR call k w = k w1.
Proof.
  intros H. unfold ESP_RETURN_ON_ERROR, bind. rewrite H.
  destruct (decide (ESP_OK ≠ ESP_OK)); done.
Qed.

Lemma calibrate_sweeps_complete w :
  is_enabled (handle_servo w) = true → is_enabled (gap_servo w) = true →
  mcpwm_err w = ESP_OK → adc_initialized w = true → never_trips w →
  0 <= current_angle (handle_servo w) <= 180 →
  0 <= current_angle (gap_servo w) <= 180 →
  ∃ w',
    calibrate_sweeps w = (ESP_OK, w')
    ∧ handle_servo w' = {| current_angle := 0; target_angle := 0;
                           is_enabled := true;
                           gpio_pin := gpio_pin (handle_servo w) |}
    ∧ gap_servo w' = {| current_angle := 0; target_angle := 0;
                        is_enabled := true;
                        gpio_pin := gpio_pin (gap_servo w) |}
    ∧ current_window_mode w' = WINDOW_MODE_CLOSED
    ∧ current_gap_percentage w' = 0
    ∧ resistance_detected w' = false
    ∧ adc_reads w'
      = (adc_reads w
         + sweep_length (current_angle (handle_servo w)) 0 + 181 + 181
         + sweep_length (current_angle (gap_servo w)) 0 + 91 + 91)%nat.
Proof.
  intros Heh Heg Hp Ha Hn Hh Hg. unfold calibrate_sweeps.
  destruct (calibration_move HANDLE_SERVO 0 w)
    as (w1 & E1 & S1 & O1 & P1 & A1 & N1 & D1); try done; try lia.
  simpl in S1, O1, D1.
  rewrite (ESP_RETURN_ON_ERROR_ok _ _ _ _ E1).
  destruct (calibration_move HANDLE_SERVO 180 w1)
    as (w2 & E2 & S2 & O2 & P2 & A2 & N2 & D2); simpl; try done;
    rewrite ?S1, ?O1; simpl; try done; try lia.
  simpl in S2, O2, D2. rewrite S1 in S2, D2. simpl in S2, D2.
  rewrite (ESP_RETURN_ON_ERROR_ok _ _ _ _ E2).
  destruct (calibration_move HANDLE_SERVO 0 w2)
    as (w3 & E3 & S3 & O3 & P3 & A3 & N3 & D3); simpl; try done;
    rewrite ?S2, ?O2, ?O1; simpl; try done; try lia.
  simpl in S3, O3, D3. rewrite S2 in S3, D3. simpl in S3, D3.
  rewrite (ESP_RETURN_ON_ERROR_ok _ _ _ _ E3).
  destruct (calibration_move GAP_SERVO 0 w3)
    as (w4 & E4 & S4 & O4 & P4 & A4 & N4 & D4); simpl; try done;
    rewrite ?S3, ?O3, ?O2, ?O1; simpl; try done; try lia.
  simpl in S4, O4, D4. rewrite O3, O2, O1 in S4, D4.
  rewrite (ESP_RETURN_ON_ERROR_ok _ _ _ _ E4).
  destruct (calibration_move GAP_SERVO 90 w4)
    as (w5 & E5 & S5 & O5 & P5 & A5 & N5 & D5); simpl; try done;
    rewrite ?S4, ?O4, ?S3; simpl; try done; try lia.
  simpl in S5, O5, D5. rewrite S4 in S5, D5. simpl in S5, D5.
  rewrite (ESP_RETURN_ON_ERROR_ok _ _ _ _ E5).
  destruct (calibration_move GAP_SERVO 0 w5)
    as (w6 & E6 & S6 & O6 & P6 & A6 & N6 & D6); simpl; try done;
    rewrite ?S5, ?O5, ?O4, ?S3; simpl; try done; try lia.
  simpl in S6, O6, D6. rewrite S5 in S6, D6. simpl in S6, D6.
  rewrite (ESP_RETURN_ON_ERROR_ok _ _ _ _ E6).
  eexists. split; [reflexivity|]. simpl.
  rewrite O6, O5, O4, S3, S6.
  destruct N6 as [N6 _].
  repeat split; try done.
  rewrite D6, D5, D4, D3, D2, D1.
  change (sweep_length 0 180) with 181%nat.
  change (sweep_length 180 0) with 181%nat.
  change (sweep_length 0 90) with 91%nat.
  change (sweep_length 90 0) with 91%nat. lia.
Qed.

(** The first part of [servo_calibrate]: a disabled servo is enabled. *)
Lemma servo_calibrate_enables w :
  mcpwm_err w = ESP_OK →
  servo_calibrate w
  = calibrate_sweeps (enabled GAP_SERVO (enabled HANDLE_SERVO w)).
Proof.
  intros Hp.
  assert (mcpwm_err (enabled HANDLE_SERVO w) = ESP_OK) as Hp1.
  { unfold enabled. by destruct (is_enabled (servo HANDLE_SERVO w)). }
  unfold servo_calibrate. fold calibrate_sweeps.
  unfold bind at 1, gets at 1. unfold bind at 1.
  assert ((if negb (is_enabled (handle_servo w))
           then ESP_RETURN_ON_ERROR
                  (mcpwm_generator_set_force_level HANDLE_SERVO 0 false)
                  (set_servo HANDLE_SERVO (with_is_enabled true (handle_servo w));;
                   ret ESP_OK)
           else ret ESP_OK) w = (ESP_OK, enabled HANDLE_SERVO w)) as ->.
  { unfold enabled. simpl servo. destruct (is_enabled (handle_servo w)); [done|].
    simpl negb.
    unfold ESP_RETURN_ON_ERROR, mcpwm_generator_set_force_level.
    unfold bind, gets, ret. cbv beta iota delta [negb]. rewrite Hp. reflexivity. }
  destruct (decide (ESP_OK ≠ ESP_OK)) as [?|_]; [done|].
  set (w1 := enabled HANDLE_SERVO w) in *.
  unfold bind at 1, gets at 1. unfold bind at 1.
  assert ((if negb (is_enabled (gap_servo w1))
           then ESP_RETURN_ON_ERROR
                  (mcpwm_generator_set_force_level GAP_SERVO 0 false)
                  (set_servo GAP_SERVO (with_is_enabled true (gap_servo w1));;
                   ret ESP_OK)
           else ret ESP_OK) w1 = (ESP_OK, enabled GAP_SERVO w1)) as ->.
  { unfold enabled. simpl servo. destruct (is_enabled (gap_servo w1)); [done|].
    simpl negb.
    unfold ESP_RETURN_ON_ERROR, mcpwm_generator_set_force_level.
    unfold bind, gets, ret. cbv beta iota delta [negb]. rewrite Hp1. reflexivity. }
  destruct (decide (ESP_OK ≠ ESP_OK)) as [?|_]; [done|]. done.
Qed.

Lemma enabled_fields sid w :
  let w0 := enabled sid w in
  servo sid w0 = with_is_enabled true (servo sid w)
  ∧ servo (other sid) w0 = servo (other sid) w
  ∧ current_window_mode w0 = current_window_mode w
  ∧ current_gap_percentage w0 = current_gap_percentage w
  ∧ resistance_threshold w0 = resistance_threshold w
  ∧ resistance_detected w0 = resistance_detected w
  ∧ adc_initialized w0 = adc_initialized w
  ∧ adc_raw w0 = adc_raw w ∧ adc_reads w0 = adc_reads w
  ∧ mcpwm_err w0 = mcpwm_err w.
Proof.
  cbv zeta. unfold enabled. destruct (is_enabled (servo sid w)) eqn:E.
  - repeat split. destruct (servo sid w); simpl in *. by subst.
  - destruct sid; simpl; repeat split.
Qed.

(** X7: [servo_calibrate] with a working MCPWM driver and a current
    sensor that never exceeds the threshold enables both servos, runs
    the handle to 0, 180 and back to 0 degrees and the gap servo to 0, 90
    and back to 0, and returns [ESP_OK] with both servos at 0 degrees,
    the mode closed and the gap 0; the cycle makes one resistance check
    per degree step: 362 for the handle and 182 for the gap servo, plus
    those of the two initial sweeps to 0. *)
Theorem servo_calibrate_completes w :
  mcpwm_err w = ESP_OK → adc_initialized w = true → never_trips w →
  0 <= current_angle (handle_servo w) <= 180 →
  0 <= current_angle (gap_servo w) <= 180 →
  ∃ w',
    servo_calibrate w = (ESP_OK, w')
    ∧ handle_servo w' = {| current_angle := 0; target_angle := 0;
                           is_enabled := true;
                           gpio_pin := gpio_pin (handle_servo w) |}
    ∧ gap_servo w' = {| current_angle := 0; target_angle := 0;
                        is_enabled := true;
                        gpio_pin := gpio_pin (gap_servo w) |}
    ∧ current_window_mode w' = WINDOW_MODE_CLOSED
    ∧ current_gap_percentage w' = 0
    ∧ resistance_detected w' = false
    ∧ adc_reads w'
      = (adc_reads w
         + sweep_length (current_angle (handle_servo w)) 0 + 181 + 181
         + sweep_length (current_angle (gap_servo w)) 0 + 91 + 91)%nat.
Proof.
  intros Hp Ha Hn Hh Hg.
  rewrite (servo_calibrate_enables w Hp).
  pose proof (enabled_fields HANDLE_SERVO w) as H1. cbv zeta in H1.
  set (w1 := enabled HANDLE_SERVO w) in *.
  pose proof (enabled_fields GAP_SERVO w1) as H2. cbv zeta in H2.
  set (w0 := enabled GAP_SERVO w1) in *. simpl in H1, H2.
  destruct H1 as (A1&A2&A3&A4&A5&A6&A7&A8&A9&A10).
  destruct H2 as (B1&B2&B3&B4&B5&B6&B7&B8&B9&B10).
  destruct (calibrate_sweeps_complete w0) as (w' & E & H).
  - by rewrite B2, A1.
  - by rewrite B1.
  - congruence.
  - congruence.
  - destruct Hn as [Hf Hn]. split; [congruence|].
    intros n Hle. unfold trips, sensor_value.
    rewrite B5, B7, B8, A5, A7, A8. apply Hn. rewrite B9, A9 in Hle. lia.
  - by rewrite B2, A1.
  - by rewrite B1, A2.
  - exists w'. split; [exact E|].
    rewrite B2, B1, A2, A1, B9, A9 in H. exact H.
Qed.

Lemma servo_calibrate_completes_witness :
  ∃ w',
    servo_calibrate (ready (λ _, Some 1000)) = (ESP_OK, w')
    ∧ current_window_mode w' = WINDOW_MODE_CLOSED.
Proof.
  destruct (servo_calibrate_completes (ready (λ _, Some 1000)))
    as (w' & E & _ & _ & Hm & _).
  - reflexivity.
  - reflexivity.
  - split; [reflexivity|]. intros n _. vm_compute. discriminate.
  - vm_compute. split; discriminate.
  - vm_compute. split; discriminate.
  - exists w'. split; [exact E|exact Hm].
Defined.

Lemma quiet_refl w : quiet w w.
Proof. repeat split. exists []. by rewrite app_nil_r. Qed.

Lemma quiet_trans w1 w2 w3 : quiet w1 w2 → quiet w2 w3 → quiet w1 w3.
Proof.
  intros (A1 & A2 & A5 & l1 & A3 & A4) (B1 & B2 & B5 & l2 & B3 & B4).
  split; [congruence|]. split; [congruence|]. split; [congruence|].
  exists (l1 ++ l2). rewrite B3, A3, app_assoc.
  by rewrite List.filter_app, A4, B4.
Qed.

Lemma quiet_ret {A} (a : A) : quiet_op (ret a).
Proof. intros w. apply quiet_refl. Qed.

Lemma quiet_gets {A} (f : world → A) : quiet_op (gets f).
Proof. intros w. apply quiet_refl. Qed.

Lemma quiet_bind {A B} (m : M A) (k : A → M B) :
  quiet_op m → (∀ a, quiet_op (k a)) → quiet_op (bind m k).
Proof.
  intros Hm Hk w. unfold bind. specialize (Hm w).
  destruct (m w) as [a w1]. eapply quiet_trans; [exact Hm|apply Hk].
Qed.

Lemma quiet_emit e : is_radio e = false → quiet_op (emit e).
Proof.
  intros He w. split; [done|]. split; [done|]. split; [done|].
  exists [e]. split; [done|]. simpl. by rewrite He.
Qed.

Lemma quiet_modify (f : world → world) :
  (∀ w, zb_current_state (f w) = zb_current_state w
        ∧ zigbee_err (f w) = zigbee_err w ∧ mcpwm_err (f w) = mcpwm_err w
        ∧ trace (f w) = trace w) →
  quiet_op (modify f).
Proof.
  intros H w. destruct (H w) as (H1 & H2 & H3 & H4).
  split; [done|]. split; [done|]. split; [done|].
  exists []. by rewrite app_nil_r.
Qed.

Lemma quiet_if {A} (b : bool) (m1 m2 : M A) :
  quiet_op m1 → quiet_op m2 → quiet_op (if b then m1 else m2).
Proof. by destruct b. Qed.

Lemma quiet_if_dec {A} P `{Decision P} (m1 m2 : M A) :
  quiet_op m1 → quiet_op m2 → quiet_op (if decide P then m1 else m2).
Proof. by destruct (decide P). Qed.

Lemma quiet_match_option {A B} (o : option A) (f : A → M B) (m : M B) :
  (∀ a, quiet_op (f a)) → quiet_op m →
  quiet_op (match o with Some a => f a | None => m end).
Proof. by destruct o. Qed.

Ltac quiet_step :=
  lazymatch goal with
  | |- quiet_op (bind _ _) => apply quiet_bind; [|intros ?]
  | |- quiet_op (ret _) => apply quiet_ret
  | |- quiet_op (gets _) => apply quiet_gets
  | |- quiet_op (ESP_LOGE _) => apply quiet_emit; reflexivity
  | |- quiet_op (ESP_LOGW _) => apply quiet_emit; reflexivity
  | |- quiet_op (emit _) => apply quiet_emit; reflexivity
  | |- quiet_op (modify _) => apply quiet_modify; intros ?; done
  | |- quiet_op (if decide _ then _ else _) => apply quiet_if_dec
  | |- quiet_op (if _ then _ else _) => apply quiet_if
  | |- quiet_op (match _ with Some _ => _ | None => _ end) =>
      apply quiet_match_option; [intros ?|]
  | |- quiet_op (let _ := _ in _) => cbv zeta
  | |- _ => solve [auto]
  end.

Ltac solve_quiet := repeat quiet_step.

Lemma quiet_set_servo sid s : quiet_op (set_servo sid s).
Proof. unfold set_servo. solve_quiet. Qed.

Lemma quiet_set_current_window_mode m : quiet_op (set_current_window_mode m).
Proof. unfold set_current_window_mode. solve_quiet. Qed.

Lemma quiet_set_current_gap_percentage g :
  quiet_op (set_current_gap_percentage g).
Proof. unfold set_current_gap_percentage. solve_quiet. Qed.

Lemma quiet_set_resistance_detected b : quiet_op (set_resistance_detected b).
Proof. unfold set_resistance_detected. solve_quiet. Qed.

Lemma quiet_set_adc_reads n : quiet_op (set_adc_reads n).
Proof. unfold set_adc_reads. solve_quiet. Qed.

Lemma quiet_set_servo_angle sid angle : quiet_op (set_servo_angle sid angle).
Proof.
  pose proof quiet_set_servo.
  unfold set_servo_angle, mcpwm_comparator_set_compare_value. solve_quiet.
Qed.

Lemma quiet_servo_check_resistance : quiet_op servo_check_resistance.
Proof.
  pose proof quiet_set_resistance_detected. pose proof quiet_set_adc_reads.
  unfold servo_check_resistance, read_current_sensor, adc_oneshot_read. solve_quiet.
Qed.

Lemma quiet_sweep n : ∀ step sid angle, quiet_op (sweep n step sid angle).
Proof.
  pose proof quiet_set_servo_angle. pose proof quiet_servo_check_resistance.
  induction n as [|n IH]; intros step sid angle; cbn [sweep]; solve_quiet.
Qed.

Lemma quiet_move_servo_smooth sid target :
  quiet_op (move_servo_smooth sid target).
Proof.
  pose proof quiet_sweep. pose proof quiet_set_servo.
  unfold move_servo_smooth. solve_quiet.
Qed.

Lemma quiet_servo_set_window_mode m : quiet_op (servo_set_window_mode m).
Proof.
  pose proof quiet_move_servo_smooth.
  pose proof quiet_set_current_window_mode.
  pose proof quiet_set_current_gap_percentage.
  unfold servo_set_window_mode. solve_quiet.
Qed.

Lemma quiet_servo_set_gap p : quiet_op (servo_set_gap p).
Proof.
  pose proof quiet_move_servo_smooth.
  pose proof quiet_set_current_gap_percentage.
  unfold servo_set_gap. solve_quiet.
Qed.

Lemma quiet_ESP_RETURN_ON_ERROR call k :
  quiet_op call → quiet_op k → quiet_op (ESP_RETURN_ON_ERROR call k).
Proof. intros. unfold ESP_RETURN_ON_ERROR. solve_quiet. Qed.

Lemma quiet_servo_calibrate : quiet_op servo_calibrate.
Proof.
  pose proof quiet_move_servo_smooth. pose proof quiet_set_servo.
  pose proof quiet_set_current_window_mode.
  pose proof quiet_set_current_gap_percentage.
  unfold servo_calibrate, mcpwm_generator_set_force_level.
  repeat first [apply quiet_ESP_RETURN_ON_ERROR | quiet_step].
Qed.

Lemma quiet_servo_disable : quiet_op servo_disable.
Proof.
  pose proof quiet_set_servo.
  unfold servo_disable, mcpwm_generator_set_force_level.
  repeat first [apply quiet_ESP_RETURN_ON_ERROR | quiet_step].
Qed.

Lemma quiet_emitted w w' :
  quiet w w' → List.filter is_radio (emitted w w') = [].
Proof.
  intros (_ & _ & _ & l & Hl & Hf). by rewrite (servo_emitted_app _ _ _ Hl).
Qed.

Lemma zigbee_send_window_mode_disconnected m w :
  zb_current_state w ≠ ZIGBEE_STATE_CONNECTED →
  zigbee_send_window_mode m w
  = (ESP_ERR_INVALID_STATE, (emit (Log LOG_WARN ZB_TAG) w).2).
Proof.
  intros H. unfold zigbee_send_window_mode. cbv zeta.
  unfold bind at 1, gets at 1.
  by destruct (decide (zb_current_state w ≠ ZIGBEE_STATE_CONNECTED)).
Qed.

Lemma zigbee_send_gap_position_disconnected g w :
  zb_current_state w ≠ ZIGBEE_STATE_CONNECTED →
  zigbee_send_gap_position g w
  = (ESP_ERR_INVALID_STATE, (emit (Log LOG_WARN ZB_TAG) w).2).
Proof.
  intros H. unfold zigbee_send_gap_position. cbv zeta.
  unfold bind at 1, gets at 1.
  by destruct (decide (zb_current_state w ≠ ZIGBEE_STATE_CONNECTED)).
Qed.

Lemma zigbee_send_alert_disconnected a v w :
  zb_current_state w ≠ ZIGBEE_STATE_CONNECTED →
  zigbee_send_alert a v w
  = (ESP_ERR_INVALID_STATE, (emit (Log LOG_WARN ZB_TAG) w).2).
Proof.
  intros H. unfold zigbee_send_alert.
  unfold bind at 1, gets at 1.
  by destruct (decide (zb_current_state w ≠ ZIGBEE_STATE_CONNECTED)).
Qed.

Lemma zigbee_report_state_disconnected w :
  zb_current_state w ≠ ZIGBEE_STATE_CONNECTED →
  zigbee_report_state w
  = (ESP_ERR_INVALID_STATE, (emit (Log LOG_WARN ZB_TAG) w).2).
Proof.
  intros H. unfold zigbee_report_state.
  unfold bind at 1, gets at 1.
  by destruct (decide (zb_current_state w ≠ ZIGBEE_STATE_CONNECTED)).
Qed.

Lemma quiet_log lvl tag w : quiet w (emit (Log lvl tag) w).2.
Proof. by apply quiet_emit. Qed.

Lemma quiet_set_zb_current_window_mode m :
  quiet_op (set_zb_current_window_mode m).
Proof. unfold set_zb_current_window_mode. solve_quiet. Qed.

Lemma quiet_set_zb_current_gap_percentage g :
  quiet_op (set_zb_current_gap_percentage g).
Proof. unfold set_zb_current_gap_percentage. solve_quiet. Qed.

Lemma on_set_mode_disconnected m w :
  zb_current_state w ≠ ZIGBEE_STATE_CONNECTED → quiet w (on_set_mode m w).2.
Proof.
  intros H. unfold on_set_mode. unfold bind at 1.
  pose proof (quiet_servo_set_window_mode m w) as Q1.
  destruct (servo_set_window_mode m w) as [err w1]. simpl in Q1.
  destruct (decide (err = ESP_OK)); [|exact Q1].
  unfold bind at 1.
  pose proof (quiet_set_zb_current_window_mode m w1) as Q2.
  destruct (set_zb_current_window_mode m w1) as [[] w2]. simpl in Q2.
  unfold bind, ret.
  rewrite zigbee_send_window_mode_disconnected.
  - simpl. eapply quiet_trans; [exact Q1|].
    eapply quiet_trans; [exact Q2|]. apply quiet_log.
  - destruct Q1 as (E1 & _). destruct Q2 as (E2 & _). congruence.
Qed.

Lemma on_set_position_disconnected p w :
  zb_current_state w ≠ ZIGBEE_STATE_CONNECTED →
  quiet w (on_set_position p w).2.
Proof.
  intros H. unfold on_set_position. unfold bind at 1.
  pose proof (quiet_servo_set_gap p w) as Q1.
  destruct (servo_set_gap p w) as [err w1]. simpl in Q1.
  destruct (decide (err = ESP_OK)); [|exact Q1].
  unfold bind at 1.
  pose proof (quiet_set_zb_current_gap_percentage p w1) as Q2.
  destruct (set_zb_current_gap_percentage p w1) as [[] w2]. simpl in Q2.
  unfold bind, ret.
  rewrite zigbee_send_gap_position_disconnected.
  - simpl. eapply quiet_trans; [exact Q1|].
    eapply quiet_trans; [exact Q2|]. apply quiet_log.
  - destruct Q1 as (E1 & _). destruct Q2 as (E2 & _). congruence.
Qed.

Lemma quiet_on_calibrate : quiet_op on_calibrate.
Proof. pose proof quiet_servo_calibrate. unfold on_calibrate. solve_quiet. Qed.

(** X8: while the device is not connected to the network nothing goes
    out over the radio: whatever command [zigbee_on_command] handles (the
    servos may well move), it sends no report and no alert and stays
    disconnected, and [zigbee_report_state], [zigbee_send_window_mode],
    [zigbee_send_gap_position] and [zigbee_send_alert] return
    [ESP_ERR_INVALID_STATE] having written one warning only. *)
Theorem radio_silent_while_disconnected w :
  zb_current_state w ≠ ZIGBEE_STATE_CONNECTED →
  (∀ cmd data len w',
     zigbee_on_command cmd data len w = Some w' →
     List.filter is_radio (emitted w w') = []
     ∧ zb_current_state w' = zb_current_state w)
  ∧ zigbee_report_state w
    = (ESP_ERR_INVALID_STATE, (emit (Log LOG_WARN ZB_TAG) w).2)
  ∧ (∀ m, zigbee_send_window_mode m w
          = (ESP_ERR_INVALID_STATE, (emit (Log LOG_WARN ZB_TAG) w).2))
  ∧ (∀ g, zigbee_send_gap_position g w
          = (ESP_ERR_INVALID_STATE, (emit (Log LOG_WARN ZB_TAG) w).2))
  ∧ (∀ a v, zigbee_send_alert a v w
            = (ESP_ERR_INVALID_STATE, (emit (Log LOG_WARN ZB_TAG) w).2)).
Proof.
  intros H. split.
  - intros cmd data len w' E.
    assert (quiet w w') as Q.
    { unfold zigbee_on_command in E. cbv zeta in E.
      repeat (match type of E with
              | context [decide ?P] => destruct (decide P)
              | context [bool_decide ?P] => destruct (bool_decide P)
              | context [data !! 0%nat] => destruct (data !! 0%nat)
              end; try discriminate E).
      all: injection E as <-.
      all: first [ by apply on_set_mode_disconnected
                 | by apply on_set_position_disconnected
                 | apply quiet_on_calibrate
                 | apply quiet_log
                 | apply quiet_refl ]. }
    split; [by apply quiet_emitted|]. by destruct Q as (-> & _).
  - split; [by apply zigbee_report_state_disconnected|].
    split; [intros m; by apply zigbee_send_window_mode_disconnected|].
    split; [intros g; by apply zigbee_send_gap_position_disconnected|].
    intros a v. by apply zigbee_send_alert_disconnected.
Qed.

Lemma radio_silent_while_disconnected_witness :
  (zigbee_report_state (power_on (blocked_from 0))).1 = ESP_ERR_INVALID_STATE.
Proof.
  destruct (radio_silent_while_disconnected (power_on (blocked_from 0)))
    as (_ & E & _).
  - discriminate.
  - by rewrite E.
Defined.

Lemma zigbee_send_gap_position_connected g w :
  zb_current_state w = ZIGBEE_STATE_CONNECTED → zigbee_err w = ESP_OK →
  zigbee_send_gap_position g w
  = (ESP_OK,
     (set_zb_current_gap_percentage (u8 g)
        (emit (ZbReportPosition (u8 (u8 g))) w).2).2).
Proof.
  intros Hc He. unfold zigbee_send_gap_position. cbv zeta.
  unfold bind at 1, gets at 1. rewrite Hc.
  destruct (decide (ZIGBEE_STATE_CONNECTED ≠ ZIGBEE_STATE_CONNECTED));
    [done|].
  unfold esp_zigbee_report_position, bind, gets, ret. simpl. rewrite He.
  by destruct (decide (ESP_OK ≠ ESP_OK)).
Qed.

Lemma zigbee_send_window_mode_connected m w :
  zb_current_state w = ZIGBEE_STATE_CONNECTED → zigbee_err w = ESP_OK →
  zigbee_send_window_mode m w
  = (ESP_OK,
     (set_zb_current_window_mode (u8 m)
        (emit (ZbReportMode (u8 (u8 m))) w).2).2).
Proof.
  intros Hc He. unfold zigbee_send_window_mode. cbv zeta.
  unfold bind at 1, gets at 1. rewrite Hc.
  destruct (decide (ZIGBEE_STATE_CONNECTED ≠ ZIGBEE_STATE_CONNECTED));
    [done|].
  unfold esp_zigbee_report_window_mode, bind, gets, ret. simpl. rewrite He.
  by destruct (decide (ESP_OK ≠ ESP_OK)).
Qed.

Lemma zigbee_report_state_connected w :
  zb_current_state w = ZIGBEE_STATE_CONNECTED → zigbee_err w = ESP_OK →
  zigbee_report_state w
  = (ESP_OK,
     (set_zb_current_gap_percentage (u8 (current_gap_percentage w))
        (set_zb_current_window_mode (u8 (current_window_mode w))
           (emit (ZbReportState (u8 (u8 (current_window_mode w)))
                    (u8 (u8 (current_gap_percentage w)))) w).2).2).2).
Proof.
  intros Hc He. unfold zigbee_report_state.
  unfold bind at 1, gets at 1. rewrite Hc.
  destruct (decide (ZIGBEE_STATE_CONNECTED ≠ ZIGBEE_STATE_CONNECTED));
    [done|].
  unfold servo_get_window_mode, servo_get_gap, esp_zigbee_report_window_state,
    bind, gets, ret. simpl. rewrite He.
  by destruct (decide (ESP_OK ≠ ESP_OK)).
Qed.

(** X9: a set-position command with a byte above 100, on an open and
    connected window with no resistance on the gap servo's way: the servo
    module limits the value (gap servo at 90 degrees, stored gap 100),
    while the command handler reports the byte as received and keeps it
    as its current gap percentage; the next [zigbee_report_state] reports
    100 and brings the handler's value back to 100. *)
Theorem set_position_command_reports_unclamped p w :
  100 < p < 256 →
  current_window_mode w = WINDOW_MODE_OPEN →
  is_enabled (gap_servo w) = true → mcpwm_err w = ESP_OK →
  adc_initialized w = true →
  0 <= current_angle (gap_servo w) <= 180 →
  (∀ j, (j < sweep_length (current_angle (gap_servo w)) 90)%nat →
        ¬ trips_at w j) →
  zb_current_state w = ZIGBEE_STATE_CONNECTED → zigbee_err w = ESP_OK →
  ∃ w',
    zigbee_on_command ESP_ZIGBEE_CMD_SET_POSITION [p] 1 w = Some w'
    ∧ current_gap_percentage w' = 100
    ∧ current_angle (gap_servo w') = 90
    ∧ zb_current_gap_percentage w' = p
    ∧ List.filter is_radio (emitted w w') = [ZbReportPosition p]
    ∧ ∃ w'',
        zigbee_report_state w' = (ESP_OK, w'')
        ∧ zb_current_gap_percentage w'' = 100
        ∧ List.filter is_radio (emitted w' w'')
          = [ZbReportState WINDOW_MODE_OPEN 100].
Proof.
  intros Hp Hm He Hpe Ha Hc Hq Hzc Hze.
  assert (u8 p = p) as Hu by (apply u8_small_servo; lia).
  destruct (servo_set_gap_moves p w) as (w1 & E & G & A & _ & _ & M & _);
    try done.
  { rewrite Hu. replace (Z.min p 100) with 100 by lia. exact Hq. }
  rewrite Hu in G, A. replace (Z.min p 100) with 100 in G, A by lia.
  change (100 * 90 ÷ 100) with 90 in A.
  pose proof (quiet_servo_set_gap p w) as Q. rewrite E in Q. simpl in Q.
  destruct Q as (Q1 & Q2 & _ & l & Tl & Rl).
  assert (on_set_position p w
          = (tt, (set_zb_current_gap_percentage p
                    (emit (ZbReportPosition p)
                       (set_zb_current_gap_percentage p w1).2).2).2)) as Eo.
  { unfold on_set_position. unfold bind at 1. rewrite E.
    destruct (decide (ESP_OK = ESP_OK)); [|done].
    unfold bind at 1.
    destruct (set_zb_current_gap_percentage p w1) as [[] w2] eqn:E2.
    unfold bind, ret.
    assert (w2 = (set_zb_current_gap_percentage p w1).2) as -> by by rewrite E2.
    rewrite zigbee_send_gap_position_connected; simpl; congruence. }
  eexists. split.
  { destruct (zigbee_on_command_set_position [p] 1 w) as (d0 & Hd & ->).
    { simpl. lia. }
    injection Hd as <-. rewrite Hu, Eo. reflexivity. }
  simpl. split; [done|]. split; [done|]. split; [done|].
  split.
  { rewrite (servo_emitted_app w _ (l ++ [ZbReportPosition p])).
    - by rewrite List.filter_app, Rl.
    - simpl. by rewrite Tl, app_assoc. }
  eexists. split.
  { rewrite zigbee_report_state_connected; simpl; [reflexivity|congruence..]. }
  simpl. split; [by rewrite G|].
  unfold emitted. simpl. rewrite drop_app_length. simpl.
  rewrite G, M. reflexivity.
Qed.

Lemma set_position_command_reports_unclamped_witness :
  ∃ w',
    zigbee_on_command ESP_ZIGBEE_CMD_SET_POSITION [150] 1
      (servo_set_window_mode WINDOW_MODE_OPEN (ready (blocked_from 1000))).2
    = Some w'
    ∧ current_gap_percentage w' = 100
    ∧ zb_current_gap_percentage w' = 150.
Proof.
  destruct (set_position_command_reports_unclamped 150
              (servo_set_window_mode WINDOW_MODE_OPEN
                 (ready (blocked_from 1000))).2)
    as (w' & E & Hg & _ & Hz & _).
  - lia.
  - reflexivity.
  - reflexivity.
  - reflexivity.
  - reflexivity.
  - vm_compute. split; discriminate.
  - intros j Hj [Hf|Ht]; [vm_compute in Hf; discriminate Hf|].
    change (sweep_length _ _) with 91%nat in Hj.
    unfold trips, sensor_value in Ht.
    change (adc_initialized _) with true in Ht.
    change (resistance_threshold _) with 2000 in Ht.
    change (adc_raw _) with (blocked_from 1000) in Ht.
    change (adc_reads _) with 91%nat in Ht.
    cbv iota in Ht. unfold blocked_from in Ht.
    destruct (Nat.ltb_spec (91 + j) 1000) as [_|Hge]; [|lia].
    vm_compute in Ht. discriminate Ht.
  - reflexivity.
  - reflexivity.
  - exists w'. split; [exact E|]. split; [exact Hg|exact Hz].
Defined.

(** X10: a set-mode command with a valid mode byte, on a connected device
    with an enabled handle servo and no resistance on its way: the handle
    servo is driven to the angle of the mode, the servo module and the
    command handler both record the mode, and exactly one message goes
    out, the report of the new mode. *)
Theorem set_mode_command_completes m w :
  m = WINDOW_MODE_CLOSED ∨ m = WINDOW_MODE_OPEN ∨ m = WINDOW_MODE_VENT →
  is_enabled (handle_servo w) = true → mcpwm_err w = ESP_OK →
  adc_initialized w = true →
  0 <= current_angle (handle_servo w) <= 180 →
  (∀ j, (j < sweep_length (current_angle (handle_servo w)) (mode_angle m))%nat
        → ¬ trips_at w j) →
  zb_current_state w = ZIGBEE_STATE_CONNECTED → zigbee_err w = ESP_OK →
  ∃ w',
    zigbee_on_command ESP_ZIGBEE_CMD_SET_MODE [m] 1 w = Some w'
    ∧ current_window_mode w' = m
    ∧ current_angle (handle_servo w') = mode_angle m
    ∧ zb_current_window_mode w' = m
    ∧ List.filter is_radio (emitted w w') = [ZbReportMode m].
Proof.
  intros Hm He Hpe Ha Hc Hq Hzc Hze.
  assert (u8 m = m) as Hu by (apply u8_small_servo; sconsts; lia).
  destruct (servo_set_window_mode_moves m w)
    as (w1 & E & M & A & _); try done.
  pose proof (quiet_servo_set_window_mode m w) as Q. rewrite E in Q.
  simpl in Q. destruct Q as (Q1 & Q2 & _ & l & Tl & Rl).
  assert (on_set_mode m w
          = (tt, (set_zb_current_window_mode m
                    (emit (ZbReportMode m)
                       (set_zb_current_window_mode m w1).2).2).2)) as Eo.
  { unfold on_set_mode. unfold bind at 1. rewrite E.
    destruct (decide (ESP_OK = ESP_OK)); [|done].
    unfold bind at 1.
    destruct (set_zb_current_window_mode m w1) as [[] w2] eqn:E2.
    unfold bind, ret.
    assert (w2 = (set_zb_current_window_mode m w1).2) as -> by by rewrite E2.
    rewrite zigbee_send_window_mode_connected; simpl; congruence. }
  eexists. split.
  { destruct (zigbee_on_command_set_mode [m] 1 w) as (d0 & Hd & ->).
    { simpl. lia. }
    injection Hd as <-. rewrite Hu, Eo. reflexivity. }
  simpl. split; [done|]. split; [done|]. split; [done|].
  rewrite (servo_emitted_app w _ (l ++ [ZbReportMode m])).
  - by rewrite List.filter_app, Rl.
  - simpl. by rewrite Tl, app_assoc.
Qed.

Lemma set_mode_command_completes_witness :
  ∃ w',
    zigbee_on_command ESP_ZIGBEE_CMD_SET_MODE [WINDOW_MODE_VENT] 1
      (ready (blocked_from 1000)) = Some w'
    ∧ current_window_mode w' = WINDOW_MODE_VENT
    ∧ zb_current_window_mode w' = WINDOW_MODE_VENT.
Proof.
  destruct (set_mode_command_completes WINDOW_MODE_VENT
              (ready (blocked_from 1000)))
    as (w' & E & Hm & _ & Hz & _).
  - right. right. reflexivity.
  - reflexivity.
  - reflexivity.
  - reflexivity.
  - vm_compute. split; discriminate.
  - intros j Hj [Hf|Ht]; [discriminate Hf|].
    change (sweep_length _ _) with 181%nat in Hj.
    unfold trips, sensor_value in Ht. simpl in Ht.
    unfold blocked_from in Ht.
    destruct (Nat.ltb_spec j 1000) as [_|Hge]; [|lia].
    vm_compute in Ht. discriminate Ht.
  - reflexivity.
  - reflexivity.
  - exists w'. split; [exact E|]. split; [exact Hm|exact Hz].
Defined.

(** What the supervisory poll of main.c relies on. *)
Lemma servo_check_resistance_answer w :
  ∃ w1,
    servo_check_resistance w
    = (bool_decide (resistance_detected w = true ∨ trips w (adc_reads w)), w1)
    ∧ resistance_detected w1
      = bool_decide (resistance_detected w = true ∨ trips w (adc_reads w))
    ∧ handle_servo w1 = handle_servo w ∧ gap_servo w1 = gap_servo w
    ∧ current_window_mode w1 = current_window_mode w
    ∧ current_gap_percentage w1 = current_gap_percentage w
    ∧ quiet w w1.
Proof.
  pose proof (quiet_servo_check_resistance w) as Hq.
  destruct (servo_check_resistance w) as [b w1] eqn:E. simpl in Hq.
  exists w1.
  assert (b = bool_decide (resistance_detected w = true
                           ∨ trips w (adc_reads w))
          ∧ resistance_detected w1 = b
          ∧ handle_servo w1 = handle_servo w ∧ gap_servo w1 = gap_servo w
          ∧ current_window_mode w1 = current_window_mode w
          ∧ current_gap_percentage w1 = current_gap_percentage w)
    as (-> & H1 & H2 & H3 & H4 & H5); [|done].
  clear Hq.
  assert (bool_decide (resistance_detected w = true ∨ trips w (adc_reads w))
          = if resistance_detected w then true
            else resistance_threshold w <? sensor_value w (adc_reads w))
    as ->.
  { destruct (resistance_detected w).
    - apply bool_decide_eq_true_2. by left.
    - unfold trips.
      destruct (Z.ltb_spec (resistance_threshold w)
                  (sensor_value w (adc_reads w))).
      + apply bool_decide_eq_true_2. right. lia.
      + apply bool_decide_eq_false_2. intros [?|?]; [done|lia]. }
  revert E. unfold sensor_value.
  break_world w. proj_simpl. unfold_servo.
  destruct adci, rd; cbv beta iota zeta.
  1,2: destruct (raw rds) eqn:Hr; cbv beta iota zeta.
  all: try (destruct cali; cbv beta iota zeta).
  all: repeat (case_decide; cbv beta iota zeta).
  all: try case_bool_decide; cbv beta iota zeta.
  all: intros [= <- <-]; proj_simpl; split_and!; try reflexivity.
  all: symmetry; first [apply Z.ltb_lt | apply Z.ltb_ge]; lia.
Qed.

Lemma servo_disable_answer w :
  ∃ r w1,
    servo_disable w = (r, w1)
    ∧ resistance_detected w1 = resistance_detected w
    ∧ current_window_mode w1 = current_window_mode w
    ∧ current_gap_percentage w1 = current_gap_percentage w
    ∧ quiet w w1
    ∧ (mcpwm_err w = ESP_OK →
       r = ESP_OK
       ∧ is_enabled (handle_servo w1) = false
       ∧ is_enabled (gap_servo w1) = false).
Proof.
  pose proof (quiet_servo_disable w) as Hq.
  destruct (servo_disable w) as [r w1] eqn:E. exists r, w1.
  split; [done|]. revert E Hq. break_world w. proj_simpl.
  unfold servo_disable, ESP_RETURN_ON_ERROR. unfold_servo.
  destruct hen, gen; cbv beta iota zeta; repeat case_decide;
    cbv beta iota zeta; intros [= <- <-] Hq; proj_simpl;
    split_and!; try done; intros; subst; done.
Qed.

Lemma zigbee_send_alert_connected v w :
  zb_current_state w = ZIGBEE_STATE_CONNECTED →
  ∃ r w1 l,
    zigbee_send_alert ZIGBEE_ALERT_RESISTANCE v w = (r, w1)
    ∧ trace w1 = trace w ++ ZbAlert ESP_ZIGBEE_ALERT_STUCK (u8 v) :: l
    ∧ List.filter is_radio l = []
    ∧ resistance_detected w1 = resistance_detected w
    ∧ handle_servo w1 = handle_servo w ∧ gap_servo w1 = gap_servo w
    ∧ zb_current_state w1 = zb_current_state w
    ∧ zigbee_err w1 = zigbee_err w ∧ mcpwm_err w1 = mcpwm_err w
    ∧ current_window_mode w1 = current_window_mode w
    ∧ current_gap_percentage w1 = current_gap_percentage w.
Proof.
  intros Hc. unfold zigbee_send_alert, esp_zigbee_send_alert.
  break_world w. proj_simpl. subst. unfold_servo.
  destruct (decide (ZIGBEE_STATE_CONNECTED ≠ ZIGBEE_STATE_CONNECTED));
    [done|].
  destruct (decide (ze ≠ ESP_OK)); cbv beta iota zeta;
    eexists _, _, _; (split; [reflexivity|]); proj_simpl;
    rewrite <- ?app_assoc; split_and!; reflexivity.
Qed.

Lemma set_mode_command_dropped m w :
  is_enabled (handle_servo w) = false →
  0 <= m <= WINDOW_MODE_VENT →
  zigbee_on_command ESP_ZIGBEE_CMD_SET_MODE [m] 1 w = Some w.
Proof.
  intros Hd Hm.
  destruct (zigbee_on_command_set_mode [m] 1 w) as (d0 & Hd0 & ->);
    [simpl; lia|].
  injection Hd0 as <-. f_equal.
  rewrite (u8_small_servo m) by (sconsts; lia).
  unfold on_set_mode. unfold bind at 1.
  rewrite (servo_set_window_mode_unfold m w)
    by (revert Hm; sconsts; lia).
  rewrite move_servo_smooth_disabled by done.
  destruct (decide (ESP_ERR_INVALID_STATE = ESP_OK)); done.
Qed.

End ServoFacts.

(** * The two firmware variants side by side *)

(** C3 (as the code has it): for a percentage above 100 (within the
    range of [uint8_t]), [state_set_gap_percentage] of the initialised
    state module returns [ESP_ERR_INVALID_ARG], leaves the stored state,
    the servo record and the storage as they were and issues no servo
    command; [servo_set_gap] of servo_control.c, in contrast, behaves
    on such a percentage exactly as on 100: the value is limited to
    100. *)
Theorem gap_percentage_above_100 (p : Z) (dw : Device.world)
    (sw : Servo.world) :
  100 < p < 256 → Device.initialized (Device.state_ctx dw) = true →
  (∃ dw',
     Device.state_set_gap_percentage p dw = (ESP_ERR_INVALID_ARG, dw')
     ∧ Device.state_ctx dw' = Device.state_ctx dw
     ∧ Device.servo_ctx dw' = Device.servo_ctx dw
     ∧ Device.nvs dw' = Device.nvs dw
     ∧ List.filter Device.is_servo_cmd (Device.emitted dw dw') = [])
  ∧ Servo.servo_set_gap p sw = Servo.servo_set_gap 100 sw.
Proof.
  intros Hp Hi. split.
  - destruct (DeviceFacts.state_set_gap_percentage_rejects p dw Hi Hp)
      as (dw' & E & Hs & Hv & Hn & He).
    exists dw'. rewrite He. done.
  - by apply ServoFacts.servo_set_gap_clamps.
Qed.

Lemma gap_percentage_above_100_witness :
  (Device.state_set_gap_percentage 150 Device.booted).1 = ESP_ERR_INVALID_ARG
  ∧ Servo.servo_set_gap 150 (Servo.ready (Servo.blocked_from 1000))
    = Servo.servo_set_gap 100 (Servo.ready (Servo.blocked_from 1000)).
Proof.
  destruct (gap_percentage_above_100 150 Device.booted
              (Servo.ready (Servo.blocked_from 1000)))
    as [(dw' & E & _) Hc].
  - lia.
  - reflexivity.
  - split; [by rewrite E | exact Hc].
Defined.

(** C8 (as the code has it): for a payload of [len] valid bytes,
    [zigbee_command_handler] of main.c drops a command with [len < 2]
    with one warning and no change of state, servo record or storage,
    and decodes bytes 0 and 1 as mode and percentage when [len >= 2];
    [zigbee_on_command] of zigbee_handler.c needs one byte only: with
    [len >= 1] it runs the set-mode or set-position command on byte 0,
    with [len < 1] it does nothing for these two commands; and neither
    handler reads past the payload, whatever the command byte. *)
Theorem payload_length_checks (cmd : Z) (data : list Z) (len : Z)
    (dw : Device.world) (sw : Servo.world) :
  len <= Z.of_nat (length data) →
  (len < 2 →
   ∃ dw',
     Device.zigbee_command_handler cmd data len dw = Some dw'
     ∧ Device.state_ctx dw' = Device.state_ctx dw
     ∧ Device.servo_ctx dw' = Device.servo_ctx dw
     ∧ Device.nvs dw' = Device.nvs dw
     ∧ Device.emitted dw dw' = [Device.Log LOG_WARN Device.MAIN_TAG])
  ∧ (2 <= len →
     ∃ d0 d1,
       data !! 0%nat = Some d0 ∧ data !! 1%nat = Some d1
       ∧ Device.zigbee_command_handler cmd data len dw
         = Some (Device.apply_command (u8 d0) (u8 d1) dw).2)
  ∧ (len < 1 →
     u8 cmd = Servo.ESP_ZIGBEE_CMD_SET_MODE
     ∨ u8 cmd = Servo.ESP_ZIGBEE_CMD_SET_POSITION →
     Servo.zigbee_on_command cmd data len sw = Some sw)
  ∧ (1 <= len →
     ∃ d0,
       data !! 0%nat = Some d0
       ∧ Servo.zigbee_on_command Servo.ESP_ZIGBEE_CMD_SET_MODE data len sw
         = Some (Servo.on_set_mode (u8 d0) sw).2
       ∧ Servo.zigbee_on_command Servo.ESP_ZIGBEE_CMD_SET_POSITION data len sw
         = Some (Servo.on_set_position (u8 d0) sw).2)
  ∧ is_Some (Device.zigbee_command_handler cmd data len dw)
  ∧ is_Some (Servo.zigbee_on_command cmd data len sw).
Proof.
  intros Hl.
  assert (len < 2 →
          ∃ dw',
            Device.zigbee_command_handler cmd data len dw = Some dw'
            ∧ Device.state_ctx dw' = Device.state_ctx dw
            ∧ Device.servo_ctx dw' = Device.servo_ctx dw
            ∧ Device.nvs dw' = Device.nvs dw
            ∧ Device.emitted dw dw' = [Device.Log LOG_WARN Device.MAIN_TAG])
    as Hdrop.
  { intros H. eexists. split.
    - by apply DeviceFacts.zigbee_command_handler_drops.
    - repeat split. by apply DeviceFacts.emitted_app. }
  split; [exact Hdrop|]. split.
  { intros H. apply DeviceFacts.zigbee_command_handler_decodes. lia. }
  split.
  { intros H Hc. by apply ServoFacts.zigbee_on_command_empty. }
  split.
  { intros H.
    destruct (ServoFacts.zigbee_on_command_set_mode data len sw)
      as (d0 & Hd & Hm); [lia|].
    destruct (ServoFacts.zigbee_on_command_set_position data len sw)
      as (d0' & Hd' & Hq); [lia|].
    exists d0. split; [done|]. split; [done|]. congruence. }
  split.
  - destruct (Z_lt_ge_dec len 2) as [H|H].
    + destruct (Hdrop H) as (dw' & -> & _). done.
    + destruct (DeviceFacts.zigbee_command_handler_decodes cmd data len dw)
        as (d0 & d1 & _ & _ & ->); [lia|done].
  - by apply ServoFacts.zigbee_on_command_total.
Qed.

Lemma payload_length_checks_witness :
  is_Some (Device.zigbee_command_handler 0 [1; 50] 2 Device.booted)
  ∧ is_Some (Servo.zigbee_on_command 0 [1; 50] 2
               (Servo.ready (Servo.blocked_from 1000))).
Proof.
  destruct (payload_length_checks 0 [1; 50] 2 Device.booted
              (Servo.ready (Servo.blocked_from 1000)))
    as (_ & _ & _ & _ & Hd & Hs).
  - simpl. lia.
  - split; [exact Hd | exact Hs].
Defined.

(** * Properties of the state record *)

Module StateFacts.
Import State.

Ltac unfold_state :=
  cbv beta iota zeta delta
    [state_init state_save state_load state_reset state_get_current
     state_update_window_mode state_update_gap_percentage
     state_update_calibration state_update_activity_time
     state_update_resistance_detected state_is_calibration_required
     state_get_inactivity_time state_is_resistance_detected bring_up
     or_fail load_key nvs_open nvs_set nvs_get nvs_set_u8 nvs_set_u32
     nvs_get_u8 nvs_get_u32 nvs_erase_all nvs_commit now_ms update
     set_current_state set_nvs ESP_LOGE emit modify gets bind ret
     current_state nvs nvs_open_err nvs_io_err clock_us trace
     restart at_clock fst snd].

Lemma u8_bounds x : 0 <= u8 x < 256.
Proof. unfold u8. apply Z.mod_pos_bound. lia. Qed.

Lemma u32_bounds x : 0 <= u32 x < 2 ^ 32.
Proof. unfold u32. change (2 ^ 32) with 4294967296. apply Z.mod_pos_bound. lia. Qed.

Lemma u8_fits x : 0 <= x < 256 → u8 x = x.
Proof. intros. unfold u8. apply Z.mod_small. lia. Qed.

Lemma u32_fits x : 0 <= x < 2 ^ 32 → u32 x = x.
Proof.
  intros. unfold u32. apply Z.mod_small.
  change 4294967296 with (2 ^ 32). lia.
Qed.

Ltac solve_range :=
  repeat match goal with w : world |- _ => destruct w end;
  repeat match goal with s : device_state_t |- _ => destruct s end;
  unfold in_range in *; cbn [current_state window_mode gap_percentage
    last_activity_time] in *; unfold_state;
  cbv beta iota delta
    [with_window_mode with_gap_percentage with_calibrated
     with_last_activity_time with_resistance_detected
     window_mode gap_percentage last_activity_time] in *;
  change Servo.WINDOW_MODE_VENT with 2 in *;
  change Servo.WINDOW_MODE_CLOSED with 0 in *;
  split_and!;
  first [done | lia | apply u32_bounds | apply u8_bounds
        | apply (proj1 (u32_bounds _)) | apply (proj2 (u32_bounds _))
        | (match goal with |- context [u8 ?x] =>
             pose proof (u8_bounds x) end; lia)].

Lemma keeps_range_ret {A} (a : A) : keeps_range (ret a).
Proof. intros w H. exact H. Qed.

Lemma keeps_range_bind {A B} (m : M A) (k : A → M B) :
  keeps_range m → (∀ a, keeps_range (k a)) → keeps_range (bind m k).
Proof.
  intros Hm Hk w H. unfold bind.
  specialize (Hm w H). destruct (m w) as [a w1]. apply Hk, Hm.
Qed.

Lemma keeps_range_gets {A} (f : world → A) : keeps_range (gets f).
Proof. intros w H. exact H. Qed.

Lemma keeps_range_emit e : keeps_range (emit e).
Proof. intros w H. exact H. Qed.

Lemma keeps_range_set_nvs m : keeps_range (set_nvs m).
Proof. intros w H. exact H. Qed.

Lemma keeps_range_update f :
  (∀ s, in_range s → in_range (f s)) → keeps_range (update f).
Proof. intros Hf w H. apply Hf, H. Qed.

Lemma keeps_range_now_ms : keeps_range now_ms.
Proof. intros w H. exact H. Qed.

Lemma keeps_range_if {A} (b : bool) (m1 m2 : M A) :
  keeps_range m1 → keeps_range m2 → keeps_range (if b then m1 else m2).
Proof. by destruct b. Qed.

Lemma keeps_range_if_dec {A} P `{Decision P} (m1 m2 : M A) :
  keeps_range m1 → keeps_range m2 →
  keeps_range (if decide P then m1 else m2).
Proof. by destruct (decide P). Qed.

Lemma keeps_range_nvs_set conv key v : keeps_range (nvs_set conv key v).
Proof.
  unfold nvs_set. apply keeps_range_bind; [apply keeps_range_gets|].
  intros e. apply keeps_range_if_dec; [|apply keeps_range_ret].
  apply keeps_range_bind; [apply keeps_range_gets|]. intros m.
  apply keeps_range_bind; [apply keeps_range_set_nvs|]. intros _.
  apply keeps_range_ret.
Qed.

Lemma keeps_range_nvs_get conv key : keeps_range (nvs_get conv key).
Proof.
  unfold nvs_get. apply keeps_range_bind; [apply keeps_range_gets|].
  intros e. apply keeps_range_if_dec; [|apply keeps_range_ret].
  apply keeps_range_bind; [apply keeps_range_gets|]. intros m.
  destruct (m !! key); apply keeps_range_ret.
Qed.

Lemma keeps_range_nvs_commit : keeps_range nvs_commit.
Proof. apply keeps_range_gets. Qed.

Lemma keeps_range_nvs_erase_all : keeps_range nvs_erase_all.
Proof.
  unfold nvs_erase_all. apply keeps_range_bind; [apply keeps_range_gets|].
  intros e. apply keeps_range_if_dec; [|apply keeps_range_ret].
  apply keeps_range_bind; [apply keeps_range_set_nvs|]. intros _.
  apply keeps_range_ret.
Qed.

Lemma keeps_range_or_fail call k :
  keeps_range call → keeps_range k → keeps_range (or_fail call k).
Proof.
  intros Hc Hk. unfold or_fail. apply keeps_range_bind; [done|].
  intros e. apply keeps_range_if_dec; [|done].
  apply keeps_range_bind; [apply keeps_range_emit|]. intros _.
  apply keeps_range_ret.
Qed.

(** What one step of [state_load] does, by the answer of the flash. *)
Lemma load_key_found conv key store w x :
  nvs_io_err w = ESP_OK → nvs w !! key = Some x →
  load_key (nvs_get conv) key store w
  = (tt, {| current_state := store (conv x) (current_state w);
            nvs := nvs w; nvs_open_err := nvs_open_err w;
            nvs_io_err := nvs_io_err w; clock_us := clock_us w;
            trace := trace w |}).
Proof.
  intros Hio Hk. unfold load_key, nvs_get, bind, gets, ret.
  rewrite (decide_True _ _ Hio), Hk. simpl.
  repeat case_decide; done.
Qed.

Lemma load_key_absent conv key store w :
  nvs_io_err w = ESP_OK → nvs w !! key = None →
  load_key (nvs_get conv) key store w = (tt, w).
Proof.
  intros Hio Hk. unfold load_key, nvs_get, bind, gets, ret.
  rewrite (decide_True _ _ Hio), Hk. simpl.
  repeat case_decide; done.
Qed.

Lemma load_key_failed conv key store w :
  nvs_io_err w ≠ ESP_OK →
  load_key (nvs_get conv) key store w
  = (tt, if decide (nvs_io_err w ≠ ESP_ERR_NVS_NOT_FOUND)
         then (ESP_LOGE TAG w).2 else w).
Proof.
  intros Hio. unfold load_key, nvs_get, bind, gets, ret.
  rewrite (decide_False _ _ Hio). simpl.
  rewrite (decide_False _ _ Hio).
  destruct (decide (nvs_io_err w ≠ ESP_ERR_NVS_NOT_FOUND)); reflexivity.
Qed.

Lemma keeps_range_load_key conv key store :
  (∀ x s, in_range s → in_range (store (conv x) s)) →
  keeps_range (load_key (nvs_get conv) key store).
Proof.
  intros Hs w H.
  destruct (decide (nvs_io_err w = ESP_OK)) as [Hio|Hio].
  - destruct (nvs w !! key) as [x|] eqn:Hk.
    + rewrite (load_key_found _ _ _ _ _ Hio Hk). by apply Hs.
    + by rewrite (load_key_absent _ _ _ _ Hio Hk).
  - rewrite (load_key_failed _ _ _ _ Hio).
    by destruct (decide (nvs_io_err w ≠ ESP_ERR_NVS_NOT_FOUND)).
Qed.

Lemma keeps_range_state_init : keeps_range state_init.
Proof.
  unfold state_init. apply keeps_range_bind; [apply keeps_range_gets|].
  intros e. apply keeps_range_if_dec.
  - apply keeps_range_bind; [apply keeps_range_emit|]. intros _.
    apply keeps_range_ret.
  - intros w (Hm & Hg & _). solve_range.
Qed.

Lemma keeps_range_state_save : keeps_range state_save.
Proof.
  unfold state_save. apply keeps_range_bind; [apply keeps_range_gets|].
  intros s.
  repeat (apply keeps_range_or_fail;
          [first [apply keeps_range_nvs_set | apply keeps_range_nvs_commit]|]).
  apply keeps_range_ret.
Qed.

Lemma keeps_range_state_load : keeps_range state_load.
Proof.
  unfold state_load.
  apply keeps_range_bind; [|intros _].
  { apply keeps_range_load_key. intros x s (Hm & Hg & Ht).
    pose proof (u8_bounds x).
    case_bool_decide; solve_range. }
  apply keeps_range_bind; [|intros _].
  { apply keeps_range_load_key. intros x s (Hm & Hg & Ht).
    pose proof (u8_bounds x).
    case_bool_decide; solve_range. }
  apply keeps_range_bind; [|intros _].
  { apply keeps_range_load_key. by intros x s (Hm & Hg & Ht). }
  apply keeps_range_bind; [|intros _; apply keeps_range_ret].
  apply keeps_range_load_key. intros x s (Hm & Hg & Ht).
  solve_range.
Qed.

Lemma keeps_range_state_reset : keeps_range state_reset.
Proof.
  unfold state_reset. intros w _. unfold bind at 1. unfold now_ms, gets.
  unfold bind at 1. unfold set_current_state, modify.
  match goal with |- in_range (current_state (?m ?w0).2) =>
    apply (keeps_range_or_fail nvs_erase_all
             (or_fail nvs_commit (ret ESP_OK)))
  end.
  - apply keeps_range_nvs_erase_all.
  - apply keeps_range_or_fail;
      [apply keeps_range_nvs_commit | apply keeps_range_ret].
  - solve_range.
Qed.

Lemma keeps_range_state_update_window_mode mode :
  0 <= mode → keeps_range (state_update_window_mode mode).
Proof.
  intros H0 w (Hm & Hg & Ht). unfold state_update_window_mode.
  case_bool_decide.
  - done.
  - solve_range.
Qed.

Lemma keeps_range_state_update_gap_percentage p :
  keeps_range (state_update_gap_percentage p).
Proof.
  intros w (Hm & Hg & Ht). unfold state_update_gap_percentage.
  pose proof (u8_bounds p).
  case_bool_decide.
  - done.
  - solve_range.
Qed.

Lemma keeps_range_state_update_resistance_detected b :
  keeps_range (state_update_resistance_detected b).
Proof.
  intros w (Hm & Hg & Ht). unfold state_update_resistance_detected.
  unfold bind, gets, ret, update, now_ms, set_current_state, modify. simpl.
  destruct (negb _); [|done].
  destruct b; solve_range.
Qed.

(** X23: whatever the flash holds and answers and whatever the clock
    reads, a record whose mode is one of closed, open and ventilate,
    whose gap is at most 100 percent and whose activity time fits 32
    bits stays so under every operation of the module: initialisation,
    saving, loading, resetting and the five updates. *)
Theorem record_stays_in_range :
  keeps_range state_init ∧ keeps_range state_save
  ∧ keeps_range state_load ∧ keeps_range state_reset
  ∧ (∀ mode, 0 <= mode → keeps_range (state_update_window_mode mode))
  ∧ (∀ p, keeps_range (state_update_gap_percentage p))
  ∧ (∀ b, keeps_range (state_update_calibration b))
  ∧ keeps_range state_update_activity_time
  ∧ (∀ b, keeps_range (state_update_resistance_detected b)).
Proof.
  split; [apply keeps_range_state_init|].
  split; [apply keeps_range_state_save|].
  split; [apply keeps_range_state_load|].
  split; [apply keeps_range_state_reset|].
  split; [apply keeps_range_state_update_window_mode|].
  split; [apply keeps_range_state_update_gap_percentage|].
  split; [by intros b w H|].
  split; [|apply keeps_range_state_update_resistance_detected].
  intros w (Hm & Hg & Ht). solve_range.
Qed.

Lemma record_stays_in_range_witness :
  in_range (current_state (power_on 5000000))
  ∧ in_range (current_state
                (state_update_window_mode Servo.WINDOW_MODE_OPEN
                   (power_on 5000000)).2).
Proof.
  assert (in_range (current_state (power_on 5000000))) as H
    by (unfold in_range; cbn; unfold Servo.WINDOW_MODE_VENT, Servo.WINDOW_MODE_CLOSED; lia).
  split; [exact H|].
  destruct record_stays_in_range as (_ & _ & _ & _ & Hu & _).
  apply (Hu Servo.WINDOW_MODE_OPEN); [by vm_compute | exact H].
Defined.

Lemma or_fail_ok call k w w1 :
  call w = (ESP_OK, w1) → or_fail call k w = k w1.
Proof.
  intros H. unfold or_fail, bind. rewrite H.
  by rewrite decide_False by (intros Hx; by apply Hx).
Qed.

Lemma or_fail_failed call k w e w1 :
  call w = (e, w1) → e ≠ ESP_OK →
  or_fail call k w = (e, (ESP_LOGE TAG w1).2).
Proof.
  intros H He. unfold or_fail, bind. rewrite H.
  rewrite (decide_True _ _ He). by destruct (ESP_LOGE TAG w1) as [[] ?].
Qed.

Lemma nvs_set_ok conv key v w :
  nvs_io_err w = ESP_OK →
  nvs_set conv key v w
  = (ESP_OK, {| current_state := current_state w;
                nvs := <[key := conv v]> (nvs w);
                nvs_open_err := nvs_open_err w;
                nvs_io_err := nvs_io_err w; clock_us := clock_us w;
                trace := trace w |}).
Proof.
  intros Hio. unfold nvs_set, bind, gets, ret.
  by rewrite (decide_True _ _ Hio).
Qed.

Lemma nvs_set_failed conv key v w :
  nvs_io_err w ≠ ESP_OK → nvs_set conv key v w = (nvs_io_err w, w).
Proof.
  intros Hio. unfold nvs_set, bind, gets, ret.
  by rewrite (decide_False _ _ Hio).
Qed.

Lemma nvs_commit_ok w : nvs_io_err w = ESP_OK → nvs_commit w = (ESP_OK, w).
Proof. intros Hio. unfold nvs_commit, gets. by rewrite Hio. Qed.

(** [state_save] on a working flash. *)
Lemma state_save_stores w :
  nvs_io_err w = ESP_OK →
  state_save w
  = (ESP_OK, {| current_state := current_state w;
                nvs := saved (current_state w) (nvs w);
                nvs_open_err := nvs_open_err w;
                nvs_io_err := nvs_io_err w; clock_us := clock_us w;
                trace := trace w |}).
Proof.
  intros Hio. unfold state_save. unfold bind at 1. unfold gets at 1.
  unfold nvs_set_u8, nvs_set_u32.
  erewrite or_fail_ok by (by apply nvs_set_ok).
  erewrite or_fail_ok by (by apply nvs_set_ok).
  erewrite or_fail_ok by (by apply nvs_set_ok).
  erewrite or_fail_ok by (by apply nvs_set_ok).
  erewrite or_fail_ok by (by apply nvs_commit_ok).
  reflexivity.
Qed.

(** [state_save] on a failing flash. *)
Lemma state_save_failed w :
  nvs_io_err w ≠ ESP_OK →
  state_save w = (nvs_io_err w, (ESP_LOGE TAG w).2).
Proof.
  intros Hio. unfold state_save. unfold bind at 1. unfold gets at 1.
  unfold nvs_set_u8.
  by erewrite or_fail_failed by (by first [apply nvs_set_failed | done]).
Qed.

Lemma state_init_ok w :
  nvs_open_err w = ESP_OK →
  state_init w
  = (ESP_OK, {| current_state :=
                  with_last_activity_time (u32 (Z.quot (clock_us w) 1000))
                    (current_state w);
                nvs := nvs w; nvs_open_err := nvs_open_err w;
                nvs_io_err := nvs_io_err w; clock_us := clock_us w;
                trace := trace w |}).
Proof.
  intros Ho. unfold state_init, nvs_open, bind, gets.
  by rewrite decide_False by (intros Hx; by apply Hx).
Qed.

(** [state_load] when the four keys are in a working flash. *)
Lemma state_load_found w m g c t :
  nvs_io_err w = ESP_OK →
  nvs w !! NVS_KEY_WINDOW_MODE = Some m →
  nvs w !! NVS_KEY_GAP_PERCENTAGE = Some g →
  nvs w !! NVS_KEY_CALIBRATED = Some c →
  nvs w !! NVS_KEY_ACTIVITY_TIME = Some t →
  state_load w
  = (ESP_OK,
     {| current_state :=
          {| window_mode := if bool_decide (u8 m <= Servo.WINDOW_MODE_VENT)
                            then u8 m else Servo.WINDOW_MODE_CLOSED;
             gap_percentage := if bool_decide (u8 g <= 100) then u8 g else 0;
             calibrated := bool_decide (u8 c = 1);
             last_activity_time := u32 t;
             resistance_detected := resistance_detected (current_state w) |};
        nvs := nvs w; nvs_open_err := nvs_open_err w;
        nvs_io_err := nvs_io_err w; clock_us := clock_us w;
        trace := trace w |}).
Proof.
  intros Hio Hm Hg Hc Ht. unfold state_load, nvs_get_u8, nvs_get_u32.
  unfold bind at 1. erewrite load_key_found by done.
  unfold bind at 1. erewrite load_key_found by done.
  unfold bind at 1. erewrite load_key_found by done.
  unfold bind at 1. erewrite load_key_found by done.
  unfold ret. cbn [current_state nvs nvs_open_err nvs_io_err clock_us trace].
  destruct (bool_decide (u8 m <= _)), (bool_decide (u8 g <= _));
    reflexivity.
Qed.

(** [state_load] when the flash is empty. *)
Lemma state_load_empty w :
  nvs_io_err w = ESP_OK → nvs w = ∅ → state_load w = (ESP_OK, w).
Proof.
  intros Hio He. unfold state_load, nvs_get_u8, nvs_get_u32.
  unfold bind at 1. rewrite load_key_absent by (by rewrite ?He).
  unfold bind at 1. rewrite load_key_absent by (by rewrite ?He).
  unfold bind at 1. rewrite load_key_absent by (by rewrite ?He).
  unfold bind at 1. rewrite load_key_absent by (by rewrite ?He).
  reflexivity.
Qed.

(** X24: a record within its values that was saved to a working flash is
    read back by the bring-up after a restart, at whatever time that
    happens: mode, gap, calibration flag and activity time are the saved
    ones, and the resistance flag, which is not stored, is clear. *)
Theorem saved_record_survives_restart (w : world) (t : Z) :
  in_range (current_state w) →
  nvs_io_err w = ESP_OK → nvs_open_err w = ESP_OK →
  ∃ w1 w2,
    state_save w = (ESP_OK, w1)
    ∧ bring_up (restart (at_clock t w1)) = (ESP_OK, w2)
    ∧ persistent (current_state w2) = persistent (current_state w)
    ∧ resistance_detected (current_state w2) = false
    ∧ nvs w2 = nvs w1.
Proof.
  intros (Hm & Hg & Ht) Hio Ho.
  eexists _, _. split; [by apply state_save_stores|].
  unfold bring_up. unfold bind at 1.
  rewrite state_init_ok by done.
  rewrite decide_False by (intros Hx; by apply Hx).
  erewrite state_load_found; [|done|unfold saved; cbn [nvs restart at_clock]..].
  2: { rewrite !lookup_insert_ne by done. apply lookup_insert_eq. }
  2: { rewrite !lookup_insert_ne by done. apply lookup_insert_eq. }
  2: { rewrite !lookup_insert_ne by done. apply lookup_insert_eq. }
  2: { apply lookup_insert_eq. }
  split; [reflexivity|].
  cbn [current_state nvs restart at_clock with_last_activity_time
       resistance_detected current_state_init].
  split; [|done].
  change Servo.WINDOW_MODE_VENT with 2 in *.
  unfold persistent.
  cbn [window_mode gap_percentage calibrated last_activity_time].
  rewrite !(u8_fits (window_mode _)) by lia.
  rewrite !(u8_fits (gap_percentage _)) by lia.
  rewrite !(u32_fits (last_activity_time _)) by lia.
  rewrite bool_decide_eq_true_2 by lia.
  rewrite bool_decide_eq_true_2 by lia.
  by destruct (calibrated (current_state w)).
Qed.

Lemma saved_record_survives_restart_witness :
  ∃ w1 w2,
    state_save (power_on 5000000) = (ESP_OK, w1)
    ∧ bring_up (restart (at_clock 9000000 w1)) = (ESP_OK, w2)
    ∧ persistent (current_state w2)
      = persistent (current_state (power_on 5000000))
    ∧ resistance_detected (current_state w2) = false
    ∧ nvs w2 = nvs w1.
Proof.
  apply saved_record_survives_restart.
  - unfold in_range; cbn; unfold Servo.WINDOW_MODE_VENT, Servo.WINDOW_MODE_CLOSED; lia.
  - reflexivity.
  - reflexivity.
Defined.

Lemma state_reset_ok w :
  nvs_io_err w = ESP_OK →
  state_reset w
  = (ESP_OK, {| current_state := factory_record (clock_us w); nvs := ∅;
                nvs_open_err := nvs_open_err w;
                nvs_io_err := nvs_io_err w; clock_us := clock_us w;
                trace := trace w |}).
Proof.
  intros Hio. unfold state_reset. unfold bind at 1. unfold now_ms, gets.
  unfold bind at 1. unfold set_current_state, modify.
  erewrite or_fail_ok.
  2: { unfold nvs_erase_all, bind, gets, set_nvs, modify, ret.
       cbn [nvs_io_err]. by rewrite (decide_True _ _ Hio). }
  erewrite or_fail_ok by (by apply nvs_commit_ok).
  reflexivity.
Qed.

Lemma state_reset_failed w :
  nvs_io_err w ≠ ESP_OK →
  state_reset w
  = (nvs_io_err w,
     {| current_state := factory_record (clock_us w); nvs := nvs w;
        nvs_open_err := nvs_open_err w;
        nvs_io_err := nvs_io_err w; clock_us := clock_us w;
        trace := trace w ++ [Log LOG_ERROR TAG] |}).
Proof.
  intros Hio. unfold state_reset. unfold bind at 1. unfold now_ms, gets.
  unfold bind at 1. unfold set_current_state, modify.
  erewrite or_fail_failed.
  2: { unfold nvs_erase_all, bind, gets, set_nvs, modify, ret.
       cbn [nvs_io_err]. by rewrite (decide_False _ _ Hio). }
  2: done.
  reflexivity.
Qed.

Lemma bring_up_empty w :
  nvs_open_err w = ESP_OK → nvs_io_err w = ESP_OK → nvs w = ∅ →
  bring_up w
  = (ESP_OK, {| current_state :=
                  with_last_activity_time (u32 (Z.quot (clock_us w) 1000))
                    (current_state w);
                nvs := nvs w; nvs_open_err := nvs_open_err w;
                nvs_io_err := nvs_io_err w; clock_us := clock_us w;
                trace := trace w |}).
Proof.
  intros Ho Hio He.
  unfold bring_up. unfold bind at 1. rewrite state_init_ok by done.
  rewrite decide_False by (intros Hx; by apply Hx).
  by rewrite state_load_empty.
Qed.

(** X25: on a working flash a factory reset puts the record in memory
    back to closed, gap 0, not calibrated, no resistance, and empties
    the stored record: the bring-up after a restart finds nothing,
    starts from the same defaults, and calibration is required again. *)
Theorem reset_clears_memory_and_flash (w : world) (t : Z) :
  nvs_io_err w = ESP_OK → nvs_open_err w = ESP_OK →
  ∃ w1 w2,
    state_reset w = (ESP_OK, w1)
    ∧ current_state w1 = factory_record (clock_us w) ∧ nvs w1 = ∅
    ∧ bring_up (restart (at_clock t w1)) = (ESP_OK, w2)
    ∧ current_state w2 = factory_record t
    ∧ (state_is_calibration_required w2).1 = true.
Proof.
  intros Hio Ho. eexists _, _.
  split; [by apply state_reset_ok|].
  split; [reflexivity|]. split; [reflexivity|].
  split; [by apply bring_up_empty|].
  split; reflexivity.
Qed.

Lemma reset_clears_memory_and_flash_witness :
  let w := (state_save (power_on 5000000)).2 in
  ∃ w1 w2,
    state_reset w = (ESP_OK, w1)
    ∧ current_state w1 = factory_record (clock_us w) ∧ nvs w1 = ∅
    ∧ bring_up (restart (at_clock 9000000 w1)) = (ESP_OK, w2)
    ∧ current_state w2 = factory_record 9000000
    ∧ (state_is_calibration_required w2).1 = true.
Proof.
  apply reset_clears_memory_and_flash; reflexivity.
Defined.

Lemma state_load_failed w :
  nvs_io_err w ≠ ESP_OK →
  ∃ l, state_load w
       = (ESP_OK, {| current_state := current_state w; nvs := nvs w;
                     nvs_open_err := nvs_open_err w;
                     nvs_io_err := nvs_io_err w; clock_us := clock_us w;
                     trace := trace w ++ l |})
       ∧ l = if decide (nvs_io_err w ≠ ESP_ERR_NVS_NOT_FOUND)
             then replicate 4 (Log LOG_ERROR TAG) else [].
Proof.
  intros Hio. unfold state_load, nvs_get_u8, nvs_get_u32.
  destruct (decide (nvs_io_err w ≠ ESP_ERR_NVS_NOT_FOUND)) as [Hn|Hn].
  - eexists. split; [|reflexivity].
    unfold bind at 1. rewrite load_key_failed by done.
    rewrite (decide_True _ _ Hn).
    unfold bind at 1. rewrite load_key_failed by done.
    cbn [nvs_io_err ESP_LOGE emit modify snd]. rewrite (decide_True _ _ Hn).
    unfold bind at 1. rewrite load_key_failed by done.
    cbn [nvs_io_err ESP_LOGE emit modify snd]. rewrite (decide_True _ _ Hn).
    unfold bind at 1. rewrite load_key_failed by done.
    cbn [nvs_io_err ESP_LOGE emit modify snd]. rewrite (decide_True _ _ Hn).
    unfold ret. cbn [current_state nvs nvs_open_err nvs_io_err clock_us trace].
    by rewrite <- !app_assoc.
  - exists []. split; [|reflexivity].
    unfold bind at 1. rewrite load_key_failed by done.
    rewrite (decide_False _ _ Hn).
    unfold bind at 1. rewrite load_key_failed by done.
    rewrite (decide_False _ _ Hn).
    unfold bind at 1. rewrite load_key_failed by done.
    rewrite (decide_False _ _ Hn).
    unfold bind at 1. rewrite load_key_failed by done.
    rewrite (decide_False _ _ Hn).
    unfold ret. rewrite app_nil_r. by destruct w.
Qed.

(** X26: loading never fails.  A flash that cannot be read is treated
    like an empty one: [state_load] returns [ESP_OK], the record in
    memory and the flash are left as they are, and four errors are
    logged (none when the driver answers not-found). *)
Theorem load_tolerates_unreadable_flash (w : world) :
  nvs_io_err w ≠ ESP_OK →
  (state_load w).1 = ESP_OK
  ∧ current_state (state_load w).2 = current_state w
  ∧ nvs (state_load w).2 = nvs w
  ∧ trace (state_load w).2
    = trace w ++ (if decide (nvs_io_err w ≠ ESP_ERR_NVS_NOT_FOUND)
                  then replicate 4 (Log LOG_ERROR TAG) else []).
Proof.
  intros Hio. destruct (state_load_failed w Hio) as (l & -> & ->). done.
Qed.

Lemma load_tolerates_unreadable_flash_witness :
  let w := {| current_state := factory_record 0; nvs := ∅;
              nvs_open_err := ESP_OK; nvs_io_err := ESP_FAIL;
              clock_us := 0; trace := [] |} in
  (state_load w).1 = ESP_OK
  ∧ current_state (state_load w).2 = current_state w
  ∧ nvs (state_load w).2 = nvs w
  ∧ trace (state_load w).2
    = trace w ++ (if decide (nvs_io_err w ≠ ESP_ERR_NVS_NOT_FOUND)
                  then replicate 4 (Log LOG_ERROR TAG) else []).
Proof.
  apply load_tolerates_unreadable_flash. simpl. discriminate.
Defined.

Lemma state_update_resistance_detected_flag b w :
  ∃ w1,
    state_update_resistance_detected b w = (ESP_OK, w1)
    ∧ resistance_detected (current_state w1) = b
    ∧ window_mode (current_state w1) = window_mode (current_state w)
    ∧ gap_percentage (current_state w1) = gap_percentage (current_state w)
    ∧ calibrated (current_state w1) = calibrated (current_state w)
    ∧ nvs w1 = nvs w ∧ trace w1 = trace w.
Proof.
  unfold state_update_resistance_detected.
  unfold bind, gets, ret, update, now_ms, set_current_state, modify.
  destruct w as [[m g c t r] ? ? ? ? ?]. simpl.
  destruct r, b; simpl; eexists; (split; [reflexivity|]); done.
Qed.

End StateFacts.

(** * Properties of the battery gauge *)

Module PowerFacts.
Import Power.

Lemma u16_fits x : 0 <= x < 65536 → u16 x = x.
Proof. intros. unfold u16. apply Z.mod_small. lia. Qed.

Lemma level_middle v :
  BATTERY_EMPTY_VOLTAGE < v < BATTERY_FULL_VOLTAGE →
  power_calculate_battery_level v = (v - 3000) * 100 / 1200
  ∧ 0 <= (v - 3000) * 100 / 1200 < 100.
Proof.
  unfold BATTERY_EMPTY_VOLTAGE, BATTERY_FULL_VOLTAGE. intros H.
  assert (0 <= (v - 3000) * 100 / 1200 < 100) as Hr.
  { split; [apply Z.div_pos; lia|].
    apply Z.div_lt_upper_bound; lia. }
  split; [|exact Hr].
  unfold power_calculate_battery_level.
  unfold BATTERY_EMPTY_VOLTAGE, BATTERY_FULL_VOLTAGE.
  rewrite u16_fits by lia. cbv zeta.
  rewrite bool_decide_eq_false_2 by lia.
  rewrite bool_decide_eq_false_2 by lia.
  change (4200 - 3000) with 1200.
  rewrite Z.quot_div_nonneg by lia.
  unfold u8. apply Z.mod_small. lia.
Qed.

Lemma level_full v :
  BATTERY_FULL_VOLTAGE <= v < 65536 → power_calculate_battery_level v = 100.
Proof.
  unfold BATTERY_FULL_VOLTAGE. intros H.
  unfold power_calculate_battery_level, BATTERY_FULL_VOLTAGE.
  rewrite u16_fits by lia. cbv zeta.
  by rewrite bool_decide_eq_true_2 by lia.
Qed.

Lemma level_empty v :
  0 <= v <= BATTERY_EMPTY_VOLTAGE → power_calculate_battery_level v = 0.
Proof.
  unfold BATTERY_EMPTY_VOLTAGE. intros H.
  unfold power_calculate_battery_level, BATTERY_FULL_VOLTAGE,
    BATTERY_EMPTY_VOLTAGE.
  rewrite u16_fits by lia. cbv zeta.
  rewrite bool_decide_eq_false_2 by lia.
  by rewrite bool_decide_eq_true_2 by lia.
Qed.

(** X27: the charge level computed from a voltage is a percentage that
    never decreases when the voltage rises: it is between 0 and 100, it
    is 100 exactly from 4200 mV on and 0 exactly below 3012 mV, and in
    between it is the voltage above 3000 mV divided by 12, rounded
    down. *)
Theorem battery_level_is_monotone_percentage (v1 v2 : Z) :
  0 <= v1 <= v2 → v2 < 65536 →
  0 <= power_calculate_battery_level v1
  ∧ power_calculate_battery_level v1 <= power_calculate_battery_level v2
  ∧ power_calculate_battery_level v2 <= 100
  ∧ (power_calculate_battery_level v1 = 100 ↔ BATTERY_FULL_VOLTAGE <= v1)
  ∧ (power_calculate_battery_level v1 = 0 ↔ v1 < 3012)
  ∧ (BATTERY_EMPTY_VOLTAGE < v1 < BATTERY_FULL_VOLTAGE →
     power_calculate_battery_level v1 = (v1 - 3000) / 12).
Proof.
  intros H12 H2.
  assert (∀ v, 0 <= v < 65536 →
            (v <= 3000 ∧ power_calculate_battery_level v = 0)
            ∨ (3000 < v < 4200
               ∧ power_calculate_battery_level v = (v - 3000) / 12)
            ∨ (4200 <= v ∧ power_calculate_battery_level v = 100)) as Hc.
  { intros v Hv.
    destruct (decide (v <= 3000)) as [?|?];
      [left; split; [done|]; apply level_empty;
       unfold BATTERY_EMPTY_VOLTAGE; lia|].
    destruct (decide (v < 4200)) as [?|?].
    - right; left. split; [lia|].
      destruct (level_middle v) as [-> _];
        [unfold BATTERY_EMPTY_VOLTAGE, BATTERY_FULL_VOLTAGE; lia|].
      replace ((v - 3000) * 100) with ((v - 3000) * 100 + 0) by lia.
      change 1200 with (12 * 100).
      rewrite Z.mul_comm.
      rewrite (Z.mul_comm 12 100).
      rewrite Z.add_0_r.
      by rewrite Z.div_mul_cancel_l by lia.
    - right; right. split; [lia|]. apply level_full.
      unfold BATTERY_FULL_VOLTAGE; lia. }
  unfold BATTERY_EMPTY_VOLTAGE, BATTERY_FULL_VOLTAGE.
  destruct (Hc v1) as [[? ->]|[[? ->]|[? ->]]]; [lia|..];
    destruct (Hc v2) as [[? ->]|[[? ->]|[? ->]]]; try lia;
    split_and!; try (intros; reflexivity); try lia.
  all: Z.div_mod_to_equations; lia.
Qed.

Lemma battery_level_is_monotone_percentage_witness :
  0 <= power_calculate_battery_level 3600
  ∧ power_calculate_battery_level 3600 <= power_calculate_battery_level 3900
  ∧ power_calculate_battery_level 3900 <= 100
  ∧ (power_calculate_battery_level 3600 = 100 ↔ BATTERY_FULL_VOLTAGE <= 3600)
  ∧ (power_calculate_battery_level 3600 = 0 ↔ 3600 < 3012)
  ∧ (BATTERY_EMPTY_VOLTAGE < 3600 < BATTERY_FULL_VOLTAGE →
     power_calculate_battery_level 3600 = (3600 - 3000) / 12).
Proof.
  apply battery_level_is_monotone_percentage; lia.
Defined.

Lemma power_update_battery_status_answer w :
  ∃ v,
    power_read_battery_voltage w = (v, w)
    ∧ power_update_battery_status w
      = (ESP_OK, {| config := config w; battery_voltage := v;
                    battery_level := power_calculate_battery_level v;
                    calibrated := calibrated w; adc_raw := adc_raw w;
                    adc_cali := adc_cali w; gpio_level := gpio_level w |}).
Proof.
  unfold power_update_battery_status, power_read_battery_voltage.
  unfold bind, gets, ret, set_battery_voltage, set_battery_level.
  destruct w as [c v l cal [raw|] f g]; [|eexists; split; reflexivity].
  destruct cal; [|eexists; split; reflexivity].
  cbn [adc_raw calibrated adc_cali].
  destruct (f raw); eexists; split; reflexivity.
Qed.

(** X28: without a calibration scheme the gauge scales a 12-bit sample
    to at most 3300 mV: the charge level it computes is never above 25
    percent, and a device on battery whose low-battery threshold is 3300
    mV or more, as main.c configures it, reports a low battery after
    every update.  When the sample cannot be read the voltage is 0 and
    the level is 0. *)
Theorem uncalibrated_gauge_reads_low (w : world) :
  calibrated w = false →
  source (config w) = POWER_SOURCE_BATTERY →
  3300 <= low_battery_threshold (config w) →
  match adc_raw w with Some raw => 0 <= raw <= 4095 | None => True end →
  let w' := (power_update_battery_status w).2 in
  0 <= battery_voltage w' <= 3300
  ∧ battery_level w' = power_calculate_battery_level (battery_voltage w')
  ∧ 0 <= battery_level w' <= 25
  ∧ (power_is_low_battery w').1 = true
  ∧ (adc_raw w = None → battery_voltage w' = 0 ∧ battery_level w' = 0).
Proof.
  intros Hcal Hsrc Hlow Hraw. cbv zeta.
  destruct (power_update_battery_status_answer w) as (v & Hv & ->).
  cbn [snd battery_voltage battery_level].
  assert (0 <= v <= 3300 ∧ (adc_raw w = None → v = 0)) as [Hr Hn].
  { revert Hv. unfold power_read_battery_voltage, bind, gets, ret.
    destruct (adc_raw w) as [raw|]; cbv beta iota; rewrite ?Hcal.
    - intros [= <-]. split; [|done].
      rewrite Z.quot_div_nonneg by lia.
      assert (0 <= raw * 3300 / 4095 <= 3300)
        by (Z.div_mod_to_equations; lia).
      rewrite u16_fits by lia. lia.
    - intros [= <-]. split; [lia|done]. }
  assert (0 <= power_calculate_battery_level v <= 25) as Hl.
  { destruct (decide (v <= 3000)) as [?|?].
    - rewrite level_empty by (unfold BATTERY_EMPTY_VOLTAGE; lia). lia.
    - destruct (level_middle v) as [-> _];
        [unfold BATTERY_EMPTY_VOLTAGE, BATTERY_FULL_VOLTAGE; lia|].
      Z.div_mod_to_equations; lia. }
  split_and!; try lia; try done.
  - unfold power_is_low_battery, bind, gets, ret. cbn [config fst].
    rewrite Hsrc.
    destruct (decide (POWER_SOURCE_BATTERY = POWER_SOURCE_EXTERNAL));
      [done|]. cbn [fst battery_voltage].
    apply bool_decide_eq_true_2. lia.
  - intros Hnone. rewrite (Hn Hnone). split; [done|].
    by apply level_empty.
Qed.

Lemma uncalibrated_gauge_reads_low_witness :
  let w' := (power_update_battery_status (uncalibrated (Some 4095))).2 in
  0 <= battery_voltage w' <= 3300
  ∧ battery_level w' = power_calculate_battery_level (battery_voltage w')
  ∧ 0 <= battery_level w' <= 25
  ∧ (power_is_low_battery w').1 = true
  ∧ (adc_raw (uncalibrated (Some 4095)) = None →
     battery_voltage w' = 0 ∧ battery_level w' = 0).
Proof.
  apply uncalibrated_gauge_reads_low.
  - reflexivity.
  - reflexivity.
  - simpl. lia.
  - simpl. lia.
Defined.

End PowerFacts.

(** * Properties of the main task *)

Module MainFacts.
Import Main.

Lemma servo_call_eq {A} (m : Servo.M A) w a s :
  m (servo_world w) = (a, s) →
  servo_call m w = (a, {| servo_world := s; state_world := state_world w;
                          xWindowEvents := xWindowEvents w |}).
Proof. intros H. unfold servo_call. by rewrite H. Qed.

Lemma state_call_eq {A} (m : State.M A) w a s :
  m (state_world w) = (a, s) →
  state_call m w = (a, {| servo_world := servo_world w; state_world := s;
                          xWindowEvents := xWindowEvents w |}).
Proof. intros H. unfold state_call. by rewrite H. Qed.

Lemma bind_eq {A B} (m : M A) (k : A → M B) w a w1 :
  m w = (a, w1) → bind m k w = k a w1.
Proof. intros H. unfold bind. by rewrite H. Qed.

(** What one poll does. *)
Lemma handle_window_events_answer w :
  ∃ w',
    handle_window_events w = (tt, w')
    ∧ Servo.resistance_detected (servo_world w') = bool_decide (stuck w)
    ∧ State.resistance_detected (State.current_state (state_world w'))
      = bool_decide (stuck w)
    ∧ Servo.zb_current_state (servo_world w')
      = Servo.zb_current_state (servo_world w)
    ∧ Servo.mcpwm_err (servo_world w') = Servo.mcpwm_err (servo_world w)
    ∧ Servo.current_window_mode (servo_world w')
      = Servo.current_window_mode (servo_world w)
    ∧ Servo.current_gap_percentage (servo_world w')
      = Servo.current_gap_percentage (servo_world w)
    ∧ (∃ l, Servo.trace (servo_world w') = Servo.trace (servo_world w) ++ l
            ∧ List.filter Servo.is_radio l
              = (if bool_decide (stuck w
                                 ∧ Servo.zb_current_state (servo_world w)
                                   = Servo.ZIGBEE_STATE_CONNECTED)
                 then [stuck_alert] else []))
    ∧ (stuck w → Servo.mcpwm_err (servo_world w) = ESP_OK →
       Servo.is_enabled (Servo.handle_servo (servo_world w')) = false
       ∧ Servo.is_enabled (Servo.gap_servo (servo_world w')) = false)
    ∧ (stuck w →
       xWindowEvents w' = Z.lor (xWindowEvents w) EVENT_RESISTANCE_DETECTED)
    ∧ (¬ stuck w →
       Servo.handle_servo (servo_world w') = Servo.handle_servo (servo_world w)
       ∧ Servo.gap_servo (servo_world w') = Servo.gap_servo (servo_world w)
       ∧ xWindowEvents w' = xWindowEvents w).
Proof.
  destruct (ServoFacts.servo_check_resistance_answer (servo_world w))
    as (s1 & E1 & R1 & Hh1 & Hg1 & Hm1 & Hp1 & Q1).
  unfold handle_window_events.
  erewrite bind_eq by (apply servo_call_eq, E1).
  fold (stuck w) in *.
  destruct (decide (stuck w)) as [Hs|Hs].
  - rewrite (bool_decide_eq_true_2 _ Hs) in *.
    rewrite (bool_decide_eq_true_2 (stuck w) Hs).
    unfold ESP_LOGW.
    set (s2 := (Servo.emit (Servo.Log LOG_WARN TAG) s1).2).
    rewrite (bind_eq _ _ _ tt
               {| servo_world := s2; state_world := state_world w;
                  xWindowEvents := xWindowEvents w |}) by reflexivity.
    assert (Servo.quiet s1 s2) as Q2 by apply ServoFacts.quiet_log.
    assert (Servo.resistance_detected s2 = Servo.resistance_detected s1)
      as R2 by reflexivity.
    assert (Servo.current_window_mode s2 = Servo.current_window_mode s1)
      as Hm2 by reflexivity.
    assert (Servo.current_gap_percentage s2
            = Servo.current_gap_percentage s1) as Hp2 by reflexivity.
    assert (Servo.mcpwm_err s2 = Servo.mcpwm_err s1) as He2 by reflexivity.
    clearbody s2.
    destruct (ServoFacts.servo_disable_answer s2)
      as (r & s3 & E3 & R3 & Hm3 & Hp3 & Q3 & D3).
    erewrite bind_eq by (apply servo_call_eq, E3).
    cbn [servo_world state_world xWindowEvents].
    destruct (StateFacts.state_update_resistance_detected_flag true
                (state_world w)) as (t1 & Et & Rt & _).
    erewrite bind_eq by (apply state_call_eq, Et).
    cbn [servo_world state_world xWindowEvents].
    erewrite bind_eq by (by apply servo_call_eq).
    cbn [servo_world state_world xWindowEvents].
    pose proof (ServoFacts.quiet_trans _ _ _ Q1
                  (ServoFacts.quiet_trans _ _ _ Q2 Q3)) as Q.
    destruct Q as (Qc & Qz & Qm & l & Ql & Qf).
    unfold Servo.zigbee_get_state, Servo.gets. cbn [fst].
    destruct (decide (Servo.zb_current_state s3
                      = Servo.ZIGBEE_STATE_CONNECTED)) as [Hc|Hc].
    + destruct (ServoFacts.zigbee_send_alert_connected 1 s3 Hc)
        as (r4 & s4 & l4 & E4 & T4 & F4 & R4 & Hh4 & Hg4 & C4 & Z4 & M4
            & Hm4 & Hp4).
      erewrite bind_eq.
      2: { erewrite bind_eq by (apply servo_call_eq, E4). reflexivity. }
      eexists. split; [reflexivity|].
      cbn [servo_world state_world xWindowEvents].
      rewrite bool_decide_eq_true_2 by (split; [done|congruence]).
      split_and!; try congruence.
      * eexists. split; [by rewrite T4, Ql, <- app_assoc|].
        rewrite List.filter_app, Qf. simpl. by rewrite F4.
      * intros _ Hok. rewrite Hh4, Hg4. apply D3.
        destruct Q1 as (_ & _ & Q1 & _). congruence.
    + erewrite bind_eq by reflexivity.
      eexists. split; [reflexivity|].
      cbn [servo_world state_world xWindowEvents].
      rewrite bool_decide_eq_false_2 by (intros [_ ?]; congruence).
      split_and!; try congruence.
      * by exists l.
      * intros _ Hok. apply D3.
        destruct Q1 as (_ & _ & Q1 & _). congruence.
  - rewrite (bool_decide_eq_false_2 _ Hs) in *.
    rewrite (bool_decide_eq_false_2 (stuck w) Hs).
    destruct (StateFacts.state_update_resistance_detected_flag false
                (state_world w)) as (t1 & Et & Rt & _).
    erewrite bind_eq by (apply state_call_eq, Et).
    eexists. split; [reflexivity|].
    cbn [servo_world state_world xWindowEvents].
    destruct Q1 as (Qc & Qz & Qm & l & Ql & Qf).
    rewrite bool_decide_eq_false_2 by (by intros [? _]).
    split_and!; try done.
    by exists l.
Qed.

(** X29: one poll of the main task sends the resistance alert, with
    value 1, exactly when it finds resistance (the flag of the servo
    module is latched or the sample it takes is above the threshold) and
    the device is connected, and nothing else goes over the radio; the
    flags of the servo module and of the state record are then set, and
    the event bit is raised.  Without resistance both flags are cleared
    and the event bits stay. *)
Theorem poll_alerts_exactly_when_stuck (w : world) :
  let w' := (handle_window_events w).2 in
  radio w w'
  = (if bool_decide (stuck w
                     ∧ Servo.zb_current_state (servo_world w)
                       = Servo.ZIGBEE_STATE_CONNECTED)
     then [stuck_alert] else [])
  ∧ Servo.resistance_detected (servo_world w') = bool_decide (stuck w)
  ∧ State.resistance_detected (State.current_state (state_world w'))
    = bool_decide (stuck w)
  ∧ xWindowEvents w'
    = (if bool_decide (stuck w)
       then Z.lor (xWindowEvents w) EVENT_RESISTANCE_DETECTED
       else xWindowEvents w).
Proof.
  cbv zeta.
  destruct (handle_window_events_answer w)
    as (w' & -> & R & S & _ & _ & _ & _ & (l & T & F) & _ & B1 & B2).
  cbn [snd]. unfold radio.
  rewrite (ServoFacts.servo_emitted_app _ _ _ T).
  split_and!; try done.
  destruct (decide (stuck w)) as [Hs|Hs].
  - rewrite (bool_decide_eq_true_2 _ Hs). by apply B1.
  - rewrite (bool_decide_eq_false_2 _ Hs). by apply B2.
Qed.

Lemma polls_unfold n w :
  polls (S n) w = polls n (handle_window_events w).2.
Proof.
  cbn [polls]. unfold bind. by destruct (handle_window_events w) as [[] ?].
Qed.

Lemma polls_latched n :
  ∀ w,
    Servo.resistance_detected (servo_world w) = true →
    Servo.zb_current_state (servo_world w) = Servo.ZIGBEE_STATE_CONNECTED →
    let w' := (polls n w).2 in
    (∃ l, Servo.trace (servo_world w') = Servo.trace (servo_world w) ++ l
          ∧ List.filter Servo.is_radio l = replicate n stuck_alert)
    ∧ Servo.resistance_detected (servo_world w') = true
    ∧ Servo.zb_current_state (servo_world w') = Servo.ZIGBEE_STATE_CONNECTED
    ∧ Servo.mcpwm_err (servo_world w') = Servo.mcpwm_err (servo_world w)
    ∧ Servo.current_window_mode (servo_world w')
      = Servo.current_window_mode (servo_world w)
    ∧ Servo.current_gap_percentage (servo_world w')
      = Servo.current_gap_percentage (servo_world w)
    ∧ ((0 < n)%nat →
       State.resistance_detected (State.current_state (state_world w'))
       = true
       ∧ (Servo.mcpwm_err (servo_world w) = ESP_OK →
          Servo.is_enabled (Servo.handle_servo (servo_world w')) = false
          ∧ Servo.is_enabled (Servo.gap_servo (servo_world w')) = false)).
Proof.
  induction n as [|n IH]; intros w Hl Hc; cbv zeta.
  - cbn [polls]. unfold ret. cbn [snd]. split_and!; try done.
    + exists []. by rewrite app_nil_r.
    + lia.
  - rewrite polls_unfold.
    assert (stuck w) as Hs by (by left).
    destruct (handle_window_events_answer w)
      as (w1 & -> & R & S & C & E & Hm & Hp & (l & T & F) & D & _ & _).
    cbn [snd].
    rewrite (bool_decide_eq_true_2 _ Hs) in R, S.
    rewrite bool_decide_eq_true_2 in F by done.
    destruct (IH w1 R (eq_trans C Hc))
      as ((l' & T' & F') & R' & C' & E' & Hm' & Hp' & L').
    split_and!; try congruence.
    + exists (l ++ l'). split; [by rewrite T', T, app_assoc|].
      by rewrite List.filter_app, F, F'.
    + intros _. destruct n as [|n].
      * cbn [polls] in *. unfold ret in *. cbn [snd] in *.
        split; [done|]. intros Hok. by apply D.
      * destruct L' as [L1 L2]; [lia|]. split; [done|].
        intros Hok. apply L2. congruence.
Qed.

(** X30: the poll never clears the resistance flag of the servo module.
    Once the flag is latched on a connected device, every further poll
    finds resistance again, whatever the sensor reads: [n] consecutive
    polls send [n] resistance alerts and nothing else over the radio,
    the record keeps its resistance flag, the stored mode and gap stay,
    and with a working MCPWM driver both servos are off. *)
Theorem latched_resistance_alerts_every_round (n : nat) (w : world) :
  Servo.resistance_detected (servo_world w) = true →
  Servo.zb_current_state (servo_world w) = Servo.ZIGBEE_STATE_CONNECTED →
  Servo.mcpwm_err (servo_world w) = ESP_OK →
  (0 < n)%nat →
  let w' := (polls n w).2 in
  radio w w' = replicate n stuck_alert
  ∧ Servo.resistance_detected (servo_world w') = true
  ∧ State.resistance_detected (State.current_state (state_world w')) = true
  ∧ Servo.is_enabled (Servo.handle_servo (servo_world w')) = false
  ∧ Servo.is_enabled (Servo.gap_servo (servo_world w')) = false
  ∧ Servo.current_window_mode (servo_world w')
    = Servo.current_window_mode (servo_world w)
  ∧ Servo.current_gap_percentage (servo_world w')
    = Servo.current_gap_percentage (servo_world w).
Proof.
  intros Hl Hc Hok Hn. cbv zeta.
  destruct (polls_latched n w Hl Hc)
    as ((l & T & F) & R & _ & _ & Hm & Hp & L).
  destruct (L Hn) as (S & D). destruct (D Hok) as (D1 & D2).
  unfold radio. rewrite (ServoFacts.servo_emitted_app _ _ _ T).
  done.
Qed.

Lemma latched_resistance_alerts_every_round_witness :
  let w := {| servo_world :=
                (Servo.servo_simulate_resistance true
                   (Servo.ready (Servo.blocked_from 1000))).2;
              state_world := State.power_on 5000000;
              xWindowEvents := 0 |} in
  let w' := (polls 3 w).2 in
  radio w w' = replicate 3 stuck_alert
  ∧ Servo.resistance_detected (servo_world w') = true
  ∧ State.resistance_detected (State.current_state (state_world w')) = true
  ∧ Servo.is_enabled (Servo.handle_servo (servo_world w')) = false
  ∧ Servo.is_enabled (Servo.gap_servo (servo_world w')) = false
  ∧ Servo.current_window_mode (servo_world w')
    = Servo.current_window_mode (servo_world w)
  ∧ Servo.current_gap_percentage (servo_world w')
    = Servo.current_gap_percentage (servo_world w).
Proof.
  apply latched_resistance_alerts_every_round.
  - reflexivity.
  - reflexivity.
  - reflexivity.
  - lia.
Defined.

End MainFacts.
